(** * Atric Sales Assistant: query parser, filter engine and normaliser

    A shallow embedding of [atric_sales_online.py] and the properties of
    its specification.

    Modelling conventions.
    - A Python [str] is a [text]: a list of characters, each a code point
      below 256 (the Latin-1 range).  The character classes [\d], [\s],
      [\w], [str.lower], [str.strip] and the whitespace accepted by
      [float] are written out for that range as CPython defines them.
      Code points from U+0100 on are outside the model.
    - A Python [float] is a [pyfloat]: a rational that binary64 holds,
      an infinity or a NaN.  [float(s)] and the product of floats round
      to the nearest binary64 value and overflow to infinity.  The sign
      of zero is outside the model: [-0.0] is [0.0], which compares
      alike.
    - An exception is a value of [exn]; code that can raise returns a
      [result].
    - A pandas DataFrame is a list of column names and a list of rows;
      objects that the program passes by reference live in a [heap].
      The dtype of a column is read off its cells: a column that holds a
      text or [pd.NA] is of object dtype, one that holds floats only is
      of a float dtype.  The cells do not tell the dtype of a column
      without rows or of NaN only; the model takes the first
      as of object dtype and the second as of a float dtype, and the
      properties that depend on the dtype of such a column exclude it by
      a hypothesis. *)

From Stdlib Require Import List String Ascii Bool Arith ZArith NArith.
From Stdlib Require Import QArith Qcanon Qpower Lia.
Import ListNotations.

Close Scope Qc_scope.
Close Scope Q_scope.

Set Implicit Arguments.

(* ================================================================== *)
(** * Text *)
(* ================================================================== *)

Definition text := list ascii.

Definition text_of_string (s : string) : text := list_ascii_of_string s.
Coercion text_of_string : string >-> text.

Definition code (c : ascii) : N := N_of_ascii c.

Definition between (lo hi : N) (c : ascii) : bool :=
  (lo <=? code c)%N && (code c <=? hi)%N.

Definition text_eqb (a b : text) : bool :=
  if list_eq_dec ascii_dec a b then true else false.

(** [\d]: the decimal digits of the Latin-1 range. *)
Definition is_digit (c : ascii) : bool := between 48 57 c.

(** [str.isspace], which is also [\s]: TAB..CR, FS..US, SPACE, NEL, NBSP. *)
Definition is_space (c : ascii) : bool :=
  between 9 13 c || between 28 32 c || (code c =? 133)%N || (code c =? 160)%N.

(** The whitespace that [float] strips: [is_space] without FS..US. *)
Definition is_float_space (c : ascii) : bool :=
  between 9 13 c || (code c =? 32)%N || (code c =? 133)%N || (code c =? 160)%N.

(** [\w]: alphanumeric characters and the underscore. *)
Definition is_word (c : ascii) : bool :=
  between 48 57 c || between 65 90 c || (code c =? 95)%N || between 97 122 c
  || (code c =? 170)%N || between 178 179 c || (code c =? 181)%N
  || between 185 186 c || between 188 190 c || between 192 214 c
  || between 216 246 c || between 248 255 c.

(** [a-z] under [re.IGNORECASE]. *)
Definition is_az_ignorecase (c : ascii) : bool := between 65 90 c || between 97 122 c.

(** [str.lower] and [str.upper] on one character. *)
Definition lower_char (c : ascii) : ascii :=
  if between 65 90 c || between 192 214 c || between 216 222 c
  then ascii_of_N (code c + 32) else c.

(** [str.upper] maps the sharp s (223) to two characters.  The upper-case
    forms of the micro sign (181) and of y with diaeresis (255) are above
    U+00FF: the model leaves these two characters as they are. *)
Definition upper_char (c : ascii) : text :=
  if between 97 122 c || between 224 246 c || between 248 254 c
  then [ascii_of_N (code c - 32)]
  else if (code c =? 223)%N then [ascii_of_N 83; ascii_of_N 83]
  else [c].

Definition lower (s : text) : text := map lower_char s.
Definition upper (s : text) : text := flat_map upper_char s.

Fixpoint lstrip (p : ascii -> bool) (s : text) : text :=
  match s with
  | c :: s' => if p c then lstrip p s' else s
  | [] => []
  end.

Definition rstrip (p : ascii -> bool) (s : text) : text := rev (lstrip p (rev s)).

(** [s.strip()] *)
Definition strip (s : text) : text := rstrip is_space (lstrip is_space s).

(** [s.replace(",", "")] *)
Definition is_comma (c : ascii) : bool := (code c =? 44)%N.
Definition remove_commas (s : text) : text := filter (fun c => negb (is_comma c)) s.

Fixpoint starts_with (p s : text) : bool :=
  match p, s with
  | [], _ => true
  | a :: p', b :: s' => Ascii.eqb a b && starts_with p' s'
  | _ :: _, [] => false
  end.

(** [p in s] for strings. *)
Fixpoint contains (p s : text) : bool :=
  starts_with p s || match s with [] => false | _ :: s' => contains p s' end.

(** [x in xs] for a list of strings. *)
Definition mem_text (x : text) (xs : list text) : bool := existsb (text_eqb x) xs.

(* ================================================================== *)
(** * Exceptions *)
(* ================================================================== *)

Inductive exn : Type :=
| ValueError
| KeyError (key : text)
| TypeError
| AttributeError.

Inductive result (A : Type) : Type :=
| Ok (a : A)
| Raise (e : exn).
Arguments Ok {A} a.
Arguments Raise {A} e.

Definition rbind {A B} (m : result A) (k : A -> result B) : result B :=
  match m with Ok a => k a | Raise e => Raise e end.

Declare Scope result_scope.
Delimit Scope result_scope with result.
Notation "x <- m ;; k" := (rbind m (fun x => k))
  (at level 61, m at next level, right associativity) : result_scope.

Definition raises {A} (m : result A) : Prop := exists e, m = Raise e.

(* ================================================================== *)
(** * Regular expressions

    The fragment of Python's [re] that the program uses: a backtracking
    matcher with greedy quantifiers, ordered alternatives and numbered
    groups.  Every quantified atom of the program's patterns is a
    character class, so [Rep] repeats a class. *)
(* ================================================================== *)

Inductive regex : Type :=
| Eps
| Chars (p : ascii -> bool)
| Seq (r1 r2 : regex)
| Alt (r1 r2 : regex)
| Rep (p : ascii -> bool) (lo : nat) (hi : option nat)
| Group (n : nat) (r : regex)
| WordB
| Bos.

(** A literal string, and [r?]. *)
Definition Lit (s : text) : regex :=
  fold_right (fun c r => Seq (Chars (Ascii.eqb c)) r) Eps s.

(** A literal string under [re.IGNORECASE]. *)
Definition LitI (s : text) : regex :=
  fold_right (fun c r => Seq (Chars (fun x => Ascii.eqb (lower_char x) (lower_char c))) r) Eps s.

Definition Opt (r : regex) : regex := Alt r Eps.
Definition Star (p : ascii -> bool) : regex := Rep p 0 None.
Definition Plus (p : ascii -> bool) : regex := Rep p 1 None.

(** Captured groups, the latest capture of a group first. *)
Definition captures := list (nat * text).

Fixpoint group (n : nat) (cs : captures) : option text :=
  match cs with
  | [] => None
  | (k, s) :: cs' => if Nat.eqb k n then Some s else group n cs'
  end.

Section Matcher.
Variable R : Type.

(** A continuation receives the character before the position, the
    text from the position on, and the groups captured so far. *)
Definition cont := option ascii -> text -> captures -> option R.

Definition first_of (a b : option R) : option R :=
  match a with Some x => Some x | None => b end.

Fixpoint rep (p : ascii -> bool) (lo : nat) (hi : option nat)
         (prev : option ascii) (s : text) (cs : captures) (k : cont) {struct s}
  : option R :=
  let stop := match lo with O => k prev s cs | S _ => None end in
  match hi with
  | Some O => stop
  | _ =>
    match s with
    | c :: s' =>
      if p c
      then first_of (rep p (Nat.pred lo) (option_map Nat.pred hi) (Some c) s' cs k) stop
      else stop
    | [] => stop
    end
  end.

Definition word_before (prev : option ascii) : bool :=
  match prev with Some c => is_word c | None => false end.

Definition word_after (s : text) : bool :=
  match s with c :: _ => is_word c | [] => false end.

Fixpoint run (r : regex) (prev : option ascii) (s : text) (cs : captures)
         (k : cont) {struct r} : option R :=
  match r with
  | Eps => k prev s cs
  | Chars p =>
    match s with
    | c :: s' => if p c then k (Some c) s' cs else None
    | [] => None
    end
  | Seq r1 r2 => run r1 prev s cs (fun prev' s' cs' => run r2 prev' s' cs' k)
  | Alt r1 r2 => first_of (run r1 prev s cs k) (run r2 prev s cs k)
  | Rep p lo hi => rep p lo hi prev s cs k
  | Group n r1 =>
    run r1 prev s cs
        (fun prev' s' cs' =>
           k prev' s' ((n, firstn (List.length s - List.length s') s) :: cs'))
  | WordB => if xorb (word_before prev) (word_after s) then k prev s cs else None
  | Bos => match prev with None => k prev s cs | Some _ => None end
  end.
End Matcher.

(** A match: the groups and the text that follows the match. *)
Record rmatch : Type := { groups : captures; rest : text }.

Definition accept : cont rmatch := fun _ s cs => Some {| groups := cs; rest := s |}.

Definition accept_at_end : cont rmatch :=
  fun _ s cs => match s with [] => Some {| groups := cs; rest := [] |} | _ :: _ => None end.

(** The match that starts at the current position, if there is one. *)
Definition match_here (r : regex) (prev : option ascii) (s : text) : option rmatch :=
  run r prev s [] accept.

Fixpoint search_from (r : regex) (prev : option ascii) (s : text) : option rmatch :=
  match match_here r prev s with
  | Some m => Some m
  | None => match s with [] => None | c :: s' => search_from r (Some c) s' end
  end.

(** [re.search(r, s)] *)
Definition re_search (r : regex) (s : text) : option rmatch := search_from r None s.

(** [re.fullmatch(r, s)] *)
Definition re_fullmatch (r : regex) (s : text) : option rmatch :=
  run r None s [] accept_at_end.

(** [re.findall(r, s)] for a pattern with one group: the group of each
    match, the matches taken from left to right without overlap.  [skip]
    counts the characters of the last match that are still to be passed. *)
Fixpoint findall_from (r : regex) (prev : option ascii) (s : text) (skip : nat)
  : list text :=
  match skip with
  | S n => match s with [] => [] | c :: s' => findall_from r (Some c) s' n end
  | O =>
    match match_here r prev s with
    | Some m =>
      let g := match group 1 (groups m) with Some g => g | None => [] end in
      match s with
      | [] => [g]
      | c :: s' => g :: findall_from r (Some c) s' (Nat.pred (List.length s - List.length (rest m)))
      end
    | None => match s with [] => [] | c :: s' => findall_from r (Some c) s' 0 end
    end
  end.

Definition re_findall (r : regex) (s : text) : list text := findall_from r None s 0.

(** [m.group(n) or ""] *)
Definition group_or_empty (n : nat) (m : rmatch) : text :=
  match group n (groups m) with Some g => g | None => [] end.

(* ================================================================== *)
(** * Floats and [float(s)] *)
(* ================================================================== *)

Inductive pyfloat : Type :=
| Finite (q : Qc)
| Infinity (negative : bool)
| NaN.

Definition of_Z (n : Z) : pyfloat := Finite (Q2Qc (inject_Z n)).

(** ** Rounding to binary64

    A finite float is a whole number of units of 2^-1074 whose
    significand has at most 53 bits; 2^2098 units are 2^1024, the first
    power of two that is too large.  [float(s)] and the product of two
    floats are the exact value rounded to the nearest float, a tie to
    the one with the even significand. *)

(** [a / b] rounded to the nearest integer, a tie to the even one; for
    [0 <= a] and [0 < b]. *)
Definition round_half_even (a b : Z) : Z :=
  let q := (a / b)%Z in
  match (2 * (a mod b) ?= b)%Z with
  | Lt => q
  | Gt => (q + 1)%Z
  | Eq => if Z.even q then q else (q + 1)%Z
  end.

(** The bits that a float of [x] units drops below its significand. *)
Definition ulp_shift (x : Z) : Z := Z.max 0 (Z.log2 x - 52).

(** The float nearest to [a / b], in units; for [0 <= a] and [0 < b]. *)
Definition nearest_units (a b : Z) : Z :=
  let x := (a * 2 ^ 1074)%Z in
  let s := ulp_shift (x / b) in
  (round_half_even x (b * 2 ^ s) * 2 ^ s)%Z.

Definition units : positive := (2 ^ 1074)%positive.

(** The float of [N] units: infinity from 2^1024 on. *)
Definition of_units (N : Z) : pyfloat :=
  if (2 ^ 2098 <=? N)%Z then Infinity false else Finite (Q2Qc (N # units)).

Definition fneg (x : pyfloat) : pyfloat :=
  match x with
  | Finite q => Finite (- q)%Qc
  | Infinity neg => Infinity (negb neg)
  | NaN => NaN
  end.

(** The float nearest to the rational [q]. *)
Definition round64 (q : Qc) : pyfloat :=
  if (0 <=? Qnum q)%Z then of_units (nearest_units (Qnum q) (Zpos (Qden q)))
  else fneg (of_units (nearest_units (- Qnum q) (Zpos (Qden q)))).

(** [x * n] for a float [x] and an int [n] below 2^53, which is a float
    itself. *)
Definition fmul_int (x : pyfloat) (n : Z) : pyfloat :=
  match x with
  | Finite q => round64 (q * Q2Qc (inject_Z n))%Qc
  | Infinity neg => if (n =? 0)%Z then NaN else Infinity (xorb neg (n <? 0)%Z)
  | NaN => NaN
  end.

Definition Qc_leb (a b : Qc) : bool := Qle_bool a b.
Definition Qc_eqb (a b : Qc) : bool := Qeq_bool a b.

(** [x <= y], [x >= y] and [x == y] on floats. *)
Definition fle (x y : pyfloat) : bool :=
  match x, y with
  | NaN, _ | _, NaN => false
  | Infinity true, _ => true
  | _, Infinity false => true
  | Finite a, Finite b => Qc_leb a b
  | _, _ => false
  end.

Definition fge (x y : pyfloat) : bool := fle y x.

Definition feq (x y : pyfloat) : bool :=
  match x, y with
  | Finite a, Finite b => Qc_eqb a b
  | Infinity a, Infinity b => Bool.eqb a b
  | _, _ => false
  end.

Definition digit_val (c : ascii) : Z := Z.of_N (code c) - 48.

Definition digits_val (ds : text) : Z :=
  fold_left (fun acc c => acc * 10 + digit_val c)%Z ds 0%Z.

(** [m * 10 ^ e] *)
Definition decimal (m e : Z) : Qc := Q2Qc (inject_Z m * inject_Z 10 ^ e)%Q.

(** The longest prefix of [s] in the class [p], and what follows it. *)
Fixpoint span (p : ascii -> bool) (s : text) : text * text :=
  match s with
  | c :: s' => if p c then let (a, b) := span p s' in (c :: a, b) else ([], s)
  | [] => ([], [])
  end.

Definition is_underscore (c : ascii) : bool := (code c =? 95)%N.

(** An underscore is allowed between two digits only. *)
Fixpoint underscores_ok (prev : option ascii) (s : text) : bool :=
  match s with
  | [] => match prev with Some p => negb (is_underscore p) | None => true end
  | c :: s' =>
    (if is_underscore c
     then match prev with Some p => is_digit p | None => false end
     else match prev with
          | Some p => if is_underscore p then is_digit c else true
          | None => true
          end)
    && underscores_ok (Some c) s'
  end.

Definition is_sign (c : ascii) : bool := (code c =? 43)%N || (code c =? 45)%N.
Definition is_minus (c : ascii) : bool := (code c =? 45)%N.
Definition is_dot (c : ascii) : bool := (code c =? 46)%N.
Definition is_e (c : ascii) : bool := (code c =? 69)%N || (code c =? 101)%N.

(** An optional sign: whether it is a minus, and what follows. *)
Definition take_sign (s : text) : bool * text :=
  match s with
  | c :: s' => if is_sign c then (is_minus c, s') else (false, s)
  | [] => (false, [])
  end.

(** The exponent part [e[sign]digits] at the end of a number. *)
Definition exponent_part (s : text) : option Z :=
  match s with
  | [] => Some 0%Z
  | c :: s' =>
    if is_e c then
      let (neg, s1) := take_sign s' in
      let (ds, s2) := span is_digit s1 in
      match ds, s2 with
      | _ :: _, [] => Some (if neg then - digits_val ds else digits_val ds)%Z
      | _, _ => None
      end
    else None
  end.

(** [digits[.[digits]][exponent]] or [.digits[exponent]], unsigned. *)
Definition unsigned_number (s : text) : option Qc :=
  let (ip, s1) := span is_digit s in
  let (fp, s2) :=
    match s1 with
    | c :: s1' => if is_dot c then span is_digit s1' else ([], s1)
    | [] => ([], [])
    end in
  match ip ++ fp with
  | [] => None
  | _ :: _ =>
    match exponent_part s2 with
    | Some e => Some (decimal (digits_val (ip ++ fp)) (e - Z.of_nat (List.length fp)))
    | None => None
    end
  end.

(** [float(s)] for a string [s]. *)
Definition py_float (s : text) : result pyfloat :=
  let s := rstrip is_float_space (lstrip is_float_space s) in
  if negb (underscores_ok None s) then Raise ValueError else
  let s := filter (fun c => negb (is_underscore c)) s in
  let (neg, body) := take_sign s in
  let lbody := lower body in
  if text_eqb lbody "inf"%string || text_eqb lbody "infinity"%string then Ok (Infinity neg)
  else if text_eqb lbody "nan"%string then Ok NaN
  else match unsigned_number body with
       | Some q => Ok (round64 (if neg then (- q)%Qc else q))
       | None => Raise ValueError
       end.

(* ================================================================== *)
(** * The numeric token parser: [parse_number] *)
(* ================================================================== *)

Definition is_mk (c : ascii) : bool := (code c =? 109)%N || (code c =? 107)%N.

(** [(\d+(?:\.\d+)?)([mk])?] *)
Definition re_number : regex :=
  Seq (Group 1 (Seq (Plus is_digit) (Opt (Seq (Chars is_dot) (Plus is_digit)))))
      (Opt (Group 2 (Chars is_mk))).

(** [str(s).strip().lower().replace(",", "")] *)
Definition normalise (s : text) : text := remove_commas (lower (strip s)).

Definition parse_number (s : text) : result (option pyfloat) :=
  match s with
  | [] => Ok None
  | _ :: _ =>
    let s := normalise s in
    match re_fullmatch re_number s with
    | None =>
      match py_float s with
      | Ok v => Ok (Some v)
      | Raise _ => Ok None
      end
    | Some m =>
      (val <- py_float (group_or_empty 1 m) ;;
       let val :=
         if text_eqb (group_or_empty 2 m) "m"%string then fmul_int val 1000000
         else if text_eqb (group_or_empty 2 m) "k"%string then fmul_int val 1000
         else val in
       Ok (Some val))%result
    end
  end.

(* ================================================================== *)
(** * The query parser: [parse_query] *)
(* ================================================================== *)

(** The dict [f] of [parse_query]: a key is present when its field is
    [Some]. *)
Record FilterIntent : Type := {
  project : option (list text);
  status : option (list text);
  bedrooms : option text;
  min_price : option pyfloat;
  max_price : option pyfloat;
  min_area : option pyfloat;
  max_area : option pyfloat;
  exact_area : option pyfloat;
  building : option text;
  unit_no : option text
}.

(** [{}] *)
Definition empty_intent : FilterIntent :=
  {| project := None; status := None; bedrooms := None; min_price := None;
     max_price := None; min_area := None; max_area := None; exact_area := None;
     building := None; unit_no := None |}.

Definition set_project (v : list text) (f : FilterIntent) : FilterIntent :=
  {| project := Some v; status := status f; bedrooms := bedrooms f;
     min_price := min_price f; max_price := max_price f; min_area := min_area f;
     max_area := max_area f; exact_area := exact_area f; building := building f;
     unit_no := unit_no f |}.

Definition set_status (v : list text) (f : FilterIntent) : FilterIntent :=
  {| project := project f; status := Some v; bedrooms := bedrooms f;
     min_price := min_price f; max_price := max_price f; min_area := min_area f;
     max_area := max_area f; exact_area := exact_area f; building := building f;
     unit_no := unit_no f |}.

Definition set_bedrooms (v : text) (f : FilterIntent) : FilterIntent :=
  {| project := project f; status := status f; bedrooms := Some v;
     min_price := min_price f; max_price := max_price f; min_area := min_area f;
     max_area := max_area f; exact_area := exact_area f; building := building f;
     unit_no := unit_no f |}.

Definition set_min_price (v : pyfloat) (f : FilterIntent) : FilterIntent :=
  {| project := project f; status := status f; bedrooms := bedrooms f;
     min_price := Some v; max_price := max_price f; min_area := min_area f;
     max_area := max_area f; exact_area := exact_area f; building := building f;
     unit_no := unit_no f |}.

Definition set_max_price (v : pyfloat) (f : FilterIntent) : FilterIntent :=
  {| project := project f; status := status f; bedrooms := bedrooms f;
     min_price := min_price f; max_price := Some v; min_area := min_area f;
     max_area := max_area f; exact_area := exact_area f; building := building f;
     unit_no := unit_no f |}.

Definition set_min_area (v : pyfloat) (f : FilterIntent) : FilterIntent :=
  {| project := project f; status := status f; bedrooms := bedrooms f;
     min_price := min_price f; max_price := max_price f; min_area := Some v;
     max_area := max_area f; exact_area := exact_area f; building := building f;
     unit_no := unit_no f |}.

Definition set_max_area (v : pyfloat) (f : FilterIntent) : FilterIntent :=
  {| project := project f; status := status f; bedrooms := bedrooms f;
     min_price := min_price f; max_price := max_price f; min_area := min_area f;
     max_area := Some v; exact_area := exact_area f; building := building f;
     unit_no := unit_no f |}.

Definition set_exact_area (v : pyfloat) (f : FilterIntent) : FilterIntent :=
  {| project := project f; status := status f; bedrooms := bedrooms f;
     min_price := min_price f; max_price := max_price f; min_area := min_area f;
     max_area := max_area f; exact_area := Some v; building := building f;
     unit_no := unit_no f |}.

Definition set_building (v : text) (f : FilterIntent) : FilterIntent :=
  {| project := project f; status := status f; bedrooms := bedrooms f;
     min_price := min_price f; max_price := max_price f; min_area := min_area f;
     max_area := max_area f; exact_area := exact_area f; building := Some v;
     unit_no := unit_no f |}.

Definition set_unit_no (v : text) (f : FilterIntent) : FilterIntent :=
  {| project := project f; status := status f; bedrooms := bedrooms f;
     min_price := min_price f; max_price := max_price f; min_area := min_area f;
     max_area := max_area f; exact_area := exact_area f; building := building f;
     unit_no := Some v |}.

(** [[\d\.,]] *)
Definition is_num_char (c : ascii) : bool := is_digit c || is_dot c || is_comma c.

(** [r1|r2|...] *)
Definition one_of (ws : list string) : regex :=
  fold_right (fun w r => Alt (Lit (text_of_string w)) r)
             (Chars (fun _ => false)) ws.

(** [(\d+)\s*(bed|bedroom|bedrooms)] *)
Definition re_bedrooms : regex :=
  Seq (Group 1 (Plus is_digit))
      (Seq (Star is_space) (Group 2 (one_of ["bed"; "bedroom"; "bedrooms"]%string))).

(** [(lead-in)\s*([\d\.,]+)\s*([mk])?] *)
Definition re_price (lead_in : list string) : regex :=
  Seq (Group 1 (one_of lead_in))
      (Seq (Star is_space)
           (Seq (Group 2 (Plus is_num_char))
                (Seq (Star is_space) (Opt (Group 3 (Chars is_mk)))))).

Definition re_max_price : regex := re_price ["under"; "<="; "less than"]%string.
Definition re_min_price : regex := re_price ["over"; ">="; "more than"; "above"]%string.

(** [(area|sqm)\s*(comparator)\s*([\d\.,]+)] *)
Definition re_area (comparator : list string) : regex :=
  Seq (Group 1 (one_of ["area"; "sqm"]%string))
      (Seq (Star is_space)
           (Seq (Group 2 (one_of comparator))
                (Seq (Star is_space) (Group 3 (Plus is_num_char))))).

Definition re_min_area : regex := re_area [">="; "over"; "min"]%string.
Definition re_max_area : regex := re_area ["<="; "under"; "max"]%string.

(** [\b(\d{2,4})\b] *)
Definition re_plain_number : regex :=
  Seq WordB (Seq (Group 1 (Rep is_digit 2 (Some 4))) WordB).

(** [\b([a-z]\d{1,2})\b] with [re.IGNORECASE] *)
Definition re_building : regex :=
  Seq WordB
      (Seq (Group 1 (Seq (Chars is_az_ignorecase) (Rep is_digit 1 (Some 2)))) WordB).

(** [\b([a-z]\d{1,2}-\d{2,3})\b] with [re.IGNORECASE] *)
Definition re_unit : regex :=
  Seq WordB
      (Seq (Group 1 (Seq (Chars is_az_ignorecase)
                         (Seq (Rep is_digit 1 (Some 2))
                              (Seq (Lit "-"%string) (Rep is_digit 2 (Some 3))))))
           WordB).

(** [val * (1_000_000 if unit == "m" else 1_000 if unit == "k" else 1)] *)
Definition scale (val : pyfloat) (unit : text) : pyfloat :=
  fmul_int val (if text_eqb unit "m"%string then 1000000
                else if text_eqb unit "k"%string then 1000 else 1).

(** The price read off a match of [re_price]. *)
Definition price_of_match (m : rmatch) : result pyfloat :=
  (val <- py_float (remove_commas (group_or_empty 2 m)) ;;
   Ok (scale val (group_or_empty 3 m)))%result.

(** The area read off a match of [re_area]. *)
Definition area_of_match (m : rmatch) : result pyfloat :=
  py_float (remove_commas (group_or_empty 3 m)).

Definition parse_query (q : text) : result FilterIntent :=
  let ql := lower q in
  let f := empty_intent in
  (* project *)
  let f := if contains "boho"%string ql then set_project ["BOHO"%string : text] f else f in
  let f := if contains "boardwalk"%string ql
           then set_project (match project f with Some l => l | None => [] end
                             ++ ["Boardwalk"%string : text]) f
           else f in
  (* status *)
  let f := if contains "available"%string ql then set_status ["Available"%string : text] f else f in
  let f := if contains "hold"%string ql then set_status ["Hold"%string : text] f else f in
  (* bedrooms *)
  let f := match re_search re_bedrooms ql with
           | Some m => set_bedrooms (group_or_empty 1 m) f
           | None => f
           end in
  (* price *)
  (f <- match re_search re_max_price ql with
        | Some m => (v <- price_of_match m ;; Ok (set_max_price v f))
        | None => Ok f
        end ;;
   f <- match re_search re_min_price ql with
        | Some m => (v <- price_of_match m ;; Ok (set_min_price v f))
        | None => Ok f
        end ;;
   (* area range *)
   f <- match re_search re_min_area ql with
        | Some m => (v <- area_of_match m ;; Ok (set_min_area v f))
        | None => Ok f
        end ;;
   f <- match re_search re_max_area ql with
        | Some m => (v <- area_of_match m ;; Ok (set_max_area v f))
        | None => Ok f
        end ;;
   (* exact area if user typed only a plain number *)
   f <- match re_findall re_plain_number ql with
        | first :: _ =>
          match bedrooms f, min_price f, max_price f with
          | None, None, None => (v <- py_float first ;; Ok (set_exact_area v f))
          | _, _, _ => Ok f
          end
        | [] => Ok f
        end ;;
   (* building like C1, A2 *)
   let f := match re_search re_building ql with
            | Some m => set_building (upper (group_or_empty 1 m)) f
            | None => f
            end in
   (* exact unit like C1-002 *)
   let f := match re_search re_unit ql with
            | Some m => set_unit_no (upper (group_or_empty 1 m)) f
            | None => f
            end in
   Ok f)%result.

(* ================================================================== *)
(** * Data frames *)
(* ================================================================== *)

(** A cell: [pd.NA], a string or a float; [np.nan] is the float NaN. *)
Inductive cell : Type :=
| NA
| Str (s : text)
| Num (x : pyfloat).

Definition series := list cell.

Record DataFrame : Type := {
  columns : list text;
  rows : list (list cell)
}.

(** [pd.isna] on one cell. *)
Definition isna (c : cell) : bool :=
  match c with
  | NA | Num NaN => true
  | _ => false
  end.

Fixpoint position (name : text) (cols : list text) : option nat :=
  match cols with
  | [] => None
  | c :: cols' =>
    if text_eqb c name then Some O else option_map S (position name cols')
  end.

(** [df[name]] *)
Definition column (name : text) (df : DataFrame) : result series :=
  match position name (columns df) with
  | Some i => Ok (map (fun row => nth i row (Num NaN)) (rows df))
  | None => Raise (KeyError name)
  end.

(** The rows that a boolean mask keeps. *)
Fixpoint select (A : Type) (mask : list bool) (xs : list A) : list A :=
  match mask, xs with
  | b :: mask', x :: xs' => if b then x :: select mask' xs' else select mask' xs'
  | _, _ => []
  end.

(** [df[mask]] *)
Definition mask_rows (df : DataFrame) (mask : list bool) : DataFrame :=
  {| columns := columns df; rows := select mask (rows df) |}.

Fixpoint sequence (A : Type) (xs : list (result A)) : result (list A) :=
  match xs with
  | [] => Ok []
  | x :: xs' => (a <- x ;; l <- sequence xs' ;; Ok (a :: l))%result
  end.

(** [s.isin(values)] *)
Definition isin (values : list text) (s : series) : list bool :=
  map (fun c => match c with Str x => mem_text x values | _ => false end) s.

(** [s.fillna(0)] on one cell. *)
Definition fillna0 (c : cell) : cell := if isna c then Num (of_Z 0) else c.

(** One element of [s.fillna(0) >= v] and of [s.fillna(0) <= v]: a
    string cannot be compared with a float. *)
Definition ge_cell (v : pyfloat) (c : cell) : result bool :=
  match fillna0 c with
  | Num x => Ok (fge x v)
  | _ => Raise TypeError
  end.

Definition le_cell (v : pyfloat) (c : cell) : result bool :=
  match fillna0 c with
  | Num x => Ok (fle x v)
  | _ => Raise TypeError
  end.

(** One element of [s.fillna(0) == v] and of [s == name]. *)
Definition eq_num_cell (v : pyfloat) (c : cell) : bool :=
  match fillna0 c with
  | Num x => feq x v
  | _ => false
  end.

Definition eq_text_cell (name : text) (c : cell) : bool :=
  match c with
  | Str s => text_eqb s name
  | _ => false
  end.

Definition series_ge (s : series) (v : pyfloat) : result (list bool) :=
  sequence (map (ge_cell v) s).

Definition series_le (s : series) (v : pyfloat) : result (list bool) :=
  sequence (map (le_cell v) s).

Definition series_eq_num (s : series) (v : pyfloat) : list bool := map (eq_num_cell v) s.
Definition series_eq_text (s : series) (name : text) : list bool := map (eq_text_cell name) s.

Definition is_Str (c : cell) : bool := match c with Str _ => true | _ => false end.
Definition is_Num (c : cell) : bool := match c with Num _ => true | _ => false end.

(** [s.fillna("")] on one cell. *)
Definition fillna_empty (c : cell) : cell := if isna c then Str [] else c.

(** [s.fillna("").str.contains(r, case=False, regex=True)], as a mask.  A
    column of floats only has no [.str]; in a mixed column a float gives
    a missing value, which a mask cannot hold. *)
Definition str_contains (r : regex) (s : series) : result (list bool) :=
  let s := map fillna_empty s in
  if existsb is_Num s
  then Raise (if existsb is_Str s then ValueError else AttributeError)
  else Ok (map (fun c => match c with
                         | Str x => match re_search r x with Some _ => true | None => false end
                         | _ => false
                         end) s).

Definition ci_char (c : ascii) : regex :=
  Chars (fun x => Ascii.eqb (lower_char x) (lower_char c)).

(** [(^|\s){re.escape(n)}\s*Bedrooms?] under [re.IGNORECASE] *)
Definition re_has_bedrooms (n : text) : regex :=
  Seq (Group 1 (Alt Bos (Chars is_space)))
      (Seq (LitI n)
           (Seq (Star is_space)
                (Seq (LitI "Bedroom"%string) (Opt (ci_char "s"%char))))).

(* ================================================================== *)
(** * The heap

    Data frames and intent dicts are objects: the program holds
    references to them. *)
(* ================================================================== *)

Record heap : Type := {
  frames : list DataFrame;
  dicts : list FilterIntent
}.

Definition ref := nat.

Definition M (A : Type) : Type := heap -> result (A * heap).

Definition ret {A} (a : A) : M A := fun h => Ok (a, h).

Definition bind {A B} (m : M A) (k : A -> M B) : M B :=
  fun h => match m h with Ok (a, h') => k a h' | Raise e => Raise e end.

Definition lift {A} (r : result A) : M A :=
  fun h => match r with Ok a => Ok (a, h) | Raise e => Raise e end.

Declare Scope heap_scope.
Delimit Scope heap_scope with heap.
Notation "x <- m ;; k" := (bind m (fun x => k))
  (at level 61, m at next level, right associativity) : heap_scope.

Definition empty_frame : DataFrame := {| columns := []; rows := [] |}.

(** Reading an object through a reference; every reference the program
    holds is allocated. *)
Definition read_frame (r : ref) : M DataFrame :=
  fun h => Ok (nth r (frames h) empty_frame, h).

Definition read_dict (r : ref) : M FilterIntent :=
  fun h => Ok (nth r (dicts h) empty_intent, h).

(** A new object, after the existing ones. *)
Definition new_frame (df : DataFrame) : M ref :=
  fun h => Ok (List.length (frames h),
               {| frames := frames h ++ [df]; dicts := dicts h |}).

Definition new_dict (f : FilterIntent) : M ref :=
  fun h => Ok (List.length (dicts h),
               {| frames := frames h; dicts := dicts h ++ [f] |}).

(** [df.copy()] *)
Definition copy (df : ref) : M ref :=
  (T <- read_frame df ;; new_frame T)%heap.

(** [df[name]] *)
Definition getitem (df : ref) (name : text) : M series :=
  (T <- read_frame df ;; lift (column name T))%heap.

(** [df[mask]] *)
Definition getitem_mask (df : ref) (mask : list bool) : M ref :=
  (T <- read_frame df ;; new_frame (mask_rows T mask))%heap.

(** [key in f] and [f[key]] in one read. *)
Definition dict_get {A} (f : ref) (key : FilterIntent -> option A) : M (option A) :=
  (I <- read_dict f ;; ret (key I))%heap.

(* ================================================================== *)
(** * The filter engine: [apply_filters] *)
(* ================================================================== *)

(** One line of [apply_filters]:
    [if key in f: out = out[test(out[name], f[key])]]. *)
Definition narrow {A} (f : ref) (key : FilterIntent -> option A) (name : text)
           (test : series -> A -> result (list bool)) (out : ref) : M ref :=
  (k <- dict_get f key ;;
   match k with
   | Some v => (c <- getitem out name ;; m <- lift (test c v) ;; getitem_mask out m)
   | None => ret out
   end)%heap.

Definition test_isin (c : series) (values : list text) : result (list bool) :=
  Ok (isin values c).

Definition test_bedrooms (c : series) (n : text) : result (list bool) :=
  str_contains (re_has_bedrooms n) c.

Definition test_eq_num (c : series) (v : pyfloat) : result (list bool) :=
  Ok (series_eq_num c v).

Definition test_eq_text (c : series) (name : text) : result (list bool) :=
  Ok (series_eq_text c name).

Definition apply_filters (df : ref) (f : ref) : M ref :=
  (out <- copy df ;;
   out <- narrow f project "project"%string test_isin out ;;
   out <- narrow f status "status"%string test_isin out ;;
   out <- narrow f bedrooms "configuration"%string test_bedrooms out ;;
   out <- narrow f min_price "price"%string series_ge out ;;
   out <- narrow f max_price "price"%string series_le out ;;
   out <- narrow f min_area "selling_area"%string series_ge out ;;
   out <- narrow f max_area "selling_area"%string series_le out ;;
   out <- narrow f exact_area "selling_area"%string test_eq_num out ;;
   out <- narrow f building "_building_upper"%string test_eq_text out ;;
   out <- narrow f unit_no "_unit_upper"%string test_eq_text out ;;
   ret out)%heap.

(* ================================================================== *)
(** * The sidebar filters and the page: [filter_df], the chat table,
      the CSV download *)
(* ================================================================== *)

(** The values of the sidebar widgets. *)
Record Sidebar : Type := {
  sb_project : list text;
  sb_status : list text;
  sb_bedrooms : text;
  sb_min_price : text;
  sb_max_price : text;
  sb_min_area : text;
  sb_max_area : text
}.

(** [s.split(",")] *)
Fixpoint split_commas (s : text) : list text :=
  match s with
  | [] => [[]]
  | c :: s' =>
    if is_comma c then [] :: split_commas s'
    else match split_commas s' with
         | w :: ws => (c :: w) :: ws
         | [] => [[c]]
         end
  end.

(** [not xs] for a string or a list. *)
Definition is_empty {A} (xs : list A) : bool := match xs with [] => true | _ :: _ => false end.

(** [(^|\s)(n1|n2|...)\s*Bedrooms?] under [re.IGNORECASE] *)
Definition re_has_any_bedrooms (nums : list text) : regex :=
  Seq (Group 1 (Alt Bos (Chars is_space)))
      (Seq (Group 2 (fold_right (fun n r => Alt (LitI n) r) (Chars (fun _ => false)) nums))
           (Seq (Star is_space)
                (Seq (LitI "Bedroom"%string) (Opt (ci_char "s"%char))))).

(** [if cond: out = out[test(out[name])]] *)
Definition narrow_if (cond : bool) (name : text)
           (test : series -> result (list bool)) (out : ref) : M ref :=
  (if cond
   then (c <- getitem out name ;; m <- lift (test c) ;; getitem_mask out m)
   else ret out)%heap.

(** [if v is not None: out = out[test(out[name], v)]] *)
Definition narrow_some (v : option pyfloat) (name : text)
           (test : series -> pyfloat -> result (list bool)) (out : ref) : M ref :=
  match v with
  | Some x => narrow_if true name (fun c => test c x) out
  | None => ret out
  end.

Definition filter_df (sb : Sidebar) (df : ref) : M ref :=
  (out <- copy df ;;
   out <- narrow_if (negb (is_empty (sb_project sb))) "project"%string
                    (fun c => test_isin c (sb_project sb)) out ;;
   out <- narrow_if (negb (is_empty (sb_status sb))) "status"%string
                    (fun c => test_isin c (sb_status sb)) out ;;
   let nums := filter (fun n => negb (is_empty n))
                      (map strip (split_commas (sb_bedrooms sb))) in
   out <- narrow_if (negb (is_empty (sb_bedrooms sb)) && negb (is_empty nums))
                    "configuration"%string
                    (str_contains (re_has_any_bedrooms nums)) out ;;
   lo_p <- lift (parse_number (sb_min_price sb)) ;;
   hi_p <- lift (parse_number (sb_max_price sb)) ;;
   lo_a <- lift (parse_number (sb_min_area sb)) ;;
   hi_a <- lift (parse_number (sb_max_area sb)) ;;
   out <- narrow_some lo_p "price"%string series_ge out ;;
   out <- narrow_some hi_p "price"%string series_le out ;;
   out <- narrow_some lo_a "selling_area"%string series_ge out ;;
   out <- narrow_some hi_a "selling_area"%string series_le out ;;
   ret out)%heap.

(** The page from [filtered = filter_df(units)] to the table it shows:
    [chat_df], the argument of [st.dataframe]. *)
Definition chat_df (units : ref) (sb : Sidebar) (prompt : text) : M ref :=
  (filtered <- filter_df sb units ;;
   if is_empty prompt then ret filtered
   else (I <- lift (parse_query prompt) ;;
         f <- new_dict I ;;
         apply_filters filtered f))%heap.

(** [df.empty] *)
Definition df_empty (T : DataFrame) : bool := is_empty (rows T) || is_empty (columns T).

(** [s.dropna()] *)
Definition dropna (s : series) : series := filter (fun c => negb (isna c)) s.

(** [a == b] on two values of a column without missing values. *)
Definition cell_eqb (a b : cell) : bool :=
  match a, b with
  | Str x, Str y => text_eqb x y
  | Num x, Num y => feq x y
  | _, _ => false
  end.

(** [s.unique()]: the values in the order of their first occurrence. *)
Fixpoint unique_from (seen : series) (s : series) : series :=
  match s with
  | [] => []
  | c :: s' =>
    if existsb (cell_eqb c) seen then unique_from seen s'
    else c :: unique_from (c :: seen) s'
  end.

Definition unique (s : series) : series := unique_from [] s.

(** Strings in the order of Python's [<]. *)
Fixpoint text_ltb (a b : text) : bool :=
  match a, b with
  | _, [] => false
  | [], _ :: _ => true
  | x :: a', y :: b' =>
    (code x <? code y)%N || ((code x =? code y)%N && text_ltb a' b')
  end.

(** [a < b] on two values of a column without missing values, where
    Python orders them: two strings or two floats. *)
Definition cell_ltb (a b : cell) : bool :=
  match a, b with
  | Str x, Str y => text_ltb x y
  | Num x, Num y => fle x y && negb (feq x y)
  | _, _ => false
  end.

Fixpoint insert_value (x : cell) (l : series) : series :=
  match l with
  | [] => [x]
  | y :: l' => if cell_ltb y x then y :: insert_value x l' else x :: l
  end.

(** [sorted(xs)] on a list without missing values: Python does not
    order a string and a float. *)
Definition sorted_values (xs : series) : result series :=
  if existsb is_Str xs && existsb is_Num xs then Raise TypeError
  else Ok (fold_right insert_value [] xs).

(** [sorted(units[name].dropna().unique().tolist())]: the choices of a
    field of the sidebar. *)
Definition choices (units : ref) (name : text) : M series :=
  (c <- getitem units name ;;
   lift (sorted_values (unique (dropna c))))%heap.

(** The page from [units = load_all_units()] to [st.dataframe(chat_df)]:
    the table that is shown, or [None] when the page stops because no
    unit was loaded.  The sidebar reads the project and the status
    column for its choices. *)
Definition shown_table (units : ref) (sb : Sidebar) (prompt : text) : M (option ref) :=
  (U <- read_frame units ;;
   if df_empty U then ret None
   else (_ <- choices units "project"%string ;;
         _ <- choices units "status"%string ;;
         shown <- chat_df units sb prompt ;;
         ret (Some shown)))%heap.

(** [c.startswith("_")] *)
Definition is_shadow (c : text) : bool :=
  match c with
  | x :: _ => is_underscore x
  | [] => false
  end.

(** [df.drop(columns=names, errors="ignore")] *)
Definition drop_columns (names : list text) (df : DataFrame) : DataFrame :=
  let keep := map (fun c => negb (mem_text c names)) (columns df) in
  {| columns := select keep (columns df);
     rows := map (select keep) (rows df) |}.

(** The frame that the CSV download encodes. *)
Definition csv_frame (chat : DataFrame) : DataFrame :=
  drop_columns (filter is_shadow (columns chat)) chat.

(* ================================================================== *)
(** * The schema normaliser: [cleanup_cols] and [load_all_units]

    The two sheets arrive as the frames that [try_load_sheet] returns.
    A column is of object dtype when it is empty or holds a string or
    [pd.NA]; a column of floats only is numeric.  [cleanup_cols] changes
    its argument in place and returns it; the caller drops the old name,
    so the update is written as a new value. *)
(* ================================================================== *)

Definition newline : ascii := ascii_of_N 10.

Definition BW_KEEP : list (text * text) :=
  [ ("#"%string : text, "row_no"%string : text);
    ("Building No.#"%string : text, "building"%string : text);
    ("Unit No.#"%string : text, "unit_no"%string : text);
    ("Floor No.#"%string : text, "floor"%string : text);
    ("Configuration"%string : text, "configuration"%string : text);
    ("Selling Area"%string : text, "selling_area"%string : text);
    ("Land Area"%string : text, "land_area"%string : text);
    (("Open Terrace"%string : text) ++ [newline] ++ (" Area"%string : text),
     "terrace_area"%string : text);
    ("10 Years 0%"%string : text, "price"%string : text);
    ("Status"%string : text, "status"%string : text) ].

Definition BOHO_KEEP : list (text * text) :=
  [ ("#"%string : text, "row_no"%string : text);
    ("Unit Type"%string : text, "unit_type"%string : text);
    ("Building No#"%string : text, "building"%string : text);
    ("Unit No.#"%string : text, "unit_no"%string : text);
    ("Floor No.#"%string : text, "floor"%string : text);
    ("Configuration"%string : text, "configuration"%string : text);
    ("Selling Area"%string : text, "selling_area"%string : text);
    ("Land Area"%string : text, "land_area"%string : text);
    ("Garden area"%string : text, "garden_area"%string : text);
    ("Original Value"%string : text, "price"%string : text);
    ("Status"%string : text, "status"%string : text) ].

Definition has_column (name : text) (df : DataFrame) : bool :=
  mem_text name (columns df).

(** The cell of a row under a column name; NaN when the frame has no
    such column. *)
Definition cell_at (cols : list text) (name : text) (row : list cell) : cell :=
  match position name cols with
  | Some i => nth i row (Num NaN)
  | None => Num NaN
  end.

(** [df.reindex(columns=names)] *)
Definition reindex (names : list text) (df : DataFrame) : DataFrame :=
  {| columns := names;
     rows := map (fun row => map (fun n => cell_at (columns df) n row) names) (rows df) |}.

(** [raw[[c for c in KEEP if c in raw.columns]].rename(columns=KEEP)] *)
Definition keep_rename (keep : list (text * text)) (raw : DataFrame) : DataFrame :=
  let present := filter (fun kv => has_column (fst kv) raw) keep in
  {| columns := map snd present;
     rows := map (fun row => map (fun kv => cell_at (columns raw) (fst kv) row) present)
                 (rows raw) |}.

Fixpoint replace_nth (A : Type) (i : nat) (x : A) (l : list A) : list A :=
  match l, i with
  | [], _ => []
  | _ :: l', O => x :: l'
  | y :: l', S i' => y :: replace_nth i' x l'
  end.

(** [df[name] = values]: the column is replaced, or added at the end. *)
Definition set_column (name : text) (values : series) (df : DataFrame) : DataFrame :=
  match position name (columns df) with
  | Some i =>
    {| columns := columns df;
       rows := map (fun rv => replace_nth i (snd rv) (fst rv)) (combine (rows df) values) |}
  | None =>
    {| columns := columns df ++ [name];
       rows := map (fun rv => fst rv ++ [snd rv]) (combine (rows df) values) |}
  end.

(** [df[name] = value] for one value. *)
Definition set_column_const (name : text) (value : cell) (df : DataFrame) : DataFrame :=
  set_column name (map (fun _ => value) (rows df)) df.

Definition is_object (s : series) : bool :=
  is_empty s || existsb (fun c => match c with Num _ => false | _ => true end) s.

(** [re.sub(r"\s+", " ", s)]; [in_run] says that the character before
    was whitespace. *)
Fixpoint collapse_from (in_run : bool) (s : text) : text :=
  match s with
  | [] => []
  | c :: s' =>
    if is_space c
    then (if in_run then collapse_from true s' else " "%char :: collapse_from true s')
    else c :: collapse_from false s'
  end.

Definition collapse_spaces (s : text) : text := collapse_from false s.

Section Normaliser.

(** [pd.to_numeric(errors="coerce")] on one string: NaN when the string
    is not a number. *)
Variable to_numeric : text -> pyfloat.

(** [str(x)] for a finite float. *)
Variable str_of_finite : Qc -> text.

(** One element of [s.astype(str)]. *)
Definition astype_str (c : cell) : text :=
  match c with
  | NA => "<NA>"%string
  | Str s => s
  | Num (Finite q) => str_of_finite q
  | Num (Infinity false) => "inf"%string
  | Num (Infinity true) => "-inf"%string
  | Num NaN => "nan"%string
  end.

(** [coerce_numeric] on one cell. *)
Definition coerce_numeric (c : cell) : cell :=
  Num (to_numeric (strip (remove_commas (astype_str c)))).

(** [s.astype(str).str.strip()] and then [.replace({"nan": pd.NA})] on
    one cell. *)
Definition clean_object_cell (c : cell) : cell :=
  let s := strip (astype_str c) in
  if text_eqb s "nan"%string then NA else Str s.

(** [s.str.replace(r"\s+", " ", regex=True)]: a column of floats has no
    [.str]; pandas gives NaN for what is not a string. *)
Definition squeeze_spaces (s : series) : result series :=
  if is_object s
  then Ok (map (fun c => match c with
                         | Str x => Str (collapse_spaces x)
                         | NA => NA
                         | Num _ => Num NaN
                         end) s)
  else Raise AttributeError.

(** The column [name] of [df], which has it. *)
Definition column_of (name : text) (df : DataFrame) : series :=
  map (cell_at (columns df) name) (rows df).

Definition map_column (name : text) (g : cell -> cell) (df : DataFrame) : DataFrame :=
  set_column name (map g (column_of name df)) df.

(** The body of the loop over the object columns. *)
Definition clean_step (d : DataFrame) (c : text) : DataFrame :=
  if is_object (column_of c d) then map_column c clean_object_cell d else d.

Definition clean_objects (df : DataFrame) : DataFrame :=
  fold_left clean_step (columns df) df.

Definition squeeze_column (name : text) (df : DataFrame) : result DataFrame :=
  if has_column name df
  then (s <- squeeze_spaces (column_of name df) ;; Ok (set_column name s df))%result
  else Ok df.

Definition numeric_columns : list text :=
  [ "price"%string : text; "selling_area"%string : text; "land_area"%string : text;
    "garden_area"%string : text; "terrace_area"%string : text ].

(** The body of the loop over the numeric columns. *)
Definition coerce_step (d : DataFrame) (c : text) : DataFrame :=
  if has_column c d then map_column c coerce_numeric d else d.

(** [s.fillna("Available")] on one cell. *)
Definition fill_status (c : cell) : cell :=
  if isna c then Str ("Available"%string : text) else c.

Definition cleanup_cols (df : DataFrame) : result DataFrame :=
  (* Normalize object columns *)
  let df := clean_objects df in
  (* Normalize fields *)
  (df <- squeeze_column "floor"%string df ;;
   df <- squeeze_column "configuration"%string df ;;
   (* Convert numerics *)
   let df := fold_left coerce_step numeric_columns df in
   (* Status default *)
   let df := if has_column "status"%string df
             then map_column "status"%string fill_status df else df in
   Ok df)%result.

Fixpoint insert_sorted (x : text) (l : list text) : list text :=
  match l with
  | [] => [x]
  | y :: l' => if text_ltb y x then y :: insert_sorted x l' else x :: l
  end.

(** [sorted(set(xs))] *)
Definition sorted_set (xs : list text) : list text :=
  fold_right (fun x acc => if mem_text x acc then acc else insert_sorted x acc) [] xs.

Definition key_order : list text :=
  [ "project"%string : text; "building"%string : text; "unit_no"%string : text;
    "floor"%string : text; "configuration"%string : text; "unit_type"%string : text;
    "selling_area"%string : text; "land_area"%string : text;
    "garden_area"%string : text; "terrace_area"%string : text;
    "price"%string : text; "status"%string : text ].

(** [df.dropna(how="all")] *)
Definition dropna_all (df : DataFrame) : DataFrame :=
  {| columns := columns df;
     rows := filter (fun row => negb (forallb isna row)) (rows df) |}.

(** [pd.concat([a, b], ignore_index=True)] for frames with the same
    columns. *)
Definition concat (a b : DataFrame) : DataFrame :=
  {| columns := columns a; rows := rows a ++ rows b |}.

(** [df[name] = df[source].astype(str).str.upper()] *)
Definition add_upper (name source : text) (df : DataFrame) : result DataFrame :=
  (s <- column source df ;;
   Ok (set_column name (map (fun c => Str (upper (astype_str c))) s) df))%result.

Definition load_all_units (bw_raw boho_raw : DataFrame) : result DataFrame :=
  (* Keep/rename important columns *)
  let bw := keep_rename BW_KEEP bw_raw in
  let bw := set_column_const "project"%string (Str ("Boardwalk"%string : text)) bw in
  let boho := keep_rename BOHO_KEEP boho_raw in
  let boho := set_column_const "project"%string (Str ("BOHO"%string : text)) boho in
  (* Clean *)
  (bw <- cleanup_cols bw ;;
   boho <- cleanup_cols boho ;;
   (* Harmonize & concat *)
   let all_cols := sorted_set (columns bw ++ columns boho) in
   let bw := reindex all_cols bw in
   let boho := reindex all_cols boho in
   let units := dropna_all (concat bw boho) in
   (* Column order *)
   let ordered :=
     key_order ++ filter (fun c => negb (mem_text c key_order)) (columns units) in
   let units := reindex (filter (fun c => has_column c units) ordered) units in
   (* Add helper columns for matching *)
   units <- add_upper "_unit_upper"%string "unit_no"%string units ;;
   units <- add_upper "_building_upper"%string "building"%string units ;;
   Ok units)%result.

End Normaliser.

(* ================================================================== *)
(** * Vocabulary of the properties *)
(* ================================================================== *)

(** The objects behind a reference. *)
Definition frame_at (h : heap) (r : ref) : DataFrame := nth r (frames h) empty_frame.
Definition dict_at (h : heap) (r : ref) : FilterIntent := nth r (dicts h) empty_intent.

(** [h'] has every object of [h], unchanged, and possibly new frames. *)
Definition extends (h h' : heap) : Prop :=
  (exists new, frames h' = frames h ++ new) /\ dicts h' = dicts h.

(** What each test of the filter engine decides for one cell. *)
Definition cell_isin (values : list text) (c : cell) : bool :=
  match c with Str x => mem_text x values | _ => false end.

Definition cell_has_bedrooms (n : text) (c : cell) : bool :=
  match fillna_empty c with
  | Str x => match re_search (re_has_bedrooms n) x with Some _ => true | None => false end
  | _ => false
  end.

Definition cell_ge (v : pyfloat) (c : cell) : bool :=
  match ge_cell v c with Ok b => b | Raise _ => false end.

Definition cell_le (v : pyfloat) (c : cell) : bool :=
  match le_cell v c with Ok b => b | Raise _ => false end.

(** A constraint that is absent lets every record pass. *)
Definition holds {A} (k : option A) (p : A -> bool) : bool :=
  match k with Some v => p v | None => true end.

(** The record [row] of a table with columns [cols] satisfies every
    constraint of the intent [I]. *)
Definition passes (cols : list text) (I : FilterIntent) (row : list cell) : bool :=
  holds (project I) (fun v => cell_isin v (cell_at cols "project"%string row))
  && holds (status I) (fun v => cell_isin v (cell_at cols "status"%string row))
  && holds (bedrooms I) (fun v => cell_has_bedrooms v (cell_at cols "configuration"%string row))
  && holds (min_price I) (fun v => cell_ge v (cell_at cols "price"%string row))
  && holds (max_price I) (fun v => cell_le v (cell_at cols "price"%string row))
  && holds (min_area I) (fun v => cell_ge v (cell_at cols "selling_area"%string row))
  && holds (max_area I) (fun v => cell_le v (cell_at cols "selling_area"%string row))
  && holds (exact_area I) (fun v => eq_num_cell v (cell_at cols "selling_area"%string row))
  && holds (building I) (fun v => eq_text_cell v (cell_at cols "_building_upper"%string row))
  && holds (unit_no I) (fun v => eq_text_cell v (cell_at cols "_unit_upper"%string row)).

(** Every constraint of [A] is a constraint of [B], with the same value. *)
Definition sub_option {X} (a b : option X) : Prop := forall v, a = Some v -> b = Some v.

Definition intent_le (A B : FilterIntent) : Prop :=
  sub_option (project A) (project B) /\ sub_option (status A) (status B)
  /\ sub_option (bedrooms A) (bedrooms B) /\ sub_option (min_price A) (min_price B)
  /\ sub_option (max_price A) (max_price B) /\ sub_option (min_area A) (min_area B)
  /\ sub_option (max_area A) (max_area B) /\ sub_option (exact_area A) (exact_area B)
  /\ sub_option (building A) (building B) /\ sub_option (unit_no A) (unit_no B).

(** A reference is live when it points into the heap. *)
Definition live (h : heap) (r : ref) : Prop := r < List.length (frames h).

(* ================================================================== *)
(** * Example tables *)
(* ================================================================== *)

Definition unit_columns : list text :=
  map text_of_string
      [ "project"; "building"; "unit_no"; "floor"; "configuration"; "unit_type";
        "selling_area"; "land_area"; "garden_area"; "terrace_area"; "price";
        "status"; "row_no"; "_unit_upper"; "_building_upper" ]%string.

(** A record of the unified table, the areas other than the selling area
    and the row number left out. *)
Definition unit_row (proj bld unit conf : string) (area price : cell) (stat : string)
  : list cell :=
  [ Str (proj : text); Str (bld : text); Str (unit : text); Str ("1st"%string : text);
    Str (conf : text); Num NaN; area; Num NaN; Num NaN; Num NaN; price;
    Str (stat : text); Num NaN; Str (upper (unit : text)); Str (upper (bld : text)) ].

Definition unknown_price_row : list cell :=
  unit_row "Boardwalk" "C1" "C1-002" "2 Bedrooms" (Num (of_Z 180)) (Num NaN) "Available".

Definition ten_million_row : list cell :=
  unit_row "BOHO" "A2" "A2-101" "3 Bedrooms" (Num (of_Z 210)) (Num (of_Z 10000000)) "Hold".

Definition two_units : DataFrame :=
  {| columns := unit_columns; rows := [unknown_price_row; ten_million_row] |}.

(** A heap that holds one table and one intent. *)
Definition heap_of (T : DataFrame) (I : FilterIntent) : heap :=
  {| frames := [T]; dicts := [I] |}.

Definition one_unknown_price : DataFrame :=
  {| columns := unit_columns; rows := [unknown_price_row] |}.

Definition min_price_1 : FilterIntent := set_min_price (of_Z 1) empty_intent.

Definition min_price_1_on_hold : FilterIntent :=
  set_status [("Hold"%string : text)] min_price_1.

Definition max_price_below_zero : FilterIntent := set_max_price (of_Z (-1)) empty_intent.

(* ================================================================== *)
(** * The words of a text *)
(* ================================================================== *)

(** The words of a text: its maximal runs of word characters. *)
Fixpoint words (s : text) : list text :=
  match s with
  | [] => []
  | c :: s' =>
    if is_word c
    then match words s' with
         | w :: ws => if word_after s' then (c :: w) :: ws else [c] :: w :: ws
         | [] => [[c]]
         end
    else words s'
  end.

(** What [\b(\d{2,4})\b] matches: a word of two to four digits. *)
Definition is_digit_word (w : text) : bool :=
  forallb is_digit w && (2 <=? List.length w) && (List.length w <=? 4).

(** The words of two to four digits of a text, from left to right. *)
Definition digit_words (s : text) : list text := filter is_digit_word (words s).

(** The character before the position that follows [d]. *)
Definition last_char (prev : option ascii) (d : text) : option ascii :=
  fold_left (fun _ c => Some c) d prev.

(** [n] repetitions are allowed by the upper bound [hi]. *)
Definition within (hi : option nat) (n : nat) : bool :=
  match hi with Some m => n <=? m | None => true end.

(** The text starts with a character of the class. *)
Definition starts_in (p : ascii -> bool) (s : text) : bool :=
  match s with c :: _ => p c | [] => false end.

(** The characters of a plain number: digits and the decimal point. *)
Definition is_plain (c : ascii) : bool := is_digit c || is_dot c.

(** What [(\d+(?:\.\d+)?)([mk])?] matches in full: the groups after the
    number [g1], when [r] is what follows it. *)
Definition number_suffix (g1 r : text) : option rmatch :=
  match r with
  | [] => Some {| groups := [(1, g1)]; rest := [] |}
  | [c] => if is_mk c then Some {| groups := [(2, [c]); (1, g1)]; rest := [] |} else None
  | _ :: _ :: _ => None
  end.

Definition number_match (s : text) : option rmatch :=
  let (ip, r1) := span is_digit s in
  match ip with
  | [] => None
  | _ :: _ =>
    match r1 with
    | c :: r2 =>
      if is_dot c
      then let (fp, r3) := span is_digit r2 in
           match fp with
           | [] => None
           | _ :: _ => number_suffix (ip ++ c :: fp) r3
           end
      else number_suffix ip r1
    | [] => number_suffix ip []
    end
  end.

(** A number as the specification writes it: digits, and a decimal part
    when [fp] is not empty. *)
Definition number_string (ip fp : text) : text :=
  match fp with
  | [] => ip
  | _ :: _ => ip ++ "."%char :: fp
  end.

(** The value of the number [ip.fp]. *)
Definition number_value (ip fp : text) : pyfloat :=
  round64 (decimal (digits_val (ip ++ fp)) (- Z.of_nat (List.length fp))).

(** The multiplier of a suffix: none, [k] or [m]. *)
Definition suffix_multiplier (u : text) : option Z :=
  if is_empty u then Some 1%Z
  else if text_eqb u "k"%string then Some 1000%Z
  else if text_eqb u "m"%string then Some 1000000%Z
  else None.


(** Two sheets as [try_load_sheet] returns them, and stand-ins for the
    two pandas conversions. *)
Definition bw_sheet : DataFrame :=
  {| columns := map text_of_string
                    [ "Building No.#"; "Unit No.#"; "Configuration"; "10 Years 0%" ]%string;
     rows := [ [ Str ("C1"%string : text); Str ("C1-002"%string : text);
                 Str ("2  Bedrooms"%string : text); Str ("7,500,000"%string : text) ] ] |}.

Definition boho_sheet : DataFrame :=
  {| columns := map text_of_string
                    [ "Building No#"; "Unit No.#"; "Configuration"; "Original Value";
                      "Status" ]%string;
     rows := [ [ Str ("A2"%string : text); Str ("A2-101"%string : text);
                 Str ("3 Bedrooms"%string : text); Str ("9,000,000"%string : text);
                 Num NaN ];
               [ Str ("A2"%string : text); Str ("A2-102"%string : text);
                 Str ("Studio"%string : text); Num NaN;
                 Str (" Hold"%string : text) ] ] |}.

Definition float_or_nan (s : text) : pyfloat :=
  match py_float s with Ok v => v | Raise _ => NaN end.

Definition no_digits (q : Qc) : text := "0"%string.

Definition no_sidebar : Sidebar :=
  {| sb_project := []; sb_status := []; sb_bedrooms := []; sb_min_price := [];
     sb_max_price := []; sb_min_area := []; sb_max_area := [] |}.

Definition example_units : DataFrame :=
  match load_all_units float_or_nan no_digits bw_sheet boho_sheet with
  | Ok U => U
  | Raise _ => empty_frame
  end.

(** Every row of the frame has one cell for each column. *)
Definition rectangular (df : DataFrame) : Prop :=
  Forall (fun row => List.length row = List.length (columns df)) (rows df).

(** What [cleanup_cols] does to the cells of an object column, and
    leaves undone in a numeric column. *)
Definition cleaned (str_of_finite : Qc -> text) (s : series) : series :=
  if is_object s then map (clean_object_cell str_of_finite) s else s.

(** The status column that a sheet contributes to the unified table:
    its own status column cleaned and filled, or missing values when
    the sheet has no status column. *)
Definition normal_status (str_of_finite : Qc -> text) (raw : DataFrame) : series :=
  if has_column "Status"%string raw
  then map fill_status (cleaned str_of_finite (column_of "Status"%string raw))
  else map (fun _ => Num NaN) (rows raw).

(** The columns that the filter engine reads. *)
Definition filter_columns : list text :=
  map text_of_string
      [ "project"; "status"; "configuration"; "price"; "selling_area";
        "_building_upper"; "_unit_upper" ]%string.

(** A table of the canonical schema: it has the columns that the filter
    engine reads, its price and selling area are numbers or missing, its
    configuration is text or missing. *)
Definition canonical (T : DataFrame) : Prop :=
  (forall n, In n filter_columns -> In n (columns T))
  /\ forall row, In row (rows T) ->
       is_Str (cell_at (columns T) "price"%string row) = false
       /\ is_Str (cell_at (columns T) "selling_area"%string row) = false
       /\ is_Num (fillna_empty (cell_at (columns T) "configuration"%string row)) = false.

(* ================================================================== *)
(** * Vocabulary of the further properties *)
(* ================================================================== *)

(** The column that a constraint reads, when the constraint is present. *)
Definition reads {A} (k : option A) (name : string) : list text :=
  match k with Some _ => [name : text] | None => [] end.

(** The columns that [apply_filters] reads for an intent. *)
Definition constrained_columns (I : FilterIntent) : list text :=
  reads (project I) "project" ++ reads (status I) "status"
  ++ reads (bedrooms I) "configuration"
  ++ reads (min_price I) "price" ++ reads (max_price I) "price"
  ++ reads (min_area I) "selling_area" ++ reads (max_area I) "selling_area"
  ++ reads (exact_area I) "selling_area"
  ++ reads (building I) "_building_upper" ++ reads (unit_no I) "_unit_upper".

(** The cells that the filter engine compares are of the type it
    expects: no text in the price and the selling area, no number in the
    configuration. *)
Definition typed_cells (T : DataFrame) : Prop :=
  forall row, In row (rows T) ->
    is_Str (cell_at (columns T) "price"%string row) = false
    /\ is_Str (cell_at (columns T) "selling_area"%string row) = false
    /\ is_Num (fillna_empty (cell_at (columns T) "configuration"%string row)) = false.

(** The intent of the chat for the area from 100 on. *)
Definition min_area_100 : FilterIntent := set_min_area (of_Z 100) empty_intent.

(** A table without the selling area, as two sheets without that column
    give it. *)
Definition units_without_area : DataFrame :=
  {| columns := map text_of_string
                    [ "project"; "building"; "unit_no"; "configuration"; "price"; "status";
                      "_unit_upper"; "_building_upper" ]%string;
     rows := [ [ Str ("Boardwalk"%string : text); Str ("C1"%string : text);
                 Str ("C1-002"%string : text); Str ("2 Bedrooms"%string : text);
                 Num (of_Z 7500000); Str ("Available"%string : text);
                 Str ("C1-002"%string : text); Str ("C1"%string : text) ] ] |}.

(** The bedroom counts of the sidebar: the pieces between the commas,
    trimmed, the empty ones left out. *)
Definition bedroom_numbers (sb : Sidebar) : list text :=
  filter (fun n => negb (is_empty n)) (map strip (split_commas (sb_bedrooms sb))).

Definition cell_has_any_bedrooms (nums : list text) (c : cell) : bool :=
  match fillna_empty c with
  | Str x => match re_search (re_has_any_bedrooms nums) x with Some _ => true | None => false end
  | _ => false
  end.

(** The number that a field of the sidebar gives, if it gives one. *)
Definition number_of (s : text) : option pyfloat :=
  match parse_number s with Ok v => v | Raise _ => None end.

(** The record [row] of a table with columns [cols] passes the filters
    of the sidebar. *)
Definition sidebar_passes (cols : list text) (sb : Sidebar) (row : list cell) : bool :=
  (is_empty (sb_project sb) || cell_isin (sb_project sb) (cell_at cols "project"%string row))
  && (is_empty (sb_status sb) || cell_isin (sb_status sb) (cell_at cols "status"%string row))
  && (is_empty (bedroom_numbers sb)
      || cell_has_any_bedrooms (bedroom_numbers sb) (cell_at cols "configuration"%string row))
  && holds (number_of (sb_min_price sb)) (fun v => cell_ge v (cell_at cols "price"%string row))
  && holds (number_of (sb_max_price sb)) (fun v => cell_le v (cell_at cols "price"%string row))
  && holds (number_of (sb_min_area sb))
           (fun v => cell_ge v (cell_at cols "selling_area"%string row))
  && holds (number_of (sb_max_area sb))
           (fun v => cell_le v (cell_at cols "selling_area"%string row)).

(** A sidebar that asks for units on hold from five million on. *)
Definition hold_from_5m : Sidebar :=
  {| sb_project := []; sb_status := [("Hold"%string : text)]; sb_bedrooms := [];
     sb_min_price := "5m"%string; sb_max_price := []; sb_min_area := [];
     sb_max_area := [] |}.

(** The project and the status that a lower-cased query names. *)
Definition project_of (ql : text) : option (list text) :=
  match contains "boho"%string ql, contains "boardwalk"%string ql with
  | true, true => Some [("BOHO"%string : text); ("Boardwalk"%string : text)]
  | true, false => Some [("BOHO"%string : text)]
  | false, true => Some [("Boardwalk"%string : text)]
  | false, false => None
  end.

Definition status_of (ql : text) : option (list text) :=
  if contains "hold"%string ql then Some [("Hold"%string : text)]
  else if contains "available"%string ql then Some [("Available"%string : text)]
  else None.

(** The first group of a match, as [parse_query] stores it. *)
Definition first_group (o : option rmatch) : option text :=
  option_map (group_or_empty 1) o.

Definition first_group_upper (o : option rmatch) : option text :=
  option_map (fun m => upper (group_or_empty 1 m)) o.

(** A character of the ASCII range. *)
Definition is_ascii (c : ascii) : bool := (code c <? 128)%N.

(** What a pattern can match, without the order in which the matcher
    tries the alternatives: [matches r prev d s cs cs'] says that [r]
    matches the text [d] when [prev] is the character before it and [s]
    the text after it, and that the groups [cs] become [cs']. *)
Inductive matches : regex -> option ascii -> text -> text -> captures -> captures -> Prop :=
| M_Eps prev s cs : matches Eps prev [] s cs cs
| M_Chars p c prev s cs : p c = true -> matches (Chars p) prev [c] s cs cs
| M_Seq r1 r2 prev d1 d2 s cs cs1 cs2 :
    matches r1 prev d1 (d2 ++ s) cs cs1 ->
    matches r2 (last_char prev d1) d2 s cs1 cs2 ->
    matches (Seq r1 r2) prev (d1 ++ d2) s cs cs2
| M_Alt_left r1 r2 prev d s cs cs' :
    matches r1 prev d s cs cs' -> matches (Alt r1 r2) prev d s cs cs'
| M_Alt_right r1 r2 prev d s cs cs' :
    matches r2 prev d s cs cs' -> matches (Alt r1 r2) prev d s cs cs'
| M_Rep p lo hi prev d s cs :
    forallb p d = true -> lo <= List.length d -> within hi (List.length d) = true ->
    matches (Rep p lo hi) prev d s cs cs
| M_Group n r prev d s cs cs' :
    matches r prev d s cs cs' -> matches (Group n r) prev d s cs ((n, d) :: cs')
| M_WordB prev s cs :
    xorb (word_before prev) (word_after s) = true -> matches WordB prev [] s cs cs
| M_Bos s cs : matches Bos None [] s cs cs.
(** A pattern without groups. *)
Fixpoint no_groups (r : regex) : bool :=
  match r with
  | Seq r1 r2 | Alt r1 r2 => no_groups r1 && no_groups r2
  | Group _ _ => false
  | _ => true
  end.

(** An upper-case letter of the ASCII range. *)
Definition is_AZ (c : ascii) : bool := between 65 90 c.

(** A building code: a capital letter and one or two digits. *)
Definition is_building_code (b : text) : Prop :=
  exists c ds, b = c :: ds /\ is_AZ c = true /\ forallb is_digit ds = true
               /\ 1 <= List.length ds <= 2.

(** A unit code: a building code, a hyphen and two or three digits. *)
Definition is_unit_code (u : text) : Prop :=
  exists c ds es, u = c :: ds ++ "-"%char :: es /\ is_AZ c = true
                  /\ forallb is_digit ds = true /\ 1 <= List.length ds <= 2
                  /\ forallb is_digit es = true /\ 2 <= List.length es <= 3.

(** A decimal literal without sign and exponent: digits and points with
    at least one digit and at most one point. *)
Definition decimal_literal (s : text) : bool :=
  existsb is_digit s && (List.length (filter is_dot s) <=? 1).

(** The number token of a match, its commas removed, is not a decimal
    literal. *)
Definition unreadable_number (r : regex) (g : nat) (ql : text) : bool :=
  match re_search r ql with
  | Some m => negb (decimal_literal (remove_commas (group_or_empty g m)))
  | None => false
  end.

(** A query that has a price or an area bound with an unreadable
    number. *)
Definition has_unreadable_number (q : text) : bool :=
  unreadable_number re_max_price 2 (lower q) || unreadable_number re_min_price 2 (lower q)
  || unreadable_number re_min_area 3 (lower q) || unreadable_number re_max_area 3 (lower q).

(** An amount: a float that is not negative and not NaN; a number too
    large for a float is the positive infinity. *)
Definition is_amount (v : pyfloat) : Prop :=
  v = Infinity false \/ exists x, v = Finite x /\ (0 <= x)%Qc.

(** The numeric constraints of an intent. *)
Definition numeric_constraints (f : FilterIntent) : list (option pyfloat) :=
  [min_price f; max_price f; min_area f; max_area f; exact_area f].

(** [s.str.replace(r"\s+", " ", regex=True)] on one cell of a column
    that has [.str]. *)
Definition squeeze_cell (c : cell) : cell :=
  match c with
  | Str x => Str (collapse_spaces x)
  | NA => NA
  | Num _ => Num NaN
  end.

(** The columns whose whitespace [cleanup_cols] collapses. *)
Definition is_squeezed (n : text) : bool :=
  text_eqb n "floor"%string || text_eqb n "configuration"%string.

(** What [cleanup_cols] makes of the column [n] with cells [s]. *)
Definition normal_column (to_numeric : text -> pyfloat) (str_of_finite : Qc -> text)
           (n : text) (s : series) : series :=
  let s := cleaned str_of_finite s in
  if is_squeezed n then map squeeze_cell s
  else if mem_text n numeric_columns then map (coerce_numeric to_numeric str_of_finite) s
  else if text_eqb n "status"%string then map fill_status s
  else s.

(** A column without [.str]: the frame has it, with rows, and it holds
    floats only. *)
Definition lacks_str (n : text) (df : DataFrame) : bool :=
  has_column n df && negb (is_object (column_of n df)).

(** A sheet with its columns kept and renamed and its project set, as
    [load_all_units] hands it to [cleanup_cols]. *)
Definition sheet_frame (keep : list (text * text)) (pname : string) (raw : DataFrame)
  : DataFrame :=
  set_column_const "project"%string (Str (pname : text)) (keep_rename keep raw).

(** A sheet whose floor or configuration column has no [.str]. *)
Definition sheet_lacks_str (raw : DataFrame) : bool :=
  lacks_str "Floor No.#"%string raw || lacks_str "Configuration"%string raw.

(** The canonical name [n] has a source column in the sheet. *)
Definition has_source (keep : list (text * text)) (raw : DataFrame) (n : text) : bool :=
  existsb (fun kv => text_eqb (snd kv) n && has_column (fst kv) raw) keep.

(** The column [n] of the unified table exists: it is the project, or a
    sheet has a source column for it. *)
Definition in_unified (bw_raw boho_raw : DataFrame) (n : text) : bool :=
  text_eqb n "project"%string || has_source BW_KEEP bw_raw n || has_source BOHO_KEEP boho_raw n.

(** The names of the unified table that come from the sheets, in the
    order of the table. *)
Definition sheet_names : list text := key_order ++ [("row_no"%string : text)].

(** [df[source].astype(str).str.upper()] on one cell. *)
Definition upper_cell (str_of_finite : Qc -> text) (c : cell) : cell :=
  Str (upper (astype_str str_of_finite c)).

(** The column [n] that a sheet contributes to the unified table: its
    source column normalised, or missing values when the sheet has no
    source column for [n]. *)
Definition sheet_column (to_numeric : text -> pyfloat) (str_of_finite : Qc -> text)
           (keep : list (text * text)) (pname : string) (raw : DataFrame) (n : text)
  : series :=
  if has_column n (sheet_frame keep pname raw)
  then normal_column to_numeric str_of_finite n (column_of n (sheet_frame keep pname raw))
  else map (fun _ => Num NaN) (rows raw).

(** The unified table of two sheets. *)
Definition unified (to_numeric : text -> pyfloat) (str_of_finite : Qc -> text)
           (bw_raw boho_raw U : DataFrame) : Prop :=
  rectangular U
  /\ columns U = filter (in_unified bw_raw boho_raw) sheet_names
                 ++ [("_unit_upper"%string : text); ("_building_upper"%string : text)]
  /\ List.length (rows U) = List.length (rows bw_raw) + List.length (rows boho_raw)
  /\ (forall n, In n sheet_names ->
        column_of n U
        = sheet_column to_numeric str_of_finite BW_KEEP "Boardwalk" bw_raw n
          ++ sheet_column to_numeric str_of_finite BOHO_KEEP "BOHO" boho_raw n)
  /\ column_of "_unit_upper"%string U
     = map (upper_cell str_of_finite) (column_of "unit_no"%string U)
  /\ column_of "_building_upper"%string U
     = map (upper_cell str_of_finite) (column_of "building"%string U).

(** A Boardwalk sheet with every column that the filters read, and a
    sheet whose floor column holds numbers only. *)
Definition bw_full_sheet : DataFrame :=
  {| columns := map text_of_string
                    [ "Building No.#"; "Unit No.#"; "Floor No.#"; "Configuration";
                      "Selling Area"; "10 Years 0%"; "Status" ]%string;
     rows := [ [ Str ("c1"%string : text); Str (" c1-002 "%string : text);
                 Str ("Ground  Floor"%string : text); Str ("2  Bedrooms"%string : text);
                 Str ("180"%string : text); Str ("7,500,000"%string : text); Num NaN ] ] |}.

Definition numbered_floor_sheet : DataFrame :=
  {| columns := map text_of_string [ "Building No#"; "Unit No.#"; "Floor No.#" ]%string;
     rows := [ [ Str ("A2"%string : text); Str ("A2-101"%string : text); Num (of_Z 1) ];
               [ Str ("A2"%string : text); Str ("A2-201"%string : text); Num (of_Z 2) ] ] |}.

Definition no_unit_sheet : DataFrame :=
  {| columns := map text_of_string [ "Building No#"; "Status" ]%string;
     rows := [ [ Str ("A2"%string : text); Str ("Hold"%string : text) ] ] |}.

(* ================================================================== *)
(** * The unit preview of the page

    The page from [unit_choices = ...] to the media of the chosen unit.
    [sel] is what the select box returns: one of its options. *)
(* ================================================================== *)

(** [chat_df["unit_no"].dropna().unique().tolist()] *)
Definition unit_choices (chat : DataFrame) : result series :=
  (s <- column "unit_no"%string chat ;;
   Ok (unique (dropna s)))%result.

(** The truth value of a list element: a string is true when it is not
    empty, a float when it is not zero; [pd.NA] has none. *)
Definition truthy (c : cell) : result bool :=
  match c with
  | Str s => Ok (negb (is_empty s))
  | Num (Finite q) => Ok (negb (Qc_eqb q (Q2Qc 0)))
  | Num _ => Ok true
  | NA => Raise TypeError
  end.

(** If the chat produced exactly one unit, it is selected. *)
Definition auto_select (prompt : text) (choices : series) (sel : cell) : result cell :=
  if is_empty prompt then Ok sel
  else (f <- parse_query prompt ;;
        match unit_no f with
        | Some _ => if List.length choices =? 1 then Ok (nth 0 choices sel) else Ok sel
        | None => Ok sel
        end)%result.

(** [row[name]] on one record. *)
Definition record_item (cols : list text) (name : text) (row : list cell) : result cell :=
  if mem_text name cols then Ok (cell_at cols name row) else Raise (KeyError name).

(** The message of the KeyError that pandas raises for labels that are
    not in the index. *)
Definition quoted (n : text) : text := "'"%char :: n ++ ["'"%char].

Fixpoint joined (xs : list text) : text :=
  match xs with
  | [] => []
  | [x] => x
  | x :: xs' => x ++ (", "%string : text) ++ joined xs'
  end.

Definition not_in_index (missing : list text) : text :=
  "["%char :: joined (map quoted missing) ++ ("] not in index"%string : text).

(** [row[names]] on one record, of which some name is in the index. *)
Definition record_items (cols names : list text) (row : list cell) : result (list cell) :=
  match filter (fun n => negb (mem_text n cols)) names with
  | [] => Ok (map (fun n => cell_at cols n row) names)
  | missing => Raise (KeyError (not_in_index missing))
  end.

Definition displayed_columns : list text :=
  map text_of_string
      [ "project"; "building"; "unit_no"; "floor"; "configuration"; "selling_area";
        "price"; "status" ]%string.

Record Media : Type := { pdf : option text; video : option text }.

Definition MEDIA_MAP : list (text * Media) := [].

(** [d.get(key)] *)
Fixpoint dict_lookup (A : Type) (key : text) (d : list (text * A)) : option A :=
  match d with
  | [] => None
  | (k, v) :: d' => if text_eqb k key then Some v else dict_lookup key d'
  end.

(** What the page shows of a unit: the two cells of the heading, the
    record, and the media of the unit ([None]: the warning). *)
Record Preview : Type := {
  heading_unit : cell;
  heading_project : cell;
  shown : list cell;
  media : option Media
}.

Section UnitPreview.

(** [str(x)] for a finite float, as in the normaliser. *)
Variable str_of_finite : Qc -> text.

(** The preview of the selected unit; [None] when nothing is shown. *)
Definition preview (chat : DataFrame) (sel : cell) : result (option Preview) :=
  (t <- truthy sel ;;
   if t && negb (eq_text_cell "--"%string sel)
   then
     (u <- column "_unit_upper"%string chat ;;
      let row := mask_rows chat (series_eq_text u (upper (astype_str str_of_finite sel))) in
      if df_empty row then Ok None
      else
        let cols := columns row in
        let row := hd [] (rows row) in
        (unit <- record_item cols "unit_no"%string row ;;
         proj <- record_item cols "project"%string row ;;
         items <- record_items cols displayed_columns row ;;
         unit' <- record_item cols "unit_no"%string row ;;
         Ok (Some {| heading_unit := unit;
                     heading_project := proj;
                     shown := items;
                     media := dict_lookup (upper (astype_str str_of_finite unit'))
                                          MEDIA_MAP |})))
   else Ok None)%result.

(** Lines 266 to 297 of the page. *)
Definition unit_preview (chat : DataFrame) (prompt : text) (sel : cell)
  : result (option Preview) :=
  (choices <- unit_choices chat ;;
   sel <- auto_select prompt choices sel ;;
   preview chat sel)%result.

End UnitPreview.

(** The record is of the chosen unit: its unit number, as text and in
    upper case, is that of the choice. *)
Definition same_unit (str_of_finite : Qc -> text) (sel : cell) (cols : list text)
           (row : list cell) : bool :=
  text_eqb (upper (astype_str str_of_finite (cell_at cols "unit_no"%string row)))
           (upper (astype_str str_of_finite sel)).

(** What is shown of a record. *)
Definition preview_of (cols : list text) (row : list cell) : Preview :=
  {| heading_unit := cell_at cols "unit_no"%string row;
     heading_project := cell_at cols "project"%string row;
     shown := map (fun n => cell_at cols n row) displayed_columns;
     media := None |}.

(** A table of records of [U], as the chat table is. *)
Definition selection_of (U T : DataFrame) : Prop :=
  columns T = columns U /\ incl (rows T) (rows U).





(** The column holds a text.  Such a column is of object dtype, and a
    mask leaves it so: it has the [.str] accessor whatever rows are
    left. *)
Definition holds_text (name : text) (T : DataFrame) : Prop :=
  exists row, In row (rows T) /\ is_Str (cell_at (columns T) name row) = true.

(** The cells of a column tell its dtype: the column holds a text, or
    it holds floats only and one of them is a number.  [pd.read_csv]
    gives the first the object dtype and the second a float dtype. *)
Definition tells_dtype (s : series) : bool :=
  existsb is_Str s || (forallb is_Num s && existsb (fun c => negb (isna c)) s).

(** The sheet lacks the column [name], or the cells of the column tell
    its dtype. *)
Definition dtype_read_off (name : text) (raw : DataFrame) : Prop :=
  has_column name raw = true -> tells_dtype (column_of name raw) = true.

(** The cells of a sheet tell the dtype of its floor and of its
    configuration column. *)
Definition sheet_dtypes_read_off (raw : DataFrame) : Prop :=
  dtype_read_off "Floor No.#"%string raw /\ dtype_read_off "Configuration"%string raw.

(** The floats: what rounding returns. *)
Definition binary64 (x : pyfloat) : Prop :=
  match x with Finite v => round64 v = Finite v | _ => True end.


(* ================================================================== *)
(** * Properties *)
(* ================================================================== *)

Unset Implicit Arguments.

(** ** Text *)

Lemma text_eqb_eq (a b : text) : text_eqb a b = true <-> a = b.
Proof.
  unfold text_eqb. destruct (list_eq_dec ascii_dec a b); split; intros; auto; discriminate.
Qed.

Lemma text_eqb_refl (a : text) : text_eqb a a = true.
Proof. apply text_eqb_eq; reflexivity. Qed.

(** ** Masks and columns *)

Lemma select_map_filter (A B : Type) (g : B -> bool) (proj : A -> B) (xs : list A) :
  select (map g (map proj xs)) xs = filter (fun x => g (proj x)) xs.
Proof.
  induction xs as [|x xs IH]; simpl; [reflexivity|].
  destruct (g (proj x)); rewrite IH; reflexivity.
Qed.

Lemma filter_all (A : Type) (xs : list A) : filter (fun _ => true) xs = xs.
Proof. induction xs; simpl; congruence. Qed.

Lemma filter_filter (A : Type) (p q : A -> bool) (xs : list A) :
  filter q (filter p xs) = filter (fun x => p x && q x) xs.
Proof.
  induction xs as [|x xs IH]; simpl; [reflexivity|].
  destruct (p x); simpl; [destruct (q x)|]; rewrite IH; reflexivity.
Qed.

Lemma filter_ext_bool (A : Type) (p q : A -> bool) (xs : list A) :
  (forall x, p x = q x) -> filter p xs = filter q xs.
Proof. intros E. induction xs as [|x xs IH]; simpl; [reflexivity|]. rewrite E, IH. reflexivity. Qed.

Lemma column_cells (name : text) (T : DataFrame) (c : series) :
  column name T = Ok c -> c = map (cell_at (columns T) name) (rows T).
Proof.
  unfold column, cell_at. destruct (position name (columns T)); intros H; inversion H.
  reflexivity.
Qed.

Lemma sequence_cellwise (A : Type) (t : A -> result bool) (xs : list A) (m : list bool) :
  sequence (map t xs) = Ok m ->
  m = map (fun x => match t x with Ok b => b | Raise _ => false end) xs.
Proof.
  revert m. induction xs as [|x xs IH]; simpl; intros m H.
  - inversion H. reflexivity.
  - destruct (t x) as [b|e]; simpl in H; [|discriminate].
    destruct (sequence (map t xs)) as [l|e]; simpl in H; [|discriminate].
    inversion H. rewrite (IH l eq_refl). reflexivity.
Qed.

Lemma series_ge_cellwise (c : series) (v : pyfloat) (m : list bool) :
  series_ge c v = Ok m -> m = map (cell_ge v) c.
Proof. apply sequence_cellwise. Qed.

Lemma series_le_cellwise (c : series) (v : pyfloat) (m : list bool) :
  series_le c v = Ok m -> m = map (cell_le v) c.
Proof. apply sequence_cellwise. Qed.

Lemma test_isin_cellwise (c : series) (v : list text) (m : list bool) :
  test_isin c v = Ok m -> m = map (cell_isin v) c.
Proof. unfold test_isin. intros H. inversion H. reflexivity. Qed.

Lemma test_eq_num_cellwise (c : series) (v : pyfloat) (m : list bool) :
  test_eq_num c v = Ok m -> m = map (eq_num_cell v) c.
Proof. unfold test_eq_num. intros H. inversion H. reflexivity. Qed.

Lemma test_eq_text_cellwise (c : series) (v : text) (m : list bool) :
  test_eq_text c v = Ok m -> m = map (eq_text_cell v) c.
Proof. unfold test_eq_text. intros H. inversion H. reflexivity. Qed.

Lemma test_bedrooms_cellwise (c : series) (n : text) (m : list bool) :
  test_bedrooms c n = Ok m -> m = map (cell_has_bedrooms n) c.
Proof.
  unfold test_bedrooms, str_contains.
  destruct (existsb is_Num (map fillna_empty c)); [intros H; discriminate|].
  intros H. inversion H. rewrite map_map. reflexivity.
Qed.

(** ** The heap *)

Lemma extends_refl (h : heap) : extends h h.
Proof. split; [exists []; rewrite app_nil_r|]; reflexivity. Qed.

Lemma extends_trans (h1 h2 h3 : heap) : extends h1 h2 -> extends h2 h3 -> extends h1 h3.
Proof.
  intros [[n1 F1] D1] [[n2 F2] D2]. split.
  - exists (n1 ++ n2). rewrite F2, F1, app_assoc. reflexivity.
  - congruence.
Qed.

Lemma extends_frame (h h' : heap) (r : ref) :
  extends h h' -> r < List.length (frames h) -> frame_at h' r = frame_at h r.
Proof.
  intros [[new F] _] L. unfold frame_at. rewrite F. apply app_nth1. exact L.
Qed.

Lemma extends_dict (h h' : heap) (r : ref) : extends h h' -> dict_at h' r = dict_at h r.
Proof. intros [_ D]. unfold dict_at. rewrite D. reflexivity. Qed.

Lemma new_frame_spec (T : DataFrame) (h : heap) :
  exists h', new_frame T h = Ok (List.length (frames h), h')
             /\ extends h h' /\ frame_at h' (List.length (frames h)) = T
             /\ List.length (frames h) < List.length (frames h').
Proof.
  eexists. split; [reflexivity|]. repeat split.
  - exists [T]. reflexivity.
  - unfold frame_at. simpl. rewrite app_nth2, Nat.sub_diag by lia. reflexivity.
  - simpl. rewrite length_app. simpl. lia.
Qed.

Lemma copy_spec (df : ref) (h : heap) :
  exists out h', copy df h = Ok (out, h') /\ extends h h' /\ live h' out
                 /\ frame_at h' out = frame_at h df /\ ~ live h out.
Proof.
  destruct (new_frame_spec (frame_at h df) h) as (h' & E & X & F & L).
  exists (List.length (frames h)), h'. unfold copy, bind, read_frame.
  fold (frame_at h df). rewrite E.
  split; [reflexivity|]. split; [exact X|]. split; [exact L|]. split; [exact F|].
  unfold live. lia.
Qed.

(** One narrowing step keeps the columns, keeps the records that pass
    the test and touches no existing object. *)
Lemma narrow_spec (A : Type) (f : ref) (key : FilterIntent -> option A) (name : text)
      (test : series -> A -> result (list bool)) (cw : A -> cell -> bool)
      (out : ref) (h : heap) (out' : ref) (h' : heap) :
  (forall c v m, test c v = Ok m -> m = map (cw v) c) ->
  live h out ->
  narrow f key name test out h = Ok (out', h') ->
  extends h h' /\ live h' out'
  /\ columns (frame_at h' out') = columns (frame_at h out)
  /\ rows (frame_at h' out')
     = filter (fun row => holds (key (dict_at h f))
                                (fun v => cw v (cell_at (columns (frame_at h out)) name row)))
              (rows (frame_at h out))
  /\ out <= out'.
Proof.
  intros CW L. unfold narrow, bind, dict_get, read_dict, ret. cbn.
  change (nth f (dicts h) empty_intent) with (dict_at h f).
  destruct (key (dict_at h f)) as [v|]; cbn.
  - unfold getitem, getitem_mask, bind, read_frame, lift. cbn.
    change (nth out (frames h) empty_frame) with (frame_at h out).
    destruct (column name (frame_at h out)) as [c|e] eqn:C; cbn; [|intros H; discriminate H].
    destruct (test c v) as [m|e] eqn:T; cbn; [|intros H; discriminate H].
    change (nth out (frames h) empty_frame) with (frame_at h out).
    destruct (new_frame_spec (mask_rows (frame_at h out) m) h) as (h2 & E & X & F & L2).
    rewrite E. intros H. inversion H; subst. split; [|split; [|split; [|split]]]; auto.
    + rewrite F. reflexivity.
    + rewrite F. simpl. rewrite (CW _ _ _ T), (column_cells _ _ _ C).
      apply select_map_filter.
    + unfold live in L. lia.
  - intros H. inversion H; subst. split; [|split; [|split; [|split]]]; auto using extends_refl.
    symmetry. apply filter_all.
Qed.

Lemma bind_ok (A B : Type) (m : M A) (k : A -> M B) (h : heap) (b : B) (h' : heap) :
  bind m k h = Ok (b, h') -> exists a h1, m h = Ok (a, h1) /\ k a h1 = Ok (b, h').
Proof.
  unfold bind. destruct (m h) as [[a h1]|e]; [|discriminate].
  intros H. exists a, h1. auto.
Qed.

(** One more step of the chain of [apply_filters]: the records kept so
    far are those that pass [p]; after the step they also pass the new
    test. *)
Lemma narrow_chain (A : Type) (f : ref) (key : FilterIntent -> option A) (name : text)
      (test : series -> A -> result (list bool)) (cw : A -> cell -> bool)
      (h0 : heap) (T : DataFrame) (p : list cell -> bool)
      (out : ref) (h : heap) (out' : ref) (h' : heap) :
  (forall c v m, test c v = Ok m -> m = map (cw v) c) ->
  extends h0 h -> live h out ->
  columns (frame_at h out) = columns T ->
  rows (frame_at h out) = filter p (rows T) ->
  narrow f key name test out h = Ok (out', h') ->
  extends h0 h' /\ live h' out'
  /\ columns (frame_at h' out') = columns T
  /\ rows (frame_at h' out')
     = filter (fun row => p row && holds (key (dict_at h0 f))
                                         (fun v => cw v (cell_at (columns T) name row)))
              (rows T)
  /\ out <= out'.
Proof.
  intros CW X L C R N.
  destruct (narrow_spec _ _ _ _ _ _ _ _ _ _ CW L N) as (X' & L' & C' & R' & O').
  split; [|split; [|split; [|split]]]; auto.
  - eapply extends_trans; eauto.
  - congruence.
  - rewrite R', R, C, filter_filter, (extends_dict h0 h f X). reflexivity.
Qed.

(** [apply_filters] returns a new frame with the columns of its input
    and exactly the records that pass every constraint; every object of
    the heap is as it was. *)
Lemma apply_filters_spec (df f : ref) (h : heap) (out : ref) (h' : heap) :
  apply_filters df f h = Ok (out, h') ->
  extends h h' /\ live h' out /\ ~ live h out
  /\ columns (frame_at h' out) = columns (frame_at h df)
  /\ rows (frame_at h' out)
     = filter (passes (columns (frame_at h df)) (dict_at h f)) (rows (frame_at h df)).
Proof.
  unfold apply_filters. intros H.
  apply bind_ok in H. destruct H as (o0 & h0 & H0 & H).
  destruct (copy_spec df h) as (o0' & h0' & E0 & X0 & L0 & F0 & N0).
  rewrite E0 in H0. inversion H0; subst o0' h0'. clear H0 E0.
  assert (R0 : rows (frame_at h0 o0) = filter (fun _ => true) (rows (frame_at h df)))
    by (rewrite filter_all, F0; reflexivity).
  assert (C0 : columns (frame_at h0 o0) = columns (frame_at h df)) by (rewrite F0; reflexivity).
  clear F0.
  apply bind_ok in H. destruct H as (o1 & h1 & H1 & H).
  destruct (narrow_chain _ _ _ _ _ _ _ _ _ _ _ _ _ test_isin_cellwise X0 L0 C0 R0 H1) as (X1 & L1 & C1 & R1 & O1).
  apply bind_ok in H. destruct H as (o2 & h2 & H2 & H).
  destruct (narrow_chain _ _ _ _ _ _ _ _ _ _ _ _ _ test_isin_cellwise X1 L1 C1 R1 H2) as (X2 & L2 & C2 & R2 & O2).
  apply bind_ok in H. destruct H as (o3 & h3 & H3 & H).
  destruct (narrow_chain _ _ _ _ _ _ _ _ _ _ _ _ _ test_bedrooms_cellwise X2 L2 C2 R2 H3) as (X3 & L3 & C3 & R3 & O3).
  apply bind_ok in H. destruct H as (o4 & h4 & H4 & H).
  destruct (narrow_chain _ _ _ _ _ _ _ _ _ _ _ _ _ series_ge_cellwise X3 L3 C3 R3 H4) as (X4 & L4 & C4 & R4 & O4).
  apply bind_ok in H. destruct H as (o5 & h5 & H5 & H).
  destruct (narrow_chain _ _ _ _ _ _ _ _ _ _ _ _ _ series_le_cellwise X4 L4 C4 R4 H5) as (X5 & L5 & C5 & R5 & O5).
  apply bind_ok in H. destruct H as (o6 & h6 & H6 & H).
  destruct (narrow_chain _ _ _ _ _ _ _ _ _ _ _ _ _ series_ge_cellwise X5 L5 C5 R5 H6) as (X6 & L6 & C6 & R6 & O6).
  apply bind_ok in H. destruct H as (o7 & h7 & H7 & H).
  destruct (narrow_chain _ _ _ _ _ _ _ _ _ _ _ _ _ series_le_cellwise X6 L6 C6 R6 H7) as (X7 & L7 & C7 & R7 & O7).
  apply bind_ok in H. destruct H as (o8 & h8 & H8 & H).
  destruct (narrow_chain _ _ _ _ _ _ _ _ _ _ _ _ _ test_eq_num_cellwise X7 L7 C7 R7 H8) as (X8 & L8 & C8 & R8 & O8).
  apply bind_ok in H. destruct H as (o9 & h9 & H9 & H).
  destruct (narrow_chain _ _ _ _ _ _ _ _ _ _ _ _ _ test_eq_text_cellwise X8 L8 C8 R8 H9) as (X9 & L9 & C9 & R9 & O9).
  apply bind_ok in H. destruct H as (o10 & h10 & H10 & H).
  destruct (narrow_chain _ _ _ _ _ _ _ _ _ _ _ _ _ test_eq_text_cellwise X9 L9 C9 R9 H10) as (X10 & L10 & C10 & R10 & O10).
  unfold ret in H. inversion H; subst o10 h10.
  split; [|split; [|split; [|split]]]; auto.
  unfold live in *. lia.
Qed.

(** ** The filter engine *)

Lemma sub_option_holds (X : Type) (a b : option X) (p : X -> bool) :
  sub_option a b -> holds b p = true -> holds a p = true.
Proof.
  intros S H. destruct a as [v|]; [|reflexivity].
  rewrite (S v eq_refl) in H. exact H.
Qed.

Lemma passes_intent_le (cols : list text) (A B : FilterIntent) (row : list cell) :
  intent_le A B -> passes cols B row = true -> passes cols A row = true.
Proof.
  intros (S1 & S2 & S3 & S4 & S5 & S6 & S7 & S8 & S9 & S10). unfold passes.
  rewrite !andb_true_iff.
  intros [[[[[[[[[H1 H2] H3] H4] H5] H6] H7] H8] H9] H10].
  repeat split; eapply sub_option_holds; eauto.
Qed.

Lemma passes_empty (cols : list text) (row : list cell) : passes cols empty_intent row = true.
Proof. reflexivity. Qed.

Lemma filter_length_le (A : Type) (p q : A -> bool) (xs : list A) :
  (forall x, p x = true -> q x = true) ->
  List.length (filter p xs) <= List.length (filter q xs).
Proof.
  intros I. induction xs as [|x xs IH]; simpl; [lia|].
  destruct (p x) eqn:P.
  - rewrite (I x P). simpl. lia.
  - destruct (q x); simpl; lia.
Qed.

(** C10.  [apply_filters] changes none of its arguments: after it has
    returned, every frame that existed before, the input table among
    them, is the frame it was, and so is every intent; the result is a
    new frame with the columns of the input, and each of its records is a
    record of the input table. *)
Theorem apply_filters_frame_property (df f : ref) (h : heap) (out : ref) (h' : heap) :
  live h df ->
  apply_filters df f h = Ok (out, h') ->
  (forall r, live h r -> frame_at h' r = frame_at h r)
  /\ dicts h' = dicts h
  /\ frame_at h' df = frame_at h df
  /\ dict_at h' f = dict_at h f
  /\ out <> df
  /\ columns (frame_at h' out) = columns (frame_at h df)
  /\ (forall row, In row (rows (frame_at h' out)) -> In row (rows (frame_at h df))).
Proof.
  intros L H. destruct (apply_filters_spec _ _ _ _ _ H) as (X & Lo & No & C & R).
  split; [intros r Lr; apply (extends_frame h h' r X Lr)|].
  split; [apply X|].
  split; [apply (extends_frame h h' df X L)|].
  split; [apply (extends_dict h h' f X)|].
  split; [intros E; subst; contradiction|].
  split; [exact C|].
  intros row I. rewrite R in I. apply filter_In in I. apply I.
Qed.

Lemma apply_filters_frame_property_witness :
  exists out h',
    apply_filters 0 0 (heap_of two_units (set_min_price (of_Z 1) empty_intent)) = Ok (out, h')
    /\ frame_at h' 0 = two_units
    /\ rows (frame_at h' out) = [ten_million_row].
Proof.
  eexists. eexists. split; [vm_compute; reflexivity|].
  split.
  - refine (proj1 (proj2 (proj2
      (apply_filters_frame_property 0 0
         (heap_of two_units (set_min_price (of_Z 1) empty_intent)) _ _ _ _)))).
    + unfold live. simpl. lia.
    + vm_compute. reflexivity.
  - vm_compute. reflexivity.
Defined.

(** C8.  The filter engine narrows monotonically: its result is a part
    of the table, the intent without constraints returns the whole
    table, and when every constraint of [A] is a constraint of [B] the
    records that [B] keeps are among those that [A] keeps, so they are
    no more. *)
Theorem apply_filters_monotone (df fA fB : ref) (h : heap)
        (outA : ref) (hA : heap) (outB : ref) (hB : heap) :
  apply_filters df fA h = Ok (outA, hA) ->
  apply_filters df fB h = Ok (outB, hB) ->
  intent_le (dict_at h fA) (dict_at h fB) ->
  incl (rows (frame_at hA outA)) (rows (frame_at h df))
  /\ (dict_at h fA = empty_intent -> rows (frame_at hA outA) = rows (frame_at h df))
  /\ incl (rows (frame_at hB outB)) (rows (frame_at hA outA))
  /\ List.length (rows (frame_at hB outB)) <= List.length (rows (frame_at hA outA)).
Proof.
  intros HA HB LE.
  destruct (apply_filters_spec _ _ _ _ _ HA) as (_ & _ & _ & _ & RA).
  destruct (apply_filters_spec _ _ _ _ _ HB) as (_ & _ & _ & _ & RB).
  rewrite RA, RB. split; [|split; [|split]].
  - intros row I. apply filter_In in I. apply I.
  - intros E. rewrite E.
    rewrite (filter_ext_bool _ _ (fun _ => true) _ (passes_empty _)). apply filter_all.
  - intros row I. apply filter_In in I. destruct I as [I P].
    apply filter_In. split; [exact I|]. eapply passes_intent_le; eauto.
  - apply filter_length_le. intros row. apply passes_intent_le. exact LE.
Qed.

Lemma apply_filters_monotone_witness :
  exists outA hA outB hB,
    let h := {| frames := [two_units]; dicts := [min_price_1; min_price_1_on_hold] |} in
    apply_filters 0 0 h = Ok (outA, hA) /\ apply_filters 0 1 h = Ok (outB, hB)
    /\ List.length (rows (frame_at hB outB)) <= List.length (rows (frame_at hA outA)).
Proof.
  do 4 eexists. cbv zeta. split; [vm_compute; reflexivity|]. split; [vm_compute; reflexivity|].
  refine (proj2 (proj2 (proj2
    (apply_filters_monotone 0 0 1
       {| frames := [two_units]; dicts := [min_price_1; min_price_1_on_hold] |}
       _ _ _ _ _ _ _)))).
  - vm_compute. reflexivity.
  - vm_compute. reflexivity.
  - unfold intent_le, sub_option, dict_at. simpl.
    repeat split; intros v E; try discriminate E; exact E.
Defined.

Lemma In_filter_passes (cols : list text) (I : FilterIntent) (row : list cell)
      (rs : list (list cell)) :
  In row (filter (passes cols I) rs) <-> In row rs /\ passes cols I row = true.
Proof. apply filter_In. Qed.

Lemma Qc_leb_false_of_lt (a b : Qc) : (a < b)%Qc -> Qc_leb b a = false.
Proof.
  intros L. unfold Qc_leb. destruct (Qle_bool b a) eqn:E; [|reflexivity].
  apply Qle_bool_iff in E. exfalso. apply (Qlt_not_le _ _ L). exact E.
Qed.

Lemma Qc_leb_true_of_le (a b : Qc) : (a <= b)%Qc -> Qc_leb a b = true.
Proof. intros L. unfold Qc_leb. apply Qle_bool_iff. exact L. Qed.

Lemma passes_min_price (cols : list text) (I : FilterIntent) (row : list cell) (v : pyfloat) :
  min_price I = Some v -> passes cols I row = true ->
  cell_ge v (cell_at cols "price"%string row) = true.
Proof.
  unfold passes. intros E. rewrite E. rewrite !andb_true_iff. simpl. tauto.
Qed.

Lemma passes_max_price (cols : list text) (I : FilterIntent) (row : list cell) (v : pyfloat) :
  max_price I = Some v -> passes cols I row = true ->
  cell_le v (cell_at cols "price"%string row) = true.
Proof.
  unfold passes. intros E. rewrite E. rewrite !andb_true_iff. simpl. tauto.
Qed.

Lemma passes_min_area (cols : list text) (I : FilterIntent) (row : list cell) (v : pyfloat) :
  min_area I = Some v -> passes cols I row = true ->
  cell_ge v (cell_at cols "selling_area"%string row) = true.
Proof.
  unfold passes. intros E. rewrite E. rewrite !andb_true_iff. simpl. tauto.
Qed.

Lemma passes_max_area (cols : list text) (I : FilterIntent) (row : list cell) (v : pyfloat) :
  max_area I = Some v -> passes cols I row = true ->
  cell_le v (cell_at cols "selling_area"%string row) = true.
Proof.
  unfold passes. intros E. rewrite E. rewrite !andb_true_iff. simpl. tauto.
Qed.

(** A missing value counts as zero in a comparison. *)
Lemma cell_ge_missing (c : cell) (b : Qc) :
  isna c = true -> cell_ge (Finite b) c = Qc_leb b (Q2Qc 0).
Proof.
  intros N. unfold cell_ge, ge_cell, fillna0. rewrite N. reflexivity.
Qed.

Lemma cell_le_missing (c : cell) (b : Qc) :
  isna c = true -> cell_le (Finite b) c = Qc_leb (Q2Qc 0) b.
Proof.
  intros N. unfold cell_le, le_cell, fillna0. rewrite N. reflexivity.
Qed.

(** C7, as amended.  In the comparisons of the filter engine a record
    whose price is missing counts as price 0: it fails every [min_price]
    bound above 0 (so every bound from 1 on), it fails a [max_price]
    bound below 0, and it passes every [max_price] bound from 0 on; the
    same holds for the selling area and the area bounds.  Of a record
    with an unknown price and a record with price 10000000, the intent
    [{min_price: 1}] keeps the second only. *)
Theorem absent_counts_as_zero :
  (forall (df f : ref) (h : heap) (out : ref) (h' : heap) (row : list cell),
      apply_filters df f h = Ok (out, h') ->
      In row (rows (frame_at h df)) ->
      let cols := columns (frame_at h df) in
      let I := dict_at h f in
      let kept := In row (rows (frame_at h' out)) in
      (isna (cell_at cols "price"%string row) = true ->
       (forall b, min_price I = Some (Finite b) -> (Q2Qc 0 < b)%Qc -> ~ kept)
       /\ (forall b, max_price I = Some (Finite b) -> (b < Q2Qc 0)%Qc -> ~ kept)
       /\ (forall b, I = set_max_price (Finite b) empty_intent -> (Q2Qc 0 <= b)%Qc -> kept))
      /\ (isna (cell_at cols "selling_area"%string row) = true ->
          (forall b, min_area I = Some (Finite b) -> (Q2Qc 0 < b)%Qc -> ~ kept)
          /\ (forall b, max_area I = Some (Finite b) -> (b < Q2Qc 0)%Qc -> ~ kept)
          /\ (forall b, I = set_max_area (Finite b) empty_intent -> (Q2Qc 0 <= b)%Qc -> kept)))
  /\ (exists out h',
         apply_filters 0 0 (heap_of two_units min_price_1) = Ok (out, h')
         /\ rows (frame_at h' out) = [ten_million_row]).
Proof.
  split.
  - intros df f h out h' row H Hin cols I kept.
    destruct (apply_filters_spec _ _ _ _ _ H) as (_ & _ & _ & _ & R).
    unfold kept. rewrite R. fold cols. fold I. clear kept R.
    split; intros N; (split; [|split]); intros b E L.
    + intros K. apply In_filter_passes in K. destruct K as [_ P].
      apply (passes_min_price _ _ _ _ E) in P.
      rewrite cell_ge_missing in P by exact N.
      rewrite (Qc_leb_false_of_lt _ _ L) in P. discriminate P.
    + intros K. apply In_filter_passes in K. destruct K as [_ P].
      apply (passes_max_price _ _ _ _ E) in P.
      rewrite cell_le_missing in P by exact N.
      rewrite (Qc_leb_false_of_lt _ _ L) in P. discriminate P.
    + apply In_filter_passes. split; [exact Hin|]. rewrite E. unfold passes. simpl.
      rewrite cell_le_missing by exact N.
      rewrite (Qc_leb_true_of_le _ _ L). reflexivity.
    + intros K. apply In_filter_passes in K. destruct K as [_ P].
      apply (passes_min_area _ _ _ _ E) in P.
      rewrite cell_ge_missing in P by exact N.
      rewrite (Qc_leb_false_of_lt _ _ L) in P. discriminate P.
    + intros K. apply In_filter_passes in K. destruct K as [_ P].
      apply (passes_max_area _ _ _ _ E) in P.
      rewrite cell_le_missing in P by exact N.
      rewrite (Qc_leb_false_of_lt _ _ L) in P. discriminate P.
    + apply In_filter_passes. split; [exact Hin|]. rewrite E. unfold passes. simpl.
      rewrite cell_le_missing by exact N.
      rewrite (Qc_leb_true_of_le _ _ L). reflexivity.
  - eexists. eexists. split; vm_compute; reflexivity.
Qed.

Lemma absent_counts_as_zero_witness :
  exists out h',
    apply_filters 0 0 (heap_of two_units min_price_1) = Ok (out, h')
    /\ ~ In unknown_price_row (rows (frame_at h' out)).
Proof.
  eexists. eexists. split; [vm_compute; reflexivity|].
  refine (proj1 (proj1 (proj1 absent_counts_as_zero 0 0 (heap_of two_units min_price_1)
                              _ _ unknown_price_row _ _) _) (Q2Qc 1) _ _).
  - vm_compute. reflexivity.
  - left. reflexivity.
  - vm_compute. reflexivity.
  - vm_compute. reflexivity.
  - vm_compute. reflexivity.
Defined.

(** C7 as stated fails: a record with an unknown price does not pass the
    constraint [{max_price: -1}]. *)
Lemma absent_price_fails_negative_max :
  In unknown_price_row (rows one_unknown_price)
  /\ isna (cell_at (columns one_unknown_price) "price"%string unknown_price_row) = true
  /\ exists out h',
      apply_filters 0 0 (heap_of one_unknown_price max_price_below_zero) = Ok (out, h')
      /\ rows (frame_at h' out) = [].
Proof.
  split; [left; reflexivity|]. split; [reflexivity|].
  eexists. eexists. split; vm_compute; reflexivity.
Qed.

(** ** Floats *)

Lemma Finite_eq (a b : Qc) : (a == b)%Q -> Finite a = Finite b.
Proof. intros E. f_equal. apply Qc_is_canon. exact E. Qed.

(** Two results of a computation that differ in the proofs that their
    floats are in lowest terms. *)
Ltac floats_eq :=
  unfold of_Z;
  repeat match goal with
         | |- Finite _ = Finite _ => apply Finite_eq; reflexivity
         | |- ?x = ?x => reflexivity
         | |- _ = _ => f_equal
         end.

(** ** Binary64 rounding *)

Lemma round_half_even_exact (K b : Z) : (0 < b)%Z -> round_half_even (K * b) b = K.
Proof.
  intros B. unfold round_half_even.
  rewrite Z.div_mul, Z.mod_mul by lia.
  destruct (2 * 0 ?= b)%Z eqn:C; try reflexivity.
  - apply Z.compare_eq in C. lia.
  - apply Z.compare_gt_iff in C. lia.
Qed.

Lemma round_half_even_bounds (a b : Z) :
  (0 <= a)%Z -> (0 < b)%Z ->
  (a / b <= round_half_even a b <= a / b + 1)%Z.
Proof.
  intros A B. unfold round_half_even.
  destruct (2 * (a mod b) ?= b)%Z; [destruct (Z.even (a / b))|..]; lia.
Qed.

Lemma ulp_shift_nonneg (x : Z) : (0 <= ulp_shift x)%Z.
Proof. unfold ulp_shift. lia. Qed.

Lemma nearest_exact (a b N : Z) :
  (0 < b)%Z -> (a * 2 ^ 1074 = N * b)%Z -> (N mod 2 ^ ulp_shift N = 0)%Z ->
  nearest_units a b = N.
Proof.
  intros B E D. unfold nearest_units. cbv zeta. rewrite E.
  rewrite Z.div_mul by lia.
  pose proof (ulp_shift_nonneg N) as S.
  assert (P : (0 < 2 ^ ulp_shift N)%Z) by (apply Z.pow_pos_nonneg; lia).
  apply Z.div_exact in D; [|lia].
  set (s := ulp_shift N) in *.
  replace (N * b)%Z with (N / 2 ^ s * (b * 2 ^ s))%Z by (rewrite D at 2; ring).
  rewrite round_half_even_exact by lia.
  rewrite D at 2. ring.
Qed.

Lemma grid_multiple (M s : Z) :
  (0 <= M <= 2 ^ 53)%Z -> (0 <= s)%Z ->
  ((M * 2 ^ s) mod 2 ^ ulp_shift (M * 2 ^ s) = 0)%Z.
Proof.
  intros [M0 M53] S. unfold ulp_shift.
  destruct (Z.eq_dec M 0) as [->|NZ].
  - rewrite Z.mul_0_l. reflexivity.
  - rewrite Z.log2_mul_pow2 by lia.
    destruct (Z.eq_dec M (2 ^ 53)) as [->|LT].
    + rewrite Z.log2_pow2 by lia.
      replace (Z.max 0 (s + 53 - 52)) with (s + 1)%Z by lia.
      replace (2 ^ 53 * 2 ^ s)%Z with (2 ^ 52 * 2 ^ (s + 1))%Z
        by (rewrite Z.pow_add_r by lia; change (2 ^ 53)%Z with (2 ^ 52 * 2 ^ 1)%Z; ring).
      apply Z.mod_mul. apply Z.pow_nonzero; lia.
    + assert (L : (Z.log2 M < 53)%Z) by (apply Z.log2_lt_pow2; lia).
      set (t := Z.max 0 (s + Z.log2 M - 52)).
      assert (T : (0 <= t <= s)%Z) by (unfold t; lia).
      replace (2 ^ s)%Z with (2 ^ (s - t) * 2 ^ t)%Z
        by (rewrite <- Z.pow_add_r by lia; f_equal; lia).
      rewrite Z.mul_assoc. apply Z.mod_mul. apply Z.pow_nonzero; lia.
Qed.

Lemma nearest_grid (a b : Z) :
  (0 <= a)%Z -> (0 < b)%Z ->
  (0 <= nearest_units a b)%Z
  /\ (nearest_units a b mod 2 ^ ulp_shift (nearest_units a b) = 0)%Z.
Proof.
  intros A B. unfold nearest_units. cbv zeta.
  set (x := (a * 2 ^ 1074)%Z).
  assert (X : (0 <= x)%Z) by (unfold x; apply Z.mul_nonneg_nonneg; [lia|apply Z.pow_nonneg; lia]).
  set (F := (x / b)%Z).
  assert (F0 : (0 <= F)%Z) by (unfold F; apply Z.div_pos; lia).
  pose proof (ulp_shift_nonneg F) as S. set (s := ulp_shift F) in *.
  assert (P : (0 < 2 ^ s)%Z) by (apply Z.pow_pos_nonneg; lia).
  pose proof (round_half_even_bounds x (b * 2 ^ s) X ltac:(lia)) as RB.
  assert (Q : (x / (b * 2 ^ s) = F / 2 ^ s)%Z) by (unfold F; rewrite Z.div_div by lia; reflexivity).
  rewrite Q in RB.
  assert (U : (F / 2 ^ s < 2 ^ 53)%Z).
  { apply Z.div_lt_upper_bound; [lia|].
    destruct (Z.eq_dec F 0) as [E|NZ]; [rewrite E; lia|].
    destruct (Z.log2_spec F ltac:(lia)) as [_ H].
    rewrite <- Z.pow_add_r by lia.
    eapply Z.lt_le_trans; [exact H|]. apply Z.pow_le_mono_r; [lia|].
    unfold s, ulp_shift. lia. }
  assert (L : (0 <= F / 2 ^ s)%Z) by (apply Z.div_pos; lia).
  split.
  - apply Z.mul_nonneg_nonneg; lia.
  - apply grid_multiple; lia.
Qed.

Lemma units_pow : Zpos units = (2 ^ 1074)%Z.
Proof. reflexivity. Qed.

Lemma Qc_eq (a b : Qc) : (a == b)%Q -> a = b.
Proof. apply Qc_is_canon. Qed.

Lemma canon_units (N : Z) :
  (Qnum (Q2Qc (N # units)%Q) * 2 ^ 1074 = N * Zpos (Qden (Q2Qc (N # units)%Q)))%Z.
Proof.
  pose proof (Qred_correct (N # units)%Q) as E. unfold Qeq in E. cbn [Qnum Qden] in E.
  rewrite units_pow in E. exact E.
Qed.

Lemma units_nonneg (N : Z) : (0 <= N)%Z -> (0 <= Qnum (Q2Qc (N # units)%Q))%Z.
Proof.
  intros N0. pose proof (canon_units N) as C.
  assert (0 <= Qnum (Q2Qc (N # units)%Q) * 2 ^ 1074)%Z
    by (rewrite C; apply Z.mul_nonneg_nonneg; [exact N0|apply Pos2Z.is_nonneg]).
  apply Z.mul_nonneg_cancel_r with (m := (2 ^ 1074)%Z); [reflexivity|assumption].
Qed.

Lemma of_units_finite (N : Z) (v : Qc) :
  of_units N = Finite v -> (N < 2 ^ 2098)%Z /\ v = Q2Qc (N # units)%Q.
Proof.
  unfold of_units. destruct (2 ^ 2098 <=? N)%Z eqn:C; [discriminate|].
  intros H. injection H as <-. apply Z.leb_gt in C. split; [exact C|reflexivity].
Qed.

Lemma of_units_below (N : Z) : (N < 2 ^ 2098)%Z -> of_units N = Finite (Q2Qc (N # units)%Q).
Proof.
  intros H. unfold of_units. apply Z.leb_gt in H. rewrite H. reflexivity.
Qed.

(** A value of the grid rounds to itself. *)
Lemma round_grid (N : Z) :
  (0 <= N < 2 ^ 2098)%Z -> (N mod 2 ^ ulp_shift N = 0)%Z ->
  round64 (Q2Qc (N # units)%Q) = Finite (Q2Qc (N # units)%Q).
Proof.
  intros [N0 NB] G. pose proof (canon_units N) as C.
  pose proof (units_nonneg N N0) as V.
  set (v := Q2Qc (N # units)%Q) in *.
  unfold round64. apply Z.leb_le in V. rewrite V.
  rewrite (nearest_exact _ _ N (Pos2Z.is_pos _) C G).
  apply of_units_below. exact NB.
Qed.

Lemma Qnum_opp (q : Qc) : Qnum (- q)%Qc = (- Qnum q)%Z /\ Qden (- q)%Qc = Qden q.
Proof.
  destruct q as [[n d] c]. unfold Qcopp, Q2Qc. cbn [this].
  assert (E : Qred (- (n # d))%Q = (- n # d)%Q).
  { rewrite Qred_opp, c. reflexivity. }
  rewrite E. split; reflexivity.
Qed.

Lemma round64_opp (q : Qc) : (0 < Qnum q)%Z -> round64 (- q)%Qc = fneg (round64 q).
Proof.
  intros P. unfold round64. destruct (Qnum_opp q) as [-> ->].
  rewrite Z.opp_involutive.
  assert (A : (0 <=? Qnum q)%Z = true) by (apply Z.leb_le; lia).
  assert (B : (0 <=? - Qnum q)%Z = false) by (apply Z.leb_gt; lia).
  rewrite A, B. reflexivity.
Qed.

Lemma of_units_binary64 (a b : Z) :
  (0 <= a)%Z -> (0 < b)%Z -> binary64 (of_units (nearest_units a b)).
Proof.
  intros A B. destruct (nearest_grid a b A B) as [N0 G].
  unfold of_units. destruct (2 ^ 2098 <=? nearest_units a b)%Z eqn:C; [exact I|].
  apply Z.leb_gt in C. apply round_grid; [lia|exact G].
Qed.

Lemma Qnum_zero (q : Qc) : Qnum q = 0%Z -> q = Q2Qc 0.
Proof.
  intros Z. apply Qc_is_canon. destruct q as [[n d] c]. cbn in *. subst n.
  unfold Qeq. reflexivity.
Qed.

Lemma Qcopp_zero (w : Qc) : Qnum w = 0%Z -> (- w)%Qc = w.
Proof.
  intros Z. apply Qc_is_canon. destruct (Qnum_opp w) as [N D].
  unfold Qeq. rewrite N, D, Z. reflexivity.
Qed.

Lemma round64_binary64 (q : Qc) : binary64 (round64 q).
Proof.
  unfold round64. destruct (0 <=? Qnum q)%Z eqn:S.
  - apply Z.leb_le in S. apply of_units_binary64; [exact S|apply Pos2Z.is_pos].
  - apply Z.leb_gt in S.
    destruct (nearest_grid (- Qnum q) (Zpos (Qden q)) ltac:(lia) (Pos2Z.is_pos _)) as [N0 G].
    unfold of_units. destruct (2 ^ 2098 <=? _)%Z eqn:C; [exact I|].
    apply Z.leb_gt in C. cbn [fneg binary64].
    set (N := nearest_units (- Qnum q) (Z.pos (Qden q))) in *.
    pose proof (round_grid N (conj N0 C) G) as RG.
    pose proof (units_nonneg N N0) as W.
    set (w := Q2Qc (N # units)%Q) in *.
    destruct (Z.eq_dec (Qnum w) 0) as [Z|NZ].
    + rewrite (Qcopp_zero w Z). exact RG.
    + rewrite (round64_opp w ltac:(lia)), RG. reflexivity.
Qed.

Lemma fmul_int_1 (x : pyfloat) : binary64 x -> fmul_int x 1 = x.
Proof.
  destruct x as [v|b|]; intros B; cbn [fmul_int].
  - replace (v * Q2Qc (inject_Z 1))%Qc with v; [exact B|].
    symmetry. apply Qcmult_1_r.
  - cbn. rewrite xorb_false_r. reflexivity.
  - reflexivity.
Qed.

Lemma Qc_nonneg_num (v : Qc) : (0 <= Qnum v)%Z -> (0 <= v)%Qc.
Proof.
  intros H. unfold Qcle, Qle. change (Qnum (this (Q2Qc 0))) with 0%Z.
  change (Zpos (Qden (this (Q2Qc 0)))) with 1%Z. lia.
Qed.

(** A number that is not negative rounds to a float that is not
    negative, or to infinity. *)
Lemma round64_nonneg (q : Qc) :
  (0 <= q)%Qc ->
  round64 q = Infinity false \/ exists v, round64 q = Finite v /\ (0 <= v)%Qc.
Proof.
  intros P. assert (S : (0 <= Qnum q)%Z).
  { unfold Qcle, Qle in P. cbn in P. lia. }
  unfold round64. apply Z.leb_le in S. rewrite S. apply Z.leb_le in S.
  destruct (nearest_grid (Qnum q) (Zpos (Qden q)) S (Pos2Z.is_pos _)) as [N0 _].
  unfold of_units. destruct (2 ^ 2098 <=? _)%Z; [left; reflexivity|].
  right. eexists. split; [reflexivity|].
  apply Qc_nonneg_num. apply units_nonneg. exact N0.
Qed.

(** Whole numbers below 2^53 are floats. *)
Lemma round64_int (z : Z) :
  (0 <= z < 2 ^ 53)%Z -> round64 (Q2Qc (inject_Z z)) = of_Z z.
Proof.
  intros [Z0 ZB]. unfold of_Z.
  assert (E : Q2Qc (inject_Z z) = Q2Qc (z * 2 ^ 1074 # units)%Q).
  { apply Q2Qc_eq_iff. unfold Qeq, inject_Z. cbn [Qnum Qden]. rewrite units_pow. ring. }
  rewrite E. apply round_grid.
  - split; [apply Z.mul_nonneg_nonneg; lia|].
    change (2 ^ 2098)%Z with (2 ^ 1024 * 2 ^ 1074)%Z.
    apply Z.mul_lt_mono_pos_r; [reflexivity|].
    eapply Z.lt_trans; [exact ZB|reflexivity].
  - apply grid_multiple; lia.
Qed.

(** ** The query parser on the examples of the page *)

(** C2.  [parse_query("Boardwalk C1-002")] returns the project, the
    building and the unit, and also an exact area of 2.0: the digits of
    the unit code are a bare number for the exact-area rule. *)
Theorem parse_query_boardwalk_unit :
  parse_query "Boardwalk C1-002"%string
  = Ok {| project := Some [("Boardwalk"%string : text)]; status := None;
          bedrooms := None; min_price := None; max_price := None;
          min_area := None; max_area := None;
          exact_area := Some (of_Z 2);
          building := Some ("C1"%string : text);
          unit_no := Some ("C1-002"%string : text) |}.
Proof.
  vm_compute. floats_eq.
Qed.

(** C1.  [parse_query] raises [ValueError] when a price lead-in is
    followed by dots or commas without a digit, or by a number with two
    decimal points: [float] is applied to the token unguarded. *)
Theorem parse_query_raises_on_price_token :
  parse_query "under ."%string = Raise ValueError
  /\ parse_query "over ,"%string = Raise ValueError
  /\ parse_query "Boardwalk under 5.5. thanks"%string = Raise ValueError.
Proof. repeat split; vm_compute; reflexivity. Qed.

(** ** Character classes *)

Ltac char_cases c := destruct c as [[] [] [] [] [] [] [] []]; vm_compute; try reflexivity; try discriminate.

Lemma digit_is_word (c : ascii) : is_digit c = true -> is_word c = true.
Proof. unfold is_word, is_digit. intros H. rewrite H. reflexivity. Qed.

Lemma not_word_not_digit (c : ascii) : is_word c = false -> is_digit c = false.
Proof.
  intros H. destruct (is_digit c) eqn:D; [|reflexivity].
  rewrite (digit_is_word _ D) in H. discriminate H.
Qed.

Lemma lower_char_word (c : ascii) : is_word (lower_char c) = is_word c.
Proof. char_cases c. Qed.

Lemma lower_char_digit (c : ascii) : is_digit (lower_char c) = is_digit c.
Proof. char_cases c. Qed.

(** ** The matcher *)

Lemma span_app (p : ascii -> bool) (s : text) : fst (span p s) ++ snd (span p s) = s.
Proof.
  induction s as [|c s IH]; simpl; [reflexivity|].
  destruct (p c); [|reflexivity].
  destruct (span p s) as [a b]. simpl in *. rewrite IH. reflexivity.
Qed.

Lemma span_all (p : ascii -> bool) (s : text) : forallb p (fst (span p s)) = true.
Proof.
  induction s as [|c s IH]; simpl; [reflexivity|].
  destruct (p c) eqn:P; [|reflexivity].
  destruct (span p s) as [a b]. simpl in *. rewrite P, IH. reflexivity.
Qed.

Lemma span_stop (p : ascii -> bool) (s : text) : starts_in p (snd (span p s)) = false.
Proof.
  induction s as [|c s IH]; simpl; [reflexivity|].
  destruct (p c) eqn:P; [|simpl; exact P].
  destruct (span p s) as [a b]. simpl in *. exact IH.
Qed.

Lemma span_prefix (p : ascii -> bool) (a b : text) :
  forallb p a = true -> starts_in p b = false -> span p (a ++ b) = (a, b).
Proof.
  intros A B. induction a as [|c a IH]; simpl in *.
  - destruct b as [|c b]; [reflexivity|]. simpl in *. rewrite B. reflexivity.
  - apply andb_true_iff in A. destruct A as [P A]. rewrite P, (IH A). reflexivity.
Qed.

Lemma firstn_prefix (a b : text) : firstn (List.length (a ++ b) - List.length b) (a ++ b) = a.
Proof.
  rewrite length_app, Nat.add_sub. rewrite firstn_app, Nat.sub_diag, firstn_all.
  simpl. apply app_nil_r.
Qed.

Lemma last_char_cons (prev : option ascii) (c : ascii) (d : text) :
  last_char prev (c :: d) = last_char (Some c) d.
Proof. reflexivity. Qed.

Lemma last_char_in (p : ascii -> bool) (d : text) (c : ascii) :
  forallb p d = true -> p c = true ->
  exists c', last_char (Some c) d = Some c' /\ p c' = true.
Proof.
  revert c. induction d as [|x d IH]; intros c A P; simpl in *.
  - exists c. auto.
  - apply andb_true_iff in A. destruct A as [Px A]. apply (IH x A Px).
Qed.

(** A greedy repetition whose continuation cannot succeed between two
    characters of the class takes the whole run of the class, or fails. *)
Lemma rep_maximal (R : Type) (p : ascii -> bool) (k : cont R) (cs : captures) (s : text) :
  (forall c c' s', p c = true -> p c' = true -> k (Some c) (c' :: s') cs = None) ->
  forall lo hi prev,
    (0 < lo \/ exists c0, prev = Some c0 /\ p c0 = true) ->
    rep p lo hi prev s cs k
    = if (lo <=? List.length (fst (span p s))) && within hi (List.length (fst (span p s)))
      then k (last_char prev (fst (span p s))) (snd (span p s)) cs
      else None.
Proof.
  intros K. induction s as [|c s IH]; intros lo hi prev H.
  - simpl. destruct hi as [[|n]|]; destruct lo; reflexivity.
  - cbn [rep span].
    destruct (p c) eqn:P.
    + destruct (span p s) as [d r] eqn:SP.
      assert (STOP : match lo with O => k prev (c :: s) cs | S _ => None end = None).
      { destruct lo; [|reflexivity]. destruct H as [H|(c0 & E & P0)]; [lia|].
        subst prev. apply K; assumption. }
      destruct hi as [[|n]|].
      * rewrite STOP. cbn [fst snd List.length within]. 
        replace (S (List.length d) <=? 0) with false by reflexivity.
        rewrite andb_false_r. reflexivity.
      * cbn [option_map]. rewrite IH by (right; eauto).
        cbn [fst snd List.length within Nat.pred last_char fold_left].
        replace (Nat.pred lo <=? List.length d) with (lo <=? S (List.length d))
          by (destruct lo; reflexivity).
        change (S (List.length d) <=? S n) with (List.length d <=? n).
        unfold first_of. rewrite STOP.
        destruct ((lo <=? S (List.length d)) && (List.length d <=? n)); [|reflexivity].
        destruct (k _ r cs); reflexivity.
      * cbn [option_map]. rewrite IH by (right; eauto).
        cbn [fst snd List.length within Nat.pred last_char fold_left].
        replace (Nat.pred lo <=? List.length d) with (lo <=? S (List.length d))
          by (destruct lo; reflexivity).
        unfold first_of. rewrite STOP.
        destruct ((lo <=? S (List.length d)) && true); [|reflexivity].
        destruct (k _ r cs); reflexivity.
    + cbn [fst snd List.length last_char fold_left].
      destruct hi as [[|n]|]; destruct lo; reflexivity.
Qed.

(** ** The exact-area pattern finds the words of two to four digits *)

Lemma span_nil_of_stop (p : ascii -> bool) (s : text) :
  starts_in p s = false -> span p s = ([], s).
Proof. intros H. apply (span_prefix p [] s); [reflexivity|exact H]. Qed.

Lemma forallb_digit_word (d : text) : forallb is_digit d = true -> forallb is_word d = true.
Proof.
  induction d as [|c d IH]; simpl; [reflexivity|].
  intros H. apply andb_true_iff in H. destruct H as [D H].
  rewrite (digit_is_word _ D), (IH H). reflexivity.
Qed.

Lemma starts_word_digit (s : text) : starts_in is_word s = false -> starts_in is_digit s = false.
Proof. destruct s as [|c s]; simpl; [reflexivity|apply not_word_not_digit]. Qed.

(** The match of [\b(\d{2,4})\b] at a position, in closed form: the run
    of digits at the position, when it is a whole word of 2 to 4 digits. *)
Lemma match_plain_number (prev : option ascii) (s : text) :
  match_here re_plain_number prev s
  = if negb (word_before prev)
       && ((2 <=? List.length (fst (span is_digit s)))
           && (List.length (fst (span is_digit s)) <=? 4)
           && negb (word_after (snd (span is_digit s))))
    then Some {| groups := [(1, fst (span is_digit s))]; rest := snd (span is_digit s) |}
    else None.
Proof.
  unfold match_here, re_plain_number. cbn [run].
  pose proof (span_app is_digit s) as APP.
  pose proof (span_all is_digit s) as ALL.
  destruct (span is_digit s) as [d r] eqn:SP. cbn [fst snd] in *.
  destruct d as [|c d].
  - cbn [List.length Nat.leb andb]. rewrite andb_false_r.
    destruct (xorb (word_before prev) (word_after s)); [|reflexivity].
    rewrite rep_maximal.
    + rewrite SP. reflexivity.
    + intros c c' s' D D'. cbn. rewrite (digit_is_word _ D), (digit_is_word _ D'). reflexivity.
    + left. lia.
  - subst s. simpl in ALL. apply andb_true_iff in ALL. destruct ALL as [D ALL].
    cbn [word_after app]. rewrite (digit_is_word _ D).
    replace (xorb (word_before prev) true) with (negb (word_before prev))
      by (destruct (word_before prev); reflexivity).
    destruct (word_before prev); cbn [negb andb]; [reflexivity|].
    change (c :: d ++ r) with ((c :: d) ++ r) in *.
    rewrite rep_maximal.
    + rewrite SP. cbn [fst snd].
      destruct ((2 <=? List.length (c :: d)) && within (Some 4) (List.length (c :: d))) eqn:B;
        cbn [within] in B; rewrite B; [|reflexivity].
      destruct (last_char_in is_digit d c ALL D) as (c' & LC & D').
      rewrite last_char_cons, LC. cbn [word_before]. rewrite (digit_is_word _ D').
      rewrite firstn_prefix.
      destruct (word_after r); reflexivity.
    + intros x x' s' X X'. cbn. rewrite (digit_is_word _ X), (digit_is_word _ X'). reflexivity.
    + left. lia.
Qed.

Lemma words_cons (c : ascii) (s : text) :
  words (c :: s)
  = if is_word c
    then match words s with
         | w :: ws => if word_after s then (c :: w) :: ws else [c] :: w :: ws
         | [] => [[c]]
         end
    else words s.
Proof. reflexivity. Qed.

Lemma words_after_word (c : ascii) (s : text) :
  is_word c = true ->
  words (c :: s) = (c :: fst (span is_word s)) :: words (snd (span is_word s)).
Proof.
  revert c. induction s as [|x s IH]; intros c W.
  - simpl. rewrite W. reflexivity.
  - rewrite words_cons, W. cbn [word_after span].
    destruct (is_word x) eqn:X.
    + rewrite (IH x X). destruct (span is_word s) as [w r]. reflexivity.
    + cbn [fst snd]. rewrite (words_cons x s), X.
      destruct (words s); reflexivity.
Qed.

Lemma words_after_other (c : ascii) (s : text) : is_word c = false -> words (c :: s) = words s.
Proof. intros W. simpl. rewrite W. reflexivity. Qed.

Lemma findall_skip (r : regex) (a b : text) (prev : option ascii) :
  findall_from r prev (a ++ b) (List.length a) = findall_from r (last_char prev a) b 0.
Proof.
  revert prev. induction a as [|c a IH]; intros prev; [reflexivity|].
  cbn [app List.length findall_from]. rewrite IH. reflexivity.
Qed.

Lemma digit_words_after_other (c : ascii) (s : text) :
  is_word c = false -> digit_words (c :: s) = digit_words s.
Proof. intros W. unfold digit_words. rewrite (words_after_other _ _ W). reflexivity. Qed.

Lemma findall_plain_number_bounded (n : nat) :
  forall s, List.length s <= n ->
  forall prev,
    (word_before prev = false ->
     findall_from re_plain_number prev s 0 = digit_words s)
    /\ (word_before prev = true ->
        findall_from re_plain_number prev s 0 = digit_words (snd (span is_word s))).
Proof.
  induction n as [|n IH]; intros s L prev.
  - destruct s; [|simpl in L; lia].
    split; intros W; cbn [findall_from]; rewrite match_plain_number;
      cbn; rewrite andb_false_r; reflexivity.
  - destruct s as [|c s]; [apply (IH [] (Nat.le_0_l n) prev)|].
    simpl in L. assert (Ls : List.length s <= n) by lia.
    split; intros W; cbn [findall_from]; rewrite match_plain_number, W; cbn [negb andb].
    + (* at the start of a word, or between words *)
      destruct (is_word c) eqn:C.
      * pose proof (span_app is_digit (c :: s)) as APP.
        pose proof (span_all is_digit (c :: s)) as ALL.
        pose proof (span_stop is_digit (c :: s)) as STOP.
        pose proof (span_stop is_word s) as WSTOP.
        unfold digit_words. rewrite (words_after_word c s C).
        fold (digit_words (snd (span is_word s))).
        destruct (span is_digit (c :: s)) as [d r] eqn:SD. cbn [fst snd] in *.
        destruct ((2 <=? List.length d) && (List.length d <=? 4) && negb (word_after r)) eqn:M.
        -- apply andb_true_iff in M. destruct M as [B NW].
           apply negb_true_iff in NW.
           assert (SW : span is_word (c :: s) = (d, r)).
           { rewrite <- APP. apply span_prefix; [apply forallb_digit_word; exact ALL|exact NW]. }
           cbn [span] in SW. rewrite C in SW.
           destruct (span is_word s) as [w r'] eqn:SWs. inversion SW; subst d r'.
           cbn [fst snd groups rest group Nat.eqb filter].
           unfold is_digit_word. rewrite ALL. cbn [andb]. rewrite B.
           f_equal.
           cbn [app] in APP. inversion APP as [APPs]. subst s.
           cbn [List.length]. rewrite length_app.
           replace (Nat.pred (S (List.length w + List.length r) - List.length r))
             with (List.length w) by lia.
           rewrite findall_skip.
           simpl in ALL. apply andb_true_iff in ALL. destruct ALL as [Dc ALLw].
           destruct (last_char_in is_digit w c ALLw Dc) as (c' & LC & D').
           assert (Lr : List.length r <= n).
           { rewrite length_app in Ls. lia. }
           rewrite (proj2 (IH r Lr (last_char (Some c) w)));
             [|rewrite LC; simpl; apply digit_is_word; exact D'].
           rewrite (span_nil_of_stop is_word r NW). reflexivity.
        -- assert (NB : is_digit_word (c :: fst (span is_word s)) = false).
           { destruct (is_digit_word (c :: fst (span is_word s))) eqn:OK; [|reflexivity].
             exfalso. unfold is_digit_word in OK.
             apply andb_true_iff in OK. destruct OK as [OK B4].
             apply andb_true_iff in OK. destruct OK as [DG B2].
             assert (SD' : span is_digit (c :: s) = (c :: fst (span is_word s), snd (span is_word s))).
             { replace (c :: s) with ((c :: fst (span is_word s)) ++ snd (span is_word s))
                 by (cbn [app]; rewrite span_app; reflexivity).
               apply span_prefix; [exact DG|].
               apply starts_word_digit. exact WSTOP. }
             rewrite SD in SD'. inversion SD'; subst d r.
             rewrite B2, B4 in M. cbn [andb] in M.
             unfold word_after in M. unfold starts_in in WSTOP.
             rewrite WSTOP in M. discriminate M. }
           cbn [filter]. rewrite NB.
           apply (proj2 (IH s Ls (Some c))). exact C.
      * rewrite (digit_words_after_other _ _ C).
        pose proof (not_word_not_digit _ C) as D.
        cbn [span]. rewrite D. cbn [fst snd List.length Nat.leb andb].
        apply (proj1 (IH s Ls (Some c))). exact C.
    + (* inside a word *)
      destruct (is_word c) eqn:C.
      * cbn [span]. rewrite C. destruct (span is_word s) as [w r] eqn:SW. cbn [snd].
        rewrite (proj2 (IH s Ls (Some c)) C), SW. reflexivity.
      * cbn [span]. rewrite C. cbn [snd].
        rewrite (digit_words_after_other _ _ C).
        apply (proj1 (IH s Ls (Some c))). exact C.
Qed.

(** [re.findall(r"\b(\d{2,4})\b", s)] is the list of the words of two
    to four digits of [s]. *)
Lemma findall_plain_number (s : text) : re_findall re_plain_number s = digit_words s.
Proof.
  unfold re_findall.
  apply (proj1 (findall_plain_number_bounded (List.length s) s (Nat.le_refl _) None)).
  reflexivity.
Qed.

(** ** [float] on plain numbers *)

Lemma lstrip_none (p : ascii -> bool) (s : text) :
  forallb (fun c => negb (p c)) s = true -> lstrip p s = s.
Proof.
  destruct s as [|c s]; [reflexivity|]. simpl. intros H.
  apply andb_true_iff in H. destruct H as [H _]. apply negb_true_iff in H.
  rewrite H. reflexivity.
Qed.

Lemma forallb_rev (p : ascii -> bool) (s : text) : forallb p (rev s) = forallb p s.
Proof.
  induction s as [|c s IH]; [reflexivity|]. simpl.
  rewrite forallb_app, IH. simpl. rewrite andb_true_r. apply andb_comm.
Qed.

Lemma rstrip_none (p : ascii -> bool) (s : text) :
  forallb (fun c => negb (p c)) s = true -> rstrip p s = s.
Proof.
  intros H. unfold rstrip. rewrite lstrip_none by (rewrite forallb_rev; exact H).
  apply rev_involutive.
Qed.

Lemma forallb_impl (p q : ascii -> bool) (s : text) :
  (forall c, p c = true -> q c = true) -> forallb p s = true -> forallb q s = true.
Proof.
  intros I. induction s as [|c s IH]; [reflexivity|]. simpl. intros H.
  apply andb_true_iff in H. destruct H as [P H]. rewrite (I c P), (IH H). reflexivity.
Qed.

Lemma plain_facts (c : ascii) :
  is_plain c = true ->
  is_float_space c = false /\ is_space c = false /\ is_underscore c = false
  /\ is_sign c = false /\ is_comma c = false /\ lower_char c = c /\ is_mk c = false.
Proof. unfold is_plain. char_cases c; repeat split; reflexivity. Qed.

Lemma underscores_ok_plain (s : text) (prev : option ascii) :
  forallb is_plain s = true ->
  match prev with Some p => is_underscore p = false | None => True end ->
  underscores_ok prev s = true.
Proof.
  revert prev. induction s as [|c s IH]; intros prev H P; simpl.
  - destruct prev as [p|]; [rewrite P|]; reflexivity.
  - simpl in H. apply andb_true_iff in H. destruct H as [Pc H].
    destruct (plain_facts c Pc) as (_ & _ & U & _).
    rewrite U. rewrite (IH (Some c) H U), andb_true_r.
    destruct prev as [p|]; [rewrite P|]; reflexivity.
Qed.

Lemma filter_all_true (p : ascii -> bool) (s : text) : forallb p s = true -> filter p s = s.
Proof.
  induction s as [|c s IH]; [reflexivity|]. simpl. intros H.
  apply andb_true_iff in H. destruct H as [P H]. rewrite P, (IH H). reflexivity.
Qed.

Lemma lower_plain (s : text) : forallb is_plain s = true -> lower s = s.
Proof.
  induction s as [|c s IH]; [reflexivity|]. simpl. intros H.
  apply andb_true_iff in H. destruct H as [P H].
  destruct (plain_facts c P) as (_ & _ & _ & _ & _ & L & _).
  change (lower (c :: s)) with (lower_char c :: lower s).
  rewrite L, (IH H). reflexivity.
Qed.

Lemma text_eqb_head (c : ascii) (s : text) (d : ascii) (t : text) :
  c <> d -> text_eqb (c :: s) (d :: t) = false.
Proof.
  intros N. destruct (text_eqb (c :: s) (d :: t)) eqn:E; [|reflexivity].
  apply text_eqb_eq in E. inversion E. contradiction.
Qed.

Lemma plain_not_letter (c : ascii) :
  is_plain c = true -> c <> "i"%char /\ c <> "n"%char.
Proof. unfold is_plain. char_cases c; split; discriminate. Qed.

(** [float] on text made of digits and points: no stripping, no
    underscore, no sign, no special value; the number is read as it is. *)
Lemma py_float_plain (s : text) :
  forallb is_plain s = true ->
  py_float s = match unsigned_number s with
               | Some q => Ok (round64 q)
               | None => Raise ValueError
               end.
Proof.
  intros P. unfold py_float.
  assert (NS : forallb (fun c => negb (is_float_space c)) s = true).
  { apply (forallb_impl is_plain); [|exact P]. intros c Pc.
    destruct (plain_facts c Pc) as (F & _). rewrite F. reflexivity. }
  assert (NU : forallb (fun c => negb (is_underscore c)) s = true).
  { apply (forallb_impl is_plain); [|exact P]. intros c Pc.
    destruct (plain_facts c Pc) as (_ & _ & U & _). rewrite U. reflexivity. }
  rewrite (lstrip_none _ _ NS), (rstrip_none _ _ NS).
  rewrite (underscores_ok_plain s None P I). cbn [negb].
  rewrite (filter_all_true _ _ NU).
  destruct s as [|c s]; [reflexivity|].
  simpl in P. apply andb_true_iff in P. destruct P as [Pc P].
  destruct (plain_facts c Pc) as (_ & _ & _ & SG & _ & LC & _).
  destruct (plain_not_letter c Pc) as [Ni Nn].
  cbn [take_sign]. rewrite SG. cbn [lower map]. rewrite LC.
  unfold text_of_string. cbn [list_ascii_of_string].
  rewrite !(text_eqb_head c _ _ _ Ni), (text_eqb_head c _ _ _ Nn). reflexivity.
Qed.

Lemma digits_plain (ds : text) : forallb is_digit ds = true -> forallb is_plain ds = true.
Proof.
  apply forallb_impl. intros c D. unfold is_plain. rewrite D. reflexivity.
Qed.

Lemma span_digits_all (ds : text) : forallb is_digit ds = true -> span is_digit ds = (ds, []).
Proof.
  intros D. rewrite <- (app_nil_r ds) at 1. apply span_prefix; [exact D|reflexivity].
Qed.

(** [float] on a run of digits is its value. *)
Lemma py_float_digits (ds : text) :
  forallb is_digit ds = true -> ds <> [] ->
  py_float ds = Ok (round64 (decimal (digits_val ds) 0)).
Proof.
  intros D N. rewrite (py_float_plain ds (digits_plain ds D)).
  unfold unsigned_number. rewrite (span_digits_all ds D). rewrite app_nil_r.
  destruct ds as [|c ds]; [contradiction|]. reflexivity.
Qed.

(** [float] on [digits.digits]. *)
Lemma py_float_decimal (ip fp : text) :
  forallb is_digit ip = true -> ip <> [] -> forallb is_digit fp = true ->
  py_float (ip ++ "."%char :: fp)
  = Ok (round64 (decimal (digits_val (ip ++ fp)) (- Z.of_nat (List.length fp)))).
Proof.
  intros DI N DF.
  assert (P : forallb is_plain (ip ++ "."%char :: fp) = true).
  { rewrite forallb_app. rewrite (digits_plain ip DI). simpl.
    rewrite (digits_plain fp DF). reflexivity. }
  rewrite (py_float_plain _ P). unfold unsigned_number.
  rewrite (span_prefix is_digit ip ("."%char :: fp) DI eq_refl).
  change (is_dot "."%char) with true. cbn iota.
  rewrite (span_digits_all fp DF).
  destruct (ip ++ fp) as [|c r] eqn:E.
  - destruct ip; [contradiction|discriminate E].
  - reflexivity.
Qed.

Lemma decimal_0 (m : Z) : decimal m 0 = Q2Qc (inject_Z m).
Proof.
  unfold decimal. apply Q2Qc_eq_iff. simpl.
  rewrite Qmult_1_r. reflexivity.
Qed.

(** ** The exact-area fallback *)

Lemma Ok_inj (A : Type) (a b : A) : Ok a = Ok b -> a = b.
Proof. intros H. injection H as H. exact H. Qed.

Lemma rbind_ok (A B : Type) (m : result A) (k : A -> result B) (b : B) :
  rbind m k = Ok b -> exists a, m = Ok a /\ k a = Ok b.
Proof. destruct m as [a|e]; simpl; [eauto|discriminate]. Qed.

(** One optional step of the parser leaves the intent as it is or sets
    one key. *)
Lemma stage_cases (X : Type) (o : option X) (val : X -> result pyfloat)
      (set : pyfloat -> FilterIntent -> FilterIntent) (f f' : FilterIntent) :
  match o with
  | Some m => rbind (val m) (fun v => Ok (set v f))
  | None => Ok f
  end = Ok f' ->
  f' = f \/ exists m v, o = Some m /\ val m = Ok v /\ f' = set v f.
Proof.
  destruct o as [m|]; intros H.
  - apply rbind_ok in H. destruct H as (v & V & H). inversion H. right. eauto.
  - inversion H. left. reflexivity.
Qed.

Lemma word_after_lower (s : text) : word_after (lower s) = word_after s.
Proof. destruct s as [|c s]; [reflexivity|]. simpl. apply lower_char_word. Qed.

Lemma words_lower (s : text) : words (lower s) = map lower (words s).
Proof.
  induction s as [|c s IH]; [reflexivity|].
  change (lower (c :: s)) with (lower_char c :: lower s).
  rewrite !words_cons, lower_char_word, IH, word_after_lower.
  destruct (is_word c); [|reflexivity].
  destruct (words s) as [|w ws]; [reflexivity|]. simpl.
  destruct (word_after s); reflexivity.
Qed.

Lemma lower_digits (w : text) : forallb is_digit w = true -> lower w = w.
Proof. intros D. apply lower_plain. apply digits_plain. exact D. Qed.

Lemma forallb_digit_lower (w : text) : forallb is_digit (lower w) = forallb is_digit w.
Proof.
  induction w as [|c w IH]; [reflexivity|].
  change (lower (c :: w)) with (lower_char c :: lower w). simpl.
  rewrite lower_char_digit, IH. reflexivity.
Qed.

Lemma digit_words_lower (s : text) : digit_words (lower s) = digit_words s.
Proof.
  unfold digit_words. rewrite words_lower.
  induction (words s) as [|w ws IH]; [reflexivity|]. cbn [map filter]. rewrite IH.
  assert (E : is_digit_word (lower w) = is_digit_word w).
  { unfold is_digit_word. rewrite forallb_digit_lower. unfold lower.
    rewrite length_map. reflexivity. }
  rewrite E. destruct (is_digit_word w) eqn:B; [|reflexivity].
  unfold is_digit_word in B. apply andb_true_iff in B. destruct B as [B _].
  apply andb_true_iff in B. destruct B as [D _].
  rewrite (lower_digits w D). reflexivity.
Qed.

Lemma digit_word_first (s : text) (n : text) (rest : list text) :
  digit_words s = n :: rest -> forallb is_digit n = true /\ n <> [].
Proof.
  intros E. assert (I : In n (digit_words s)) by (rewrite E; left; reflexivity).
  unfold digit_words in I. apply filter_In in I. destruct I as [_ B].
  unfold is_digit_word in B. apply andb_true_iff in B. destruct B as [B _].
  apply andb_true_iff in B. destruct B as [D L]. split; [exact D|].
  intros Z. subst n. discriminate L.
Qed.

Lemma digit_val_range (c : ascii) : is_digit c = true -> (0 <= digit_val c <= 9)%Z.
Proof. char_cases c; intros _; split; discriminate. Qed.

Lemma digits_val_snoc (ds : text) (c : ascii) :
  digits_val (ds ++ [c]) = (digits_val ds * 10 + digit_val c)%Z.
Proof. unfold digits_val. rewrite fold_left_app. reflexivity. Qed.

Lemma digits_val_range (ds : text) :
  forallb is_digit ds = true -> (0 <= digits_val ds < 10 ^ Z.of_nat (List.length ds))%Z.
Proof.
  induction ds as [|c ds IH] using rev_ind; intros D; [cbn; lia|].
  rewrite forallb_app in D. apply andb_true_iff in D. destruct D as [D C].
  cbn in C. rewrite andb_true_r in C.
  rewrite digits_val_snoc, length_app. cbn [List.length].
  replace (Z.of_nat (List.length ds + 1)) with (Z.of_nat (List.length ds) + 1)%Z by lia.
  rewrite Z.pow_add_r by lia. pose proof (digit_val_range c C). specialize (IH D). lia.
Qed.

(** [float] on a word of two to four digits is its value. *)
Lemma py_float_digit_word (s : text) (n : text) :
  In n (digit_words s) -> py_float n = Ok (of_Z (digits_val n)).
Proof.
  intros I. unfold digit_words in I. apply filter_In in I. destruct I as [_ B].
  unfold is_digit_word in B. apply andb_true_iff in B. destruct B as [B L4].
  apply andb_true_iff in B. destruct B as [D L2].
  apply Nat.leb_le in L2, L4.
  assert (NE : n <> []) by (intros Z; subst n; cbn in L2; lia).
  rewrite (py_float_digits n D NE), decimal_0. f_equal. apply round64_int.
  pose proof (digits_val_range n D) as R. split; [lia|].
  eapply Z.lt_le_trans; [apply R|].
  eapply Z.le_trans; [apply (Z.pow_le_mono_r 10 _ 4); lia|]. cbn. lia.
Qed.

(** X22.  When [parse_query] returns, the intent has an exact-area
    constraint exactly when the text has a word of two to four digits (a
    run of two to four digits with no letter, digit or underscore next
    to it) and no bedrooms, minimum-price or maximum-price constraint was
    extracted; the constraint is then the value of the first such word. *)
Theorem exact_area_fallback (q : text) (f : FilterIntent) :
  parse_query q = Ok f ->
  (exact_area f <> None <->
   digit_words q <> [] /\ bedrooms f = None /\ min_price f = None /\ max_price f = None)
  /\ (forall v, exact_area f = Some v ->
                exists n rest, digit_words q = n :: rest /\ v = of_Z (digits_val n)).
Proof.
  intros H. unfold parse_query in H. cbv zeta in H.
  rewrite findall_plain_number, digit_words_lower in H.
  match type of H with
  | context [match re_search re_max_price _ with
             | Some m => rbind (price_of_match m) (fun v => Ok (set_max_price v ?F))
             | None => _ end] => set (f5 := F) in H
  end.
  assert (F5 : exact_area f5 = None).
  { subst f5.
    repeat match goal with
           | |- context [if ?c then _ else _] => destruct c
           | |- context [match re_search ?r ?s with _ => _ end] => destruct (re_search r s)
           end; reflexivity. }
  clearbody f5.
  apply rbind_ok in H. destruct H as (f6 & S6 & H).
  apply rbind_ok in H. destruct H as (f7 & S7 & H).
  apply rbind_ok in H. destruct H as (f8 & S8 & H).
  apply rbind_ok in H. destruct H as (f9 & S9 & H).
  apply rbind_ok in H. destruct H as (f10 & S10 & H).
  assert (F9 : exact_area f9 = None).
  { apply stage_cases in S6, S7, S8, S9.
    destruct S6 as [->|(? & ? & _ & _ & ->)]; destruct S7 as [->|(? & ? & _ & _ & ->)];
      destruct S8 as [->|(? & ? & _ & _ & ->)]; destruct S9 as [->|(? & ? & _ & _ & ->)];
      exact F5. }
  clear S6 S7 S8 S9 F5 f5 f6 f7 f8.
  assert (FF : bedrooms f = bedrooms f10 /\ min_price f = min_price f10
               /\ max_price f = max_price f10 /\ exact_area f = exact_area f10).
  { inversion H.
    destruct (re_search re_unit (lower q)); destruct (re_search re_building (lower q));
      repeat split; reflexivity. }
  destruct FF as (-> & -> & -> & ->). clear H.
  destruct (digit_words q) as [|n rest] eqn:BN.
  - inversion S10. subst f10. rewrite F9. split.
    + split; [intros N; contradiction|intros [N _]; contradiction].
    + intros v E. discriminate E.
  - destruct (digit_word_first q n rest BN) as [D NE].
    destruct (bedrooms f9) eqn:B9; [|destruct (min_price f9) eqn:MI;
                                      [|destruct (max_price f9) eqn:MA]].
    + inversion S10. subst f10. rewrite F9, B9. split.
      * split; [intros N; contradiction|intros (_ & E & _); discriminate E].
      * intros v E. discriminate E.
    + inversion S10. subst f10. rewrite F9, MI. split.
      * split; [intros N; contradiction|intros (_ & _ & E & _); discriminate E].
      * intros v E. discriminate E.
    + inversion S10. subst f10. rewrite F9, MA. split.
      * split; [intros N; contradiction|intros (_ & _ & _ & E); discriminate E].
      * intros v E. discriminate E.
    + rewrite (py_float_digit_word q n) in S10 by (rewrite BN; left; reflexivity).
      cbn [rbind] in S10. inversion S10. subst f10.
      cbn [exact_area bedrooms min_price max_price set_exact_area]. rewrite B9, MI, MA. split.
      * split; [intros _; repeat split; discriminate|intros _; discriminate].
      * intros v E. inversion E. exists n, rest. split; reflexivity.
Qed.

Lemma exact_area_fallback_witness :
  exists f, parse_query "C1 180"%string = Ok f
            /\ building f = Some ("C1"%string : text)
            /\ exists n rest, digit_words "C1 180"%string = n :: rest
                              /\ of_Z 180 = of_Z (digits_val n).
Proof.
  eexists. split; [vm_compute; reflexivity|]. split; [reflexivity|].
  refine (proj2 (exact_area_fallback "C1 180"%string _ _) (of_Z 180) _).
  - vm_compute. reflexivity.
  - cbn [exact_area]. floats_eq.
Defined.

(** C9.  The exact-area rule reads digits that are part of another
    token: the digits after the hyphen of a unit code come before the
    bare number 180 of the text and give the exact area 2.0; and where a
    bound pattern meets a token without digits, [parse_query] raises and
    gives no exact area for the bare number of the text. *)
Theorem exact_area_of_unit_code :
  (exists f, parse_query "C1-002 180"%string = Ok f /\ exact_area f = Some (of_Z 2))
  /\ parse_query "area min . 180"%string = Raise ValueError.
Proof.
  split; [|vm_compute; reflexivity].
  eexists. split; [vm_compute; reflexivity|]. cbn [exact_area]. floats_eq.
Qed.

(** ** The numeric token parser *)

Lemma digit_facts (c : ascii) :
  is_digit c = true -> is_dot c = false /\ is_mk c = false.
Proof. char_cases c; split; reflexivity. Qed.

Lemma number_suffix_run (s g1 r : text) (prev : option ascii) (cs : captures) :
  firstn (List.length s - List.length r) s = g1 ->
  first_of
    match r with
    | [] => None
    | c0 :: s1 =>
      if is_mk c0
      then accept_at_end (Some c0) s1
             ((2, firstn (List.length r - List.length s1) r)
                :: (1, firstn (List.length s - List.length r) s) :: cs)
      else None
    end
    (accept_at_end prev r ((1, firstn (List.length s - List.length r) s) :: cs))
  = match number_suffix g1 r with
    | Some m => Some {| groups := groups m ++ cs; rest := [] |}
    | None => None
    end.
Proof.
  intros G. rewrite G. destruct r as [|c0 [|c1 r]]; cbn.
  - reflexivity.
  - destruct (is_mk c0); reflexivity.
  - destruct (is_mk c0); reflexivity.
Qed.

(** [re.fullmatch] of the number pattern, in closed form. *)
Lemma fullmatch_number (s : text) : re_fullmatch re_number s = number_match s.
Proof.
  unfold number_match.
  pose proof (span_app is_digit s) as APP.
  destruct (span is_digit s) as [ip r1] eqn:S1. cbn [fst snd] in APP. subst s.
  unfold re_fullmatch, re_number, Opt, Plus. cbn [run].
  rewrite rep_maximal; [| |left; lia].
  2:{ intros c c' s' D D'. cbn. destruct (digit_facts c' D') as [ND NM].
      rewrite ND, NM. reflexivity. }
  rewrite S1. cbn [fst snd within]. rewrite andb_true_r.
  destruct ip as [|i ip]; [reflexivity|].
  cbn [List.length Nat.leb].
  set (s := (i :: ip) ++ r1).
  destruct r1 as [|c r2].
  - cbn [first_of].
    refine (eq_trans (number_suffix_run s (i :: ip) [] (last_char None (i :: ip)) [] _) _).
    + subst s. apply firstn_prefix.
    + reflexivity.
  - destruct (is_dot c) eqn:DOT.
    + pose proof (span_app is_digit r2) as APP2.
      destruct (span is_digit r2) as [fp r3] eqn:S2. cbn [fst snd] in APP2. subst r2.
      assert (NM : is_mk c = false) by (revert DOT; char_cases c).
      rewrite rep_maximal; [| |left; lia].
      2:{ intros x x' s' D D'. cbn. destruct (digit_facts x' D') as [ND NM'].
          rewrite NM'. reflexivity. }
      rewrite S2. cbn [fst snd within]. rewrite andb_true_r.
      destruct fp as [|j fp].
      * cbn [List.length Nat.leb first_of]. rewrite NM. reflexivity.
      * cbn [List.length Nat.leb].
        match goal with
        | |- first_of ?A ?B = _ =>
          assert (EA : A = match number_suffix ((i :: ip) ++ c :: j :: fp) r3 with
                           | Some m => Some {| groups := groups m ++ []; rest := [] |}
                           | None => None
                           end)
        end.
        { refine (number_suffix_run s ((i :: ip) ++ c :: j :: fp) r3
                                      (last_char (Some c) (j :: fp)) [] _).
          subst s. change ((i :: ip) ++ c :: (j :: fp) ++ r3)
            with ((i :: ip) ++ (c :: j :: fp) ++ r3).
          rewrite app_assoc. apply firstn_prefix. }
        rewrite EA. clear EA.
        destruct (number_suffix ((i :: ip) ++ c :: j :: fp) r3) as [m|] eqn:NS.
        -- cbn [first_of]. f_equal.
           destruct r3 as [|c0 [|c1 r3]]; cbn in NS; try discriminate NS.
           ++ inversion NS. reflexivity.
           ++ destruct (is_mk c0); inversion NS. reflexivity.
        -- cbn [first_of]. rewrite NM. reflexivity.
    + cbn [first_of].
      refine (eq_trans (number_suffix_run s (i :: ip) (c :: r2) (last_char None (i :: ip)) [] _) _).
      * subst s. apply firstn_prefix.
      * destruct (number_suffix (i :: ip) (c :: r2)) as [m|] eqn:NS; [|reflexivity].
        f_equal. destruct r2 as [|c1 r2]; cbn in NS; try discriminate NS.
        destruct (is_mk c); inversion NS. reflexivity.
Qed.

Lemma is_dot_eq (c : ascii) : is_dot c = true -> c = "."%char.
Proof. char_cases c. Qed.

Lemma is_mk_cases (c : ascii) :
  is_mk c = true -> [c] = ("k"%string : text) \/ [c] = ("m"%string : text).
Proof. char_cases c; intros _; first [left; reflexivity|right; reflexivity]. Qed.

Lemma suffix_cases (u : text) (k : Z) :
  suffix_multiplier u = Some k ->
  (u = [] /\ k = 1%Z) \/ (u = ("k"%string : text) /\ k = 1000%Z)
  \/ (u = ("m"%string : text) /\ k = 1000000%Z).
Proof.
  unfold suffix_multiplier. destruct u as [|c u]; cbn [is_empty].
  - intros H. inversion H. auto.
  - destruct (text_eqb (c :: u) "k"%string) eqn:K.
    + apply text_eqb_eq in K. intros H. inversion H. auto.
    + destruct (text_eqb (c :: u) "m"%string) eqn:Mm; [|discriminate].
      apply text_eqb_eq in Mm. intros H. inversion H. auto.
Qed.

(** What the number pattern accepts is a number with a suffix. *)
Lemma number_match_sound (s : text) (m : rmatch) :
  number_match s = Some m ->
  exists ip fp u k,
    forallb is_digit ip = true /\ ip <> [] /\ forallb is_digit fp = true
    /\ suffix_multiplier u = Some k
    /\ s = number_string ip fp ++ u
    /\ group_or_empty 1 m = number_string ip fp
    /\ group_or_empty 2 m = u.
Proof.
  unfold number_match.
  pose proof (span_app is_digit s) as APP. pose proof (span_all is_digit s) as ALL.
  destruct (span is_digit s) as [ip r1]. cbn [fst snd] in *.
  destruct ip as [|i ip]; [discriminate|].
  assert (SUF : forall g r, number_suffix g r = Some m ->
                            exists u k, suffix_multiplier u = Some k /\ r = u
                                        /\ group_or_empty 1 m = g /\ group_or_empty 2 m = u).
  { intros g r H. destruct r as [|c [|c' r]]; cbn in H; [| |discriminate H].
    - inversion H. exists [], 1%Z. repeat split.
    - destruct (is_mk c) eqn:MK; [|discriminate H]. inversion H.
      destruct (is_mk_cases c MK) as [E|E]; rewrite E.
      + exists ("k"%string : text), 1000%Z. repeat split.
      + exists ("m"%string : text), 1000000%Z. repeat split. }
  destruct r1 as [|c r2].
  - intros H. destruct (SUF _ _ H) as (u & k & SM & E & G1 & G2).
    exists (i :: ip), [], u, k. subst s. subst u. repeat split; auto. discriminate.
  - destruct (is_dot c) eqn:DOT.
    + pose proof (span_app is_digit r2) as APP2. pose proof (span_all is_digit r2) as ALL2.
      destruct (span is_digit r2) as [fp r3]. cbn [fst snd] in *.
      destruct fp as [|j fp]; [discriminate|].
      intros H. destruct (SUF _ _ H) as (u & k & SM & E & G1 & G2).
      exists (i :: ip), (j :: fp), u, k. subst s r2 u.
      rewrite (is_dot_eq c DOT) in *. cbn [number_string].
      repeat split; auto; try discriminate.
      rewrite <- app_assoc. reflexivity.
    + intros H. destruct (SUF _ _ H) as (u & k & SM & E & G1 & G2).
      exists (i :: ip), [], u, k. subst s. subst u. repeat split; auto. discriminate.
Qed.

(** A number with a suffix is accepted by the number pattern. *)
Lemma number_match_complete (ip fp u : text) (k : Z) :
  forallb is_digit ip = true -> ip <> [] -> forallb is_digit fp = true ->
  suffix_multiplier u = Some k ->
  exists m, number_match (number_string ip fp ++ u) = Some m
            /\ group_or_empty 1 m = number_string ip fp
            /\ group_or_empty 2 m = u.
Proof.
  intros DI NE DF SM. unfold number_match, number_string.
  assert (SU : starts_in is_digit u = false /\ starts_in is_dot u = false
               /\ exists m, number_suffix (number_string ip fp) u = Some m
                            /\ group_or_empty 1 m = number_string ip fp
                            /\ group_or_empty 2 m = u).
  { destruct (suffix_cases u k SM) as [[-> _]|[[-> _]|[-> _]]];
      (split; [reflexivity|split; [reflexivity|eexists; split; [reflexivity|split; reflexivity]]]). }
  destruct SU as (SD & SDOT & m & NS & G1 & G2). unfold number_string in *.
  destruct fp as [|j fp].
  - rewrite (span_prefix is_digit ip u DI SD).
    destruct ip as [|i ip]; [contradiction|].
    exists m. split; [|split; assumption].
    destruct u as [|c u]; [exact NS|]. cbn [starts_in] in SDOT. rewrite SDOT. exact NS.
  - rewrite <- app_assoc.
    rewrite (span_prefix is_digit ip (("."%char :: j :: fp) ++ u) DI eq_refl).
    destruct ip as [|i ip]; [contradiction|].
    change (("."%char :: j :: fp) ++ u) with ("."%char :: (j :: fp) ++ u).
    change (is_dot "."%char) with true. cbn iota.
    rewrite (span_prefix is_digit (j :: fp) u DF SD).
    exists m. split; [exact NS|split; assumption].
Qed.

Lemma py_float_number (ip fp : text) :
  forallb is_digit ip = true -> ip <> [] -> forallb is_digit fp = true ->
  py_float (number_string ip fp) = Ok (number_value ip fp).
Proof.
  intros DI NE DF. unfold number_string, number_value. destruct fp as [|j fp].
  - rewrite app_nil_r. apply (py_float_digits ip DI NE).
  - apply (py_float_decimal ip (j :: fp) DI NE DF).
Qed.

Lemma number_value_binary64 (ip fp : text) : binary64 (number_value ip fp).
Proof. apply round64_binary64. Qed.

(** [parse_number] on a string whose normal form is a number with a
    suffix. *)
Lemma parse_number_normal (s ip fp u : text) (k : Z) :
  s <> [] -> normalise s = number_string ip fp ++ u ->
  forallb is_digit ip = true -> ip <> [] -> forallb is_digit fp = true ->
  suffix_multiplier u = Some k ->
  parse_number s = Ok (Some (fmul_int (number_value ip fp) k)).
Proof.
  intros NS N DI NE DF SM. unfold parse_number.
  destruct s as [|c s]; [contradiction|].
  rewrite fullmatch_number, N.
  destruct (number_match_complete ip fp u k DI NE DF SM) as (m & E & G1 & G2).
  rewrite E, G1, G2, (py_float_number ip fp DI NE DF). cbn [rbind].
  destruct (suffix_cases u k SM) as [[-> ->]|[[-> ->]|[-> ->]]].
  - rewrite (fmul_int_1 _ (number_value_binary64 ip fp)). reflexivity.
  - reflexivity.
  - reflexivity.
Qed.

(** [parse_number] never raises. *)
Lemma parse_number_total (s : text) : exists r, parse_number s = Ok r.
Proof.
  unfold parse_number. destruct s as [|c s]; [eauto|].
  rewrite fullmatch_number.
  destruct (number_match (normalise (c :: s))) as [m|] eqn:NM.
  - destruct (number_match_sound _ m NM) as (ip & fp & u & k & DI & NE & DF & _ & _ & G1 & _).
    rewrite G1, (py_float_number ip fp DI NE DF). cbn [rbind]. eauto.
  - destruct (py_float (normalise (c :: s))); eauto.
Qed.

Lemma lstrip_drop (p : ascii -> bool) (a b : text) :
  forallb p a = true -> lstrip p (a ++ b) = lstrip p b.
Proof.
  induction a as [|c a IH]; [reflexivity|]. simpl. intros H.
  apply andb_true_iff in H. destruct H as [P H]. rewrite P. apply (IH H).
Qed.

Lemma lstrip_all (p : ascii -> bool) (a : text) : forallb p a = true -> lstrip p a = [].
Proof.
  intros H. rewrite <- (app_nil_r a). rewrite (lstrip_drop p a [] H). reflexivity.
Qed.

Lemma strip_padded (ws1 t ws2 : text) :
  forallb is_space ws1 = true -> forallb is_space ws2 = true ->
  forallb (fun c => negb (is_space c)) t = true ->
  strip (ws1 ++ t ++ ws2) = t.
Proof.
  intros W1 W2 T. unfold strip. rewrite (lstrip_drop is_space ws1 _ W1).
  destruct t as [|c t].
  - simpl. rewrite (lstrip_all is_space ws2 W2). reflexivity.
  - assert (H : lstrip is_space ((c :: t) ++ ws2) = (c :: t) ++ ws2).
    { simpl in *. apply andb_true_iff in T. destruct T as [C _].
      apply negb_true_iff in C. rewrite C. reflexivity. }
    rewrite H. unfold rstrip. rewrite rev_app_distr.
    rewrite lstrip_drop by (rewrite forallb_rev; exact W2).
    rewrite lstrip_none by (rewrite forallb_rev; exact T).
    apply rev_involutive.
Qed.

(** C6.  The numeric token parser: the three examples; it never raises;
    empty and blank input give [None]; so does input that is neither a
    number with an optional suffix nor a float, as the words [abc], [5x]
    and [1.2.3]; input that is not a number with a suffix but a float
    gives that float; and a number [ip] or [ip.fp] with commas anywhere,
    a suffix [k] or [m] in either case and whitespace around it gives
    its value times 1, 1000 or 1000000.  The value is the float that
    [float] reads and the product is the product of floats: [4.1m] is
    4099999.9999999995. *)
Theorem parse_number_spec :
  parse_number "5m"%string = Ok (Some (of_Z 5000000))
  /\ parse_number "7.5k"%string = Ok (Some (of_Z 7500))
  /\ parse_number "  1,200  "%string = Ok (Some (of_Z 1200))
  /\ parse_number "4.1m"%string
     = Ok (Some (Finite (Q2Qc (8804682956799999 # 2147483648))))
  /\ (parse_number "abc"%string = Ok None /\ parse_number "5x"%string = Ok None
      /\ parse_number "1.2.3"%string = Ok None)
  /\ (forall s, exists r, parse_number s = Ok r)
  /\ (forall s, forallb is_space s = true -> parse_number s = Ok None)
  /\ (forall s, re_fullmatch re_number (normalise s) = None ->
                (forall v, py_float (normalise s) <> Ok v) ->
                parse_number s = Ok None)
  /\ (forall s v, s <> [] -> re_fullmatch re_number (normalise s) = None ->
                  py_float (normalise s) = Ok v -> parse_number s = Ok (Some v))
  /\ (forall ws1 t ws2 ip fp u k,
         forallb is_space ws1 = true -> forallb is_space ws2 = true ->
         forallb (fun c => negb (is_space c)) t = true ->
         remove_commas (lower t) = number_string ip fp ++ u ->
         forallb is_digit ip = true -> ip <> [] -> forallb is_digit fp = true ->
         suffix_multiplier u = Some k ->
         parse_number (ws1 ++ t ++ ws2) = Ok (Some (fmul_int (number_value ip fp) k))).
Proof.
  split; [vm_compute; floats_eq|].
  split; [vm_compute; floats_eq|].
  split; [vm_compute; floats_eq|].
  split; [vm_compute; floats_eq|].
  split; [repeat split; vm_compute; reflexivity|].
  split; [apply parse_number_total|].
  split; [|split; [|split]].
  - intros s B. unfold parse_number. destruct s as [|c s]; [reflexivity|].
    assert (N : normalise (c :: s) = []).
    { unfold normalise, strip. rewrite (lstrip_all is_space _ B). reflexivity. }
    rewrite N. reflexivity.
  - intros s NM NF. unfold parse_number. destruct s as [|c s]; [reflexivity|].
    rewrite NM. destruct (py_float (normalise (c :: s))) as [v|e] eqn:F; [|reflexivity].
    exfalso. apply (NF v). reflexivity.
  - intros s v NS NM F. unfold parse_number. destruct s as [|c s]; [contradiction|].
    rewrite NM, F. reflexivity.
  - intros ws1 t ws2 ip fp u k W1 W2 T N DI NE DF SM.
    apply (parse_number_normal _ ip fp u k); auto.
    + assert (TN : t <> []).
      { intros E. subst t. simpl in N. destruct ip; [contradiction|].
        destruct fp; discriminate N. }
      intros E. apply app_eq_nil in E. destruct E as [_ E].
      apply app_eq_nil in E. destruct E as [E _]. contradiction.
    + unfold normalise. rewrite (strip_padded ws1 t ws2 W1 W2 T). exact N.
Qed.

Lemma parse_number_spec_witness :
  parse_number " 1,250.5K  "%string = Ok (Some (fmul_int (number_value "1250"%string "5"%string) 1000)).
Proof.
  refine (proj2 (proj2 (proj2 (proj2 (proj2 (proj2 (proj2 (proj2 (proj2
                   parse_number_spec))))))))
            (" "%string : text) ("1,250.5K"%string : text) ("  "%string : text)
            ("1250"%string : text) ("5"%string : text) ("k"%string : text) 1000%Z
            _ _ _ _ _ _ _ _); try reflexivity.
  discriminate.
Defined.

(** ** One reading of numeric tokens *)








Lemma scale_multiplier (v : pyfloat) (u : text) (k : Z) :
  suffix_multiplier u = Some k -> scale v u = fmul_int v k.
Proof.
  intros SM. destruct (suffix_cases u k SM) as [[-> ->]|[[-> ->]|[-> ->]]]; reflexivity.
Qed.






Lemma mk_facts' (c : ascii) : is_mk c = true -> is_space c = false /\ is_num_char c = false.
Proof. char_cases c; split; reflexivity. Qed.


















(** ** The page: the table on the screen and the CSV download *)

Lemma lift_ok (A : Type) (r : result A) (h : heap) (a : A) (h' : heap) :
  lift r h = Ok (a, h') -> r = Ok a /\ h' = h.
Proof. unfold lift. destruct r; intros H; inversion H. auto. Qed.

Lemma narrow_if_columns (cond : bool) (name : text) (test : series -> result (list bool))
      (out : ref) (h : heap) (out' : ref) (h' : heap) :
  live h out ->
  narrow_if cond name test out h = Ok (out', h') ->
  extends h h' /\ live h' out'
  /\ columns (frame_at h' out') = columns (frame_at h out).
Proof.
  intros L. unfold narrow_if. destruct cond.
  - intros H. apply bind_ok in H. destruct H as (c & h1 & G & H).
    unfold getitem, bind, read_frame in G. cbn in G.
    apply lift_ok in G. destruct G as [_ ->].
    apply bind_ok in H. destruct H as (m & h2 & T & H).
    apply lift_ok in T. destruct T as [_ ->].
    unfold getitem_mask, bind, read_frame in H. cbn in H.
    change (nth out (frames h) empty_frame) with (frame_at h out) in H.
    destruct (new_frame_spec (mask_rows (frame_at h out) m) h) as (h3 & E & X & F & L3).
    rewrite E in H. inversion H; subst. split; [exact X|]. split; [exact L3|].
    rewrite F. reflexivity.
  - intros H. inversion H; subst. split; [apply extends_refl|]. split; [exact L|reflexivity].
Qed.

Lemma narrow_some_columns (v : option pyfloat) (name : text)
      (test : series -> pyfloat -> result (list bool))
      (out : ref) (h : heap) (out' : ref) (h' : heap) :
  live h out ->
  narrow_some v name test out h = Ok (out', h') ->
  extends h h' /\ live h' out'
  /\ columns (frame_at h' out') = columns (frame_at h out).
Proof.
  intros L. unfold narrow_some. destruct v as [x|].
  - apply narrow_if_columns. exact L.
  - intros H. inversion H; subst. split; [apply extends_refl|]. split; [exact L|reflexivity].
Qed.

(** [filter_df] returns a new frame with the columns of its input. *)
Lemma filter_df_columns (sb : Sidebar) (df : ref) (h : heap) (out : ref) (h' : heap) :
  filter_df sb df h = Ok (out, h') ->
  extends h h' /\ live h' out /\ columns (frame_at h' out) = columns (frame_at h df).
Proof.
  unfold filter_df. intros H.
  apply bind_ok in H. destruct H as (o0 & h0 & H0 & H).
  destruct (copy_spec df h) as (o0' & h0' & E0 & X0 & L0 & F0 & N0).
  rewrite E0 in H0. inversion H0; subst o0' h0'. clear H0 E0.
  apply bind_ok in H. destruct H as (o1 & h1 & H1 & H).
  destruct (narrow_if_columns _ _ _ _ _ _ _ L0 H1) as (X1 & L1 & C1).
  apply bind_ok in H. destruct H as (o2 & h2 & H2 & H).
  destruct (narrow_if_columns _ _ _ _ _ _ _ L1 H2) as (X2 & L2 & C2).
  cbv zeta in H.
  apply bind_ok in H. destruct H as (o3 & h3 & H3 & H).
  destruct (narrow_if_columns _ _ _ _ _ _ _ L2 H3) as (X3 & L3 & C3).
  apply bind_ok in H. destruct H as (lo_p & h4 & P1 & H). apply lift_ok in P1. destruct P1 as [_ ->].
  apply bind_ok in H. destruct H as (hi_p & h4 & P2 & H). apply lift_ok in P2. destruct P2 as [_ ->].
  apply bind_ok in H. destruct H as (lo_a & h4 & P3 & H). apply lift_ok in P3. destruct P3 as [_ ->].
  apply bind_ok in H. destruct H as (hi_a & h4 & P4 & H). apply lift_ok in P4. destruct P4 as [_ ->].
  apply bind_ok in H. destruct H as (o4 & h4 & H4 & H).
  destruct (narrow_some_columns _ _ _ _ _ _ _ L3 H4) as (X4 & L4 & C4).
  apply bind_ok in H. destruct H as (o5 & h5 & H5 & H).
  destruct (narrow_some_columns _ _ _ _ _ _ _ L4 H5) as (X5 & L5 & C5).
  apply bind_ok in H. destruct H as (o6 & h6 & H6 & H).
  destruct (narrow_some_columns _ _ _ _ _ _ _ L5 H6) as (X6 & L6 & C6).
  apply bind_ok in H. destruct H as (o7 & h7 & H7 & H).
  destruct (narrow_some_columns _ _ _ _ _ _ _ L6 H7) as (X7 & L7 & C7).
  unfold ret in H. inversion H; subst o7 h7.
  split; [|split; [exact L7|congruence]].
  repeat (eapply extends_trans; [eassumption|]). apply extends_refl.
Qed.

(** The table that the page shows has the columns of the unified table. *)
Lemma chat_df_columns (units : ref) (sb : Sidebar) (prompt : text) (h : heap)
      (r : ref) (h' : heap) :
  chat_df units sb prompt h = Ok (r, h') ->
  columns (frame_at h' r) = columns (frame_at h units).
Proof.
  unfold chat_df. intros H.
  apply bind_ok in H. destruct H as (filtered & h1 & F & H).
  destruct (filter_df_columns _ _ _ _ _ F) as (X1 & L1 & C1).
  destruct (is_empty prompt).
  - unfold ret in H. inversion H; subst. exact C1.
  - apply bind_ok in H. destruct H as (I & h2 & P & H). apply lift_ok in P. destruct P as [_ ->].
    apply bind_ok in H. destruct H as (f & h2 & D & H).
    unfold new_dict in D. inversion D; subst f h2. clear D.
    destruct (apply_filters_spec _ _ _ _ _ H) as (_ & _ & _ & C & _).
    rewrite C. exact C1.
Qed.

Lemma mem_text_In (x : text) (xs : list text) : mem_text x xs = true <-> In x xs.
Proof.
  unfold mem_text. rewrite existsb_exists. split.
  - intros (y & I & E). apply text_eqb_eq in E. subst y. exact I.
  - intros I. exists x. split; [exact I|apply text_eqb_refl].
Qed.

Lemma select_map_id (A : Type) (g : A -> bool) (xs : list A) :
  select (map g xs) xs = filter g xs.
Proof.
  induction xs as [|x xs IH]; simpl; [reflexivity|].
  destruct (g x); rewrite IH; reflexivity.
Qed.

(** The frame of the CSV download has no column that starts with an
    underscore. *)
Lemma csv_frame_no_shadow (D : DataFrame) :
  forallb (fun c => negb (is_shadow c)) (columns (csv_frame D)) = true.
Proof.
  unfold csv_frame, drop_columns. cbn [columns]. rewrite select_map_id.
  apply forallb_forall. intros c I. apply filter_In in I. destruct I as [I M].
  destruct (is_shadow c) eqn:S; [|reflexivity].
  apply negb_true_iff in M.
  assert (In c (filter is_shadow (columns D))) as J by (apply filter_In; auto).
  apply mem_text_In in J. rewrite J in M. discriminate M.
Qed.

Lemma set_column_columns (name : text) (values : series) (df : DataFrame) :
  In name (columns (set_column name values df))
  /\ forall n, In n (columns df) -> In n (columns (set_column name values df)).
Proof.
  unfold set_column. destruct (position name (columns df)) as [i|] eqn:P; cbn [columns].
  - split; [|auto]. clear values. revert i P.
    induction (columns df) as [|c cs IH]; intros i P; [discriminate P|].
    simpl in P. destruct (text_eqb c name) eqn:E.
    + apply text_eqb_eq in E. left. exact E.
    + destruct (position name cs) as [j|]; [|discriminate P]. right. apply (IH j eq_refl).
  - split; [apply in_or_app; right; left; reflexivity|].
    intros n I. apply in_or_app. left. exact I.
Qed.

Lemma add_upper_columns (to_numeric : text -> pyfloat) (str_of_finite : Qc -> text)
      (name source : text) (df df' : DataFrame) :
  add_upper str_of_finite name source df = Ok df' ->
  In name (columns df') /\ forall n, In n (columns df) -> In n (columns df').
Proof.
  unfold add_upper. intros H. apply rbind_ok in H. destruct H as (s & _ & H).
  inversion H. apply set_column_columns.
Qed.

(** The unified table has the two shadow columns. *)
Lemma load_all_units_shadow_columns (to_numeric : text -> pyfloat)
      (str_of_finite : Qc -> text) (bw_raw boho_raw U : DataFrame) :
  load_all_units to_numeric str_of_finite bw_raw boho_raw = Ok U ->
  In ("_unit_upper"%string : text) (columns U)
  /\ In ("_building_upper"%string : text) (columns U).
Proof.
  unfold load_all_units. cbv zeta. intros H.
  apply rbind_ok in H. destruct H as (bw & _ & H).
  apply rbind_ok in H. destruct H as (boho & _ & H).
  apply rbind_ok in H. destruct H as (u1 & A1 & H).
  apply rbind_ok in H. destruct H as (u2 & A2 & H).
  inversion H; subst u2.
  destruct (add_upper_columns to_numeric _ _ _ _ _ A1) as [I1 _].
  destruct (add_upper_columns to_numeric _ _ _ _ _ A2) as [I2 K2].
  split; [apply K2; exact I1|exact I2].
Qed.

Lemma getitem_ok (r : ref) (name : text) (h : heap) (c : series) (h' : heap) :
  getitem r name h = Ok (c, h') -> h' = h.
Proof.
  unfold getitem, bind, read_frame. cbn. intros H. apply lift_ok in H. apply H.
Qed.

Lemma choices_ok (r : ref) (name : text) (h : heap) (c : series) (h' : heap) :
  choices r name h = Ok (c, h') -> h' = h.
Proof.
  unfold choices. intros H. apply bind_ok in H. destruct H as (x & h1 & G & H).
  apply getitem_ok in G. subst h1. apply lift_ok in H. apply H.
Qed.

Lemma shown_table_columns (units : ref) (sb : Sidebar) (prompt : text) (h : heap)
      (shown : ref) (h' : heap) :
  shown_table units sb prompt h = Ok (Some shown, h') ->
  columns (frame_at h' shown) = columns (frame_at h units).
Proof.
  unfold shown_table, bind at 1, read_frame. cbn.
  destruct (df_empty (nth units (frames h) empty_frame)); [intros H; inversion H|].
  intros H.
  apply bind_ok in H. destruct H as (c1 & h1 & G1 & H). apply choices_ok in G1. subst h1.
  apply bind_ok in H. destruct H as (c2 & h2 & G2 & H). apply choices_ok in G2. subst h2.
  apply bind_ok in H. destruct H as (r & h3 & CH & H).
  unfold ret in H. inversion H; subst.
  apply (chat_df_columns _ _ _ _ _ _ CH).
Qed.

(** C3.  The table that the page hands to [st.dataframe] has the columns
    of the unified table, the two shadow columns among them; the frame of
    the CSV download has no shadow column. *)
Theorem shown_table_has_shadow_columns
        (to_numeric : text -> pyfloat) (str_of_finite : Qc -> text)
        (bw_raw boho_raw : DataFrame) (h : heap) (units : ref)
        (sb : Sidebar) (prompt : text) (shown : ref) (h' : heap) :
  load_all_units to_numeric str_of_finite bw_raw boho_raw = Ok (frame_at h units) ->
  shown_table units sb prompt h = Ok (Some shown, h') ->
  In ("_unit_upper"%string : text) (columns (frame_at h' shown))
  /\ In ("_building_upper"%string : text) (columns (frame_at h' shown))
  /\ existsb is_shadow (columns (frame_at h' shown)) = true
  /\ existsb is_shadow (columns (csv_frame (frame_at h' shown))) = false.
Proof.
  intros LD CH. rewrite (shown_table_columns _ _ _ _ _ _ CH).
  destruct (load_all_units_shadow_columns _ _ _ _ _ LD) as [I1 I2].
  split; [exact I1|]. split; [exact I2|]. split.
  - apply existsb_exists. exists ("_unit_upper"%string : text). split; [exact I1|reflexivity].
  - pose proof (csv_frame_no_shadow (frame_at h' shown)) as N.
    destruct (existsb is_shadow (columns (csv_frame (frame_at h' shown)))) eqn:E; [|reflexivity].
    apply existsb_exists in E. destruct E as (c & I & S).
    rewrite forallb_forall in N. specialize (N c I). rewrite S in N. discriminate N.
Qed.

Lemma shown_table_has_shadow_columns_witness :
  exists shown h',
    shown_table 0 no_sidebar "Boardwalk"%string {| frames := [example_units]; dicts := [] |}
    = Ok (Some shown, h')
    /\ existsb is_shadow (columns (frame_at h' shown)) = true.
Proof.
  eexists. eexists. split; [vm_compute; reflexivity|].
  refine (proj1 (proj2 (proj2
    (shown_table_has_shadow_columns float_or_nan no_digits bw_sheet boho_sheet
       {| frames := [example_units]; dicts := [] |} 0 no_sidebar
       ("Boardwalk"%string : text) _ _ _ _)))).
  - vm_compute. reflexivity.
  - vm_compute. reflexivity.
Defined.

(** ** Columns of a frame *)

Lemma position_some (name : text) (cols : list text) (i : nat) :
  position name cols = Some i -> i < List.length cols /\ nth i cols [] = name.
Proof.
  revert i. induction cols as [|c cols IH]; intros i P; [discriminate P|].
  simpl in P. destruct (text_eqb c name) eqn:E.
  - inversion P. apply text_eqb_eq in E. simpl. split; [lia|exact E].
  - destruct (position name cols) as [j|]; [|discriminate P].
    inversion P. destruct (IH j eq_refl) as [L N]. simpl. split; [lia|exact N].
Qed.

Lemma position_none (name : text) (cols : list text) :
  position name cols = None <-> ~ In name cols.
Proof.
  induction cols as [|c cols IH]; simpl; [tauto|].
  destruct (text_eqb c name) eqn:E.
  - apply text_eqb_eq in E. split; [discriminate|]. intros N. exfalso. apply N. auto.
  - assert (NE : c <> name).
    { intros X. apply text_eqb_eq in X. rewrite X in E. discriminate E. }
    destruct (position name cols) as [j|]; simpl.
    + split; [discriminate|]. intros N. exfalso.
      destruct IH as [_ IH]. assert (X : ~ In name cols) by tauto.
      specialize (IH X). discriminate IH.
    + split; [|reflexivity]. intros _ [X|X]; [contradiction|].
      destruct IH as [IH _]. apply (IH eq_refl X).
Qed.

Lemma position_in (name : text) (cols : list text) :
  In name cols -> exists i, position name cols = Some i.
Proof.
  intros I. destruct (position name cols) as [i|] eqn:P; [eauto|].
  apply position_none in P. contradiction.
Qed.

Lemma position_app_left (name : text) (cols more : list text) (i : nat) :
  position name cols = Some i -> position name (cols ++ more) = Some i.
Proof.
  revert i. induction cols as [|c cols IH]; intros i P; [discriminate P|].
  simpl in *. destruct (text_eqb c name); [exact P|].
  destruct (position name cols) as [j|]; [|discriminate P].
  rewrite (IH j eq_refl). exact P.
Qed.

Lemma position_app_new (name : text) (cols : list text) :
  position name cols = None -> position name (cols ++ [name]) = Some (List.length cols).
Proof.
  induction cols as [|c cols IH]; intros P; simpl.
  - rewrite text_eqb_refl. reflexivity.
  - simpl in P. destruct (text_eqb c name); [discriminate P|].
    destruct (position name cols); [discriminate P|]. rewrite (IH eq_refl). reflexivity.
Qed.

Lemma position_app_other (name other : text) (cols : list text) :
  other <> name -> position name cols = None -> position name (cols ++ [other]) = None.
Proof.
  intros NE P. apply position_none. apply position_none in P.
  intros I. apply in_app_or in I. destruct I as [I|[I|[]]]; [contradiction|].
  apply NE. exact I.
Qed.

Lemma has_column_In (name : text) (df : DataFrame) :
  has_column name df = true <-> In name (columns df).
Proof. apply mem_text_In. Qed.

Lemma nth_replace_same (A : Type) (i : nat) (x d : A) (l : list A) :
  i < List.length l -> nth i (replace_nth i x l) d = x.
Proof.
  revert i. induction l as [|y l IH]; intros i L; simpl in L; [lia|].
  destruct i; simpl; [reflexivity|]. apply IH. lia.
Qed.

Lemma nth_replace_other (A : Type) (i j : nat) (x d : A) (l : list A) :
  i <> j -> nth j (replace_nth i x l) d = nth j l d.
Proof.
  revert i j. induction l as [|y l IH]; intros i j N; simpl.
  - destruct i; reflexivity.
  - destruct i, j; simpl; try reflexivity; [lia|]. apply IH. lia.
Qed.

Lemma length_replace_nth (A : Type) (i : nat) (x : A) (l : list A) :
  List.length (replace_nth i x l) = List.length l.
Proof.
  revert i. induction l as [|y l IH]; intros i; [destruct i; reflexivity|].
  destruct i; simpl; [reflexivity|]. rewrite IH. reflexivity.
Qed.

Lemma map_snd_combine (A B : Type) (xs : list A) (ys : list B) :
  List.length ys = List.length xs -> map snd (combine xs ys) = ys.
Proof.
  revert ys. induction xs as [|x xs IH]; intros [|y ys] L; simpl in *; try lia; [reflexivity|].
  rewrite IH by lia. reflexivity.
Qed.

Lemma map_combine_ext (A B C : Type) (F G : A * B -> C) (xs : list A) (ys : list B) :
  (forall x y, In x xs -> F (x, y) = G (x, y)) ->
  map F (combine xs ys) = map G (combine xs ys).
Proof.
  revert ys. induction xs as [|x xs IH]; intros ys E; [reflexivity|].
  destruct ys as [|y ys]; [reflexivity|]. simpl.
  rewrite (E x y (or_introl eq_refl)). rewrite IH; [reflexivity|].
  intros x' y' I. apply E. right. exact I.
Qed.

Lemma map_fst_combine_ext (A B C : Type) (G : A -> C) (xs : list A) (ys : list B) :
  List.length ys = List.length xs ->
  map (fun xy => G (fst xy)) (combine xs ys) = map G xs.
Proof.
  revert ys. induction xs as [|x xs IH]; intros [|y ys] L; simpl in *; try lia; [reflexivity|].
  rewrite IH by lia. reflexivity.
Qed.

Lemma column_of_length (name : text) (df : DataFrame) :
  List.length (column_of name df) = List.length (rows df).
Proof. unfold column_of. apply length_map. Qed.

(** After [df[name] = values] the column [name] is [values]. *)
Lemma column_of_set_same (name : text) (values : series) (df : DataFrame) :
  rectangular df -> List.length values = List.length (rows df) ->
  column_of name (set_column name values df) = values.
Proof.
  intros R L. unfold column_of, set_column, cell_at.
  destruct (position name (columns df)) as [i|] eqn:P; cbn [columns rows].
  - rewrite P. rewrite map_map.
    rewrite (map_combine_ext _ _ _ _ snd).
    + apply map_snd_combine. exact L.
    + intros row v I. cbn [fst snd]. apply nth_replace_same.
      unfold rectangular in R. rewrite Forall_forall in R. rewrite (R row I).
      apply (position_some _ _ _ P).
  - rewrite (position_app_new _ _ P). rewrite map_map.
    rewrite (map_combine_ext _ _ _ _ snd).
    + apply map_snd_combine. exact L.
    + intros row v I. cbn [fst snd].
      unfold rectangular in R. rewrite Forall_forall in R. rewrite <- (R row I).
      rewrite app_nth2, Nat.sub_diag by lia. reflexivity.
Qed.

(** The other columns are as they were. *)
Lemma column_of_set_other (name other : text) (values : series) (df : DataFrame) :
  other <> name -> rectangular df -> List.length values = List.length (rows df) ->
  column_of other (set_column name values df) = column_of other df.
Proof.
  intros NE R L. unfold column_of, set_column, cell_at.
  unfold rectangular in R. rewrite Forall_forall in R.
  destruct (position name (columns df)) as [i|] eqn:P; cbn [columns rows].
  - rewrite map_map.
    rewrite (map_combine_ext _ _ _ _
               (fun rv => match position other (columns df) with
                          | Some j => nth j (fst rv) (Num NaN)
                          | None => Num NaN
                          end)).
    + apply (map_fst_combine_ext _ _ _
               (fun row => match position other (columns df) with
                           | Some j => nth j row (Num NaN)
                           | None => Num NaN
                           end)). exact L.
    + intros row v I. cbn [fst snd].
      destruct (position other (columns df)) as [j|] eqn:Q; [|reflexivity].
      apply nth_replace_other. intros E. subst j.
      apply NE. destruct (position_some _ _ _ P) as [_ <-].
      destruct (position_some _ _ _ Q) as [_ <-]. reflexivity.
  - rewrite map_map.
    destruct (position other (columns df)) as [j|] eqn:Q.
    + rewrite (position_app_left _ _ [name] _ Q).
      rewrite (map_combine_ext _ _ _ _ (fun rv => nth j (fst rv) (Num NaN))).
      * apply (map_fst_combine_ext _ _ _ (fun row => nth j row (Num NaN))). exact L.
      * intros row v I. cbn [fst snd]. apply app_nth1.
        rewrite (R row I). apply (position_some _ _ _ Q).
    + rewrite (position_app_other _ _ _ (fun E => NE (eq_sym E)) Q).
      apply (map_fst_combine_ext _ _ _ (fun _ => Num NaN)). exact L.
Qed.

Lemma set_column_rows_length (name : text) (values : series) (df : DataFrame) :
  List.length values = List.length (rows df) ->
  List.length (rows (set_column name values df)) = List.length (rows df).
Proof.
  intros L. unfold set_column.
  destruct (position name (columns df)); cbn [rows];
    rewrite length_map, length_combine, L; lia.
Qed.

Lemma set_column_rectangular (name : text) (values : series) (df : DataFrame) :
  rectangular df -> rectangular (set_column name values df).
Proof.
  unfold rectangular, set_column. rewrite !Forall_forall. intros R.
  destruct (position name (columns df)); cbn [rows columns]; intros row I;
    apply in_map_iff in I; destruct I as ([r v] & <- & I);
    apply in_combine_l in I; cbn [fst snd].
  - rewrite length_replace_nth. apply (R r I).
  - rewrite !length_app. rewrite (R r I). reflexivity.
Qed.

Lemma set_column_existing_columns (name : text) (values : series) (df : DataFrame) :
  In name (columns df) -> columns (set_column name values df) = columns df.
Proof.
  intros I. unfold set_column. destruct (position_in _ _ I) as (i & ->). reflexivity.
Qed.

Lemma set_column_new_columns (name : text) (values : series) (df : DataFrame) :
  ~ In name (columns df) -> columns (set_column name values df) = columns df ++ [name].
Proof.
  intros N. unfold set_column. apply position_none in N. rewrite N. reflexivity.
Qed.

(** ** The normaliser, column by column *)

Lemma map_column_same (name : text) (g : cell -> cell) (df : DataFrame) :
  rectangular df ->
  column_of name (map_column name g df) = map g (column_of name df).
Proof.
  intros R. unfold map_column. apply (column_of_set_same _ _ _ R).
  rewrite length_map. apply column_of_length.
Qed.

Lemma map_column_other (name other : text) (g : cell -> cell) (df : DataFrame) :
  other <> name -> rectangular df ->
  column_of other (map_column name g df) = column_of other df.
Proof.
  intros NE R. unfold map_column. apply (column_of_set_other _ _ _ _ NE R).
  rewrite length_map. apply column_of_length.
Qed.

Lemma map_column_rectangular (name : text) (g : cell -> cell) (df : DataFrame) :
  rectangular df -> rectangular (map_column name g df).
Proof. apply set_column_rectangular. Qed.

Lemma map_column_columns (name : text) (g : cell -> cell) (df : DataFrame) :
  In name (columns df) -> columns (map_column name g df) = columns df.
Proof. apply set_column_existing_columns. Qed.

Lemma map_column_rows_length (name : text) (g : cell -> cell) (df : DataFrame) :
  List.length (rows (map_column name g df)) = List.length (rows df).
Proof.
  unfold map_column. apply set_column_rows_length.
  rewrite length_map. apply column_of_length.
Qed.

(** A pass over the column names [names] that rewrites some of these
    columns in place keeps the columns, the shape and every other column. *)
Lemma fold_columns_frame (step : DataFrame -> text -> DataFrame) (names : list text)
      (df : DataFrame) :
  (forall d c, step d c = d \/ exists g, In c (columns d) /\ step d c = map_column c g d) ->
  rectangular df ->
  columns (fold_left step names df) = columns df
  /\ rectangular (fold_left step names df)
  /\ List.length (rows (fold_left step names df)) = List.length (rows df)
  /\ forall n, ~ In n names -> column_of n (fold_left step names df) = column_of n df.
Proof.
  intros ST. revert df. induction names as [|c names IH]; intros df R; simpl.
  - auto.
  - assert (S1 : columns (step df c) = columns df /\ rectangular (step df c)
                 /\ List.length (rows (step df c)) = List.length (rows df)
                 /\ forall n, n <> c -> column_of n (step df c) = column_of n df).
    { destruct (ST df c) as [->|(g & I & ->)]; [auto|].
      split; [apply (map_column_columns _ _ _ I)|].
      split; [apply (map_column_rectangular _ _ _ R)|].
      split; [apply map_column_rows_length|].
      intros n NE. apply (map_column_other _ _ _ _ NE R). }
    destruct S1 as (C1 & R1 & L1 & O1).
    destruct (IH (step df c) R1) as (C2 & R2 & L2 & O2).
    split; [congruence|]. split; [exact R2|]. split; [congruence|].
    intros n N. rewrite O2 by (intros I; apply N; right; exact I).
    apply O1. intros E. apply N. left. symmetry. exact E.
Qed.

Section NormaliserFacts.

Variable to_numeric : text -> pyfloat.
Variable str_of_finite : Qc -> text.

(** [clean_objects] cleans each object column once. *)
Lemma clean_fold (names : list text) (df : DataFrame) :
  NoDup names -> (forall c, In c names -> In c (columns df)) -> rectangular df ->
  columns (fold_left (clean_step str_of_finite) names df) = columns df
  /\ rectangular (fold_left (clean_step str_of_finite) names df)
  /\ List.length (rows (fold_left (clean_step str_of_finite) names df)) = List.length (rows df)
  /\ forall n, column_of n (fold_left (clean_step str_of_finite) names df)
               = if mem_text n names then cleaned str_of_finite (column_of n df)
                 else column_of n df.
Proof.
  revert df. induction names as [|c names IH]; intros df ND IN R; simpl.
  - auto.
  - inversion ND as [|? ? NI ND']. subst.
    assert (Ic : In c (columns df)) by (apply IN; left; reflexivity).
    assert (S1 : columns (clean_step str_of_finite df c) = columns df /\ rectangular (clean_step str_of_finite df c)
                 /\ List.length (rows (clean_step str_of_finite df c)) = List.length (rows df)
                 /\ column_of c (clean_step str_of_finite df c) = cleaned str_of_finite (column_of c df)
                 /\ forall n, n <> c -> column_of n (clean_step str_of_finite df c) = column_of n df).
    { unfold clean_step, cleaned. destruct (is_object (column_of c df)); [|auto 6].
      split; [apply (map_column_columns _ _ _ Ic)|].
      split; [apply (map_column_rectangular _ _ _ R)|].
      split; [apply map_column_rows_length|].
      split; [apply (map_column_same _ _ _ R)|].
      intros n NE. apply (map_column_other _ _ _ _ NE R). }
    destruct S1 as (C1 & R1 & L1 & E1 & O1).
    assert (IN' : forall x, In x names -> In x (columns (clean_step str_of_finite df c))).
    { intros x I. rewrite C1. apply IN. right. exact I. }
    destruct (IH (clean_step str_of_finite df c) ND' IN' R1) as (C2 & R2 & L2 & O2).
    split; [congruence|]. split; [exact R2|]. split; [congruence|].
    intros n. rewrite O2. destruct (text_eqb n c) eqn:E.
    + apply text_eqb_eq in E. subst n.
      assert (M : mem_text c names = false).
      { destruct (mem_text c names) eqn:M; [|reflexivity].
        apply mem_text_In in M. contradiction. }
      rewrite M. exact E1.
    + assert (NE : n <> c).
      { intros X. subst n. rewrite text_eqb_refl in E. discriminate E. }
      rewrite (O1 n NE). reflexivity.
Qed.

Lemma clean_objects_spec (df : DataFrame) :
  NoDup (columns df) -> rectangular df ->
  columns (clean_objects str_of_finite df) = columns df
  /\ rectangular (clean_objects str_of_finite df)
  /\ List.length (rows (clean_objects str_of_finite df)) = List.length (rows df)
  /\ forall n, In n (columns df) ->
               column_of n (clean_objects str_of_finite df)
               = cleaned str_of_finite (column_of n df).
Proof.
  intros ND R. destruct (clean_fold (columns df) df ND (fun c I => I) R) as (C & R' & L & O).
  split; [exact C|]. split; [exact R'|]. split; [exact L|].
  intros n I. unfold clean_objects. rewrite O. apply mem_text_In in I. rewrite I. reflexivity.
Qed.

End NormaliserFacts.

Lemma squeeze_spaces_length (s s' : series) :
  squeeze_spaces s = Ok s' -> List.length s' = List.length s.
Proof.
  unfold squeeze_spaces. destruct (is_object s); intros H; inversion H.
  apply length_map.
Qed.

Lemma squeeze_column_spec (name : text) (df df' : DataFrame) :
  squeeze_column name df = Ok df' -> rectangular df ->
  columns df' = columns df /\ rectangular df'
  /\ List.length (rows df') = List.length (rows df)
  /\ forall n, n <> name -> column_of n df' = column_of n df.
Proof.
  unfold squeeze_column. intros H R. destruct (has_column name df) eqn:HC.
  - apply rbind_ok in H. destruct H as (s & S & H). inversion H; subst df'.
    assert (L : List.length s = List.length (rows df)).
    { rewrite (squeeze_spaces_length _ _ S). apply column_of_length. }
    split; [apply set_column_existing_columns; apply has_column_In; exact HC|].
    split; [apply set_column_rectangular; exact R|].
    split; [apply set_column_rows_length; exact L|].
    intros n NE. apply (column_of_set_other _ _ _ _ NE R L).
  - inversion H; subst df'. auto.
Qed.

Section NormaliserSteps.

Variable to_numeric : text -> pyfloat.
Variable str_of_finite : Qc -> text.

Lemma coerce_step_cases (d : DataFrame) (c : text) :
  coerce_step to_numeric str_of_finite d c = d
  \/ exists g, In c (columns d) /\ coerce_step to_numeric str_of_finite d c = map_column c g d.
Proof.
  unfold coerce_step. destruct (has_column c d) eqn:HC; [|auto].
  right. exists (coerce_numeric to_numeric str_of_finite).
  split; [apply has_column_In; exact HC|reflexivity].
Qed.

Lemma not_numeric_column (n : text) :
  mem_text n numeric_columns = false -> ~ In n numeric_columns.
Proof. intros M I. apply mem_text_In in I. rewrite I in M. discriminate M. Qed.

Lemma text_neq (a b : text) : text_eqb a b = false -> a <> b.
Proof. intros E X. subst b. rewrite text_eqb_refl in E. discriminate E. Qed.

(** What [cleanup_cols] does to the status column, and to a column that
    is none of those it normalises by name. *)
Lemma cleanup_cols_spec (df df' : DataFrame) :
  cleanup_cols to_numeric str_of_finite df = Ok df' ->
  NoDup (columns df) -> rectangular df ->
  columns df' = columns df /\ rectangular df'
  /\ List.length (rows df') = List.length (rows df)
  /\ (In ("status"%string : text) (columns df) ->
      column_of "status"%string df'
      = map fill_status (cleaned str_of_finite (column_of "status"%string df)))
  /\ (In ("project"%string : text) (columns df) ->
      column_of "project"%string df'
      = cleaned str_of_finite (column_of "project"%string df)).
Proof.
  unfold cleanup_cols. cbv zeta. intros H ND R.
  destruct (clean_objects_spec str_of_finite df ND R) as (C1 & R1 & L1 & O1).
  apply rbind_ok in H. destruct H as (d2 & S2 & H).
  destruct (squeeze_column_spec _ _ _ S2 R1) as (C2 & R2 & L2 & O2).
  apply rbind_ok in H. destruct H as (d3 & S3 & H).
  destruct (squeeze_column_spec _ _ _ S3 R2) as (C3 & R3 & L3 & O3).
  destruct (fold_columns_frame (coerce_step to_numeric str_of_finite) numeric_columns d3
                               coerce_step_cases R3) as (C4 & R4 & L4 & O4).
  set (d4 := fold_left (coerce_step to_numeric str_of_finite) numeric_columns d3) in *.
  apply Ok_inj in H. subst df'.
  assert (ST : column_of "status"%string d4 = column_of "status"%string (clean_objects str_of_finite df)).
  { rewrite O4 by (apply not_numeric_column; reflexivity).
    rewrite O3 by (apply text_neq; reflexivity).
    apply O2. apply text_neq. reflexivity. }
  assert (PR : column_of "project"%string d4 = column_of "project"%string (clean_objects str_of_finite df)).
  { rewrite O4 by (apply not_numeric_column; reflexivity).
    rewrite O3 by (apply text_neq; reflexivity).
    apply O2. apply text_neq. reflexivity. }
  destruct (has_column "status"%string d4) eqn:HS.
  - assert (IS : In ("status"%string : text) (columns d4)) by (apply has_column_In; exact HS).
    split; [rewrite (map_column_columns _ _ _ IS); congruence|].
    split; [apply map_column_rectangular; exact R4|].
    split; [rewrite map_column_rows_length; congruence|].
    split.
    + intros I. rewrite (map_column_same _ _ _ R4), ST, (O1 _ I). reflexivity.
    + intros I. rewrite map_column_other by (try exact R4; apply text_neq; reflexivity).
      rewrite PR. apply (O1 _ I).
  - split; [congruence|]. split; [exact R4|]. split; [congruence|]. split.
    + intros I. exfalso.
      assert (X : In ("status"%string : text) (columns d4)) by (rewrite C4, C3, C2, C1; exact I).
      apply has_column_In in X. rewrite X in HS. discriminate HS.
    + intros I. rewrite PR. apply (O1 _ I).
Qed.

End NormaliserSteps.

Lemma NoDup_map_snd_filter (A B : Type) (p : A * B -> bool) (l : list (A * B)) :
  NoDup (map snd l) -> NoDup (map snd (filter p l)).
Proof.
  induction l as [|x l IH]; simpl; intros ND; [constructor|].
  inversion ND as [|? ? NI ND']. subst. destruct (p x); simpl; [|apply (IH ND')].
  constructor; [|apply (IH ND')].
  intros I. apply NI. apply in_map_iff in I. destruct I as (y & E & I).
  apply filter_In in I. apply in_map_iff. exists y. tauto.
Qed.

Lemma position_map_snd (l : list (text * text)) (old new : text) :
  NoDup (map snd l) -> In (old, new) l ->
  exists i, position new (map snd l) = Some i /\ i < List.length l
            /\ nth i l ([], []) = (old, new).
Proof.
  induction l as [|[o n] l IH]; simpl; intros ND I; [contradiction|].
  inversion ND as [|? ? NI ND']. subst. destruct I as [E|I].
  - inversion E; subst. rewrite text_eqb_refl. exists 0. repeat split. lia.
  - assert (NE : text_eqb n new = false).
    { destruct (text_eqb n new) eqn:E; [|reflexivity]. apply text_eqb_eq in E. subst n.
      exfalso. apply NI. apply in_map_iff. exists (old, new). auto. }
    rewrite NE. destruct (IH ND' I) as (i & P & L & N). rewrite P.
    exists (S i). repeat split; [lia|exact N].
Qed.

(** The frame of the kept and renamed columns. *)
Lemma keep_rename_spec (keep : list (text * text)) (raw : DataFrame) :
  NoDup (map snd keep) ->
  let d := keep_rename keep raw in
  rectangular d /\ NoDup (columns d)
  /\ List.length (rows d) = List.length (rows raw)
  /\ (forall n, In n (columns d) -> In n (map snd keep))
  /\ (forall old new, In (old, new) keep ->
        if has_column old raw
        then In new (columns d) /\ column_of new d = column_of old raw
        else ~ In new (columns d)).
Proof.
  intros ND d. unfold d, keep_rename.
  set (present := filter (fun kv => has_column (fst kv) raw) keep).
  assert (NDP : NoDup (map snd present)) by (apply NoDup_map_snd_filter; exact ND).
  split; [|split; [exact NDP|split; [|split]]].
  - unfold rectangular. cbn [rows columns]. apply Forall_forall. intros row I.
    apply in_map_iff in I. destruct I as (r & <- & _). rewrite !length_map. reflexivity.
  - cbn [rows]. apply length_map.
  - cbn [columns]. intros n I. apply in_map_iff in I. destruct I as (kv & E & I).
    apply filter_In in I. apply in_map_iff. exists kv. tauto.
  - intros old new I. destruct (has_column old raw) eqn:HC.
    + assert (IP : In (old, new) present) by (apply filter_In; auto).
      destruct (position_map_snd present old new NDP IP) as (i & P & L & N).
      split; [cbn [columns]; apply in_map_iff; exists (old, new); auto|].
      unfold column_of. cbn [rows columns]. rewrite map_map. apply map_ext. intros row.
      unfold cell_at at 1. rewrite P.
      rewrite (nth_indep _ _ (cell_at (columns raw) (fst (([], []) : text * text)) row))
        by (rewrite length_map; exact L).
      rewrite (map_nth (fun kv : text * text => cell_at (columns raw) (fst kv) row)), N.
      reflexivity.
    + cbn [columns]. intros J. apply in_map_iff in J. destruct J as ([o n] & E & J).
      cbn [snd] in E. subst n. apply filter_In in J. destruct J as [J HO]. cbn [fst] in HO.
      assert (o = old).
      { destruct (position_map_snd keep old new ND I) as (i & P & L & N).
        destruct (position_map_snd keep o new ND J) as (j & Q & L' & N').
        rewrite P in Q. inversion Q; subst j. rewrite N in N'. inversion N'. reflexivity. }
      subst o. rewrite HC in HO. discriminate HO.
Qed.

Lemma column_of_missing (n : text) (df : DataFrame) :
  ~ In n (columns df) -> column_of n df = map (fun _ => Num NaN) (rows df).
Proof.
  intros N. unfold column_of, cell_at. apply position_none in N. rewrite N. reflexivity.
Qed.

(** [reindex] copies the columns that it keeps. *)
Lemma column_of_reindex (n : text) (names : list text) (df : DataFrame) :
  (In n (columns df) -> In n names) ->
  column_of n (reindex names df) = column_of n df.
Proof.
  intros K. unfold column_of, reindex. cbn [rows columns]. rewrite map_map.
  apply map_ext. intros row. unfold cell_at at 1.
  destruct (position n names) as [i|] eqn:P.
  - destruct (position_some _ _ _ P) as [L N].
    rewrite (nth_indep _ _ (cell_at (columns df) [] row)) by (rewrite length_map; exact L).
    rewrite (map_nth (fun n' => cell_at (columns df) n' row)), N. reflexivity.
  - apply position_none in P. unfold cell_at.
    destruct (position n (columns df)) as [j|] eqn:Q; [|reflexivity].
    exfalso. apply P. apply K. destruct (position_some _ _ _ Q) as [L <-].
    apply nth_In. exact L.
Qed.

Lemma reindex_rectangular (names : list text) (df : DataFrame) :
  rectangular (reindex names df).
Proof.
  unfold rectangular, reindex. cbn [rows columns]. apply Forall_forall. intros row I.
  apply in_map_iff in I. destruct I as (r & <- & _). apply length_map.
Qed.

Lemma column_of_concat (n : text) (a b : DataFrame) :
  columns a = columns b ->
  column_of n (concat a b) = column_of n a ++ column_of n b.
Proof.
  intros E. unfold column_of, concat. cbn [rows columns]. rewrite map_app, E. reflexivity.
Qed.

Lemma dropna_all_keeps (df : DataFrame) :
  (forall row, In row (rows df) -> exists c, In c row /\ isna c = false) ->
  dropna_all df = df.
Proof.
  intros K. unfold dropna_all. destruct df as [cols rs]. cbn [rows columns] in *. f_equal.
  induction rs as [|row rs IH]; [reflexivity|]. simpl.
  destruct (K row (or_introl eq_refl)) as (c & I & N).
  assert (F : forallb isna row = false).
  { destruct (forallb isna row) eqn:F; [|reflexivity].
    rewrite forallb_forall in F. rewrite (F c I) in N. discriminate N. }
  rewrite F. simpl. f_equal. apply IH. intros r J. apply K. right. exact J.
Qed.

Lemma insert_sorted_In (x y : text) (l : list text) :
  In y (insert_sorted x l) <-> y = x \/ In y l.
Proof.
  induction l as [|z l IH]; simpl; [intuition|].
  destruct (text_ltb z x); simpl; [rewrite IH|]; intuition.
Qed.

Lemma sorted_set_In (y : text) (xs : list text) : In y (sorted_set xs) <-> In y xs.
Proof.
  induction xs as [|x xs IH]; simpl; [tauto|].
  destruct (mem_text x (sorted_set xs)) eqn:M.
  - apply mem_text_In in M. rewrite IH. split; [auto|]. intros [E|I]; [|exact I].
    subst y. apply IH. exact M.
  - rewrite insert_sorted_In, IH. intuition.
Qed.

Lemma NoDup_snoc (A : Type) (l : list A) (x : A) : NoDup l -> ~ In x l -> NoDup (l ++ [x]).
Proof.
  intros ND NI. induction l as [|y l IH]; simpl.
  - constructor; [intros []|constructor].
  - inversion ND as [|? ? NY ND']. subst. constructor.
    + intros I. apply in_app_or in I. destruct I as [I|[I|[]]]; [contradiction|].
      subst y. apply NI. left. reflexivity.
    + apply IH; [exact ND'|]. intros I. apply NI. right. exact I.
Qed.

Lemma cell_at_In (cols : list text) (n : text) (row : list cell) :
  isna (cell_at cols n row) = false -> In (cell_at cols n row) row.
Proof.
  unfold cell_at. destruct (position n cols) as [i|]; [|discriminate].
  intros N. destruct (Nat.lt_ge_cases i (List.length row)) as [L|L].
  - apply nth_In. exact L.
  - rewrite nth_overflow in N by exact L. discriminate N.
Qed.

Lemma fill_status_present (c : cell) : isna (fill_status c) = false.
Proof. unfold fill_status. destruct (isna c) eqn:N; [reflexivity|exact N]. Qed.

Lemma column_Ok_length (name : text) (df : DataFrame) (s : series) :
  column name df = Ok s -> List.length s = List.length (rows df).
Proof. intros H. rewrite (column_cells _ _ _ H). apply length_map. Qed.

Lemma keep_lists_ok :
  NoDup (map snd BW_KEEP) /\ NoDup (map snd BOHO_KEEP)
  /\ ~ In ("project"%string : text) (map snd BW_KEEP)
  /\ ~ In ("project"%string : text) (map snd BOHO_KEEP)
  /\ In (("Status"%string : text), ("status"%string : text)) BW_KEEP
  /\ In (("Status"%string : text), ("status"%string : text)) BOHO_KEEP.
Proof.
  assert (ND : forall l : list text,
             (fix nodup (l : list text) : bool :=
                match l with
                | [] => true
                | x :: l' => negb (mem_text x l') && nodup l'
                end) l = true -> NoDup l).
  { induction l as [|x l IH]; intros H; [constructor|].
    apply andb_true_iff in H. destruct H as [M H]. apply negb_true_iff in M.
    constructor; [|apply (IH H)]. intros I. apply mem_text_In in I.
    rewrite I in M. discriminate M. }
  assert (NI : forall (x : text) l, mem_text x l = false -> ~ In x l).
  { intros x l M I. apply mem_text_In in I. rewrite I in M. discriminate M. }
  split; [apply ND; reflexivity|]. split; [apply ND; reflexivity|].
  split; [apply NI; reflexivity|]. split; [apply NI; reflexivity|].
  split; unfold BW_KEEP, BOHO_KEEP; repeat (first [left; reflexivity|right]).
Qed.

Section StatusDefault.

Variable to_numeric : text -> pyfloat.
Variable str_of_finite : Qc -> text.

(** One sheet, from the raw frame to the cleaned frame. *)
Lemma source_status (keep : list (text * text)) (pname : text) (raw d5 : DataFrame) :
  NoDup (map snd keep) -> ~ In ("project"%string : text) (map snd keep) ->
  In (("Status"%string : text), ("status"%string : text)) keep ->
  clean_object_cell str_of_finite (Str pname) = Str pname ->
  cleanup_cols to_numeric str_of_finite
               (set_column_const "project"%string (Str pname) (keep_rename keep raw))
  = Ok d5 ->
  rectangular d5
  /\ List.length (rows d5) = List.length (rows raw)
  /\ In ("project"%string : text) (columns d5)
  /\ Forall (fun c => isna c = false) (column_of "project"%string d5)
  /\ column_of "status"%string d5 = normal_status str_of_finite raw.
Proof.
  intros ND NP IS CP H.
  destruct (keep_rename_spec keep raw ND) as (R1 & ND1 & L1 & K1 & S1).
  set (d1 := keep_rename keep raw) in *.
  assert (NP1 : ~ In ("project"%string : text) (columns d1)).
  { intros I. apply NP. apply (K1 _ I). }
  unfold set_column_const in H.
  set (vals := map (fun _ : list cell => Str pname) (rows d1)) in *.
  assert (LV : List.length vals = List.length (rows d1)) by (unfold vals; apply length_map).
  set (d2 := set_column "project"%string vals d1) in *.
  assert (C2 : columns d2 = columns d1 ++ [("project"%string : text)])
    by (apply set_column_new_columns; exact NP1).
  assert (R2 : rectangular d2) by (apply set_column_rectangular; exact R1).
  assert (ND2 : NoDup (columns d2)) by (rewrite C2; apply NoDup_snoc; assumption).
  assert (L2 : List.length (rows d2) = List.length (rows d1))
    by (apply set_column_rows_length; exact LV).
  destruct (cleanup_cols_spec to_numeric str_of_finite d2 d5 H ND2 R2) as (C5 & R5 & L5 & ST & PR).
  assert (IP : In ("project"%string : text) (columns d2)).
  { rewrite C2. apply in_or_app. right. left. reflexivity. }
  split; [exact R5|]. split; [congruence|]. split; [rewrite C5; exact IP|]. split.
  - rewrite (PR IP). unfold d2. rewrite (column_of_set_same _ _ _ R1 LV).
    unfold cleaned, vals. destruct (is_object _).
    + rewrite map_map. apply Forall_forall. intros c I. apply in_map_iff in I.
      destruct I as (r & <- & _). rewrite CP. reflexivity.
    + apply Forall_forall. intros c I. apply in_map_iff in I.
      destruct I as (r & <- & _). reflexivity.
  - unfold normal_status. specialize (S1 _ _ IS).
    destruct (has_column "Status"%string raw) eqn:HC.
    + destruct S1 as [I1 E1].
      assert (I2 : In ("status"%string : text) (columns d2)).
      { rewrite C2. apply in_or_app. left. exact I1. }
      rewrite (ST I2). unfold d2.
      rewrite (column_of_set_other _ _ _ _
                 (text_neq ("status"%string : text) ("project"%string : text) eq_refl) R1 LV).
      rewrite E1. reflexivity.
    + assert (N5 : ~ In ("status"%string : text) (columns d5)).
      { rewrite C5, C2. intros I. apply in_app_or in I. destruct I as [I|[I|[]]].
        - contradiction.
        - discriminate I. }
      rewrite (column_of_missing _ _ N5).
      assert (LL : List.length (rows d5) = List.length (rows raw)) by congruence.
      clear - LL. revert LL. generalize (rows d5), (rows raw).
      induction l as [|x l IH]; intros [|y l'] E; simpl in *; try lia; [reflexivity|].
      f_equal. apply IH. lia.
Qed.

Lemma rows_have_project (df : DataFrame) :
  Forall (fun c => isna c = false) (column_of "project"%string df) ->
  forall row, In row (rows df) -> exists c, In c row /\ isna c = false.
Proof.
  intros F row I. rewrite Forall_forall in F.
  assert (N : isna (cell_at (columns df) "project"%string row) = false).
  { apply F. unfold column_of. apply in_map. exact I. }
  exists (cell_at (columns df) "project"%string row). split; [|exact N].
  apply cell_at_In. exact N.
Qed.

Lemma add_upper_status (name source : text) (df df' : DataFrame) :
  add_upper str_of_finite name source df = Ok df' ->
  ("status"%string : text) <> name -> rectangular df ->
  rectangular df' /\ column_of "status"%string df' = column_of "status"%string df.
Proof.
  unfold add_upper. intros H NE R. apply rbind_ok in H. destruct H as (s & S & H).
  apply Ok_inj in H. subst df'.
  assert (L : List.length (map (fun c => Str (upper (astype_str str_of_finite c))) s)
              = List.length (rows df)).
  { rewrite length_map. apply (column_Ok_length _ _ _ S). }
  split; [apply set_column_rectangular; exact R|].
  apply (column_of_set_other _ _ _ _ NE R L).
Qed.

(** The status column of the unified table: the contribution of the
    first sheet, then that of the second. *)
Lemma load_all_units_status (bw_raw boho_raw U : DataFrame) :
  load_all_units to_numeric str_of_finite bw_raw boho_raw = Ok U ->
  column_of "status"%string U
  = normal_status str_of_finite bw_raw ++ normal_status str_of_finite boho_raw.
Proof.
  unfold load_all_units. cbv zeta. intros H.
  destruct keep_lists_ok as (ND1 & ND2 & NP1 & NP2 & IS1 & IS2).
  apply rbind_ok in H. destruct H as (bw & CB & H).
  apply rbind_ok in H. destruct H as (boho & CH & H).
  assert (CP1 : clean_object_cell str_of_finite (Str ("Boardwalk"%string : text))
                = Str ("Boardwalk"%string : text)) by reflexivity.
  assert (CP2 : clean_object_cell str_of_finite (Str ("BOHO"%string : text))
                = Str ("BOHO"%string : text)) by reflexivity.
  destruct (source_status BW_KEEP _ bw_raw bw ND1 NP1 IS1 CP1 CB) as (R1 & L1 & P1 & F1 & S1).
  destruct (source_status BOHO_KEEP _ boho_raw boho ND2 NP2 IS2 CP2 CH) as (R2 & L2 & P2 & F2 & S2).
  set (all_cols := sorted_set (columns bw ++ columns boho)) in *.
  assert (A1 : forall n, In n (columns bw) -> In n all_cols).
  { intros n I. apply sorted_set_In. apply in_or_app. left. exact I. }
  assert (A2 : forall n, In n (columns boho) -> In n all_cols).
  { intros n I. apply sorted_set_In. apply in_or_app. right. exact I. }
  set (bwR := reindex all_cols bw) in *. set (bohoR := reindex all_cols boho) in *.
  assert (KEEP : dropna_all (concat bwR bohoR) = concat bwR bohoR).
  { apply dropna_all_keeps. apply rows_have_project.
    rewrite (column_of_concat _ bwR bohoR eq_refl). unfold bwR, bohoR.
    rewrite !column_of_reindex by auto. apply Forall_app. auto. }
  rewrite KEEP in H. set (units := concat bwR bohoR) in *.
  assert (SU : column_of "status"%string units
               = normal_status str_of_finite bw_raw ++ normal_status str_of_finite boho_raw).
  { unfold units. rewrite (column_of_concat _ bwR bohoR eq_refl). unfold bwR, bohoR.
    rewrite !column_of_reindex by auto. rewrite S1, S2. reflexivity. }
  match type of H with
  | context [reindex ?names units] => set (names2 := names) in H
  end.
  assert (S3 : column_of "status"%string (reindex names2 units) = column_of "status"%string units).
  { apply column_of_reindex. intros I. unfold names2. apply filter_In.
    split; [|apply has_column_In; exact I].
    apply in_or_app. left. unfold key_order. repeat (first [left; reflexivity|right]). }
  apply rbind_ok in H. destruct H as (u3 & U3 & H).
  apply rbind_ok in H. destruct H as (u4 & U4 & H).
  apply Ok_inj in H. subst u4.
  destruct (add_upper_status _ _ _ _ U3
              (text_neq ("status"%string : text) ("_unit_upper"%string : text) eq_refl)
              (reindex_rectangular _ _)) as (R3 & E3).
  destruct (add_upper_status _ _ _ _ U4
              (text_neq ("status"%string : text) ("_building_upper"%string : text) eq_refl)
              R3) as (R4 & E4).
  rewrite E4, E3, S3. exact SU.
Qed.

End StatusDefault.

Lemma nth_map_in (A B : Type) (g : A -> B) (l : list A) (i : nat) (d : A) (e : B) :
  i < List.length l -> nth i (map g l) e = g (nth i l d).
Proof.
  intros L. rewrite (nth_indep _ e (g d)) by (rewrite length_map; exact L).
  apply map_nth.
Qed.

(** C5, as amended.  In the unified table the status column is what the
    two sheets contribute, the first sheet first.  A sheet that has a
    status column contributes no missing value, and "Available" where
    its own cell is missing; a sheet without a status column contributes
    missing values only. *)
Theorem status_default (to_numeric : text -> pyfloat) (str_of_finite : Qc -> text)
        (bw_raw boho_raw U : DataFrame) :
  load_all_units to_numeric str_of_finite bw_raw boho_raw = Ok U ->
  column_of "status"%string U
  = normal_status str_of_finite bw_raw ++ normal_status str_of_finite boho_raw
  /\ forall raw,
      List.length (normal_status str_of_finite raw) = List.length (rows raw)
      /\ (has_column "Status"%string raw = true ->
          Forall (fun c => isna c = false) (normal_status str_of_finite raw)
          /\ forall i, nth i (column_of "Status"%string raw) NA = Num NaN ->
                       nth i (normal_status str_of_finite raw) NA
                       = Str ("Available"%string : text))
      /\ (has_column "Status"%string raw = false ->
          Forall (fun c => c = Num NaN) (normal_status str_of_finite raw)).
Proof.
  intros H. split; [apply (load_all_units_status to_numeric str_of_finite _ _ _ H)|].
  intros raw. unfold normal_status.
  destruct (has_column "Status"%string raw); (split; [|split]); try discriminate.
  - rewrite length_map. unfold cleaned. destruct (is_object _);
      [rewrite length_map|]; apply column_of_length.
  - intros _. split.
    + apply Forall_forall. intros c I. apply in_map_iff in I.
      destruct I as (x & <- & _). apply fill_status_present.
    + intros i N.
      assert (L : i < List.length (column_of "Status"%string raw)).
      { destruct (Nat.lt_ge_cases i (List.length (column_of "Status"%string raw))) as [L|L];
          [exact L|]. rewrite nth_overflow in N by exact L. discriminate N. }
      unfold cleaned. destruct (is_object (column_of "Status"%string raw)).
      * rewrite (nth_map_in _ _ fill_status _ i NA) by (rewrite length_map; exact L).
        rewrite (nth_map_in _ _ (clean_object_cell str_of_finite) _ i NA) by exact L.
        rewrite N. reflexivity.
      * rewrite (nth_map_in _ _ fill_status _ i NA) by exact L.
        rewrite N. reflexivity.
  - apply length_map.
  - intros _. apply Forall_forall. intros c I. apply in_map_iff in I.
    destruct I as (x & <- & _). reflexivity.
Qed.

Lemma status_default_witness :
  column_of "status"%string example_units
  = normal_status no_digits bw_sheet ++ normal_status no_digits boho_sheet.
Proof.
  refine (proj1 (status_default float_or_nan no_digits bw_sheet boho_sheet example_units _)).
  vm_compute. reflexivity.
Defined.

(** C5 as stated fails: the first sheet has no status column, the second
    has one, and the record of the first sheet has a missing status in
    the unified table. *)
Lemma status_missing_without_status_column :
  has_column "Status"%string bw_sheet = false
  /\ exists U, load_all_units float_or_nan no_digits bw_sheet boho_sheet = Ok U
               /\ nth 0 (column_of "status"%string U) NA = Num NaN
               /\ isna (nth 0 (column_of "status"%string U) NA) = true.
Proof.
  split; [reflexivity|]. exists example_units.
  split; [vm_compute; reflexivity|]. split; reflexivity.
Qed.

(** ** The filter engine returns on tables of the canonical schema *)

Lemma column_in (name : text) (T : DataFrame) :
  In name (columns T) -> column name T = Ok (column_of name T).
Proof.
  intros I. unfold column, column_of, cell_at.
  destruct (position_in _ _ I) as (i & ->). reflexivity.
Qed.

Lemma bind_eq (A B : Type) (m : M A) (k : A -> M B) (h : heap) (a : A) (h1 : heap) :
  m h = Ok (a, h1) -> bind m k h = k a h1.
Proof. intros E. unfold bind. rewrite E. reflexivity. Qed.

Lemma narrow_returns (A : Type) (f : ref) (key : FilterIntent -> option A) (name : text)
      (test : series -> A -> result (list bool)) (out : ref) (h : heap) :
  In name (columns (frame_at h out)) ->
  (forall v, exists m, test (column_of name (frame_at h out)) v = Ok m) ->
  exists out' h', narrow f key name test out h = Ok (out', h').
Proof.
  intros I T. unfold narrow, bind, dict_get, read_dict, ret. cbn.
  destruct (key (nth f (dicts h) empty_intent)) as [v|]; [|eauto].
  unfold getitem, getitem_mask, bind, read_frame, lift. cbn.
  change (nth out (frames h) empty_frame) with (frame_at h out).
  rewrite (column_in _ _ I). destruct (T v) as (m & ->). cbn. unfold new_frame. eauto.
Qed.

Lemma sequence_returns (A : Type) (t : A -> result bool) (xs : list A) :
  Forall (fun x => exists b, t x = Ok b) xs -> exists m, sequence (map t xs) = Ok m.
Proof.
  induction 1 as [|x xs (b & E) _ (m & IH)]; simpl; [eauto|].
  rewrite E, IH. simpl. eauto.
Qed.

Lemma series_ge_returns (s : series) (v : pyfloat) :
  Forall (fun c => is_Str c = false) s -> exists m, series_ge s v = Ok m.
Proof.
  intros F. apply sequence_returns. apply Forall_forall. intros c I.
  rewrite Forall_forall in F. specialize (F c I).
  unfold ge_cell, fillna0. destruct c as [|x|[q|b|]]; try discriminate F; cbn; eauto.
Qed.

Lemma series_le_returns (s : series) (v : pyfloat) :
  Forall (fun c => is_Str c = false) s -> exists m, series_le s v = Ok m.
Proof.
  intros F. apply sequence_returns. apply Forall_forall. intros c I.
  rewrite Forall_forall in F. specialize (F c I).
  unfold le_cell, fillna0. destruct c as [|x|[q|b|]]; try discriminate F; cbn; eauto.
Qed.

Lemma test_bedrooms_returns (s : series) (n : text) :
  Forall (fun c => is_Num (fillna_empty c) = false) s -> exists m, test_bedrooms s n = Ok m.
Proof.
  intros F. unfold test_bedrooms, str_contains.
  assert (E : existsb is_Num (map fillna_empty s) = false).
  { induction F as [|c s Fc _ IH]; [reflexivity|]. simpl. rewrite Fc, IH. reflexivity. }
  rewrite E. eauto.
Qed.

Lemma column_of_filtered (name : text) (P : cell -> Prop) (T T' : DataFrame)
      (p : list cell -> bool) :
  columns T' = columns T -> rows T' = filter p (rows T) ->
  (forall row, In row (rows T) -> P (cell_at (columns T) name row)) ->
  Forall P (column_of name T').
Proof.
  intros C R K. unfold column_of. rewrite C, R. apply Forall_forall. intros c I.
  apply in_map_iff in I. destruct I as (row & <- & I). apply filter_In in I.
  apply K. apply I.
Qed.

(** One step of the chain: the next [narrow] returns. *)
Ltac step_returns C o h TESTS :=
  match goal with
  | |- exists out h', bind (narrow ?f ?key ?name ?test ?o0) _ ?h0 = _ =>
    let E := fresh "E" in
    destruct (narrow_returns _ f key name test o0 h0) as (o & h & E);
    [rewrite C; auto | TESTS | rewrite (bind_eq _ _ _ _ _ _ _ E)]
  end.

(** On a table of the canonical schema [apply_filters] returns, for
    every intent. *)
Lemma apply_filters_returns (df f : ref) (h : heap) :
  canonical (frame_at h df) -> exists out h', apply_filters df f h = Ok (out, h').
Proof.
  intros [COLS CELLS]. set (T := frame_at h df) in *.
  assert (IN : forall n, mem_text n filter_columns = true -> In n (columns T)).
  { intros n Mn. apply COLS. apply mem_text_In. exact Mn. }
  assert (PRICE : forall row, In row (rows T) ->
                              is_Str (cell_at (columns T) "price"%string row) = false)
    by (intros row I; apply (CELLS row I)).
  assert (AREA : forall row, In row (rows T) ->
                             is_Str (cell_at (columns T) "selling_area"%string row) = false)
    by (intros row I; apply (CELLS row I)).
  assert (CONF : forall row, In row (rows T) ->
                   is_Num (fillna_empty (cell_at (columns T) "configuration"%string row)) = false)
    by (intros row I; apply (CELLS row I)).
  unfold apply_filters.
  destruct (copy_spec df h) as (o0 & h0 & E0 & X0 & L0 & F0 & N0).
  rewrite (bind_eq _ _ _ _ _ _ _ E0).
  assert (R0 : rows (frame_at h0 o0) = filter (fun _ => true) (rows T))
    by (rewrite filter_all, F0; reflexivity).
  assert (C0 : columns (frame_at h0 o0) = columns T) by (rewrite F0; reflexivity).
  clear F0 E0.
  step_returns C0 o1 h1 ltac:(intros v; unfold test_isin; eauto).
  destruct (narrow_chain _ _ _ _ _ _ _ _ _ _ _ _ _ test_isin_cellwise X0 L0 C0 R0 E)
    as (X1 & L1 & C1 & R1 & _). clear E.
  step_returns C1 o2 h2 ltac:(intros v; unfold test_isin; eauto).
  destruct (narrow_chain _ _ _ _ _ _ _ _ _ _ _ _ _ test_isin_cellwise X1 L1 C1 R1 E)
    as (X2 & L2 & C2 & R2 & _). clear E.
  step_returns C2 o3 h3
    ltac:(intros v; apply test_bedrooms_returns;
          apply (column_of_filtered _ _ T _ _ C2 R2 CONF)).
  destruct (narrow_chain _ _ _ _ _ _ _ _ _ _ _ _ _ test_bedrooms_cellwise X2 L2 C2 R2 E)
    as (X3 & L3 & C3 & R3 & _). clear E.
  step_returns C3 o4 h4
    ltac:(intros v; apply series_ge_returns;
          apply (column_of_filtered _ _ T _ _ C3 R3 PRICE)).
  destruct (narrow_chain _ _ _ _ _ _ _ _ _ _ _ _ _ series_ge_cellwise X3 L3 C3 R3 E)
    as (X4 & L4 & C4 & R4 & _). clear E.
  step_returns C4 o5 h5
    ltac:(intros v; apply series_le_returns;
          apply (column_of_filtered _ _ T _ _ C4 R4 PRICE)).
  destruct (narrow_chain _ _ _ _ _ _ _ _ _ _ _ _ _ series_le_cellwise X4 L4 C4 R4 E)
    as (X5 & L5 & C5 & R5 & _). clear E.
  step_returns C5 o6 h6
    ltac:(intros v; apply series_ge_returns;
          apply (column_of_filtered _ _ T _ _ C5 R5 AREA)).
  destruct (narrow_chain _ _ _ _ _ _ _ _ _ _ _ _ _ series_ge_cellwise X5 L5 C5 R5 E)
    as (X6 & L6 & C6 & R6 & _). clear E.
  step_returns C6 o7 h7
    ltac:(intros v; apply series_le_returns;
          apply (column_of_filtered _ _ T _ _ C6 R6 AREA)).
  destruct (narrow_chain _ _ _ _ _ _ _ _ _ _ _ _ _ series_le_cellwise X6 L6 C6 R6 E)
    as (X7 & L7 & C7 & R7 & _). clear E.
  step_returns C7 o8 h8 ltac:(intros v; unfold test_eq_num; eauto).
  destruct (narrow_chain _ _ _ _ _ _ _ _ _ _ _ _ _ test_eq_num_cellwise X7 L7 C7 R7 E)
    as (X8 & L8 & C8 & R8 & _). clear E.
  step_returns C8 o9 h9 ltac:(intros v; unfold test_eq_text; eauto).
  destruct (narrow_chain _ _ _ _ _ _ _ _ _ _ _ _ _ test_eq_text_cellwise X8 L8 C8 R8 E)
    as (X9 & L9 & C9 & R9 & _). clear E.
  step_returns C9 o10 h10 ltac:(intros v; unfold test_eq_text; eauto).
  unfold ret. eauto.
Qed.


(** The example table of two records is of the canonical
    schema. *)
Lemma two_units_canonical : canonical two_units.
Proof.
  assert (F : forallb (fun n => mem_text n (columns two_units)) filter_columns = true)
    by (vm_compute; reflexivity).
  assert (G : forallb (fun row =>
                negb (is_Str (cell_at (columns two_units) "price"%string row))
                && negb (is_Str (cell_at (columns two_units) "selling_area"%string row))
                && negb (is_Num (fillna_empty
                                   (cell_at (columns two_units) "configuration"%string row))))
              (rows two_units) = true) by (vm_compute; reflexivity).
  generalize dependent two_units. intros U F G.
  rewrite forallb_forall in F, G. split.
  - intros n I. apply mem_text_In. exact (F n I).
  - intros row I. specialize (G row I).
    apply andb_prop in G. destruct G as [G G3]. apply andb_prop in G. destruct G as [G1 G2].
    apply negb_true_iff in G1, G2, G3. split; [exact G1|]. split; [exact G2|exact G3].
Qed.

Lemma two_units_text : holds_text "configuration"%string two_units.
Proof. exists unknown_price_row. split; [left; reflexivity|reflexivity]. Qed.


(* ================================================================== *)
(** * Further properties of the filter engine *)
(* ================================================================== *)

Lemma canonical_typed (T : DataFrame) : canonical T -> typed_cells T.
Proof. intros [_ C]. exact C. Qed.

Lemma bind_raise (A B : Type) (m : M A) (k : A -> M B) (h : heap) (e : exn) :
  m h = Raise e -> bind m k h = Raise e.
Proof. intros E. unfold bind. rewrite E. reflexivity. Qed.

Lemma column_missing (name : text) (T : DataFrame) :
  ~ In name (columns T) -> column name T = Raise (KeyError name).
Proof.
  intros NI. unfold column. apply position_none in NI. rewrite NI. reflexivity.
Qed.

Lemma narrow_raises (A : Type) (f : ref) (key : FilterIntent -> option A) (name : text)
      (test : series -> A -> result (list bool)) (out : ref) (h : heap) (v : A) :
  key (dict_at h f) = Some v -> ~ In name (columns (frame_at h out)) ->
  narrow f key name test out h = Raise (KeyError name).
Proof.
  intros K NI. unfold narrow, bind, dict_get, read_dict, ret. cbn.
  change (nth f (dicts h) empty_intent) with (dict_at h f). rewrite K.
  unfold getitem, bind, read_frame, lift. cbn.
  change (nth out (frames h) empty_frame) with (frame_at h out).
  rewrite (column_missing _ _ NI). reflexivity.
Qed.

Lemma narrow_returns_or (A : Type) (f : ref) (key : FilterIntent -> option A) (name : text)
      (test : series -> A -> result (list bool)) (out : ref) (h : heap) :
  key (dict_at h f) = None \/ In name (columns (frame_at h out)) ->
  (forall v, exists m, test (column_of name (frame_at h out)) v = Ok m) ->
  exists out' h', narrow f key name test out h = Ok (out', h').
Proof.
  intros [K|I] T.
  - unfold narrow, bind, dict_get, read_dict, ret. cbn.
    change (nth f (dicts h) empty_intent) with (dict_at h f). rewrite K. eauto.
  - apply narrow_returns; assumption.
Qed.

Lemma text_in_dec (n : text) (l : list text) : {In n l} + {~ In n l}.
Proof. apply in_dec. apply list_eq_dec. apply ascii_dec. Qed.

Lemma reads_In (A : Type) (k : option A) (name : string) (n : text) :
  In n (reads k name) -> n = (name : text) /\ k <> None.
Proof.
  destruct k; simpl; [|intros []].
  intros [E|[]]. split; [symmetry; exact E|discriminate].
Qed.

Lemma In_reads (A : Type) (k : option A) (name : string) (v : A) :
  k = Some v -> In (name : text) (reads k name).
Proof. intros ->. left. reflexivity. Qed.


(** X1.  On a table of the canonical schema whose configuration column
    holds a text [apply_filters] returns, for every intent, a new table
    with the columns of the input whose records are exactly the records
    of the input that satisfy every constraint of the intent, in the
    order of the input. *)
Theorem apply_filters_selects (df f : ref) (h : heap) :
  canonical (frame_at h df) -> holds_text "configuration"%string (frame_at h df) ->
  exists out h',
    apply_filters df f h = Ok (out, h')
    /\ columns (frame_at h' out) = columns (frame_at h df)
    /\ rows (frame_at h' out)
       = filter (passes (columns (frame_at h df)) (dict_at h f)) (rows (frame_at h df)).
Proof.
  intros C _. destruct (apply_filters_returns df f h C) as (out & h' & E).
  exists out, h'. split; [exact E|].
  destruct (apply_filters_spec _ _ _ _ _ E) as (_ & _ & _ & Cs & Rs). split; assumption.
Qed.

Lemma apply_filters_selects_witness :
  canonical two_units /\ holds_text "configuration"%string two_units
  /\ exists out h',
       apply_filters 0 0 (heap_of two_units min_price_1_on_hold) = Ok (out, h')
       /\ columns (frame_at h' out) = unit_columns
       /\ rows (frame_at h' out)
          = filter (passes unit_columns min_price_1_on_hold) [unknown_price_row; ten_million_row].
Proof.
  split; [exact two_units_canonical|]. split; [exact two_units_text|].
  exact (apply_filters_selects 0 0 (heap_of two_units min_price_1_on_hold)
                               two_units_canonical two_units_text).
Defined.

(** X2.  Applying one intent to the result of another gives the records
    that satisfy both intents, so the order of the two applications does
    not matter. *)
Theorem apply_filters_compose (df fA fB : ref) (h : heap)
        (o1 : ref) (h1 : heap) (o2 : ref) (h2 : heap)
        (o1' : ref) (h1' : heap) (o2' : ref) (h2' : heap) :
  apply_filters df fA h = Ok (o1, h1) -> apply_filters o1 fB h1 = Ok (o2, h2) ->
  apply_filters df fB h = Ok (o1', h1') -> apply_filters o1' fA h1' = Ok (o2', h2') ->
  rows (frame_at h2 o2)
  = filter (fun row => passes (columns (frame_at h df)) (dict_at h fA) row
                       && passes (columns (frame_at h df)) (dict_at h fB) row)
           (rows (frame_at h df))
  /\ frame_at h2' o2' = frame_at h2 o2.
Proof.
  intros A1 B2 B1 A2.
  destruct (apply_filters_spec _ _ _ _ _ A1) as (X1 & _ & _ & C1 & R1).
  destruct (apply_filters_spec _ _ _ _ _ B2) as (_ & _ & _ & C2 & R2).
  destruct (apply_filters_spec _ _ _ _ _ B1) as (X1' & _ & _ & C1' & R1').
  destruct (apply_filters_spec _ _ _ _ _ A2) as (_ & _ & _ & C2' & R2').
  rewrite C1, R1, (extends_dict _ _ _ X1), filter_filter in R2.
  rewrite C1', R1', (extends_dict _ _ _ X1'), filter_filter in R2'.
  split; [exact R2|].
  destruct (frame_at h2' o2') as [c' r'], (frame_at h2 o2) as [c r]. simpl in *.
  f_equal; [congruence|]. rewrite R2', R2. apply filter_ext_bool.
  intros row. apply andb_comm.
Qed.

Lemma apply_filters_compose_witness :
  exists o1 h1 o2 h2 o1' h1' o2' h2',
    apply_filters 0 0 {| frames := [two_units]; dicts := [min_price_1; min_area_100] |}
    = Ok (o1, h1)
    /\ apply_filters o1 1 h1 = Ok (o2, h2)
    /\ apply_filters 0 1 {| frames := [two_units]; dicts := [min_price_1; min_area_100] |}
       = Ok (o1', h1')
    /\ apply_filters o1' 0 h1' = Ok (o2', h2')
    /\ rows (frame_at h2 o2) = [ten_million_row]
    /\ frame_at h2' o2' = frame_at h2 o2.
Proof.
  pose (h := {| frames := [two_units]; dicts := [min_price_1; min_area_100] |}).
  let v := eval vm_compute in (apply_filters 0 0 h) in
  match v with Ok (?o, ?x) => pose (o1 := o); pose (h1 := x) end.
  let v := eval vm_compute in (apply_filters o1 1 h1) in
  match v with Ok (?o, ?x) => pose (o2 := o); pose (h2 := x) end.
  let v := eval vm_compute in (apply_filters 0 1 h) in
  match v with Ok (?o, ?x) => pose (o1' := o); pose (h1' := x) end.
  let v := eval vm_compute in (apply_filters o1' 0 h1') in
  match v with Ok (?o, ?x) => pose (o2' := o); pose (h2' := x) end.
  assert (A1 : apply_filters 0 0 h = Ok (o1, h1)) by (vm_compute; reflexivity).
  assert (B2 : apply_filters o1 1 h1 = Ok (o2, h2)) by (vm_compute; reflexivity).
  assert (B1 : apply_filters 0 1 h = Ok (o1', h1')) by (vm_compute; reflexivity).
  assert (A2 : apply_filters o1' 0 h1' = Ok (o2', h2')) by (vm_compute; reflexivity).
  exists o1, h1, o2, h2, o1', h1', o2', h2'.
  split; [exact A1|]. split; [exact B2|]. split; [exact B1|]. split; [exact A2|].
  split; [vm_compute; reflexivity|].
  exact (proj2 (apply_filters_compose 0 0 1 h o1 h1 o2 h2 o1' h1' o2' h2' A1 B2 B1 A2)).
Defined.

Lemma constraint_cases (A : Type) (k : option A) (name : text) (cols : list text) :
  (exists v, k = Some v /\ ~ In name cols) \/ (k = None \/ In name cols).
Proof.
  destruct k as [v|]; [|right; left; reflexivity].
  destruct (text_in_dec name cols) as [I|I]; [right; right; exact I|].
  left. exists v. split; [reflexivity|exact I].
Qed.

(** One step of the chain: the next [narrow] raises [KeyError] for a
    column that is constrained and missing, or returns. *)
Ltac step_or_raise T h0 X C o h TESTS :=
  match goal with
  | |- exists n, _ /\ _ /\ bind (narrow ?f ?key ?name ?test ?o0) _ ?hc = Raise (KeyError n) =>
    let K := fresh "K" in
    let I := fresh "I" in
    let E := fresh "E" in
    let P := fresh "P" in
    let v := fresh "v" in
    destruct (constraint_cases _ (key (dict_at h0 f)) name (columns T)) as [(v & K & I)|P];
    [ exists name; split;
      [ clear - K; unfold constrained_columns; rewrite K; repeat rewrite in_app_iff; simpl; tauto
      | split; [exact I|];
        apply bind_raise; apply (narrow_raises _ f key name test o0 hc v);
        [ rewrite (extends_dict h0 hc f X); exact K | rewrite C; exact I ] ]
    | destruct (narrow_returns_or _ f key name test o0 hc) as (o & h & E);
      [ rewrite (extends_dict h0 hc f X), C; exact P
      | TESTS
      | rewrite (bind_eq _ _ _ _ _ _ _ E) ] ]
  end.

(** X3.  [apply_filters] never ignores a constraint whose column the
    table lacks: on a table whose cells are of the expected types and
    whose configuration column, when it has one, holds a text, it raises
    [KeyError] for a missing column that the intent constrains. *)
Theorem apply_filters_missing_column (df f : ref) (h : heap) (n : text) :
  typed_cells (frame_at h df) ->
  (In ("configuration"%string : text) (columns (frame_at h df)) ->
   holds_text "configuration"%string (frame_at h df)) ->
  In n (constrained_columns (dict_at h f)) -> ~ In n (columns (frame_at h df)) ->
  exists m, In m (constrained_columns (dict_at h f)) /\ ~ In m (columns (frame_at h df))
            /\ apply_filters df f h = Raise (KeyError m).
Proof.
  intros CELLS _ INn NIn. set (T := frame_at h df) in *.
  assert (PRICE : forall row, In row (rows T) ->
                              is_Str (cell_at (columns T) "price"%string row) = false)
    by (intros row I; apply (CELLS row I)).
  assert (AREA : forall row, In row (rows T) ->
                             is_Str (cell_at (columns T) "selling_area"%string row) = false)
    by (intros row I; apply (CELLS row I)).
  assert (CONF : forall row, In row (rows T) ->
                   is_Num (fillna_empty (cell_at (columns T) "configuration"%string row)) = false)
    by (intros row I; apply (CELLS row I)).
  unfold apply_filters.
  destruct (copy_spec df h) as (o0 & h0 & E0 & X0 & L0 & F0 & N0).
  rewrite (bind_eq _ _ _ _ _ _ _ E0).
  assert (R0 : rows (frame_at h0 o0) = filter (fun _ => true) (rows T))
    by (rewrite filter_all, F0; reflexivity).
  assert (C0 : columns (frame_at h0 o0) = columns T) by (rewrite F0; reflexivity).
  clear F0 E0.
  step_or_raise T h X0 C0 o1 h1 ltac:(intros w; unfold test_isin; eauto).
  destruct (narrow_chain _ _ _ _ _ _ _ _ _ _ _ _ _ test_isin_cellwise X0 L0 C0 R0 E)
    as (X1 & L1 & C1 & R1 & _). clear E.
  step_or_raise T h X1 C1 o2 h2 ltac:(intros w; unfold test_isin; eauto).
  destruct (narrow_chain _ _ _ _ _ _ _ _ _ _ _ _ _ test_isin_cellwise X1 L1 C1 R1 E)
    as (X2 & L2 & C2 & R2 & _). clear E.
  step_or_raise T h X2 C2 o3 h3
    ltac:(intros w; apply test_bedrooms_returns;
          apply (column_of_filtered _ _ T _ _ C2 R2 CONF)).
  destruct (narrow_chain _ _ _ _ _ _ _ _ _ _ _ _ _ test_bedrooms_cellwise X2 L2 C2 R2 E)
    as (X3 & L3 & C3 & R3 & _). clear E.
  step_or_raise T h X3 C3 o4 h4
    ltac:(intros w; apply series_ge_returns;
          apply (column_of_filtered _ _ T _ _ C3 R3 PRICE)).
  destruct (narrow_chain _ _ _ _ _ _ _ _ _ _ _ _ _ series_ge_cellwise X3 L3 C3 R3 E)
    as (X4 & L4 & C4 & R4 & _). clear E.
  step_or_raise T h X4 C4 o5 h5
    ltac:(intros w; apply series_le_returns;
          apply (column_of_filtered _ _ T _ _ C4 R4 PRICE)).
  destruct (narrow_chain _ _ _ _ _ _ _ _ _ _ _ _ _ series_le_cellwise X4 L4 C4 R4 E)
    as (X5 & L5 & C5 & R5 & _). clear E.
  step_or_raise T h X5 C5 o6 h6
    ltac:(intros w; apply series_ge_returns;
          apply (column_of_filtered _ _ T _ _ C5 R5 AREA)).
  destruct (narrow_chain _ _ _ _ _ _ _ _ _ _ _ _ _ series_ge_cellwise X5 L5 C5 R5 E)
    as (X6 & L6 & C6 & R6 & _). clear E.
  step_or_raise T h X6 C6 o7 h7
    ltac:(intros w; apply series_le_returns;
          apply (column_of_filtered _ _ T _ _ C6 R6 AREA)).
  destruct (narrow_chain _ _ _ _ _ _ _ _ _ _ _ _ _ series_le_cellwise X6 L6 C6 R6 E)
    as (X7 & L7 & C7 & R7 & _). clear E.
  step_or_raise T h X7 C7 o8 h8 ltac:(intros w; unfold test_eq_num; eauto).
  destruct (narrow_chain _ _ _ _ _ _ _ _ _ _ _ _ _ test_eq_num_cellwise X7 L7 C7 R7 E)
    as (X8 & L8 & C8 & R8 & _). clear E.
  step_or_raise T h X8 C8 o9 h9 ltac:(intros w; unfold test_eq_text; eauto).
  destruct (narrow_chain _ _ _ _ _ _ _ _ _ _ _ _ _ test_eq_text_cellwise X8 L8 C8 R8 E)
    as (X9 & L9 & C9 & R9 & _). clear E.
  step_or_raise T h X9 C9 o10 h10 ltac:(intros w; unfold test_eq_text; eauto).
  exfalso. clear - INn NIn P P0 P1 P2 P3 P4 P5 P6 P7 P8.
  unfold constrained_columns in INn. repeat rewrite in_app_iff in INn.
  repeat match type of INn with _ \/ _ => destruct INn as [INn|INn] end;
    apply reads_In in INn; destruct INn as [-> KN];
    match goal with
    | Q : ?k = None \/ In _ _, KN : ?k <> None |- _ =>
      destruct Q as [Q|Q]; [exact (KN Q)|exact (NIn Q)]
    end.
Qed.


Lemma units_without_area_typed : typed_cells units_without_area.
Proof.
  intros row [<-|[]]. repeat split; reflexivity.
Qed.

Lemma units_without_area_no_area :
  ~ In ("selling_area"%string : text) (columns units_without_area).
Proof.
  intros X. apply mem_text_In in X. discriminate X.
Qed.

Lemma apply_filters_missing_column_witness :
  typed_cells units_without_area
  /\ holds_text "configuration"%string units_without_area
  /\ In ("selling_area"%string : text) (constrained_columns min_area_100)
  /\ ~ In ("selling_area"%string : text) (columns units_without_area)
  /\ exists m, In m (constrained_columns min_area_100)
               /\ ~ In m (columns units_without_area)
               /\ apply_filters 0 0 (heap_of units_without_area min_area_100)
                  = Raise (KeyError m).
Proof.
  assert (TXT : holds_text "configuration"%string units_without_area).
  { eexists. split; [left; reflexivity|reflexivity]. }
  split; [exact units_without_area_typed|]. split; [exact TXT|].
  split; [left; reflexivity|]. split; [exact units_without_area_no_area|].
  exact (apply_filters_missing_column 0 0 (heap_of units_without_area min_area_100)
           ("selling_area"%string : text) units_without_area_typed (fun _ => TXT)
           (or_introl eq_refl) units_without_area_no_area).
Defined.


(* ================================================================== *)
(** * The sidebar filters and the chat table *)
(* ================================================================== *)

Lemma narrow_if_chain (cond : bool) (name : text) (test : series -> result (list bool))
      (cw : cell -> bool) (h0 : heap) (T : DataFrame) (p : list cell -> bool)
      (out : ref) (h : heap) (out' : ref) (h' : heap) :
  (forall c m, test c = Ok m -> m = map cw c) ->
  extends h0 h -> live h out ->
  columns (frame_at h out) = columns T ->
  rows (frame_at h out) = filter p (rows T) ->
  narrow_if cond name test out h = Ok (out', h') ->
  extends h0 h' /\ live h' out'
  /\ columns (frame_at h' out') = columns T
  /\ rows (frame_at h' out')
     = filter (fun row => p row && (if cond then cw (cell_at (columns T) name row) else true))
              (rows T).
Proof.
  intros CW X L C R. unfold narrow_if. destruct cond.
  - unfold getitem, getitem_mask, bind, read_frame, lift. cbn.
    change (nth out (frames h) empty_frame) with (frame_at h out).
    destruct (column name (frame_at h out)) as [c|e] eqn:Cn; cbn; [|intros H; discriminate H].
    destruct (test c) as [m|e] eqn:Tn; cbn; [|intros H; discriminate H].
    change (nth out (frames h) empty_frame) with (frame_at h out).
    destruct (new_frame_spec (mask_rows (frame_at h out) m) h) as (h2 & E & X2 & F & L2).
    rewrite E. intros H. inversion H; subst out' h'.
    split; [eapply extends_trans; eassumption|]. split; [exact L2|].
    rewrite F. simpl. split; [exact C|].
    rewrite (CW _ _ Tn), (column_cells _ _ _ Cn), select_map_filter, R, C.
    apply filter_filter.
  - intros H. inversion H; subst out' h'.
    split; [exact X|]. split; [exact L|]. split; [exact C|].
    rewrite R. apply filter_ext_bool. intros row. rewrite andb_true_r. reflexivity.
Qed.

Lemma narrow_some_chain (v : option pyfloat) (name : text)
      (test : series -> pyfloat -> result (list bool)) (cw : pyfloat -> cell -> bool)
      (h0 : heap) (T : DataFrame) (p : list cell -> bool)
      (out : ref) (h : heap) (out' : ref) (h' : heap) :
  (forall c x m, test c x = Ok m -> m = map (cw x) c) ->
  extends h0 h -> live h out ->
  columns (frame_at h out) = columns T ->
  rows (frame_at h out) = filter p (rows T) ->
  narrow_some v name test out h = Ok (out', h') ->
  extends h0 h' /\ live h' out'
  /\ columns (frame_at h' out') = columns T
  /\ rows (frame_at h' out')
     = filter (fun row => p row && holds v (fun x => cw x (cell_at (columns T) name row)))
              (rows T).
Proof.
  intros CW X L C R. unfold narrow_some. destruct v as [x|].
  - intros H.
    apply (narrow_if_chain true name (fun c => test c x) (cw x) h0 T p out h out' h'
                           (fun c m => CW c x m) X L C R H).
  - intros H. inversion H; subst out' h'.
    split; [exact X|]. split; [exact L|]. split; [exact C|].
    rewrite R. apply filter_ext_bool. intros row. simpl. rewrite andb_true_r. reflexivity.
Qed.

Lemma narrow_if_returns (cond : bool) (name : text) (test : series -> result (list bool))
      (out : ref) (h : heap) :
  cond = false \/ In name (columns (frame_at h out)) ->
  (exists m, test (column_of name (frame_at h out)) = Ok m) ->
  exists out' h', narrow_if cond name test out h = Ok (out', h').
Proof.
  intros D (m & Tm). unfold narrow_if. destruct cond.
  - destruct D as [D|I]; [discriminate D|].
    unfold getitem, getitem_mask, bind, read_frame, lift. cbn.
    change (nth out (frames h) empty_frame) with (frame_at h out).
    rewrite (column_in _ _ I), Tm. cbn. unfold new_frame. eauto.
  - unfold ret. eauto.
Qed.

Lemma narrow_some_returns (v : option pyfloat) (name : text)
      (test : series -> pyfloat -> result (list bool)) (out : ref) (h : heap) :
  In name (columns (frame_at h out)) ->
  (forall x, exists m, test (column_of name (frame_at h out)) x = Ok m) ->
  exists out' h', narrow_some v name test out h = Ok (out', h').
Proof.
  intros I Tm. unfold narrow_some. destruct v as [x|].
  - apply narrow_if_returns; [right; exact I|apply Tm].
  - unfold ret. eauto.
Qed.

Lemma str_contains_cellwise (nums : list text) (c : series) (m : list bool) :
  str_contains (re_has_any_bedrooms nums) c = Ok m -> m = map (cell_has_any_bedrooms nums) c.
Proof.
  unfold str_contains.
  destruct (existsb is_Num (map fillna_empty c)); [intros H; discriminate|].
  intros H. inversion H. rewrite map_map. reflexivity.
Qed.

Lemma str_contains_returns (r : regex) (s : series) :
  Forall (fun c => is_Num (fillna_empty c) = false) s -> exists m, str_contains r s = Ok m.
Proof.
  intros F. unfold str_contains.
  assert (E : existsb is_Num (map fillna_empty s) = false).
  { induction F as [|c s Fc _ IH]; [reflexivity|]. simpl. rewrite Fc, IH. reflexivity. }
  rewrite E. eauto.
Qed.

Lemma no_bedrooms_text (sb : Sidebar) : sb_bedrooms sb = [] -> bedroom_numbers sb = [].
Proof. unfold bedroom_numbers. intros ->. reflexivity. Qed.

Lemma bedrooms_cond (sb : Sidebar) :
  negb (is_empty (sb_bedrooms sb)) && negb (is_empty (bedroom_numbers sb))
  = negb (is_empty (bedroom_numbers sb)).
Proof.
  destruct (sb_bedrooms sb) eqn:E; [|reflexivity].
  rewrite (no_bedrooms_text _ E). reflexivity.
Qed.

Lemma number_of_ok (s : text) : parse_number s = Ok (number_of s).
Proof.
  unfold number_of. destruct (parse_number_total s) as (r & ->). reflexivity.
Qed.

Lemma lift_eq (A : Type) (r : result A) (a : A) (h : heap) : r = Ok a -> lift r h = Ok (a, h).
Proof. intros ->. reflexivity. Qed.

(** What [filter_df] returns, when it returns. *)
Lemma filter_df_spec (sb : Sidebar) (df : ref) (h : heap) (out : ref) (h' : heap) :
  filter_df sb df h = Ok (out, h') ->
  extends h h' /\ live h' out
  /\ columns (frame_at h' out) = columns (frame_at h df)
  /\ rows (frame_at h' out)
     = filter (sidebar_passes (columns (frame_at h df)) sb) (rows (frame_at h df)).
Proof.
  unfold filter_df. intros H.
  apply bind_ok in H. destruct H as (o0 & h0 & H0 & H).
  destruct (copy_spec df h) as (o0' & h0' & E0 & X0 & L0 & F0 & N0).
  rewrite E0 in H0. inversion H0; subst o0' h0'. clear H0 E0.
  assert (R0 : rows (frame_at h0 o0) = filter (fun _ => true) (rows (frame_at h df)))
    by (rewrite filter_all, F0; reflexivity).
  assert (C0 : columns (frame_at h0 o0) = columns (frame_at h df)) by (rewrite F0; reflexivity).
  clear F0.
  apply bind_ok in H. destruct H as (o1 & h1 & H1 & H).
  destruct (narrow_if_chain _ _ _ (cell_isin (sb_project sb)) _ _ _ _ _ _ _
              (fun c m => test_isin_cellwise c (sb_project sb) m) X0 L0 C0 R0 H1)
    as (X1 & L1 & C1 & R1).
  apply bind_ok in H. destruct H as (o2 & h2 & H2 & H).
  destruct (narrow_if_chain _ _ _ (cell_isin (sb_status sb)) _ _ _ _ _ _ _
              (fun c m => test_isin_cellwise c (sb_status sb) m) X1 L1 C1 R1 H2)
    as (X2 & L2 & C2 & R2).
  cbv zeta in H. fold (bedroom_numbers sb) in H.
  apply bind_ok in H. destruct H as (o3 & h3 & H3 & H).
  destruct (narrow_if_chain _ _ _ (cell_has_any_bedrooms (bedroom_numbers sb)) _ _ _ _ _ _ _
              (str_contains_cellwise (bedroom_numbers sb)) X2 L2 C2 R2 H3)
    as (X3 & L3 & C3 & R3).
  rewrite bedrooms_cond in R3.
  rewrite (bind_eq _ _ _ _ _ _ _ (lift_eq _ _ _ _ (number_of_ok (sb_min_price sb)))) in H.
  rewrite (bind_eq _ _ _ _ _ _ _ (lift_eq _ _ _ _ (number_of_ok (sb_max_price sb)))) in H.
  rewrite (bind_eq _ _ _ _ _ _ _ (lift_eq _ _ _ _ (number_of_ok (sb_min_area sb)))) in H.
  rewrite (bind_eq _ _ _ _ _ _ _ (lift_eq _ _ _ _ (number_of_ok (sb_max_area sb)))) in H.
  apply bind_ok in H. destruct H as (o4 & h4 & H4 & H).
  destruct (narrow_some_chain _ _ _ _ _ _ _ _ _ _ _ series_ge_cellwise X3 L3 C3 R3 H4)
    as (X4 & L4 & C4 & R4).
  apply bind_ok in H. destruct H as (o5 & h5 & H5 & H).
  destruct (narrow_some_chain _ _ _ _ _ _ _ _ _ _ _ series_le_cellwise X4 L4 C4 R4 H5)
    as (X5 & L5 & C5 & R5).
  apply bind_ok in H. destruct H as (o6 & h6 & H6 & H).
  destruct (narrow_some_chain _ _ _ _ _ _ _ _ _ _ _ series_ge_cellwise X5 L5 C5 R5 H6)
    as (X6 & L6 & C6 & R6).
  apply bind_ok in H. destruct H as (o7 & h7 & H7 & H).
  destruct (narrow_some_chain _ _ _ _ _ _ _ _ _ _ _ series_le_cellwise X6 L6 C6 R6 H7)
    as (X7 & L7 & C7 & R7).
  unfold ret in H. inversion H; subst o7 h7.
  split; [exact X7|]. split; [exact L7|]. split; [exact C7|].
  rewrite R7. apply filter_ext_bool. intros row. unfold sidebar_passes.
  destruct (is_empty (sb_project sb)), (is_empty (sb_status sb)),
    (is_empty (bedroom_numbers sb)); reflexivity.
Qed.

(** One step of [filter_df]: the next [narrow_if] or [narrow_some]
    returns. *)
Ltac sidebar_step C o h TESTS :=
  match goal with
  | |- exists out h', bind (narrow_if ?cond ?name ?test ?o0) _ ?h0 = _ =>
    let E := fresh "E" in
    destruct (narrow_if_returns cond name test o0 h0) as (o & h & E);
    [right; rewrite C; auto | TESTS | rewrite (bind_eq _ _ _ _ _ _ _ E)]
  | |- exists out h', bind (narrow_some ?v ?name ?test ?o0) _ ?h0 = _ =>
    let E := fresh "E" in
    destruct (narrow_some_returns v name test o0 h0) as (o & h & E);
    [rewrite C; auto | TESTS | rewrite (bind_eq _ _ _ _ _ _ _ E)]
  end.

Lemma filter_df_returns (sb : Sidebar) (df : ref) (h : heap) :
  canonical (frame_at h df) -> exists out h', filter_df sb df h = Ok (out, h').
Proof.
  intros [COLS CELLS]. set (T := frame_at h df) in *.
  assert (IN : forall n, mem_text n filter_columns = true -> In n (columns T)).
  { intros n Mn. apply COLS. apply mem_text_In. exact Mn. }
  assert (PRICE : forall row, In row (rows T) ->
                              is_Str (cell_at (columns T) "price"%string row) = false)
    by (intros row I; apply (CELLS row I)).
  assert (AREA : forall row, In row (rows T) ->
                             is_Str (cell_at (columns T) "selling_area"%string row) = false)
    by (intros row I; apply (CELLS row I)).
  assert (CONF : forall row, In row (rows T) ->
                   is_Num (fillna_empty (cell_at (columns T) "configuration"%string row)) = false)
    by (intros row I; apply (CELLS row I)).
  unfold filter_df.
  destruct (copy_spec df h) as (o0 & h0 & E0 & X0 & L0 & F0 & N0).
  rewrite (bind_eq _ _ _ _ _ _ _ E0).
  assert (R0 : rows (frame_at h0 o0) = filter (fun _ => true) (rows T))
    by (rewrite filter_all, F0; reflexivity).
  assert (C0 : columns (frame_at h0 o0) = columns T) by (rewrite F0; reflexivity).
  clear F0 E0.
  sidebar_step C0 o1 h1 ltac:(unfold test_isin; eauto).
  destruct (narrow_if_chain _ _ _ (cell_isin (sb_project sb)) _ _ _ _ _ _ _
              (fun c m => test_isin_cellwise c (sb_project sb) m) X0 L0 C0 R0 E)
    as (X1 & L1 & C1 & R1). clear E.
  sidebar_step C1 o2 h2 ltac:(unfold test_isin; eauto).
  destruct (narrow_if_chain _ _ _ (cell_isin (sb_status sb)) _ _ _ _ _ _ _
              (fun c m => test_isin_cellwise c (sb_status sb) m) X1 L1 C1 R1 E)
    as (X2 & L2 & C2 & R2). clear E.
  cbv zeta. fold (bedroom_numbers sb).
  sidebar_step C2 o3 h3
    ltac:(apply str_contains_returns; apply (column_of_filtered _ _ T _ _ C2 R2 CONF)).
  destruct (narrow_if_chain _ _ _ (cell_has_any_bedrooms (bedroom_numbers sb)) _ _ _ _ _ _ _
              (str_contains_cellwise (bedroom_numbers sb)) X2 L2 C2 R2 E)
    as (X3 & L3 & C3 & R3). clear E.
  rewrite (bind_eq _ _ _ _ _ _ _ (lift_eq _ _ _ _ (number_of_ok (sb_min_price sb)))).
  rewrite (bind_eq _ _ _ _ _ _ _ (lift_eq _ _ _ _ (number_of_ok (sb_max_price sb)))).
  rewrite (bind_eq _ _ _ _ _ _ _ (lift_eq _ _ _ _ (number_of_ok (sb_min_area sb)))).
  rewrite (bind_eq _ _ _ _ _ _ _ (lift_eq _ _ _ _ (number_of_ok (sb_max_area sb)))).
  sidebar_step C3 o4 h4
    ltac:(intros v; apply series_ge_returns; apply (column_of_filtered _ _ T _ _ C3 R3 PRICE)).
  destruct (narrow_some_chain _ _ _ _ _ _ _ _ _ _ _ series_ge_cellwise X3 L3 C3 R3 E)
    as (X4 & L4 & C4 & R4). clear E.
  sidebar_step C4 o5 h5
    ltac:(intros v; apply series_le_returns; apply (column_of_filtered _ _ T _ _ C4 R4 PRICE)).
  destruct (narrow_some_chain _ _ _ _ _ _ _ _ _ _ _ series_le_cellwise X4 L4 C4 R4 E)
    as (X5 & L5 & C5 & R5). clear E.
  sidebar_step C5 o6 h6
    ltac:(intros v; apply series_ge_returns; apply (column_of_filtered _ _ T _ _ C5 R5 AREA)).
  destruct (narrow_some_chain _ _ _ _ _ _ _ _ _ _ _ series_ge_cellwise X5 L5 C5 R5 E)
    as (X6 & L6 & C6 & R6). clear E.
  sidebar_step C6 o7 h7
    ltac:(intros v; apply series_le_returns; apply (column_of_filtered _ _ T _ _ C6 R6 AREA)).
  unfold ret. eauto.
Qed.

Lemma canonical_filtered (T T' : DataFrame) (p : list cell -> bool) :
  columns T' = columns T -> rows T' = filter p (rows T) -> canonical T -> canonical T'.
Proof.
  intros C R [COLS CELLS]. split.
  - rewrite C. exact COLS.
  - rewrite C, R. intros row I. apply filter_In in I. apply CELLS. apply I.
Qed.

(** X4.  On a table of the canonical schema whose configuration column
    holds a text [filter_df] returns, for every state of the sidebar, a
    new table with the columns of the input whose records are the
    records of the input that pass the filters of the sidebar, in the
    order of the input; a number field that [parse_number] does not read
    imposes no filter. *)
Theorem filter_df_selects (sb : Sidebar) (df : ref) (h : heap) :
  canonical (frame_at h df) -> holds_text "configuration"%string (frame_at h df) ->
  exists out h',
    filter_df sb df h = Ok (out, h')
    /\ columns (frame_at h' out) = columns (frame_at h df)
    /\ rows (frame_at h' out)
       = filter (sidebar_passes (columns (frame_at h df)) sb) (rows (frame_at h df)).
Proof.
  intros C _. destruct (filter_df_returns sb df h C) as (out & h' & E).
  exists out, h'. split; [exact E|].
  destruct (filter_df_spec _ _ _ _ _ E) as (_ & _ & Cs & Rs). split; assumption.
Qed.

Lemma filter_df_selects_witness :
  canonical two_units /\ holds_text "configuration"%string two_units
  /\ exists out h',
       filter_df hold_from_5m 0 (heap_of two_units empty_intent) = Ok (out, h')
       /\ columns (frame_at h' out) = unit_columns
       /\ rows (frame_at h' out) = [ten_million_row].
Proof.
  split; [exact two_units_canonical|]. split; [exact two_units_text|].
  destruct (filter_df_selects hold_from_5m 0 (heap_of two_units empty_intent)
                              two_units_canonical two_units_text) as (out & h' & E & C & R).
  exists out, h'. split; [exact E|]. split; [exact C|]. rewrite R. vm_compute. reflexivity.
Defined.

Lemma new_dict_spec (I : FilterIntent) (h : heap) :
  exists h', new_dict I h = Ok (List.length (dicts h), h')
             /\ dict_at h' (List.length (dicts h)) = I
             /\ frames h' = frames h.
Proof.
  eexists. split; [reflexivity|]. split; [|reflexivity].
  unfold dict_at. simpl. rewrite app_nth2, Nat.sub_diag by lia. reflexivity.
Qed.

Lemma parse_query_empty : parse_query [] = Ok empty_intent.
Proof. vm_compute. reflexivity. Qed.

(** X5.  The table of the chat on a unified table of the canonical
    schema whose configuration column holds a text: when [parse_query]
    reads the prompt, the table has the records that pass the filters of
    the sidebar and satisfy the intent of the prompt, in the order of
    the unified table; when [parse_query] raises, so does the page. *)
Theorem chat_df_selects (units : ref) (sb : Sidebar) (prompt : text) (h : heap) :
  canonical (frame_at h units) -> holds_text "configuration"%string (frame_at h units) ->
  (forall I, parse_query prompt = Ok I ->
     exists r h',
       chat_df units sb prompt h = Ok (r, h')
       /\ columns (frame_at h' r) = columns (frame_at h units)
       /\ rows (frame_at h' r)
          = filter (fun row => sidebar_passes (columns (frame_at h units)) sb row
                               && passes (columns (frame_at h units)) I row)
                   (rows (frame_at h units)))
  /\ (forall e, parse_query prompt = Raise e -> chat_df units sb prompt h = Raise e).
Proof.
  intros C _. destruct (filter_df_returns sb units h C) as (filtered & h1 & F).
  destruct (filter_df_spec _ _ _ _ _ F) as (X1 & L1 & C1 & R1).
  unfold chat_df. rewrite (bind_eq _ _ _ _ _ _ _ F). split.
  - intros I P. destruct prompt as [|c prompt']; unfold is_empty.
    + rewrite parse_query_empty in P. apply Ok_inj in P. subst I.
      exists filtered, h1. split; [reflexivity|]. split; [exact C1|].
      rewrite R1. apply filter_ext_bool. intros row.
      rewrite passes_empty, andb_true_r. reflexivity.
    + rewrite (bind_eq _ _ _ _ _ _ _ (lift_eq _ _ _ _ P)).
      destruct (new_dict_spec I h1) as (h2 & D & DI & DF).
      rewrite (bind_eq _ _ _ _ _ _ _ D).
      assert (FE : frame_at h2 filtered = frame_at h1 filtered)
        by (unfold frame_at; rewrite DF; reflexivity).
      assert (C2 : canonical (frame_at h2 filtered)).
      { rewrite FE. apply (canonical_filtered _ _ _ C1 R1 C). }
      destruct (apply_filters_returns filtered (List.length (dicts h1)) h2 C2) as (r & h' & A).
      exists r, h'. split; [exact A|].
      destruct (apply_filters_spec _ _ _ _ _ A) as (_ & _ & _ & Cs & Rs).
      rewrite FE, DI in *. split; [congruence|].
      rewrite Rs, C1, R1. apply filter_filter.
  - intros e P. destruct prompt as [|c prompt']; unfold is_empty.
    + rewrite parse_query_empty in P. discriminate P.
    + apply bind_raise. unfold lift. rewrite P. reflexivity.
Qed.

Lemma chat_df_selects_witness :
  canonical two_units /\ holds_text "configuration"%string two_units
  /\ exists I, parse_query "BOHO over 5m"%string = Ok I
     /\ exists r h',
          chat_df 0 no_sidebar "BOHO over 5m"%string (heap_of two_units empty_intent)
          = Ok (r, h')
          /\ rows (frame_at h' r) = [ten_million_row].
Proof.
  split; [exact two_units_canonical|]. split; [exact two_units_text|].
  pose (I := set_min_price (of_Z 5000000) (set_project [("BOHO"%string : text)] empty_intent)).
  assert (P : parse_query "BOHO over 5m"%string = Ok I) by (vm_compute; floats_eq).
  exists I. split; [exact P|].
  destruct (proj1 (chat_df_selects 0 no_sidebar "BOHO over 5m"%string
                                   (heap_of two_units empty_intent) two_units_canonical
                                   two_units_text) I P)
    as (r & h' & E & _ & R).
  exists r, h'. split; [exact E|]. rewrite R. vm_compute. reflexivity.
Defined.

Lemma split_commas_blank (s : text) :
  forallb (fun c => is_comma c || is_space c) s = true ->
  Forall (fun w => forallb is_space w = true) (split_commas s).
Proof.
  induction s as [|c s IH]; simpl; intros H.
  - constructor; [reflexivity|constructor].
  - apply andb_true_iff in H. destruct H as [Hc Hs]. specialize (IH Hs).
    destruct (is_comma c) eqn:K.
    + constructor; [reflexivity|exact IH].
    + simpl in Hc. destruct (split_commas s) as [|w ws].
      * constructor; [simpl; rewrite Hc; reflexivity|constructor].
      * inversion IH; subst. constructor; [simpl; rewrite Hc; assumption|assumption].
Qed.

Lemma strip_blank (w : text) : forallb is_space w = true -> strip w = [].
Proof. intros H. unfold strip. rewrite (lstrip_all _ _ H). reflexivity. Qed.

Lemma blank_bedrooms (sb : Sidebar) :
  forallb (fun c => is_comma c || is_space c) (sb_bedrooms sb) = true ->
  bedroom_numbers sb = [].
Proof.
  intros H. unfold bedroom_numbers. apply split_commas_blank in H.
  induction H as [|w ws Hw _ IH]; [reflexivity|].
  simpl. rewrite (strip_blank _ Hw). exact IH.
Qed.

(** X6.  A sidebar without effective input leaves the table as it is,
    whatever its columns: no project and no status chosen, a bedrooms
    field of commas and whitespace only, and number fields that
    [parse_number] does not read.  [filter_df] then returns a copy of its
    input. *)
Theorem filter_df_blank_sidebar (sb : Sidebar) (df : ref) (h : heap) :
  sb_project sb = [] -> sb_status sb = [] ->
  forallb (fun c => is_comma c || is_space c) (sb_bedrooms sb) = true ->
  parse_number (sb_min_price sb) = Ok None -> parse_number (sb_max_price sb) = Ok None ->
  parse_number (sb_min_area sb) = Ok None -> parse_number (sb_max_area sb) = Ok None ->
  exists out h',
    filter_df sb df h = Ok (out, h')
    /\ frame_at h' out = frame_at h df /\ ~ live h out /\ extends h h'.
Proof.
  intros P S B N1 N2 N3 N4. unfold filter_df.
  destruct (copy_spec df h) as (o0 & h0 & E0 & X0 & L0 & F0 & N0).
  rewrite (bind_eq _ _ _ _ _ _ _ E0). cbv zeta. fold (bedroom_numbers sb).
  rewrite P, S, (blank_bedrooms _ B), andb_false_r.
  unfold is_empty, negb, narrow_if.
  rewrite (bind_eq _ _ _ _ _ _ _ (eq_refl : ret o0 h0 = Ok (o0, h0))).
  rewrite (bind_eq _ _ _ _ _ _ _ (eq_refl : ret o0 h0 = Ok (o0, h0))).
  rewrite (bind_eq _ _ _ _ _ _ _ (eq_refl : ret o0 h0 = Ok (o0, h0))).
  rewrite (bind_eq _ _ _ _ _ _ _ (lift_eq _ _ _ _ N1)).
  rewrite (bind_eq _ _ _ _ _ _ _ (lift_eq _ _ _ _ N2)).
  rewrite (bind_eq _ _ _ _ _ _ _ (lift_eq _ _ _ _ N3)).
  rewrite (bind_eq _ _ _ _ _ _ _ (lift_eq _ _ _ _ N4)).
  unfold narrow_some.
  exists o0, h0. split; [reflexivity|]. split; [exact F0|]. split; [exact N0|exact X0].
Qed.

Lemma filter_df_blank_sidebar_witness :
  exists out h',
    filter_df {| sb_project := []; sb_status := []; sb_bedrooms := " , "%string;
                 sb_min_price := "cheap"%string; sb_max_price := []; sb_min_area := "  "%string;
                 sb_max_area := [] |}
              0 {| frames := [bw_sheet]; dicts := [] |} = Ok (out, h')
    /\ frame_at h' out = bw_sheet /\ ~ live {| frames := [bw_sheet]; dicts := [] |} out.
Proof.
  destruct (filter_df_blank_sidebar
              {| sb_project := []; sb_status := []; sb_bedrooms := " , "%string;
                 sb_min_price := "cheap"%string; sb_max_price := []; sb_min_area := "  "%string;
                 sb_max_area := [] |}
              0 {| frames := [bw_sheet]; dicts := [] |}
              eq_refl eq_refl eq_refl eq_refl eq_refl eq_refl eq_refl)
    as (out & h' & E & F & N & _).
  exists out, h'. split; [exact E|]. split; [exact F|exact N].
Defined.


(* ================================================================== *)
(** * The CSV download *)
(* ================================================================== *)

Lemma mem_filter (g : text -> bool) (c : text) (cols : list text) :
  In c cols -> mem_text c (filter g cols) = g c.
Proof.
  intros I. destruct (g c) eqn:G.
  - apply mem_text_In. apply filter_In. split; assumption.
  - destruct (mem_text c (filter g cols)) eqn:M; [|reflexivity].
    apply mem_text_In in M. apply filter_In in M. destruct M as [_ M]. congruence.
Qed.

Lemma select_map_filter_id (A : Type) (g g' : A -> bool) (xs : list A) :
  (forall x, In x xs -> g' x = g x) -> select (map g' xs) xs = filter g xs.
Proof.
  induction xs as [|x xs IH]; simpl; intros H; [reflexivity|].
  rewrite (H x (or_introl eq_refl)), IH by (intros y I; apply H; right; exact I).
  reflexivity.
Qed.

Lemma cell_at_select (g : text -> bool) (n : text) (cols : list text) (row : list cell) :
  g n = true -> List.length row = List.length cols ->
  cell_at (filter g cols) n (select (map g cols) row) = cell_at cols n row.
Proof.
  intros G. revert row. unfold cell_at.
  induction cols as [|c cols IH]; intros row L; [reflexivity|].
  destruct row as [|x row]; [discriminate L|]. simpl in L. injection L as L.
  simpl. destruct (text_eqb c n) eqn:E.
  - apply text_eqb_eq in E. subst c. rewrite G. simpl. rewrite text_eqb_refl. reflexivity.
  - specialize (IH row L). destruct (g c); simpl.
    + rewrite E.
      destruct (position n (filter g cols)), (position n cols); simpl; exact IH.
    + destruct (position n (filter g cols)), (position n cols); simpl; exact IH.
Qed.

(** X7.  The frame of the CSV download is the table of the chat without
    the columns whose name starts with an underscore: the other columns
    keep their order and their cells, and no record is left out. *)
Theorem csv_frame_spec (D : DataFrame) :
  rectangular D ->
  columns (csv_frame D) = filter (fun c => negb (is_shadow c)) (columns D)
  /\ List.length (rows (csv_frame D)) = List.length (rows D)
  /\ forall n, is_shadow n = false -> column_of n (csv_frame D) = column_of n D.
Proof.
  intros RECT. unfold csv_frame, drop_columns. simpl.
  assert (K : forall c, In c (columns D) ->
                negb (mem_text c (filter is_shadow (columns D))) = negb (is_shadow c)).
  { intros c I. rewrite (mem_filter _ _ _ I). reflexivity. }
  assert (KM : map (fun c => negb (mem_text c (filter is_shadow (columns D)))) (columns D)
               = map (fun c => negb (is_shadow c)) (columns D)).
  { apply map_ext_in. exact K. }
  rewrite KM.
  split; [apply select_map_id|]. split; [apply length_map|].
  intros n S. unfold column_of. simpl. rewrite map_map.
  apply map_ext_in. intros row I. rewrite select_map_id.
  apply (cell_at_select (fun c => negb (is_shadow c))); [rewrite S; reflexivity|].
  unfold rectangular in RECT. rewrite Forall_forall in RECT. apply RECT. exact I.
Qed.

Lemma two_units_rectangular : rectangular two_units.
Proof. repeat constructor. Qed.

Lemma csv_frame_spec_witness :
  rectangular two_units
  /\ columns (csv_frame two_units)
     = map text_of_string
           [ "project"; "building"; "unit_no"; "floor"; "configuration"; "unit_type";
             "selling_area"; "land_area"; "garden_area"; "terrace_area"; "price";
             "status"; "row_no" ]%string
  /\ column_of "unit_no"%string (csv_frame two_units)
     = [Str ("C1-002"%string : text); Str ("A2-101"%string : text)].
Proof.
  split; [exact two_units_rectangular|].
  destruct (csv_frame_spec two_units two_units_rectangular) as (C & _ & V).
  split; [rewrite C; reflexivity|]. rewrite (V ("unit_no"%string : text) eq_refl). reflexivity.
Defined.


(* ================================================================== *)
(** * Further properties of the query parser *)
(* ================================================================== *)

(** The keys that [parse_query] sets from the text alone. *)
Lemma parse_query_fields (q : text) (f : FilterIntent) :
  parse_query q = Ok f ->
  project f = project_of (lower q) /\ status f = status_of (lower q)
  /\ bedrooms f = first_group (re_search re_bedrooms (lower q))
  /\ building f = first_group_upper (re_search re_building (lower q))
  /\ unit_no f = first_group_upper (re_search re_unit (lower q)).
Proof.
  intros H. unfold parse_query in H. cbv zeta in H.
  match type of H with
  | context [match re_search re_max_price _ with
             | Some m => rbind (price_of_match m) (fun v => Ok (set_max_price v ?F))
             | None => _ end] => set (f5 := F) in H
  end.
  assert (F5 : project f5 = project_of (lower q) /\ status f5 = status_of (lower q)
               /\ bedrooms f5 = first_group (re_search re_bedrooms (lower q))
               /\ building f5 = None /\ unit_no f5 = None).
  { subst f5. unfold project_of, status_of, first_group.
    destruct (contains "boho"%string (lower q)), (contains "boardwalk"%string (lower q)),
      (contains "available"%string (lower q)), (contains "hold"%string (lower q)),
      (re_search re_bedrooms (lower q)); repeat split; reflexivity. }
  clearbody f5. destruct F5 as (P5 & S5 & B5 & G5 & U5).
  apply rbind_ok in H. destruct H as (f6 & S6 & H).
  apply rbind_ok in H. destruct H as (f7 & S7 & H).
  apply rbind_ok in H. destruct H as (f8 & S8 & H).
  apply rbind_ok in H. destruct H as (f9 & S9 & H).
  apply rbind_ok in H. destruct H as (f10 & S10 & H).
  assert (A6 : project f6 = project f5 /\ status f6 = status f5 /\ bedrooms f6 = bedrooms f5
               /\ building f6 = building f5 /\ unit_no f6 = unit_no f5).
  { apply stage_cases in S6. destruct S6 as [->|(? & ? & _ & _ & ->)]; repeat split; reflexivity. }
  assert (A7 : project f7 = project f6 /\ status f7 = status f6 /\ bedrooms f7 = bedrooms f6
               /\ building f7 = building f6 /\ unit_no f7 = unit_no f6).
  { apply stage_cases in S7. destruct S7 as [->|(? & ? & _ & _ & ->)]; repeat split; reflexivity. }
  assert (A8 : project f8 = project f7 /\ status f8 = status f7 /\ bedrooms f8 = bedrooms f7
               /\ building f8 = building f7 /\ unit_no f8 = unit_no f7).
  { apply stage_cases in S8. destruct S8 as [->|(? & ? & _ & _ & ->)]; repeat split; reflexivity. }
  assert (A9 : project f9 = project f8 /\ status f9 = status f8 /\ bedrooms f9 = bedrooms f8
               /\ building f9 = building f8 /\ unit_no f9 = unit_no f8).
  { apply stage_cases in S9. destruct S9 as [->|(? & ? & _ & _ & ->)]; repeat split; reflexivity. }
  assert (A10 : project f10 = project f9 /\ status f10 = status f9 /\ bedrooms f10 = bedrooms f9
                /\ building f10 = building f9 /\ unit_no f10 = unit_no f9).
  { assert (E10 : f10 = f9 \/ exists v, f10 = set_exact_area v f9).
    { destruct (re_findall re_plain_number (lower q)) as [|n rest];
        [inversion S10; auto|].
      destruct (bedrooms f9); [inversion S10; auto|].
      destruct (min_price f9); [inversion S10; auto|].
      destruct (max_price f9); [inversion S10; auto|].
      apply rbind_ok in S10. destruct S10 as (v & _ & S10). inversion S10. eauto. }
    destruct E10 as [->|(v & ->)]; repeat split; reflexivity. }
  destruct A6 as (A6a & A6b & A6c & A6d & A6e). destruct A7 as (A7a & A7b & A7c & A7d & A7e).
  destruct A8 as (A8a & A8b & A8c & A8d & A8e). destruct A9 as (A9a & A9b & A9c & A9d & A9e).
  destruct A10 as (A10a & A10b & A10c & A10d & A10e).
  assert (G10 : building f10 = None) by congruence.
  assert (U10 : unit_no f10 = None) by congruence.
  apply Ok_inj in H. subst f. unfold first_group_upper.
  destruct (re_search re_unit (lower q)), (re_search re_building (lower q)); simpl;
    repeat split; congruence.
Qed.

(** X8.  The project and the status of a query are found as substrings
    of the lower-cased text: both projects can be named, BOHO comes
    first, and [hold] wins over [available]. *)
Theorem parse_query_project_status (q : text) (f : FilterIntent) :
  parse_query q = Ok f ->
  project f = project_of (lower q) /\ status f = status_of (lower q).
Proof.
  intros H. destruct (parse_query_fields q f H) as (P & S & _). split; assumption.
Qed.

Lemma parse_query_project_status_witness :
  exists f, parse_query "Unavailable or on hold in Boardwalk and BOHO"%string = Ok f
            /\ project f = Some [("BOHO"%string : text); ("Boardwalk"%string : text)]
            /\ status f = Some [("Hold"%string : text)].
Proof.
  eexists. split; [vm_compute; reflexivity|].
  exact (parse_query_project_status
           "Unavailable or on hold in Boardwalk and BOHO"%string _ eq_refl).
Defined.

Lemma lower_char_idem (c : ascii) : lower_char (lower_char c) = lower_char c.
Proof. char_cases c. Qed.

Lemma lower_idem (q : text) : lower (lower q) = lower q.
Proof.
  unfold lower. rewrite map_map. apply map_ext. intros c. apply lower_char_idem.
Qed.

Lemma lower_upper_char (c : ascii) :
  is_ascii c = true -> map lower_char (upper_char c) = [lower_char c].
Proof. char_cases c. Qed.

Lemma lower_upper (q : text) : forallb is_ascii q = true -> lower (upper q) = lower q.
Proof.
  induction q as [|c q IH]; simpl; intros H; [reflexivity|].
  apply andb_true_iff in H. destruct H as [Hc Hq].
  unfold lower, upper in *. simpl. rewrite map_app, (lower_upper_char _ Hc), (IH Hq).
  reflexivity.
Qed.

Lemma parse_query_lower (q q' : text) : lower q = lower q' -> parse_query q = parse_query q'.
Proof. intros E. unfold parse_query. rewrite E. reflexivity. Qed.

(** X9.  [parse_query] ignores the case of the letters: a query of ASCII
    characters, its upper-case form and its lower-case form give the same
    result. *)
Theorem parse_query_ignores_case (q : text) :
  forallb is_ascii q = true ->
  parse_query (upper q) = parse_query q /\ parse_query (lower q) = parse_query q.
Proof.
  intros A. split; apply parse_query_lower.
  - apply lower_upper. exact A.
  - apply lower_idem.
Qed.

Lemma parse_query_ignores_case_witness :
  parse_query "AVAILABLE BOHO 2 BEDROOMS UNDER 12M"%string
  = parse_query "Available BOHO 2 bedrooms under 12m"%string.
Proof.
  exact (proj1 (parse_query_ignores_case "Available BOHO 2 bedrooms under 12m"%string eq_refl)).
Defined.


(** ** What the matcher finds is a match *)

Lemma last_char_app (prev : option ascii) (a b : text) :
  last_char prev (a ++ b) = last_char (last_char prev a) b.
Proof. unfold last_char. apply fold_left_app. Qed.

Lemma rep_sound (R : Type) (p : ascii -> bool) (k : cont R) (cs : captures) (x : R) (s : text) :
  forall lo hi prev,
    rep p lo hi prev s cs k = Some x ->
    exists d s', s = d ++ s' /\ forallb p d = true /\ lo <= List.length d
                 /\ within hi (List.length d) = true
                 /\ k (last_char prev d) s' cs = Some x.
Proof.
  assert (STOP : forall lo hi prev (t : text),
             match lo with O => k prev t cs | S _ => None end = Some x ->
             exists d s', t = d ++ s' /\ forallb p d = true /\ lo <= List.length d
                          /\ within hi (List.length d) = true
                          /\ k (last_char prev d) s' cs = Some x).
  { intros lo hi prev t H. destruct lo; [|discriminate H].
    exists [], t. repeat split; auto. destruct hi; reflexivity. }
  induction s as [|c s IH]; intros lo hi prev H.
  - apply STOP. simpl in H. destruct hi as [[|m]|]; exact H.
  - simpl in H. destruct hi as [[|m]|]; [apply STOP; exact H| |].
    + destruct (p c) eqn:Pc; [|apply STOP; exact H].
      destruct (rep p (Nat.pred lo) (option_map Nat.pred (Some (S m))) (Some c) s cs k) eqn:E.
      * simpl in H. inversion H; subst r.
        destruct (IH _ _ _ E) as (d & s' & -> & F & L & W & K).
        exists (c :: d), s'. simpl. rewrite Pc, F. simpl in W.
        split; [reflexivity|]. split; [reflexivity|]. split; [lia|]. split; [exact W|exact K].
      * simpl in H. apply STOP. exact H.
    + destruct (p c) eqn:Pc; [|apply STOP; exact H].
      destruct (rep p (Nat.pred lo) (option_map Nat.pred None) (Some c) s cs k) eqn:E.
      * simpl in H. inversion H; subst r.
        destruct (IH _ _ _ E) as (d & s' & -> & F & L & W & K).
        exists (c :: d), s'. simpl. rewrite Pc, F.
        split; [reflexivity|]. split; [reflexivity|]. split; [lia|]. split; [reflexivity|exact K].
      * simpl in H. apply STOP. exact H.
Qed.

Lemma run_sound (r : regex) :
  forall (R : Type) (k : cont R) (prev : option ascii) (s : text) (cs : captures) (x : R),
    run r prev s cs k = Some x ->
    exists d s' cs', s = d ++ s' /\ matches r prev d s' cs cs'
                     /\ k (last_char prev d) s' cs' = Some x.
Proof.
  induction r as [|p|r1 IH1 r2 IH2|r1 IH1 r2 IH2|p lo hi|n r IH| |];
    intros R k prev s cs x H; simpl in H.
  - exists [], s, cs. repeat split; [constructor|exact H].
  - destruct s as [|c s]; [discriminate H|]. destruct (p c) eqn:Pc; [|discriminate H].
    exists [c], s, cs. repeat split; [constructor; exact Pc|exact H].
  - apply IH1 in H. destruct H as (d1 & s1 & cs1 & -> & M1 & H).
    apply IH2 in H. destruct H as (d2 & s2 & cs2 & -> & M2 & H).
    exists (d1 ++ d2), s2, cs2. rewrite app_assoc, last_char_app.
    repeat split; [|exact H]. econstructor; eassumption.
  - destruct (run r1 prev s cs k) eqn:E1.
    + simpl in H. inversion H; subst r. apply IH1 in E1.
      destruct E1 as (d & s' & cs' & -> & M & K). exists d, s', cs'.
      repeat split; [apply M_Alt_left; exact M|exact K].
    + simpl in H. apply IH2 in H.
      destruct H as (d & s' & cs' & -> & M & K). exists d, s', cs'.
      repeat split; [apply M_Alt_right; exact M|exact K].
  - apply rep_sound in H. destruct H as (d & s' & -> & F & L & W & K).
    exists d, s', cs. repeat split; [constructor; assumption|exact K].
  - apply IH in H. destruct H as (d & s' & cs' & -> & M & K).
    rewrite firstn_prefix in K.
    exists d, s', ((n, d) :: cs'). repeat split; [constructor; exact M|exact K].
  - destruct (xorb (word_before prev) (word_after s)) eqn:W; [|discriminate H].
    exists [], s, cs. repeat split; [constructor; exact W|exact H].
  - destruct prev; [discriminate H|].
    exists [], s, cs. repeat split; [constructor|exact H].
Qed.

Lemma match_here_sound (r : regex) (prev : option ascii) (s : text) (m : rmatch) :
  match_here r prev s = Some m ->
  exists d, s = d ++ rest m /\ matches r prev d (rest m) [] (groups m).
Proof.
  unfold match_here. intros H. apply run_sound in H.
  destruct H as (d & s' & cs' & -> & M & K). unfold accept in K. inversion K; subst m.
  exists d. split; [reflexivity|exact M].
Qed.

Lemma search_sound (r : regex) (s : text) :
  forall prev m,
    search_from r prev s = Some m ->
    exists pre d, s = pre ++ d ++ rest m
                  /\ matches r (last_char prev pre) d (rest m) [] (groups m).
Proof.
  induction s as [|c s IH]; intros prev m H; simpl in H.
  - destruct (match_here r prev []) eqn:E; [|discriminate H]. inversion H; subst r0.
    apply match_here_sound in E. destruct E as (d & E & M). exists [], d. split; assumption.
  - destruct (match_here r prev (c :: s)) eqn:E.
    + inversion H; subst r0.
      apply match_here_sound in E. destruct E as (d & E & M). exists [], d. split; assumption.
    + apply IH in H. destruct H as (pre & d & -> & M).
      exists (c :: pre), d. split; [reflexivity|]. rewrite last_char_cons. exact M.
Qed.

Lemma matches_no_groups (r : regex) (prev : option ascii) (d s : text) (cs cs' : captures) :
  matches r prev d s cs cs' -> no_groups r = true -> cs' = cs.
Proof.
  induction 1; simpl; intros G; try reflexivity; try discriminate G.
  - apply andb_true_iff in G. destruct G as [G1 G2].
    rewrite (IHmatches2 G2). apply (IHmatches1 G1).
  - apply andb_true_iff in G. apply IHmatches. apply G.
  - apply andb_true_iff in G. apply IHmatches. apply G.
Qed.

Ltac inv_matches :=
  repeat match goal with
         | H : matches (Seq _ _) _ _ _ _ _ |- _ => inversion H; subst; clear H
         | H : matches (Group _ _) _ _ _ _ _ |- _ => inversion H; subst; clear H
         | H : matches (Rep _ _ _) _ _ _ _ _ |- _ => inversion H; subst; clear H
         | H : matches (Chars _) _ _ _ _ _ |- _ => inversion H; subst; clear H
         | H : matches (Alt _ _) _ _ _ _ _ |- _ => inversion H; subst; clear H
         | H : matches Eps _ _ _ _ _ |- _ => inversion H; subst; clear H
         | H : matches WordB _ _ _ _ _ |- _ => inversion H; subst; clear H
         end.

Lemma bedrooms_match (prev : option ascii) (d s : text) (cs : captures) :
  matches re_bedrooms prev d s [] cs ->
  exists n, group 1 cs = Some n /\ n <> [] /\ forallb is_digit n = true.
Proof.
  intros H. unfold re_bedrooms, Plus, Star in H.
  inversion H as [| |? ? ? d1 d2 ? ? cs1 ? M1 M2| | | | | |]; subst; clear H.
  inversion M1 as [| | | | | |? ? ? ? ? ? ? M1'| |]; subst; clear M1.
  inversion M1'; subst; clear M1'.
  inversion M2 as [| |? ? ? d3 d4 ? ? cs2 ? M3 M4| | | | | |]; subst; clear M2.
  inversion M3; subst; clear M3.
  inversion M4 as [| | | | | |? ? ? ? ? ? ? M4'| |]; subst; clear M4.
  apply matches_no_groups in M4'; [|reflexivity]. subst.
  exists d1. split; [reflexivity|]. split; [|assumption].
  intros E. subst d1. simpl in *. lia.
Qed.

Lemma no_groups_one_of (ws : list string) : no_groups (one_of ws) = true.
Proof.
  induction ws as [|w ws IH]; [reflexivity|]. simpl. rewrite IH, andb_true_r.
  induction (text_of_string w) as [|c t IHt]; [reflexivity|exact IHt].
Qed.

Lemma price_match (lead_in : list string) (prev : option ascii) (d s : text) (cs : captures) :
  matches (re_price lead_in) prev d s [] cs ->
  exists tok, group 2 cs = Some tok /\ tok <> [] /\ forallb is_num_char tok = true.
Proof.
  intros H. unfold re_price, Plus, Star, Opt in H. inv_matches;
    match goal with
    | M : matches (one_of _) _ _ _ _ _ |- _ =>
      apply matches_no_groups in M; [|apply no_groups_one_of]; subst
    end;
    match goal with
    | F : forallb is_num_char ?t = true |- _ =>
      exists t; split; [reflexivity|]; split; [|exact F];
        intros E; subst; simpl in *; lia
    end.
Qed.

Lemma area_match (comparator : list string) (prev : option ascii) (d s : text)
      (cs : captures) :
  matches (re_area comparator) prev d s [] cs ->
  exists tok, group 3 cs = Some tok /\ tok <> [] /\ forallb is_num_char tok = true.
Proof.
  intros H. unfold re_area, Plus, Star in H. inv_matches;
    match goal with
    | F : forallb is_num_char ?t = true |- _ =>
      exists t; split; [reflexivity|]; split; [|exact F];
        intros E; subst; simpl in *; lia
    end.
Qed.

Lemma building_match (prev : option ascii) (d s : text) (cs : captures) :
  matches re_building prev d s [] cs ->
  exists c ds, group 1 cs = Some (c :: ds) /\ is_az_ignorecase c = true
               /\ forallb is_digit ds = true /\ 1 <= List.length ds <= 2.
Proof.
  intros H. unfold re_building in H. inv_matches.
  match goal with
  | A : is_az_ignorecase ?c = true, F : forallb is_digit ?t = true, W : within _ _ = true |- _ =>
    exists c, t; split; [reflexivity|]; split; [exact A|]; split; [exact F|];
      simpl in W; apply Nat.leb_le in W; lia
  end.
Qed.

Lemma unit_match (prev : option ascii) (d s : text) (cs : captures) :
  matches re_unit prev d s [] cs ->
  exists c ds es, group 1 cs = Some (c :: ds ++ "-"%char :: es)
                  /\ is_az_ignorecase c = true
                  /\ forallb is_digit ds = true /\ 1 <= List.length ds <= 2
                  /\ forallb is_digit es = true /\ 2 <= List.length es <= 3.
Proof.
  intros H. unfold re_unit, Lit in H. simpl fold_right in H. inv_matches.
  match goal with
  | A : is_az_ignorecase ?c = true,
    F1 : forallb is_digit ?t1 = true, W1 : within (Some 2) _ = true,
    F2 : forallb is_digit ?t2 = true, W2 : within (Some 3) _ = true,
    E : Ascii.eqb _ ?x = true |- _ =>
    apply Ascii.eqb_eq in E; subst x;
    exists c, t1, t2; split; [reflexivity|];
      split; [exact A|]; split; [exact F1|];
      simpl in W1, W2; apply Nat.leb_le in W1, W2; repeat split; try assumption; lia
  end.
Qed.

Lemma upper_letter (c : ascii) :
  is_az_ignorecase c = true ->
  match upper_char c with [C] => is_AZ C | _ => false end = true.
Proof. char_cases c. Qed.

Lemma upper_digit (c : ascii) : is_digit c = true -> upper_char c = [c].
Proof. char_cases c. Qed.

Lemma upper_digits (d : text) : forallb is_digit d = true -> upper d = d.
Proof.
  induction d as [|c d IH]; simpl; intros H; [reflexivity|].
  apply andb_true_iff in H. destruct H as [Hc Hd].
  unfold upper in *. simpl. rewrite (upper_digit _ Hc), (IH Hd). reflexivity.
Qed.

Lemma upper_cons (c : ascii) (t : text) : upper (c :: t) = upper_char c ++ upper t.
Proof. reflexivity. Qed.

Lemma upper_app (a b : text) : upper (a ++ b) = upper a ++ upper b.
Proof. unfold upper. apply flat_map_app. Qed.

Lemma group_or_empty_some (n : nat) (m : rmatch) (g : text) :
  group n (groups m) = Some g -> group_or_empty n m = g.
Proof. unfold group_or_empty. intros ->. reflexivity. Qed.

(** X10.  The codes that [parse_query] extracts have a fixed form: the
    bedroom count is a string of digits, the building is a capital
    letter and one or two digits, the unit is a building code, a hyphen
    and two or three digits. *)
Theorem parse_query_codes (q : text) (f : FilterIntent) :
  parse_query q = Ok f ->
  (forall n, bedrooms f = Some n -> n <> [] /\ forallb is_digit n = true)
  /\ (forall b, building f = Some b -> is_building_code b)
  /\ (forall u, unit_no f = Some u -> is_unit_code u).
Proof.
  intros H. destruct (parse_query_fields q f H) as (_ & _ & B & G & U).
  split; [|split].
  - intros n E. rewrite B in E. unfold first_group in E.
    destruct (re_search re_bedrooms (lower q)) as [m|] eqn:S; [|discriminate E].
    apply search_sound in S. destruct S as (pre & d & _ & M).
    apply bedrooms_match in M. destruct M as (n' & Gn & NE & D).
    simpl in E. rewrite (group_or_empty_some _ _ _ Gn) in E. inversion E; subst n'.
    split; assumption.
  - intros b E. rewrite G in E. unfold first_group_upper in E.
    destruct (re_search re_building (lower q)) as [m|] eqn:S; [|discriminate E].
    apply search_sound in S. destruct S as (pre & d & _ & M).
    apply building_match in M. destruct M as (c & ds & Gn & A & D & L).
    simpl in E. rewrite (group_or_empty_some _ _ _ Gn) in E.
    rewrite upper_cons, (upper_digits _ D) in E.
    pose proof (upper_letter c A) as UL.
    destruct (upper_char c) as [|C [|]]; try discriminate UL.
    inversion E; subst b.
    exists C, ds. repeat split; try assumption; lia.
  - intros u E. rewrite U in E. unfold first_group_upper in E.
    destruct (re_search re_unit (lower q)) as [m|] eqn:S; [|discriminate E].
    apply search_sound in S. destruct S as (pre & d & _ & M).
    apply unit_match in M. destruct M as (c & ds & es & Gn & A & D1 & L1 & D2 & L2).
    simpl in E. rewrite (group_or_empty_some _ _ _ Gn) in E.
    rewrite upper_cons, upper_app, upper_cons, (upper_digits _ D1), (upper_digits _ D2) in E.
    pose proof (upper_letter c A) as UL.
    destruct (upper_char c) as [|C [|]]; try discriminate UL.
    inversion E; subst u.
    exists C, ds, es. repeat split; try assumption; lia.
Qed.

Lemma parse_query_codes_witness :
  exists f, parse_query "3 bed in c12-045"%string = Ok f
            /\ bedrooms f = Some ("3"%string : text)
            /\ is_building_code "C12"%string
            /\ is_unit_code "C12-045"%string.
Proof.
  eexists. split; [vm_compute; reflexivity|]. split; [reflexivity|].
  split.
  - exact (proj1 (proj2 (parse_query_codes "3 bed in c12-045"%string _ eq_refl))
                 ("C12"%string : text) eq_refl).
  - exact (proj2 (proj2 (parse_query_codes "3 bed in c12-045"%string _ eq_refl))
                 ("C12-045"%string : text) eq_refl).
Defined.


(** ** The numbers that [float] reads among digits and points *)

Lemma dot_facts (c : ascii) : is_dot c = true -> is_digit c = false /\ is_e c = false.
Proof. char_cases c; split; reflexivity. Qed.

Lemma digits_no_dot (ds : text) : forallb is_digit ds = true -> filter is_dot ds = [].
Proof.
  induction ds as [|c ds IH]; simpl; intros H; [reflexivity|].
  apply andb_true_iff in H. destruct H as [Hc Hd].
  destruct (digit_facts c Hc) as [ND _]. rewrite ND. apply (IH Hd).
Qed.

Lemma digits_exist (ds : text) :
  forallb is_digit ds = true -> existsb is_digit ds = negb (is_empty ds).
Proof.
  destruct ds as [|c ds]; simpl; intros H; [reflexivity|].
  apply andb_true_iff in H. destruct H as [-> _]. reflexivity.
Qed.

Lemma plain_not_digit (c : ascii) : is_plain c = true -> is_digit c = false -> is_dot c = true.
Proof. unfold is_plain. intros P D. rewrite D in P. exact P. Qed.

Lemma unsigned_plain (s : text) :
  forallb is_plain s = true ->
  if decimal_literal s then exists q, unsigned_number s = Some q
  else unsigned_number s = None.
Proof.
  intros P. unfold unsigned_number, decimal_literal.
  pose proof (span_app is_digit s) as SA. pose proof (span_all is_digit s) as SD.
  pose proof (span_stop is_digit s) as SS.
  destruct (span is_digit s) as [ip s1]. simpl in SA, SD, SS. subst s.
  rewrite forallb_app in P. apply andb_true_iff in P. destruct P as [_ P1].
  rewrite existsb_app, filter_app, (digits_no_dot _ SD), (digits_exist _ SD). simpl app.
  destruct s1 as [|c s1'].
  - simpl. rewrite app_nil_r, orb_false_r.
    destruct ip; simpl; [reflexivity|eauto].
  - simpl in SS, P1. apply andb_true_iff in P1. destruct P1 as [Pc P1].
    pose proof (plain_not_digit c Pc SS) as DC. rewrite DC.
    pose proof (span_app is_digit s1') as TA. pose proof (span_all is_digit s1') as TD.
    pose proof (span_stop is_digit s1') as TS.
    destruct (span is_digit s1') as [fp s2]. simpl in TA, TD, TS. subst s1'.
    rewrite forallb_app in P1. apply andb_true_iff in P1. destruct P1 as [_ P2].
    simpl. rewrite SS, DC. simpl.
    rewrite existsb_app, filter_app, (digits_no_dot _ TD), (digits_exist _ TD). simpl app.
    destruct s2 as [|c2 r].
    + simpl. rewrite orb_false_r.
      destruct ip, fp; simpl; try reflexivity; eauto.
    + simpl in TS, P2. apply andb_true_iff in P2. destruct P2 as [Pc2 _].
      pose proof (plain_not_digit c2 Pc2 TS) as DC2.
      destruct (dot_facts c2 DC2) as [_ NE].
      simpl. rewrite DC2, NE. simpl. rewrite andb_false_r.
      destruct (ip ++ fp); reflexivity.
Qed.

Lemma py_float_literal (s : text) :
  forallb is_plain s = true ->
  if decimal_literal s then exists v, py_float s = Ok v
  else py_float s = Raise ValueError.
Proof.
  intros P. rewrite (py_float_plain s P). pose proof (unsigned_plain s P) as U.
  destruct (decimal_literal s).
  - destruct U as (q & ->). eauto.
  - rewrite U. reflexivity.
Qed.

Lemma remove_commas_plain (tok : text) :
  forallb is_num_char tok = true -> forallb is_plain (remove_commas tok) = true.
Proof.
  induction tok as [|c tok IH]; simpl; intros H; [reflexivity|].
  apply andb_true_iff in H. destruct H as [Hc Ht].
  unfold remove_commas in *. simpl. destruct (is_comma c) eqn:K; simpl; [apply (IH Ht)|].
  rewrite (IH Ht), andb_true_r. unfold is_num_char in Hc. rewrite K, orb_false_r in Hc.
  exact Hc.
Qed.

Lemma price_readable (lead_in : list string) (ql : text) (m : rmatch) :
  re_search (re_price lead_in) ql = Some m ->
  if decimal_literal (remove_commas (group_or_empty 2 m))
  then exists v, price_of_match m = Ok v
  else price_of_match m = Raise ValueError.
Proof.
  intros S. apply search_sound in S. destruct S as (pre & d & _ & M).
  apply price_match in M. destruct M as (tok & G & _ & F).
  rewrite (group_or_empty_some _ _ _ G). unfold price_of_match.
  rewrite (group_or_empty_some _ _ _ G).
  pose proof (py_float_literal _ (remove_commas_plain _ F)) as L.
  destruct (decimal_literal (remove_commas tok)).
  - destruct L as (x & ->). simpl. eauto.
  - rewrite L. reflexivity.
Qed.

Lemma area_readable (comparator : list string) (ql : text) (m : rmatch) :
  re_search (re_area comparator) ql = Some m ->
  if decimal_literal (remove_commas (group_or_empty 3 m))
  then exists v, area_of_match m = Ok v
  else area_of_match m = Raise ValueError.
Proof.
  intros S. apply search_sound in S. destruct S as (pre & d & _ & M).
  apply area_match in M. destruct M as (tok & G & _ & F).
  rewrite (group_or_empty_some _ _ _ G). unfold area_of_match.
  rewrite (group_or_empty_some _ _ _ G).
  pose proof (py_float_literal _ (remove_commas_plain _ F)) as L.
  destruct (decimal_literal (remove_commas tok)).
  - destruct L as (x & ->). eauto.
  - rewrite L. reflexivity.
Qed.

(** One stage of [parse_query] that reads a number: it raises when the
    number is unreadable and goes on otherwise. *)
Lemma stage_readable (r : regex) (g : nat) (val : rmatch -> result pyfloat)
      (set : pyfloat -> FilterIntent -> FilterIntent) (ql : text) (f : FilterIntent)
      (k : FilterIntent -> result FilterIntent) :
  (forall m, re_search r ql = Some m ->
             if decimal_literal (remove_commas (group_or_empty g m))
             then exists v, val m = Ok v else val m = Raise ValueError) ->
  if unreadable_number r g ql
  then rbind match re_search r ql with
             | Some m => rbind (val m) (fun v => Ok (set v f))
             | None => Ok f
             end k = Raise ValueError
  else exists f', rbind match re_search r ql with
                        | Some m => rbind (val m) (fun v => Ok (set v f))
                        | None => Ok f
                        end k = k f'.
Proof.
  intros V. unfold unreadable_number. destruct (re_search r ql) as [m|].
  - specialize (V m eq_refl).
    destruct (decimal_literal (remove_commas (group_or_empty g m))); simpl.
    + destruct V as (v & ->). simpl. eauto.
    + rewrite V. reflexivity.
  - simpl. eauto.
Qed.

(** X11.  [parse_query] raises exactly when the number of a price or an
    area bound, its commas removed, is not a decimal literal: it has no
    digit or more than one point.  The exception is [ValueError];
    otherwise [parse_query] returns an intent. *)
Theorem parse_query_raises_iff (q : text) :
  if has_unreadable_number q
  then parse_query q = Raise ValueError
  else exists f, parse_query q = Ok f.
Proof.
  unfold has_unreadable_number, parse_query. cbv zeta.
  match goal with
  | |- context [match re_search re_max_price _ with
                | Some m => rbind (price_of_match m) (fun v => Ok (set_max_price v ?F))
                | None => _ end] => generalize F
  end.
  intros f5.
  match goal with
  | |- context [rbind _ ?K] =>
    pose proof (stage_readable re_max_price 2 price_of_match set_max_price (lower q) f5 K
                               (price_readable _ (lower q))) as S1
  end.
  destruct (unreadable_number re_max_price 2 (lower q)); [exact S1|].
  destruct S1 as (f6 & ->). simpl orb.
  match goal with
  | |- context [rbind _ ?K] =>
    pose proof (stage_readable re_min_price 2 price_of_match set_min_price (lower q) f6 K
                               (price_readable _ (lower q))) as S2
  end.
  destruct (unreadable_number re_min_price 2 (lower q)); [exact S2|].
  destruct S2 as (f7 & ->). simpl orb.
  match goal with
  | |- context [rbind _ ?K] =>
    pose proof (stage_readable re_min_area 3 area_of_match set_min_area (lower q) f7 K
                               (area_readable _ (lower q))) as S3
  end.
  destruct (unreadable_number re_min_area 3 (lower q)); [exact S3|].
  destruct S3 as (f8 & ->). simpl orb.
  match goal with
  | |- context [rbind _ ?K] =>
    pose proof (stage_readable re_max_area 3 area_of_match set_max_area (lower q) f8 K
                               (area_readable _ (lower q))) as S4
  end.
  destruct (unreadable_number re_max_area 3 (lower q)); [exact S4|].
  destruct S4 as (f9 & ->).
  rewrite findall_plain_number.
  destruct (digit_words (lower q)) as [|n rest] eqn:B; [simpl; eauto|].
  destruct (digit_word_first _ _ _ B) as [D NE].
  rewrite (py_float_digits n D NE).
  destruct (bedrooms f9), (min_price f9), (max_price f9); simpl; eauto.
Qed.


(** ** The numbers of a query are amounts *)

Lemma digit_val_nonneg (c : ascii) : is_digit c = true -> (0 <=? digit_val c)%Z = true.
Proof. char_cases c. Qed.

Lemma digits_val_nonneg (ds : text) : forallb is_digit ds = true -> (0 <= digits_val ds)%Z.
Proof.
  assert (G : forall acc, (0 <= acc)%Z -> forallb is_digit ds = true ->
                          (0 <= fold_left (fun a c => a * 10 + digit_val c) ds acc)%Z).
  { induction ds as [|c ds IH]; simpl; intros acc A H; [exact A|].
    apply andb_true_iff in H. destruct H as [Hc Hd].
    apply IH; [|exact Hd]. pose proof (digit_val_nonneg c Hc) as D.
    apply Z.leb_le in D. lia. }
  intros H. apply (G 0%Z); [lia|exact H].
Qed.

Lemma Q2Qc_nonneg (x : Q) : (0 <= x)%Q -> (0 <= Q2Qc x)%Qc.
Proof.
  intros H. unfold Qcle. simpl. rewrite Qred_correct. exact H.
Qed.

Lemma decimal_nonneg (m e : Z) : (0 <= m)%Z -> (0 <= decimal m e)%Qc.
Proof.
  intros H. unfold decimal. apply Q2Qc_nonneg. apply Qmult_le_0_compat.
  - rewrite Zle_Qle in H. exact H.
  - apply Qpower_0_le. discriminate.
Qed.

Lemma unsigned_nonneg (s : text) (q : Qc) : unsigned_number s = Some q -> (0 <= q)%Qc.
Proof.
  unfold unsigned_number.
  pose proof (span_all is_digit s) as SD. destruct (span is_digit s) as [ip s1]. simpl in SD.
  assert (F : forall fp s2, forallb is_digit fp = true ->
                match ip ++ fp with
                | [] => None
                | _ :: _ =>
                  match exponent_part s2 with
                  | Some e => Some (decimal (digits_val (ip ++ fp))
                                            (e - Z.of_nat (List.length fp)))
                  | None => None
                  end
                end = Some q -> (0 <= q)%Qc).
  { intros fp s2 DF H. destruct (ip ++ fp) eqn:E; [discriminate H|]. rewrite <- E in H.
    destruct (exponent_part s2); [|discriminate H]. inversion H.
    apply decimal_nonneg. apply digits_val_nonneg. rewrite forallb_app, SD, DF. reflexivity. }
  destruct s1 as [|c s1']; [apply (F [] []); reflexivity|].
  destruct (is_dot c); [|apply (F [] (c :: s1')); reflexivity].
  pose proof (span_all is_digit s1') as TD. destruct (span is_digit s1') as [fp s2].
  apply (F fp s2 TD).
Qed.

Lemma py_float_amount (s : text) (v : pyfloat) :
  forallb is_plain s = true -> py_float s = Ok v -> is_amount v.
Proof.
  intros P H. rewrite (py_float_plain s P) in H.
  destruct (unsigned_number s) as [q|] eqn:U; [|discriminate H].
  apply Ok_inj in H. subst v. apply round64_nonneg. apply (unsigned_nonneg _ _ U).
Qed.

Lemma fmul_int_amount (v : pyfloat) (k : Z) :
  is_amount v -> (0 < k)%Z -> is_amount (fmul_int v k).
Proof.
  intros [->|(x & -> & X)] K; cbn [fmul_int].
  - assert (Z : (k =? 0)%Z = false) by (apply Z.eqb_neq; lia).
    assert (N : (k <? 0)%Z = false) by (apply Z.ltb_ge; lia).
    rewrite Z, N. left. reflexivity.
  - apply round64_nonneg.
    unfold Qcmult. apply Q2Qc_nonneg. apply Qmult_le_0_compat; [exact X|].
    apply (Q2Qc_nonneg (inject_Z k)). assert (K' : (0 <= k)%Z) by lia.
    rewrite Zle_Qle in K'. exact K'.
Qed.

Lemma scale_amount (v : pyfloat) (u : text) : is_amount v -> is_amount (scale v u).
Proof.
  intros A. unfold scale. apply fmul_int_amount; [exact A|].
  destruct (text_eqb u "m"%string); [lia|]. destruct (text_eqb u "k"%string); lia.
Qed.

Lemma price_amount (lead_in : list string) (ql : text) (m : rmatch) (v : pyfloat) :
  re_search (re_price lead_in) ql = Some m -> price_of_match m = Ok v -> is_amount v.
Proof.
  intros S V. apply search_sound in S. destruct S as (pre & d & _ & M).
  apply price_match in M. destruct M as (tok & G & _ & F).
  unfold price_of_match in V. rewrite (group_or_empty_some _ _ _ G) in V.
  apply rbind_ok in V. destruct V as (x & X & V). apply Ok_inj in V. subst v.
  apply scale_amount. apply (py_float_amount _ _ (remove_commas_plain _ F) X).
Qed.

Lemma area_amount (comparator : list string) (ql : text) (m : rmatch) (v : pyfloat) :
  re_search (re_area comparator) ql = Some m -> area_of_match m = Ok v -> is_amount v.
Proof.
  intros S V. apply search_sound in S. destruct S as (pre & d & _ & M).
  apply area_match in M. destruct M as (tok & G & _ & F).
  unfold area_of_match in V. rewrite (group_or_empty_some _ _ _ G) in V.
  apply (py_float_amount _ _ (remove_commas_plain _ F) V).
Qed.

(** X12.  Every number that [parse_query] puts into an intent, as a
    price bound, an area bound or an exact area, is a float that is not
    negative and not NaN; it is the positive infinity when the number
    is too large for a float. *)
Theorem parse_query_amounts (q : text) (f : FilterIntent) (v : pyfloat) :
  parse_query q = Ok f -> In (Some v) (numeric_constraints f) -> is_amount v.
Proof.
  intros H. revert v.
  change (forall v, In (Some v) (numeric_constraints f) -> is_amount v).
  unfold parse_query in H. cbv zeta in H.
  match type of H with
  | context [match re_search re_max_price _ with
             | Some m => rbind (price_of_match m) (fun v => Ok (set_max_price v ?F))
             | None => _ end] => set (f5 := F) in H
  end.
  assert (A5 : forall v, In (Some v) (numeric_constraints f5) -> is_amount v).
  { subst f5. intros v.
    destruct (contains "boho"%string (lower q)), (contains "boardwalk"%string (lower q)),
      (contains "available"%string (lower q)), (contains "hold"%string (lower q)),
      (re_search re_bedrooms (lower q)); simpl; intros I;
      repeat (destruct I as [I|I]; [discriminate I|]); destruct I. }
  clearbody f5.
  apply rbind_ok in H. destruct H as (f6 & S6 & H).
  apply rbind_ok in H. destruct H as (f7 & S7 & H).
  apply rbind_ok in H. destruct H as (f8 & S8 & H).
  apply rbind_ok in H. destruct H as (f9 & S9 & H).
  apply rbind_ok in H. destruct H as (f10 & S10 & H).
  assert (STEP : forall (set : pyfloat -> FilterIntent -> FilterIntent) g x,
             is_amount x ->
             (forall v, In (Some v) (numeric_constraints g) -> is_amount v) ->
             (forall v, In (Some v) (numeric_constraints (set x g)) ->
                        Some x = Some v \/ In (Some v) (numeric_constraints g)) ->
             forall v, In (Some v) (numeric_constraints (set x g)) -> is_amount v).
  { intros set g x X G K v I. destruct (K v I) as [E|J]; [injection E as <-; exact X|apply (G v J)]. }
  assert (A6 : forall v, In (Some v) (numeric_constraints f6) -> is_amount v).
  { apply stage_cases in S6. destruct S6 as [->|(m & x & S & V & ->)]; [exact A5|].
    apply STEP; [apply (price_amount _ _ _ _ S V)|exact A5|].
    intros v. simpl. tauto. }
  assert (A7 : forall v, In (Some v) (numeric_constraints f7) -> is_amount v).
  { apply stage_cases in S7. destruct S7 as [->|(m & x & S & V & ->)]; [exact A6|].
    apply STEP; [apply (price_amount _ _ _ _ S V)|exact A6|].
    intros v. simpl. tauto. }
  assert (A8 : forall v, In (Some v) (numeric_constraints f8) -> is_amount v).
  { apply stage_cases in S8. destruct S8 as [->|(m & x & S & V & ->)]; [exact A7|].
    apply STEP; [apply (area_amount _ _ _ _ S V)|exact A7|].
    intros v. simpl. tauto. }
  assert (A9 : forall v, In (Some v) (numeric_constraints f9) -> is_amount v).
  { apply stage_cases in S9. destruct S9 as [->|(m & x & S & V & ->)]; [exact A8|].
    apply STEP; [apply (area_amount _ _ _ _ S V)|exact A8|].
    intros v. simpl. tauto. }
  assert (A10 : forall v, In (Some v) (numeric_constraints f10) -> is_amount v).
  { rewrite findall_plain_number in S10.
    destruct (digit_words (lower q)) as [|n rest] eqn:B;
      [apply Ok_inj in S10; subst f10; exact A9|].
    destruct (digit_word_first _ _ _ B) as [D NE].
    destruct (bedrooms f9); [apply Ok_inj in S10; subst f10; exact A9|].
    destruct (min_price f9) eqn:MI; [apply Ok_inj in S10; subst f10; exact A9|].
    destruct (max_price f9) eqn:MA; [apply Ok_inj in S10; subst f10; exact A9|].
    apply rbind_ok in S10. destruct S10 as (x & X & S10). apply Ok_inj in S10. subst f10.
    apply STEP; [apply (py_float_amount _ _ (digits_plain _ D) X)|exact A9|].
    intros v. simpl. tauto. }
  apply Ok_inj in H. subst f.
  destruct (re_search re_unit (lower q)), (re_search re_building (lower q)); exact A10.
Qed.

Lemma parse_query_amounts_witness :
  exists f v, parse_query "area max 120.5 under 7.5m"%string = Ok f
              /\ max_price f = Some v /\ is_amount v.
Proof.
  pose (q := ("area max 120.5 under 7.5m"%string : text)).
  let r := eval vm_compute in (parse_query q) in
  match r with Ok ?x => pose (f := x) end.
  assert (P : parse_query q = Ok f) by (vm_compute; reflexivity).
  let r := eval vm_compute in (max_price f) in
  match r with Some ?x => pose (v := x) end.
  assert (V : max_price f = Some v) by reflexivity.
  exists f, v. split; [exact P|]. split; [exact V|].
  apply (parse_query_amounts q f v P). right. left. exact V.
Defined.


(* ================================================================== *)
(** * Further properties of the numeric token parser *)
(* ================================================================== *)

Lemma mk_facts (c : ascii) :
  is_mk c = true ->
  is_float_space c = false /\ is_underscore c = false /\ is_digit c = false
  /\ is_dot c = false /\ is_e c = false.
Proof. char_cases c; repeat split; reflexivity. Qed.

Lemma underscores_ok_none (s : text) (prev : option ascii) :
  forallb (fun c => negb (is_underscore c)) s = true ->
  match prev with Some p => is_underscore p = false | None => True end ->
  underscores_ok prev s = true.
Proof.
  revert prev. induction s as [|c s IH]; intros prev H P; simpl.
  - destruct prev as [p|]; [rewrite P|]; reflexivity.
  - simpl in H. apply andb_true_iff in H. destruct H as [Uc H].
    apply negb_true_iff in Uc.
    rewrite Uc. rewrite (IH (Some c) H Uc), andb_true_r.
    destruct prev as [p|]; [rewrite P|]; reflexivity.
Qed.

(** [float] does not read a number that carries the suffix [k] or [m]. *)
Lemma py_float_suffixed (ip fp : text) (c : ascii) :
  forallb is_digit ip = true -> ip <> [] -> forallb is_digit fp = true -> is_mk c = true ->
  py_float (number_string ip fp ++ [c]) = Raise ValueError.
Proof.
  intros DI NE DF MK. destruct (mk_facts c MK) as (FS & US & ND & NDot & NotE).
  assert (PL : forallb is_plain (number_string ip fp) = true).
  { unfold number_string. destruct fp as [|j fp]; [apply digits_plain; exact DI|].
    rewrite forallb_app, (digits_plain ip DI). simpl.
    simpl in DF. apply andb_true_iff in DF. destruct DF as [Dj DF].
    unfold is_plain at 1. rewrite Dj, (digits_plain fp DF). reflexivity. }
  set (s := number_string ip fp ++ [c]).
  assert (NS : forallb (fun x => negb (is_float_space x)) s = true).
  { subst s. rewrite forallb_app. simpl. rewrite FS. simpl. rewrite andb_true_r.
    apply (forallb_impl is_plain); [|exact PL]. intros x Px.
    destruct (plain_facts x Px) as (F & _). rewrite F. reflexivity. }
  assert (NU : forallb (fun x => negb (is_underscore x)) s = true).
  { subst s. rewrite forallb_app. simpl. rewrite US. simpl. rewrite andb_true_r.
    apply (forallb_impl is_plain); [|exact PL]. intros x Px.
    destruct (plain_facts x Px) as (_ & _ & U & _). rewrite U. reflexivity. }
  unfold py_float. rewrite (lstrip_none _ _ NS), (rstrip_none _ _ NS).
  rewrite (underscores_ok_none s None NU I). cbn [negb].
  rewrite (filter_all_true _ _ NU).
  assert (UN : unsigned_number s = None).
  { subst s. unfold unsigned_number, number_string. destruct fp as [|j fp].
    - rewrite (span_prefix is_digit ip [c] DI ND). rewrite NDot, app_nil_r.
      destruct ip; [contradiction|]. simpl. rewrite NotE. reflexivity.
    - rewrite <- app_assoc. simpl app.
      rewrite (span_prefix is_digit ip ("."%char :: j :: fp ++ [c]) DI eq_refl).
      change (is_dot "."%char) with true. cbn iota.
      change (j :: fp ++ [c]) with ((j :: fp) ++ [c]).
      rewrite (span_prefix is_digit (j :: fp) [c] DF ND).
      destruct (ip ++ j :: fp) eqn:E; [destruct ip; discriminate E|].
      simpl. rewrite NotE. reflexivity. }
  destruct ip as [|i ip]; [contradiction|].
  simpl in DI. apply andb_true_iff in DI. destruct DI as [Di DI].
  assert (Pi : is_plain i = true) by (unfold is_plain; rewrite Di; reflexivity).
  assert (HS : exists t, s = i :: t).
  { subst s. unfold number_string. destruct fp; simpl; eauto. }
  destruct HS as (t & HS). rewrite HS in *.
  destruct (plain_facts i Pi) as (_ & _ & _ & SG & _ & LC & _).
  destruct (plain_not_letter i Pi) as [Ni Nn].
  cbn [take_sign]. rewrite SG. cbn [lower map]. rewrite LC.
  unfold text_of_string. cbn [list_ascii_of_string].
  rewrite !(text_eqb_head i _ _ _ Ni), (text_eqb_head i _ _ _ Nn). cbn [orb].
  rewrite UN. reflexivity.
Qed.

(** X13.  [parse_number] reads every string that [float] reads: when the
    text, trimmed, lower-cased and without its commas, is a float
    literal, the result is the value of the literal.  So the fields of
    the sidebar accept a sign, an exponent, [inf] and [nan]. *)
Theorem parse_number_reads_floats (s : text) (v : pyfloat) :
  s <> [] -> py_float (normalise s) = Ok v -> parse_number s = Ok (Some v).
Proof.
  intros NS H. destruct (number_match (normalise s)) as [m|] eqn:E.
  - destruct (number_match_sound _ _ E) as (ip & fp & u & k & DI & NE & DF & SM & N & _).
    rewrite (parse_number_normal s ip fp u k NS N DI NE DF SM).
    rewrite N in H.
    destruct (suffix_cases u k SM) as [[-> ->]|[[-> ->]|[-> ->]]].
    + rewrite app_nil_r, (py_float_number ip fp DI NE DF) in H. apply Ok_inj in H. subst v.
      rewrite (fmul_int_1 _ (number_value_binary64 ip fp)). reflexivity.
    + assert (R : py_float (number_string ip fp ++ ("k"%string : text)) = Raise ValueError)
        by apply (py_float_suffixed ip fp "k"%char DI NE DF eq_refl).
      rewrite R in H. discriminate H.
    + assert (R : py_float (number_string ip fp ++ ("m"%string : text)) = Raise ValueError)
        by apply (py_float_suffixed ip fp "m"%char DI NE DF eq_refl).
      rewrite R in H. discriminate H.
  - unfold parse_number. destruct s as [|c s]; [contradiction|].
    rewrite fullmatch_number, E, H. reflexivity.
Qed.

Lemma parse_number_reads_floats_witness :
  parse_number " -2,500E-1 "%string = Ok (Some (Finite (Q2Qc (-250 # 1))))
  /\ parse_number "Inf"%string = Ok (Some (Infinity false))
  /\ parse_number "nan"%string = Ok (Some NaN).
Proof.
  split; [|split].
  - apply (parse_number_reads_floats " -2,500E-1 "%string); [discriminate|].
    vm_compute. floats_eq.
  - apply (parse_number_reads_floats "Inf"%string); [discriminate|reflexivity].
  - apply (parse_number_reads_floats "nan"%string); [discriminate|reflexivity].
Defined.


(* ================================================================== *)
(** * Further properties of the schema normaliser *)
(* ================================================================== *)

Lemma squeeze_spaces_eq (s : series) :
  squeeze_spaces s = if is_object s then Ok (map squeeze_cell s) else Raise AttributeError.
Proof. reflexivity. Qed.

Lemma squeeze_column_outcome (name : text) (d : DataFrame) :
  rectangular d ->
  if lacks_str name d then squeeze_column name d = Raise AttributeError
  else exists d',
      squeeze_column name d = Ok d'
      /\ columns d' = columns d /\ rectangular d'
      /\ List.length (rows d') = List.length (rows d)
      /\ (forall n, n <> name -> column_of n d' = column_of n d)
      /\ (In name (columns d) -> column_of name d' = map squeeze_cell (column_of name d)).
Proof.
  intros R. unfold lacks_str, squeeze_column. destruct (has_column name d) eqn:HC.
  - rewrite squeeze_spaces_eq. destruct (is_object (column_of name d)); simpl; [|reflexivity].
    assert (L : List.length (map squeeze_cell (column_of name d)) = List.length (rows d))
      by (rewrite length_map; apply column_of_length).
    eexists. split; [reflexivity|].
    split; [apply set_column_existing_columns; apply has_column_In; exact HC|].
    split; [apply set_column_rectangular; exact R|].
    split; [apply set_column_rows_length; exact L|].
    split; [intros n NE; apply (column_of_set_other _ _ _ _ NE R L)|].
    intros _. apply (column_of_set_same _ _ _ R L).
  - simpl. exists d. split; [reflexivity|]. repeat split; auto.
    intros I. apply has_column_In in I. rewrite I in HC. discriminate HC.
Qed.

Lemma map_fold (g : cell -> cell) (names : list text) (df : DataFrame) :
  NoDup names -> rectangular df ->
  let step := fun d c => if has_column c d then map_column c g d else d in
  columns (fold_left step names df) = columns df
  /\ rectangular (fold_left step names df)
  /\ List.length (rows (fold_left step names df)) = List.length (rows df)
  /\ forall n, In n (columns df) ->
               column_of n (fold_left step names df)
               = if mem_text n names then map g (column_of n df) else column_of n df.
Proof.
  intros ND R step. revert df R. induction names as [|c names IH]; intros df R; simpl.
  - auto.
  - inversion ND as [|? ? NI ND']. subst.
    assert (S1 : columns (step df c) = columns df /\ rectangular (step df c)
                 /\ List.length (rows (step df c)) = List.length (rows df)
                 /\ (In c (columns df) -> column_of c (step df c) = map g (column_of c df))
                 /\ forall n, n <> c -> column_of n (step df c) = column_of n df).
    { unfold step. destruct (has_column c df) eqn:HC.
      - apply has_column_In in HC.
        split; [apply (map_column_columns _ _ _ HC)|].
        split; [apply (map_column_rectangular _ _ _ R)|].
        split; [apply map_column_rows_length|].
        split; [intros _; apply (map_column_same _ _ _ R)|].
        intros n NE. apply (map_column_other _ _ _ _ NE R).
      - repeat split; auto. intros I. apply has_column_In in I. congruence. }
    destruct S1 as (C1 & R1 & L1 & E1 & O1).
    destruct (IH ND' (step df c) R1) as (C2 & R2 & L2 & O2).
    split; [congruence|]. split; [exact R2|]. split; [congruence|].
    intros n I. rewrite O2 by (rewrite C1; exact I). destruct (text_eqb n c) eqn:E.
    + apply text_eqb_eq in E. subst n.
      assert (M : mem_text c names = false).
      { destruct (mem_text c names) eqn:M; [|reflexivity].
        apply mem_text_In in M. contradiction. }
      rewrite M. apply (E1 I).
    + rewrite (O1 n (text_neq _ _ E)). reflexivity.
Qed.

Section NormaliserColumns.

Variable to_numeric : text -> pyfloat.
Variable str_of_finite : Qc -> text.

Lemma clean_not_num (c : cell) :
  match clean_object_cell str_of_finite c with Num _ => false | _ => true end = true.
Proof. unfold clean_object_cell. destruct (text_eqb _ _); reflexivity. Qed.

Lemma is_object_cleaned (s : series) :
  is_object (cleaned str_of_finite s) = is_object s.
Proof.
  unfold cleaned. destruct (is_object s) eqn:O; [|exact O].
  unfold is_object. destruct s as [|c s]; [reflexivity|].
  simpl. rewrite (clean_not_num c). reflexivity.
Qed.

(** What [cleanup_cols] does: it raises when the frame has a floor or a
    configuration column without [.str]; otherwise it normalises each
    column by its name. *)
Lemma cleanup_cols_outcome (df : DataFrame) :
  NoDup (columns df) -> rectangular df ->
  if lacks_str "floor"%string df || lacks_str "configuration"%string df
  then cleanup_cols to_numeric str_of_finite df = Raise AttributeError
  else exists df',
      cleanup_cols to_numeric str_of_finite df = Ok df'
      /\ columns df' = columns df /\ rectangular df'
      /\ List.length (rows df') = List.length (rows df)
      /\ forall n, In n (columns df) ->
                   column_of n df' = normal_column to_numeric str_of_finite n (column_of n df).
Proof.
  intros ND R. unfold cleanup_cols. cbv zeta.
  destruct (clean_objects_spec str_of_finite df ND R) as (C1 & R1 & L1 & O1).
  set (d1 := clean_objects str_of_finite df) in *.
  assert (LS : forall n, lacks_str n d1 = lacks_str n df).
  { intros n. unfold lacks_str, has_column. rewrite C1.
    destruct (mem_text n (columns df)) eqn:M; [|reflexivity]. simpl.
    apply mem_text_In in M. rewrite (O1 n M), is_object_cleaned. reflexivity. }
  pose proof (squeeze_column_outcome "floor"%string d1 R1) as S2.
  rewrite LS in S2. destruct (lacks_str "floor"%string df); [rewrite S2; reflexivity|].
  destruct S2 as (d2 & -> & C2 & R2 & L2 & O2 & E2). cbn [rbind orb].
  pose proof (squeeze_column_outcome "configuration"%string d2 R2) as S3.
  assert (LS3 : lacks_str "configuration"%string d2 = lacks_str "configuration"%string df).
  { rewrite <- LS. unfold lacks_str, has_column. rewrite C2.
    rewrite (O2 _ (text_neq ("configuration"%string : text) ("floor"%string : text) eq_refl)).
    reflexivity. }
  rewrite LS3 in S3. destruct (lacks_str "configuration"%string df); [rewrite S3; reflexivity|].
  destruct S3 as (d3 & -> & C3 & R3 & L3 & O3 & E3). cbn [rbind].
  assert (NDN : NoDup numeric_columns).
  { unfold numeric_columns. repeat constructor; simpl; intros X;
      repeat (destruct X as [X|X]; [discriminate X|]); exact X. }
  destruct (map_fold (coerce_numeric to_numeric str_of_finite) numeric_columns d3 NDN R3)
    as (C4 & R4 & L4 & O4).
  change (fold_left (fun d c => if has_column c d
                                then map_column c (coerce_numeric to_numeric str_of_finite) d
                                else d) numeric_columns d3)
    with (fold_left (coerce_step to_numeric str_of_finite) numeric_columns d3) in *.
  set (d4 := fold_left (coerce_step to_numeric str_of_finite) numeric_columns d3) in *.
  assert (COLS : columns d4 = columns df) by congruence.
  assert (K : forall n, In n (columns df) ->
                column_of n d4
                = if is_squeezed n then map squeeze_cell (cleaned str_of_finite (column_of n df))
                  else if mem_text n numeric_columns
                       then map (coerce_numeric to_numeric str_of_finite)
                                (cleaned str_of_finite (column_of n df))
                       else cleaned str_of_finite (column_of n df)).
  { intros n I. rewrite O4 by congruence. unfold is_squeezed.
    destruct (text_eqb n "floor"%string) eqn:EF.
    - apply text_eqb_eq in EF. subst n.
      change (mem_text ("floor"%string : text) numeric_columns) with false. cbn [orb].
      rewrite (O3 _ (text_neq ("floor"%string : text) ("configuration"%string : text) eq_refl)).
      rewrite E2 by (rewrite C1; exact I). rewrite (O1 _ I). reflexivity.
    - destruct (text_eqb n "configuration"%string) eqn:EC.
      + apply text_eqb_eq in EC. subst n.
        change (mem_text ("configuration"%string : text) numeric_columns) with false. cbn [orb].
        rewrite E3 by (rewrite C2, C1; exact I).
        rewrite (O2 _ (text_neq ("configuration"%string : text) ("floor"%string : text) eq_refl)).
        rewrite (O1 _ I). reflexivity.
      + cbn [orb]. rewrite (O3 _ (text_neq _ _ EC)), (O2 _ (text_neq _ _ EF)), (O1 _ I).
        reflexivity. }
  destruct (has_column "status"%string d4) eqn:HS.
  - assert (IS : In ("status"%string : text) (columns d4)) by (apply has_column_In; exact HS).
    eexists. split; [reflexivity|].
    split; [rewrite (map_column_columns _ _ _ IS); exact COLS|].
    split; [apply map_column_rectangular; exact R4|].
    split; [rewrite map_column_rows_length; congruence|].
    intros n I. unfold normal_column. cbv zeta. destruct (text_eqb n "status"%string) eqn:ES.
    + apply text_eqb_eq in ES. subst n. rewrite (map_column_same _ _ _ R4), (K _ I). reflexivity.
    + rewrite (map_column_other _ _ _ _ (text_neq _ _ ES) R4), (K _ I).
      destruct (is_squeezed n); [reflexivity|].
      destruct (mem_text n numeric_columns); reflexivity.
  - eexists. split; [reflexivity|]. split; [exact COLS|]. split; [exact R4|].
    split; [congruence|].
    intros n I. unfold normal_column. cbv zeta. destruct (text_eqb n "status"%string) eqn:ES.
    + apply text_eqb_eq in ES. subst n. exfalso.
      rewrite <- COLS in I. apply has_column_In in I. congruence.
    + rewrite (K _ I). destruct (is_squeezed n); [reflexivity|].
      destruct (mem_text n numeric_columns); reflexivity.
Qed.

End NormaliserColumns.


Lemma const_column_length (A : Type) (v : cell) (l : list A) :
  List.length (map (fun _ => v) l) = List.length l.
Proof. apply length_map. Qed.

Lemma sheet_frame_spec (keep : list (text * text)) (pname : string) (raw : DataFrame) :
  NoDup (map snd keep) -> ~ In ("project"%string : text) (map snd keep) ->
  let d := sheet_frame keep pname raw in
  rectangular d /\ NoDup (columns d)
  /\ List.length (rows d) = List.length (rows raw)
  /\ columns d = columns (keep_rename keep raw) ++ [("project"%string : text)]
  /\ column_of "project"%string d = map (fun _ => Str (pname : text)) (rows raw)
  /\ (forall old new, In (old, new) keep ->
        if has_column old raw
        then In new (columns d) /\ column_of new d = column_of old raw
        else ~ In new (columns d)).
Proof.
  intros ND NP d. unfold d, sheet_frame, set_column_const.
  destruct (keep_rename_spec keep raw ND) as (R1 & ND1 & L1 & K1 & S1).
  set (d1 := keep_rename keep raw) in *.
  assert (NP1 : ~ In ("project"%string : text) (columns d1)).
  { intros I. apply NP. apply (K1 _ I). }
  set (vals := map (fun _ : list cell => Str (pname : text)) (rows d1)).
  assert (LV : List.length vals = List.length (rows d1)) by (unfold vals; apply length_map).
  assert (C2 : columns (set_column "project"%string vals d1)
               = columns d1 ++ [("project"%string : text)])
    by (apply set_column_new_columns; exact NP1).
  split; [apply set_column_rectangular; exact R1|].
  split; [rewrite C2; apply NoDup_snoc; assumption|].
  split; [rewrite (set_column_rows_length _ _ _ LV); exact L1|].
  split; [exact C2|].
  split.
  - rewrite (column_of_set_same _ _ _ R1 LV). unfold vals.
    clear - L1. revert L1. generalize (rows d1), (rows raw).
    induction l as [|x l IH]; intros [|y l'] E; simpl in *; try lia; [reflexivity|].
    f_equal. apply IH. lia.
  - intros old new I. specialize (S1 old new I).
    assert (NE : new <> ("project"%string : text)).
    { intros X. subst new. apply NP. apply in_map_iff. exists (old, ("project"%string : text)).
      split; [reflexivity|exact I]. }
    destruct (has_column old raw).
    + destruct S1 as [I1 E1]. split; [rewrite C2; apply in_or_app; left; exact I1|].
      rewrite (column_of_set_other _ _ _ _ NE R1 LV). exact E1.
    + rewrite C2. intros J. apply in_app_or in J. destruct J as [J|[J|[]]].
      * contradiction.
      * apply NE. symmetry. exact J.
Qed.

Lemma keep_lists_text :
  In (("Floor No.#"%string : text), ("floor"%string : text)) BW_KEEP
  /\ In (("Configuration"%string : text), ("configuration"%string : text)) BW_KEEP
  /\ In (("Floor No.#"%string : text), ("floor"%string : text)) BOHO_KEEP
  /\ In (("Configuration"%string : text), ("configuration"%string : text)) BOHO_KEEP.
Proof.
  unfold BW_KEEP, BOHO_KEEP. repeat split; simpl; tauto.
Qed.

Section SheetOutcome.

Variable to_numeric : text -> pyfloat.
Variable str_of_finite : Qc -> text.

(** One sheet, from the raw frame to the cleaned frame or the error. *)
Lemma sheet_outcome (keep : list (text * text)) (pname : string) (raw : DataFrame) :
  NoDup (map snd keep) -> ~ In ("project"%string : text) (map snd keep) ->
  In (("Floor No.#"%string : text), ("floor"%string : text)) keep ->
  In (("Configuration"%string : text), ("configuration"%string : text)) keep ->
  if sheet_lacks_str raw
  then cleanup_cols to_numeric str_of_finite (sheet_frame keep pname raw) = Raise AttributeError
  else exists d,
      cleanup_cols to_numeric str_of_finite (sheet_frame keep pname raw) = Ok d
      /\ rectangular d
      /\ List.length (rows d) = List.length (rows raw)
      /\ columns d = columns (sheet_frame keep pname raw)
      /\ forall n, In n (columns d) ->
                   column_of n d
                   = normal_column to_numeric str_of_finite n
                                   (column_of n (sheet_frame keep pname raw)).
Proof.
  intros ND NP IF IC.
  destruct (sheet_frame_spec keep pname raw ND NP) as (R & NDC & L & C & P & S).
  pose proof (cleanup_cols_outcome to_numeric str_of_finite _ NDC R) as O.
  assert (LS : forall old new, In (old, new) keep ->
                 lacks_str new (sheet_frame keep pname raw) = lacks_str old raw).
  { intros old new I. specialize (S old new I). unfold lacks_str.
    destruct (has_column old raw).
    - destruct S as [I1 E1]. apply has_column_In in I1. rewrite I1, E1. reflexivity.
    - destruct (has_column new (sheet_frame keep pname raw)) eqn:HC; [|reflexivity].
      apply has_column_In in HC. contradiction. }
  rewrite (LS _ _ IF), (LS _ _ IC) in O. unfold sheet_lacks_str.
  destruct (lacks_str "Floor No.#"%string raw || lacks_str "Configuration"%string raw);
    [exact O|].
  destruct O as (d & E & Cd & Rd & Ld & Od). exists d.
  split; [exact E|]. split; [exact Rd|]. split; [congruence|]. split; [exact Cd|].
  intros n I. apply Od. rewrite <- Cd. exact I.
Qed.

End SheetOutcome.


Lemma NoDup_insert_sorted (x : text) (l : list text) :
  NoDup l -> ~ In x l -> NoDup (insert_sorted x l).
Proof.
  induction l as [|y l IH]; simpl; intros ND NI.
  - constructor; [intros []|constructor].
  - inversion ND as [|? ? NY ND']. subst. destruct (text_ltb y x).
    + constructor.
      * intros I. apply insert_sorted_In in I. destruct I as [E|I]; [|contradiction].
        apply NI. left. exact E.
      * apply IH; [exact ND'|]. intros I. apply NI. right. exact I.
    + constructor; [exact NI|exact ND].
Qed.

Lemma NoDup_sorted_set (xs : list text) : NoDup (sorted_set xs).
Proof.
  induction xs as [|x xs IH]; simpl; [constructor|].
  destruct (mem_text x (sorted_set xs)) eqn:M; [exact IH|].
  apply NoDup_insert_sorted; [exact IH|].
  intros I. apply mem_text_In in I. rewrite I in M. discriminate M.
Qed.

Lemma mem_text_false (x : text) (l : list text) : mem_text x l = false <-> ~ In x l.
Proof.
  split.
  - intros M I. apply mem_text_In in I. rewrite I in M. discriminate M.
  - intros NI. destruct (mem_text x l) eqn:M; [|reflexivity].
    apply mem_text_In in M. contradiction.
Qed.

Lemma filter_single (p : text -> bool) (a : text) (l : list text) :
  NoDup l -> (forall x, In x l -> p x = true -> x = a) -> p a = true ->
  filter p l = if mem_text a l then [a] else [].
Proof.
  intros ND. induction ND as [|y l NY ND IH]; intros ONLY PA; [reflexivity|].
  simpl. assert (ONLY' : forall x, In x l -> p x = true -> x = a).
  { intros x I. apply ONLY. right. exact I. }
  specialize (IH ONLY' PA). unfold mem_text in *. simpl.
  destruct (p y) eqn:PY.
  - assert (y = a) by (apply ONLY; [left; reflexivity|exact PY]). subst y.
    rewrite text_eqb_refl. simpl. rewrite IH.
    assert (M : existsb (text_eqb a) l = false) by (apply mem_text_false; exact NY).
    rewrite M. reflexivity.
  - destruct (text_eqb a y) eqn:E.
    + apply text_eqb_eq in E. subst y. congruence.
    + simpl. exact IH.
Qed.

Lemma has_source_In (keep : list (text * text)) (raw : DataFrame) (n : text) :
  has_source keep raw n = mem_text n (columns (keep_rename keep raw)).
Proof.
  unfold has_source, keep_rename. cbn [columns].
  induction keep as [|[old new] keep IH]; [reflexivity|].
  simpl. destruct (has_column old raw); simpl.
  - unfold mem_text in *. simpl. rewrite IH, andb_true_r.
    destruct (text_eqb new n) eqn:E.
    + apply text_eqb_eq in E. subst new. rewrite text_eqb_refl. reflexivity.
    + destruct (text_eqb n new) eqn:E'; [|reflexivity].
      apply text_eqb_eq in E'. subst new. rewrite text_eqb_refl in E. discriminate E.
  - rewrite andb_false_r. exact IH.
Qed.

Lemma mem_text_app (x : text) (a b : list text) :
  mem_text x (a ++ b) = mem_text x a || mem_text x b.
Proof. unfold mem_text. apply existsb_app. Qed.

Lemma sheet_frame_has (keep : list (text * text)) (pname : string) (raw : DataFrame)
      (n : text) :
  NoDup (map snd keep) -> ~ In ("project"%string : text) (map snd keep) ->
  has_column n (sheet_frame keep pname raw)
  = has_source keep raw n || text_eqb n "project"%string.
Proof.
  intros ND NP. destruct (sheet_frame_spec keep pname raw ND NP) as (_ & _ & _ & C & _).
  unfold has_column. rewrite C, mem_text_app, has_source_In. unfold mem_text at 2. simpl.
  rewrite orb_false_r. reflexivity.
Qed.

Lemma names_in_order :
  forallb (fun x => mem_text x key_order || text_eqb x "row_no"%string)
          (map snd BW_KEEP ++ map snd BOHO_KEEP ++ [("project"%string : text)]) = true
  /\ mem_text "row_no"%string key_order = false
  /\ forallb (fun x => negb (text_eqb x "_unit_upper"%string)
                       && negb (text_eqb x "_building_upper"%string)) sheet_names = true.
Proof. repeat split; vm_compute; reflexivity. Qed.


Lemma map_const_length (A B C : Type) (v : C) (l : list A) (l' : list B) :
  List.length l = List.length l' -> map (fun _ => v) l = map (fun _ => v) l'.
Proof.
  revert l'. induction l as [|x l IH]; intros [|y l'] E; simpl in *; try lia; [reflexivity|].
  f_equal. apply IH. lia.
Qed.

Lemma mem_sorted_set (x : text) (xs : list text) : mem_text x (sorted_set xs) = mem_text x xs.
Proof.
  destruct (mem_text x xs) eqn:M.
  - apply mem_text_In. apply sorted_set_In. apply mem_text_In. exact M.
  - apply mem_text_false. intros I. apply (proj1 (sorted_set_In _ _)) in I.
    apply (proj2 (mem_text_In _ _)) in I. congruence.
Qed.

Lemma filter_all_in (p : text -> bool) (l : list text) :
  (forall x, In x l -> p x = true) -> filter p l = l.
Proof.
  induction l as [|x l IH]; simpl; intros H; [reflexivity|].
  rewrite (H x (or_introl eq_refl)), IH by (intros y I; apply H; right; exact I). reflexivity.
Qed.

Section Unified.

Variable to_numeric : text -> pyfloat.
Variable str_of_finite : Qc -> text.

Lemma cleaned_project (pname : text) (A : Type) (l : list A) :
  clean_object_cell str_of_finite (Str pname) = Str pname ->
  normal_column to_numeric str_of_finite "project"%string (map (fun _ => Str pname) l)
  = map (fun _ => Str pname) l.
Proof.
  intros CP. unfold normal_column. cbv zeta.
  change (is_squeezed "project"%string) with false.
  change (mem_text ("project"%string : text) numeric_columns) with false.
  change (text_eqb ("project"%string : text) "status"%string) with false. cbv iota.
  unfold cleaned. destruct (is_object _); [|reflexivity].
  rewrite map_map. apply map_ext. intros _. exact CP.
Qed.

(** What [load_all_units] does with two sheets. *)
Lemma load_all_units_outcome (bw_raw boho_raw : DataFrame) :
  if sheet_lacks_str bw_raw || sheet_lacks_str boho_raw
  then load_all_units to_numeric str_of_finite bw_raw boho_raw = Raise AttributeError
  else if negb (in_unified bw_raw boho_raw "unit_no"%string)
  then load_all_units to_numeric str_of_finite bw_raw boho_raw
       = Raise (KeyError "unit_no"%string)
  else if negb (in_unified bw_raw boho_raw "building"%string)
  then load_all_units to_numeric str_of_finite bw_raw boho_raw
       = Raise (KeyError "building"%string)
  else exists U, load_all_units to_numeric str_of_finite bw_raw boho_raw = Ok U
                 /\ unified to_numeric str_of_finite bw_raw boho_raw U.
Proof.
  unfold load_all_units. cbv zeta.
  change (set_column_const "project"%string (Str ("Boardwalk"%string : text))
                           (keep_rename BW_KEEP bw_raw))
    with (sheet_frame BW_KEEP "Boardwalk" bw_raw).
  change (set_column_const "project"%string (Str ("BOHO"%string : text))
                           (keep_rename BOHO_KEEP boho_raw))
    with (sheet_frame BOHO_KEEP "BOHO" boho_raw).
  destruct keep_lists_ok as (ND1 & ND2 & NP1 & NP2 & _ & _).
  destruct keep_lists_text as (IF1 & IC1 & IF2 & IC2).
  destruct names_in_order as (ORDER & ROWNO & NOSHADOW).
  pose proof (sheet_outcome to_numeric str_of_finite BW_KEEP "Boardwalk" bw_raw
                            ND1 NP1 IF1 IC1) as O1.
  destruct (sheet_lacks_str bw_raw); [rewrite O1; reflexivity|].
  destruct O1 as (bw & -> & R1 & L1 & C1 & K1). cbn [rbind orb].
  pose proof (sheet_outcome to_numeric str_of_finite BOHO_KEEP "BOHO" boho_raw
                            ND2 NP2 IF2 IC2) as O2.
  destruct (sheet_lacks_str boho_raw); [rewrite O2; reflexivity|].
  destruct O2 as (boho & -> & R2 & L2 & C2 & K2). cbn [rbind].
  destruct (sheet_frame_spec BW_KEEP "Boardwalk" bw_raw ND1 NP1) as (_ & _ & _ & CS1 & P1 & _).
  destruct (sheet_frame_spec BOHO_KEEP "BOHO" boho_raw ND2 NP2) as (_ & _ & _ & CS2 & P2 & _).
  assert (IP1 : In ("project"%string : text) (columns bw)).
  { rewrite C1, CS1. apply in_or_app. right. left. reflexivity. }
  assert (IP2 : In ("project"%string : text) (columns boho)).
  { rewrite C2, CS2. apply in_or_app. right. left. reflexivity. }
  assert (PR1 : column_of "project"%string bw
                = map (fun _ => Str ("Boardwalk"%string : text)) (rows bw_raw)).
  { rewrite (K1 _ IP1), P1. apply cleaned_project. reflexivity. }
  assert (PR2 : column_of "project"%string boho
                = map (fun _ => Str ("BOHO"%string : text)) (rows boho_raw)).
  { rewrite (K2 _ IP2), P2. apply cleaned_project. reflexivity. }
  set (all_cols := sorted_set (columns bw ++ columns boho)) in *.
  assert (A1 : forall n, In n (columns bw) -> In n all_cols).
  { intros n I. apply sorted_set_In. apply in_or_app. left. exact I. }
  assert (A2 : forall n, In n (columns boho) -> In n all_cols).
  { intros n I. apply sorted_set_In. apply in_or_app. right. exact I. }
  assert (MEM : forall c, mem_text c all_cols = in_unified bw_raw boho_raw c).
  { intros c. unfold all_cols, in_unified. rewrite mem_sorted_set, mem_text_app.
    change (mem_text c (columns bw)) with (has_column c bw).
    change (mem_text c (columns boho)) with (has_column c boho).
    unfold has_column. rewrite C1, C2.
    change (mem_text c (columns (sheet_frame BW_KEEP "Boardwalk" bw_raw)))
      with (has_column c (sheet_frame BW_KEEP "Boardwalk" bw_raw)).
    change (mem_text c (columns (sheet_frame BOHO_KEEP "BOHO" boho_raw)))
      with (has_column c (sheet_frame BOHO_KEEP "BOHO" boho_raw)).
    rewrite (sheet_frame_has _ _ _ _ ND1 NP1), (sheet_frame_has _ _ _ _ ND2 NP2).
    destruct (text_eqb c "project"%string), (has_source BW_KEEP bw_raw c),
      (has_source BOHO_KEEP boho_raw c); reflexivity. }
  assert (KNOWN : forall c, In c all_cols ->
                    mem_text c key_order = true \/ c = ("row_no"%string : text)).
  { intros c I. rewrite forallb_forall in ORDER.
    assert (J : In c (map snd BW_KEEP ++ map snd BOHO_KEEP ++ [("project"%string : text)])).
    { apply (proj1 (sorted_set_In _ _)) in I. apply in_app_or in I. destruct I as [I|I].
      - rewrite C1, CS1 in I. apply in_app_or in I. destruct I as [I|I].
        + apply in_or_app. left.
          destruct (keep_rename_spec BW_KEEP bw_raw ND1) as (_ & _ & _ & K & _). apply (K _ I).
        + apply in_or_app. right. apply in_or_app. right. exact I.
      - rewrite C2, CS2 in I. apply in_app_or in I. destruct I as [I|I].
        + apply in_or_app. right. apply in_or_app. left.
          destruct (keep_rename_spec BOHO_KEEP boho_raw ND2) as (_ & _ & _ & K & _).
          apply (K _ I).
        + apply in_or_app. right. apply in_or_app. right. exact I. }
    specialize (ORDER c J). apply orb_true_iff in ORDER. destruct ORDER as [O|O]; [left; exact O|].
    right. apply text_eqb_eq. exact O. }
  set (bwR := reindex all_cols bw) in *. set (bohoR := reindex all_cols boho) in *.
  assert (KEEP : dropna_all (concat bwR bohoR) = concat bwR bohoR).
  { apply dropna_all_keeps. apply rows_have_project.
    rewrite (column_of_concat _ bwR bohoR eq_refl). unfold bwR, bohoR.
    rewrite !column_of_reindex by auto. rewrite PR1, PR2. apply Forall_app. split.
    - apply Forall_forall. intros c I. apply in_map_iff in I. destruct I as (? & <- & _).
      reflexivity.
    - apply Forall_forall. intros c I. apply in_map_iff in I. destruct I as (? & <- & _).
      reflexivity. }
  rewrite KEEP. set (units := concat bwR bohoR) in *.
  assert (CU : columns units = all_cols) by reflexivity.
  assert (HU : forall c, has_column c units = in_unified bw_raw boho_raw c).
  { intros c. unfold has_column. rewrite CU. apply MEM. }
  assert (NM : filter (fun c => has_column c units)
                      (key_order ++ filter (fun c => negb (mem_text c key_order)) (columns units))
               = filter (in_unified bw_raw boho_raw) sheet_names).
  { unfold sheet_names. rewrite !filter_app. f_equal.
    - apply filter_ext. exact HU.
    - rewrite CU.
      rewrite (filter_all_in (fun c => has_column c units)).
      + rewrite (filter_single (fun c => negb (mem_text c key_order)) "row_no"%string all_cols).
        * rewrite MEM. simpl. destruct (in_unified bw_raw boho_raw "row_no"%string); reflexivity.
        * apply NoDup_sorted_set.
        * intros x I PX. destruct (KNOWN x I) as [K|K]; [|exact K].
          rewrite K in PX. discriminate PX.
        * rewrite ROWNO. reflexivity.
      + intros x I. apply filter_In in I. destruct I as [I _].
        apply has_column_In. rewrite CU. exact I. }
  rewrite NM. set (names2 := filter (in_unified bw_raw boho_raw) sheet_names) in *.
  assert (IN2 : forall c, In c sheet_names -> (In c names2 <-> in_unified bw_raw boho_raw c = true)).
  { intros c I. unfold names2. rewrite filter_In. tauto. }
  assert (SH : forall c, In c names2 ->
                 c <> ("_unit_upper"%string : text) /\ c <> ("_building_upper"%string : text)).
  { intros c I. apply filter_In in I. destruct I as [I _].
    rewrite forallb_forall in NOSHADOW. specialize (NOSHADOW c I).
    apply andb_true_iff in NOSHADOW. destruct NOSHADOW as [N1 N2].
    apply negb_true_iff in N1, N2. split; apply text_neq; assumption. }
  assert (COLN : forall n, In n sheet_names ->
                   column_of n (reindex names2 units)
                   = sheet_column to_numeric str_of_finite BW_KEEP "Boardwalk" bw_raw n
                     ++ sheet_column to_numeric str_of_finite BOHO_KEEP "BOHO" boho_raw n).
  { intros n I. rewrite column_of_reindex.
    - unfold units. rewrite (column_of_concat _ bwR bohoR eq_refl). unfold bwR, bohoR.
      rewrite !column_of_reindex by auto. unfold sheet_column. f_equal.
      + destruct (has_column n (sheet_frame BW_KEEP "Boardwalk" bw_raw)) eqn:HC.
        * apply K1. rewrite C1. apply has_column_In. exact HC.
        * rewrite column_of_missing.
          -- apply map_const_length. exact L1.
          -- rewrite C1. intros J. apply has_column_In in J. congruence.
      + destruct (has_column n (sheet_frame BOHO_KEEP "BOHO" boho_raw)) eqn:HC.
        * apply K2. rewrite C2. apply has_column_In. exact HC.
        * rewrite column_of_missing.
          -- apply map_const_length. exact L2.
          -- rewrite C2. intros J. apply has_column_In in J. congruence.
    - rewrite CU. intros J. apply IN2; [exact I|]. rewrite <- MEM. apply mem_text_In. exact J. }
  assert (IU : In ("unit_no"%string : text) sheet_names)
    by (apply mem_text_In; reflexivity).
  assert (IB : In ("building"%string : text) sheet_names)
    by (apply mem_text_In; reflexivity).
  set (T2 := reindex names2 units) in *.
  assert (RT2 : rectangular T2) by apply reindex_rectangular.
  assert (LT2 : List.length (rows T2) = List.length (rows bw_raw) + List.length (rows boho_raw)).
  { unfold T2, reindex, units, concat, bwR, bohoR, reindex. cbn [rows].
    rewrite length_map, length_app, !length_map. congruence. }
  unfold add_upper.
  destruct (in_unified bw_raw boho_raw "unit_no"%string) eqn:UN; cbn [negb].
  2:{ rewrite column_missing; [reflexivity|].
      change (columns T2) with names2. intros J. apply (IN2 _ IU) in J. congruence. }
  rewrite (column_in "unit_no"%string T2)
    by (change (columns T2) with names2; apply (IN2 _ IU); exact UN).
  cbn [rbind].
  set (v3 := map (fun c => Str (upper (astype_str str_of_finite c)))
                 (column_of "unit_no"%string T2)).
  assert (LV3 : List.length v3 = List.length (rows T2))
    by (unfold v3; rewrite length_map; apply column_of_length).
  set (T3 := set_column "_unit_upper"%string v3 T2) in *.
  assert (NU3 : ~ In ("_unit_upper"%string : text) (columns T2)).
  { change (columns T2) with names2. intros J. apply SH in J. destruct J as [J _].
    apply J. reflexivity. }
  assert (C3 : columns T3 = names2 ++ [("_unit_upper"%string : text)])
    by (apply (set_column_new_columns _ _ _ NU3)).
  assert (RT3 : rectangular T3) by (apply set_column_rectangular; exact RT2).
  assert (LT3 : List.length (rows T3) = List.length (rows T2))
    by (apply set_column_rows_length; exact LV3).
  destruct (in_unified bw_raw boho_raw "building"%string) eqn:BN; cbn [negb].
  2:{ rewrite column_missing; [reflexivity|].
      rewrite C3. intros J. apply in_app_or in J. destruct J as [J|[J|[]]].
      - apply (IN2 _ IB) in J. congruence.
      - discriminate J. }
  rewrite (column_in "building"%string T3)
    by (rewrite C3; apply in_or_app; left; apply (IN2 _ IB); exact BN).
  cbn [rbind].
  set (v4 := map (fun c => Str (upper (astype_str str_of_finite c)))
                 (column_of "building"%string T3)).
  assert (LV4 : List.length v4 = List.length (rows T3))
    by (unfold v4; rewrite length_map; apply column_of_length).
  set (U := set_column "_building_upper"%string v4 T3).
  assert (NU4 : ~ In ("_building_upper"%string : text) (columns T3)).
  { rewrite C3. intros J. apply in_app_or in J. destruct J as [J|[J|[]]].
    - apply SH in J. destruct J as [_ J]. apply J. reflexivity.
    - discriminate J. }
  exists U. split; [reflexivity|]. unfold unified.
  split; [apply set_column_rectangular; exact RT3|].
  split.
  { unfold U. rewrite (set_column_new_columns _ _ _ NU4), C3, <- app_assoc. reflexivity. }
  split.
  { unfold U. rewrite (set_column_rows_length _ _ _ LV4). congruence. }
  assert (OTHER : forall n, n <> ("_unit_upper"%string : text) ->
                    n <> ("_building_upper"%string : text) ->
                    column_of n U = column_of n T2).
  { intros n N1 N2. unfold U. rewrite (column_of_set_other _ _ _ _ N2 RT3 LV4).
    unfold T3. apply (column_of_set_other _ _ _ _ N1 RT2 LV3). }
  split.
  { intros n I. rewrite <- (COLN n I).
    rewrite forallb_forall in NOSHADOW. specialize (NOSHADOW n I).
    apply andb_true_iff in NOSHADOW. destruct NOSHADOW as [N1 N2].
    apply negb_true_iff in N1, N2. apply OTHER; apply text_neq; assumption. }
  split.
  - unfold U.
    rewrite (column_of_set_other _ _ _ _
               (text_neq ("_unit_upper"%string : text) ("_building_upper"%string : text) eq_refl)
               RT3 LV4).
    unfold T3 at 1. rewrite (column_of_set_same _ _ _ RT2 LV3).
    fold U. rewrite OTHER by (apply text_neq; reflexivity). reflexivity.
  - unfold U at 1. rewrite (column_of_set_same _ _ _ RT3 LV4).
    rewrite OTHER by (apply text_neq; reflexivity).
    unfold v4, T3.
    rewrite (column_of_set_other _ _ _ _
               (text_neq ("building"%string : text) ("_unit_upper"%string : text) eq_refl)
               RT2 LV3).
    reflexivity.
Qed.

End Unified.


Section UnifiedFacts.

Variable to_numeric : text -> pyfloat.
Variable str_of_finite : Qc -> text.

Lemma load_all_units_unified (bw_raw boho_raw U : DataFrame) :
  load_all_units to_numeric str_of_finite bw_raw boho_raw = Ok U ->
  unified to_numeric str_of_finite bw_raw boho_raw U.
Proof.
  intros H. pose proof (load_all_units_outcome to_numeric str_of_finite bw_raw boho_raw) as O.
  destruct (sheet_lacks_str bw_raw || sheet_lacks_str boho_raw); [congruence|].
  destruct (negb (in_unified bw_raw boho_raw "unit_no"%string)); [congruence|].
  destruct (negb (in_unified bw_raw boho_raw "building"%string)); [congruence|].
  destruct O as (U' & E & X). rewrite E in H. apply Ok_inj in H. subst U'. exact X.
Qed.

End UnifiedFacts.

(** X14.  The errors of [load_all_units] on two sheets whose floor and
    configuration columns, where a sheet has them, hold a text or hold
    floats only with a number among them: it raises [AttributeError]
    when such a column of a sheet holds no text, [KeyError] when no
    sheet has a unit number column, or no sheet has a building column;
    otherwise it returns. *)
Theorem load_all_units_raises (to_numeric : text -> pyfloat) (str_of_finite : Qc -> text)
        (bw_raw boho_raw : DataFrame) :
  sheet_dtypes_read_off bw_raw -> sheet_dtypes_read_off boho_raw ->
  if sheet_lacks_str bw_raw || sheet_lacks_str boho_raw
  then load_all_units to_numeric str_of_finite bw_raw boho_raw = Raise AttributeError
  else if negb (in_unified bw_raw boho_raw "unit_no"%string)
  then load_all_units to_numeric str_of_finite bw_raw boho_raw
       = Raise (KeyError "unit_no"%string)
  else if negb (in_unified bw_raw boho_raw "building"%string)
  then load_all_units to_numeric str_of_finite bw_raw boho_raw
       = Raise (KeyError "building"%string)
  else exists U, load_all_units to_numeric str_of_finite bw_raw boho_raw = Ok U.
Proof.
  intros _ _.
  pose proof (load_all_units_outcome to_numeric str_of_finite bw_raw boho_raw) as O.
  destruct (sheet_lacks_str bw_raw || sheet_lacks_str boho_raw); [exact O|].
  destruct (negb (in_unified bw_raw boho_raw "unit_no"%string)); [exact O|].
  destruct (negb (in_unified bw_raw boho_raw "building"%string)); [exact O|].
  destruct O as (U & E & _). exists U. exact E.
Qed.

(** X15.  The shape of the unified table: its columns are the names of
    the key order that a sheet has a source column for, then the row
    number, then the two helper columns; it has one record for each row
    of the two sheets, those of Boardwalk first, and each column is the
    normalised column of the first sheet followed by that of the second,
    missing values standing for a column that a sheet lacks. *)
Theorem load_all_units_shape (to_numeric : text -> pyfloat) (str_of_finite : Qc -> text)
        (bw_raw boho_raw U : DataFrame) :
  load_all_units to_numeric str_of_finite bw_raw boho_raw = Ok U ->
  columns U = filter (in_unified bw_raw boho_raw) sheet_names
              ++ [("_unit_upper"%string : text); ("_building_upper"%string : text)]
  /\ List.length (rows U) = List.length (rows bw_raw) + List.length (rows boho_raw)
  /\ column_of "project"%string U
     = map (fun _ => Str ("Boardwalk"%string : text)) (rows bw_raw)
       ++ map (fun _ => Str ("BOHO"%string : text)) (rows boho_raw)
  /\ forall n, In n sheet_names ->
       column_of n U
       = sheet_column to_numeric str_of_finite BW_KEEP "Boardwalk" bw_raw n
         ++ sheet_column to_numeric str_of_finite BOHO_KEEP "BOHO" boho_raw n.
Proof.
  intros H.
  destruct (load_all_units_unified to_numeric str_of_finite _ _ _ H) as (_ & C & L & K & _).
  split; [exact C|]. split; [exact L|]. split; [|exact K].
  rewrite (K ("project"%string : text)) by (apply mem_text_In; reflexivity).
  destruct keep_lists_ok as (ND1 & ND2 & NP1 & NP2 & _ & _).
  destruct (sheet_frame_spec BW_KEEP "Boardwalk" bw_raw ND1 NP1) as (_ & _ & _ & _ & P1 & _).
  destruct (sheet_frame_spec BOHO_KEEP "BOHO" boho_raw ND2 NP2) as (_ & _ & _ & _ & P2 & _).
  unfold sheet_column.
  rewrite (sheet_frame_has _ _ _ _ ND1 NP1), (sheet_frame_has _ _ _ _ ND2 NP2).
  rewrite text_eqb_refl, !orb_true_r, P1, P2.
  rewrite !cleaned_project by reflexivity. reflexivity.
Qed.

Lemma load_all_units_raises_witness :
  load_all_units float_or_nan no_digits bw_sheet numbered_floor_sheet = Raise AttributeError
  /\ load_all_units float_or_nan no_digits no_unit_sheet no_unit_sheet
     = Raise (KeyError "unit_no"%string)
  /\ exists U, load_all_units float_or_nan no_digits bw_sheet boho_sheet = Ok U.
Proof.
  assert (D : forall raw,
             forallb (fun n => negb (has_column n raw) || tells_dtype (column_of n raw))
                     (map text_of_string ["Floor No.#"; "Configuration"]%string) = true ->
             sheet_dtypes_read_off raw).
  { intros raw H. cbn [forallb map] in H.
    apply andb_true_iff in H. destruct H as [F H].
    apply andb_true_iff in H. destruct H as [C _].
    split; intros HC; [rewrite HC in F; exact F|rewrite HC in C; exact C]. }
  split; [|split].
  - exact (load_all_units_raises float_or_nan no_digits bw_sheet numbered_floor_sheet
                                 (D bw_sheet eq_refl) (D numbered_floor_sheet eq_refl)).
  - exact (load_all_units_raises float_or_nan no_digits no_unit_sheet no_unit_sheet
                                 (D no_unit_sheet eq_refl) (D no_unit_sheet eq_refl)).
  - exact (load_all_units_raises float_or_nan no_digits bw_sheet boho_sheet
                                 (D bw_sheet eq_refl) (D boho_sheet eq_refl)).
Defined.

Lemma load_all_units_shape_witness :
  exists U,
    load_all_units float_or_nan no_digits bw_full_sheet boho_sheet = Ok U
    /\ columns U
       = map text_of_string
             [ "project"; "building"; "unit_no"; "floor"; "configuration"; "selling_area";
               "price"; "status"; "_unit_upper"; "_building_upper" ]%string
    /\ List.length (rows U) = 3
    /\ column_of "project"%string U
       = [ Str ("Boardwalk"%string : text); Str ("BOHO"%string : text);
           Str ("BOHO"%string : text) ].
Proof.
  let r := eval vm_compute in (load_all_units float_or_nan no_digits bw_full_sheet boho_sheet) in
  match r with Ok ?x => pose (U := x) end.
  assert (E : load_all_units float_or_nan no_digits bw_full_sheet boho_sheet = Ok U)
    by (vm_compute; reflexivity).
  destruct (load_all_units_shape float_or_nan no_digits _ _ U E) as (C & L & P & _).
  exists U. split; [exact E|]. split; [rewrite C; vm_compute; reflexivity|].
  split; [rewrite L; reflexivity|]. rewrite P. reflexivity.
Defined.


Section UnifiedCells.

Variable to_numeric : text -> pyfloat.
Variable str_of_finite : Qc -> text.

Lemma sheet_column_numeric (keep : list (text * text)) (pname : string) (raw : DataFrame)
      (n : text) :
  mem_text n numeric_columns = true ->
  Forall (fun c => is_Str c = false)
         (sheet_column to_numeric str_of_finite keep pname raw n).
Proof.
  intros M. unfold sheet_column. destruct (has_column n (sheet_frame keep pname raw)).
  - unfold normal_column. cbv zeta.
    assert (S : is_squeezed n = false).
    { unfold is_squeezed. destruct (text_eqb n "floor"%string) eqn:E1.
      - apply text_eqb_eq in E1. subst n. discriminate M.
      - destruct (text_eqb n "configuration"%string) eqn:E2; [|reflexivity].
        apply text_eqb_eq in E2. subst n. discriminate M. }
    rewrite S, M. apply Forall_forall. intros c I. apply in_map_iff in I.
    destruct I as (x & <- & _). reflexivity.
  - apply Forall_forall. intros c I. apply in_map_iff in I.
    destruct I as (x & <- & _). reflexivity.
Qed.

Lemma sheet_column_configuration (keep : list (text * text)) (pname : string)
      (raw : DataFrame) :
  Forall (fun c => is_Num (fillna_empty c) = false)
         (sheet_column to_numeric str_of_finite keep pname raw "configuration"%string).
Proof.
  unfold sheet_column.
  destruct (has_column "configuration"%string (sheet_frame keep pname raw)).
  - unfold normal_column. cbv zeta.
    change (is_squeezed "configuration"%string) with true. cbv iota.
    apply Forall_forall. intros c I. apply in_map_iff in I.
    destruct I as (x & <- & _). destruct x as [|y|y]; reflexivity.
  - apply Forall_forall. intros c I. apply in_map_iff in I.
    destruct I as (x & <- & _). reflexivity.
Qed.

Lemma column_cell (n : text) (T : DataFrame) (P : cell -> Prop) (row : list cell) :
  Forall P (column_of n T) -> In row (rows T) -> P (cell_at (columns T) n row).
Proof.
  intros F I. rewrite Forall_forall in F. apply F. unfold column_of. apply in_map. exact I.
Qed.

Lemma unified_typed (bw_raw boho_raw U : DataFrame) :
  unified to_numeric str_of_finite bw_raw boho_raw U -> typed_cells U.
Proof.
  intros (_ & _ & _ & K & _) row I.
  assert (PR : In ("price"%string : text) sheet_names) by (apply mem_text_In; reflexivity).
  assert (AR : In ("selling_area"%string : text) sheet_names)
    by (apply mem_text_In; reflexivity).
  assert (CO : In ("configuration"%string : text) sheet_names)
    by (apply mem_text_In; reflexivity).
  split; [|split].
  - apply (column_cell _ _ (fun c => is_Str c = false)); [|exact I].
    rewrite (K _ PR). apply Forall_app. split; apply sheet_column_numeric; reflexivity.
  - apply (column_cell _ _ (fun c => is_Str c = false)); [|exact I].
    rewrite (K _ AR). apply Forall_app. split; apply sheet_column_numeric; reflexivity.
  - apply (column_cell _ _ (fun c => is_Num (fillna_empty c) = false)); [|exact I].
    rewrite (K _ CO). apply Forall_app. split; apply sheet_column_configuration.
Qed.

End UnifiedCells.

(** X16.  The unified table fits the filter engine: the prices and the
    selling areas that [load_all_units] returns are floats, the
    configurations are text or missing, and the project and the two
    helper columns exist.  With a status, a configuration, a price and a
    selling area column the table is of the canonical schema, on which
    [apply_filters] and [filter_df] return. *)
Theorem load_all_units_canonical (to_numeric : text -> pyfloat) (str_of_finite : Qc -> text)
        (bw_raw boho_raw U : DataFrame) :
  load_all_units to_numeric str_of_finite bw_raw boho_raw = Ok U ->
  typed_cells U
  /\ In ("project"%string : text) (columns U)
  /\ In ("_unit_upper"%string : text) (columns U)
  /\ In ("_building_upper"%string : text) (columns U)
  /\ ((forall n, In n (map text_of_string
                           ["status"; "configuration"; "price"; "selling_area"]%string) ->
                 In n (columns U)) -> canonical U).
Proof.
  intros H. pose proof (load_all_units_unified to_numeric str_of_finite _ _ _ H) as X.
  pose proof (unified_typed to_numeric str_of_finite _ _ _ X) as T.
  destruct X as (_ & C & _).
  assert (IP : In ("project"%string : text) (columns U)).
  { rewrite C. apply in_or_app. left. apply filter_In.
    split; [apply mem_text_In; reflexivity|reflexivity]. }
  assert (IU : In ("_unit_upper"%string : text) (columns U)).
  { rewrite C. apply in_or_app. right. left. reflexivity. }
  assert (IB : In ("_building_upper"%string : text) (columns U)).
  { rewrite C. apply in_or_app. right. right. left. reflexivity. }
  split; [exact T|]. split; [exact IP|]. split; [exact IU|]. split; [exact IB|].
  intros COLS. split; [|exact T].
  intros n I. unfold filter_columns in I. simpl in I.
  destruct I as [<-|[<-|[<-|[<-|[<-|[<-|[<-|[]]]]]]]]; try assumption;
    apply COLS; simpl; tauto.
Qed.

Lemma load_all_units_canonical_witness :
  exists U, load_all_units float_or_nan no_digits bw_full_sheet boho_sheet = Ok U
            /\ canonical U.
Proof.
  let r := eval vm_compute in (load_all_units float_or_nan no_digits bw_full_sheet boho_sheet) in
  match r with Ok ?x => pose (U := x) end.
  assert (E : load_all_units float_or_nan no_digits bw_full_sheet boho_sheet = Ok U)
    by (vm_compute; reflexivity).
  exists U. split; [exact E|].
  apply (load_all_units_canonical float_or_nan no_digits _ _ U E).
  intros n I. apply mem_text_In. simpl in I.
  destruct I as [<-|[<-|[<-|[<-|[]]]]]; vm_compute; reflexivity.
Defined.


(** X17.  The helper columns of the unified table: in every record
    [_unit_upper] is the unit number and [_building_upper] the building,
    as text in upper case.  So a building or unit constraint of an
    intent selects the records whose building or unit number, in upper
    case, is the code of the constraint. *)
Theorem load_all_units_helper_columns (to_numeric : text -> pyfloat)
        (str_of_finite : Qc -> text) (bw_raw boho_raw U : DataFrame) (row : list cell) :
  load_all_units to_numeric str_of_finite bw_raw boho_raw = Ok U -> In row (rows U) ->
  cell_at (columns U) "_unit_upper"%string row
  = upper_cell str_of_finite (cell_at (columns U) "unit_no"%string row)
  /\ cell_at (columns U) "_building_upper"%string row
     = upper_cell str_of_finite (cell_at (columns U) "building"%string row)
  /\ (forall code,
        eq_text_cell code (cell_at (columns U) "_unit_upper"%string row)
        = text_eqb (upper (astype_str str_of_finite (cell_at (columns U) "unit_no"%string row)))
                   code)
  /\ (forall code,
        eq_text_cell code (cell_at (columns U) "_building_upper"%string row)
        = text_eqb (upper (astype_str str_of_finite
                                      (cell_at (columns U) "building"%string row))) code).
Proof.
  intros H I.
  destruct (load_all_units_unified to_numeric str_of_finite _ _ _ H)
    as (_ & _ & _ & _ & SU & SB).
  unfold column_of in SU, SB. rewrite map_map in SU, SB.
  pose proof (ext_in_map SU row I) as EU. pose proof (ext_in_map SB row I) as EB.
  cbv beta in EU, EB.
  split; [exact EU|]. split; [exact EB|]. split; intros code.
  - rewrite EU. reflexivity.
  - rewrite EB. reflexivity.
Qed.

Lemma load_all_units_helper_columns_witness :
  exists U row,
    load_all_units float_or_nan no_digits bw_full_sheet boho_sheet = Ok U
    /\ In row (rows U)
    /\ cell_at (columns U) "unit_no"%string row = Str ("c1-002"%string : text)
    /\ cell_at (columns U) "_unit_upper"%string row = Str ("C1-002"%string : text).
Proof.
  let r := eval vm_compute in (load_all_units float_or_nan no_digits bw_full_sheet boho_sheet) in
  match r with Ok ?x => pose (U := x) end.
  assert (E : load_all_units float_or_nan no_digits bw_full_sheet boho_sheet = Ok U)
    by (vm_compute; reflexivity).
  pose (row := nth 0 (rows U) []).
  assert (I : In row (rows U)) by (left; reflexivity).
  assert (N : cell_at (columns U) "unit_no"%string row = Str ("c1-002"%string : text))
    by (vm_compute; reflexivity).
  exists U, row. split; [exact E|]. split; [exact I|]. split; [exact N|].
  rewrite (proj1 (load_all_units_helper_columns float_or_nan no_digits _ _ U row E I)), N.
  reflexivity.
Defined.


(** ** A unit code starts with a building code *)

Lemma unit_match_text (prev : option ascii) (d s : text) (cs : captures) :
  matches re_unit prev d s [] cs ->
  word_before prev = false
  /\ exists c ds es, d = c :: ds ++ "-"%char :: es
                     /\ is_az_ignorecase c = true
                     /\ forallb is_digit ds = true /\ 1 <= List.length ds <= 2.
Proof.
  intros H. unfold re_unit, Lit in H. simpl fold_right in H. inv_matches.
  match goal with
  | A : is_az_ignorecase ?c = true,
    F1 : forallb is_digit ?t1 = true, W1 : within (Some 2) _ = true,
    F2 : forallb is_digit ?t2 = true,
    E : Ascii.eqb _ ?x = true,
    B : xorb (word_before prev) (word_after _) = true |- _ =>
    apply Ascii.eqb_eq in E; subst x;
    split;
    [ simpl in B;
      assert (Wc : is_word c = true) by (revert A; clear; char_cases c);
      rewrite Wc in B; destruct (word_before prev); [discriminate B|reflexivity]
    | exists c, t1, t2; split; [simpl; rewrite ?app_nil_r; reflexivity|];
      split; [exact A|]; split; [exact F1|];
      simpl in W1; apply Nat.leb_le in W1; lia ]
  end.
Qed.

Lemma building_at_unit (prev : option ascii) (c : ascii) (ds r : text) :
  word_before prev = false -> is_az_ignorecase c = true ->
  forallb is_digit ds = true -> 1 <= List.length ds <= 2 ->
  match_here re_building prev (c :: ds ++ "-"%char :: r) <> None.
Proof.
  intros WB A D L. unfold match_here, re_building. cbn [run].
  assert (Wc : is_word c = true) by (revert A; clear; char_cases c).
  cbn [word_after]. rewrite WB, Wc. cbn [xorb]. rewrite A.
  rewrite rep_maximal.
  - rewrite (span_prefix is_digit ds ("-"%char :: r) D eq_refl). cbn [fst snd].
    assert (B : (1 <=? List.length ds) && within (Some 2) (List.length ds) = true).
    { apply andb_true_iff. split; [apply Nat.leb_le; lia|].
      cbn [within]. apply Nat.leb_le. lia. }
    rewrite B.
    destruct ds as [|x ds]; [simpl in L; lia|].
    simpl in D. apply andb_true_iff in D. destruct D as [Dx D].
    destruct (last_char_in is_digit ds x D Dx) as (c' & LC & D').
    rewrite last_char_cons, LC. cbn [word_before word_after].
    rewrite (digit_is_word _ D').
    change (is_word "-"%char) with false. cbn [xorb]. unfold accept. discriminate.
  - intros x x' s' X X'. cbn. rewrite (digit_is_word _ X), (digit_is_word _ X'). reflexivity.
  - left. lia.
Qed.

Lemma search_finds (r : regex) (pre s : text) :
  forall prev,
    match_here r (last_char prev pre) s <> None -> search_from r prev (pre ++ s) <> None.
Proof.
  induction pre as [|c pre IH]; intros prev H.
  - simpl in *. destruct s as [|x s]; simpl.
    + destruct (match_here r prev []); [discriminate|contradiction].
    + destruct (match_here r prev (x :: s)); [discriminate|contradiction].
  - simpl. destruct (match_here r prev (c :: pre ++ s)); [discriminate|].
    apply IH. rewrite last_char_cons in H. exact H.
Qed.

(** X18.  A query with a unit code also constrains the building: when
    [parse_query] extracts a unit number it extracts a building too (the
    first building code of the text, which need not be that of the
    unit). *)
Theorem parse_query_unit_has_building (q : text) (f : FilterIntent) :
  parse_query q = Ok f -> unit_no f <> None -> building f <> None.
Proof.
  intros H U. destruct (parse_query_fields q f H) as (_ & _ & _ & B & UF).
  rewrite B. rewrite UF in U. unfold first_group_upper in *.
  destruct (re_search re_unit (lower q)) as [m|] eqn:S; [clear U|contradiction].
  unfold re_search in S. apply search_sound in S. destruct S as (pre & d & E & M).
  apply unit_match_text in M. destruct M as (WB & c & ds & es & -> & A & D & L).
  assert (F : re_search re_building (lower q) <> None).
  { unfold re_search. rewrite E. simpl app. rewrite <- app_assoc. simpl app.
    apply search_finds. apply building_at_unit; assumption. }
  destruct (re_search re_building (lower q)); [discriminate|contradiction].
Qed.

Lemma parse_query_unit_has_building_witness :
  exists f, parse_query "a1 or c1-002"%string = Ok f
            /\ unit_no f = Some ("C1-002"%string : text)
            /\ building f <> None.
Proof.
  let r := eval vm_compute in (parse_query "a1 or c1-002"%string) in
  match r with Ok ?x => pose (F := x) end.
  assert (E : parse_query "a1 or c1-002"%string = Ok F) by (vm_compute; reflexivity).
  assert (U : unit_no F <> None) by (simpl; discriminate).
  exists F. split; [exact E|]. split; [reflexivity|].
  exact (parse_query_unit_has_building _ F E U).
Defined.


(** ** The text cells of the unified table *)

Lemma lstrip_fix (p : ascii -> bool) (s : text) : starts_in p s = false -> lstrip p s = s.
Proof. destruct s as [|c s]; simpl; [reflexivity|]. intros ->. reflexivity. Qed.

Lemma lstrip_starts (p : ascii -> bool) (s : text) : starts_in p (lstrip p s) = false.
Proof.
  induction s as [|c s IH]; [reflexivity|]. simpl.
  destruct (p c) eqn:P; [exact IH|]. simpl. exact P.
Qed.

Lemma lstrip_suffix (p : ascii -> bool) (s : text) : exists w, s = w ++ lstrip p s.
Proof.
  induction s as [|c s (w & IH)]; [exists []; reflexivity|]. simpl.
  destruct (p c); [|exists []; reflexivity].
  exists (c :: w). simpl. rewrite <- IH. reflexivity.
Qed.

Lemma rstrip_prefix (p : ascii -> bool) (s : text) : exists w, s = rstrip p s ++ w.
Proof.
  unfold rstrip. destruct (lstrip_suffix p (rev s)) as (w & E). exists (rev w).
  rewrite <- rev_app_distr, <- E. symmetry. apply rev_involutive.
Qed.

Lemma strip_edges (s : text) :
  starts_in is_space (strip s) = false /\ starts_in is_space (rev (strip s)) = false.
Proof.
  unfold strip. split.
  - pose proof (lstrip_starts is_space s) as L.
    destruct (rstrip_prefix is_space (lstrip is_space s)) as (w & E).
    destruct (rstrip is_space (lstrip is_space s)) as [|x u]; [reflexivity|].
    rewrite E in L. exact L.
  - unfold rstrip. rewrite rev_involutive. apply lstrip_starts.
Qed.

Lemma edges_strip (s : text) :
  starts_in is_space s = false -> starts_in is_space (rev s) = false -> strip s = s.
Proof.
  intros A B. unfold strip, rstrip. rewrite (lstrip_fix _ _ A), (lstrip_fix _ _ B).
  apply rev_involutive.
Qed.

Lemma strip_idem (s : text) : strip (strip s) = strip s.
Proof. destruct (strip_edges s) as [A B]. apply edges_strip; assumption. Qed.

Lemma collapse_snoc (s : text) (c : ascii) :
  is_space c = false ->
  forall b, collapse_from b (s ++ [c]) = collapse_from b s ++ [c].
Proof.
  intros C. induction s as [|x s IH]; intros b; simpl.
  - rewrite C. reflexivity.
  - destruct (is_space x); [destruct b|]; simpl; rewrite IH; reflexivity.
Qed.

Lemma collapse_trimmed (s : text) : strip s = s -> strip (collapse_spaces s) = collapse_spaces s.
Proof.
  intros E. destruct (strip_edges s) as [A B]. rewrite E in A, B.
  unfold collapse_spaces. apply edges_strip.
  - destruct s as [|c s]; [reflexivity|]. simpl in *. rewrite A. exact A.
  - destruct s as [|c s] using rev_ind; [reflexivity|].
    rewrite rev_app_distr in B. simpl in B.
    rewrite (collapse_snoc _ _ B), rev_app_distr. exact B.
Qed.

Lemma collapse_idem (s : text) :
  collapse_from false (collapse_from false s) = collapse_from false s
  /\ collapse_from true (collapse_from true s) = collapse_from true s
  /\ collapse_from false (collapse_from true s) = collapse_from true s.
Proof.
  induction s as [|c s (A & B & C)]; [repeat split; reflexivity|]. simpl.
  destruct (is_space c) eqn:S; simpl; rewrite ?S.
  - change (is_space " "%char) with true. cbv iota. rewrite B. repeat split; assumption.
  - rewrite A. repeat split; reflexivity.
Qed.

Lemma collapse_nan (s : text) :
  collapse_spaces s = ("nan"%string : text) -> s = ("nan"%string : text).
Proof.
  unfold collapse_spaces. intros H.
  destruct s as [|c1 s]; [discriminate H|]. simpl in H.
  destruct (is_space c1); [discriminate H|]. injection H as -> H.
  destruct s as [|c2 s]; [discriminate H|]. simpl in H.
  destruct (is_space c2); [discriminate H|]. injection H as -> H.
  destruct s as [|c3 s]; [discriminate H|]. simpl in H.
  destruct (is_space c3); [discriminate H|]. injection H as -> H.
  destruct s as [|c4 s]; [reflexivity|]. simpl in H.
  destruct (is_space c4); discriminate H.
Qed.

Section TextNormal.

Variable to_numeric : text -> pyfloat.
Variable str_of_finite : Qc -> text.

Lemma clean_object_text (c : cell) (x : text) :
  clean_object_cell str_of_finite c = Str x -> strip x = x /\ x <> ("nan"%string : text).
Proof.
  unfold clean_object_cell. cbv zeta.
  destruct (text_eqb (strip (astype_str str_of_finite c)) "nan"%string) eqn:E;
    [discriminate|].
  intros H. injection H as <-. split; [apply strip_idem|].
  intros N. rewrite N in E. discriminate E.
Qed.

Lemma cleaned_text (s0 : series) (x : text) :
  In (Str x) (cleaned str_of_finite s0) -> strip x = x /\ x <> ("nan"%string : text).
Proof.
  unfold cleaned. destruct (is_object s0) eqn:O; intros I.
  - apply in_map_iff in I. destruct I as (c & E & _). exact (clean_object_text _ _ E).
  - exfalso. unfold is_object in O. apply orb_false_iff in O. destruct O as [_ O].
    assert (X : existsb (fun c => match c with Num _ => false | _ => true end) s0 = true)
      by (apply existsb_exists; exists (Str x); split; [exact I|reflexivity]).
    congruence.
Qed.

Lemma normal_column_text (n : text) (s0 : series) (x : text) :
  In (Str x) (normal_column to_numeric str_of_finite n s0) ->
  strip x = x /\ x <> ("nan"%string : text)
  /\ (is_squeezed n = true -> collapse_spaces x = x).
Proof.
  unfold normal_column. cbv zeta. destruct (is_squeezed n) eqn:Q.
  - intros I. apply in_map_iff in I. destruct I as (c & E & I).
    destruct c as [|y|y]; try discriminate E. simpl in E. injection E as <-.
    destruct (cleaned_text _ _ I) as [T N].
    split; [exact (collapse_trimmed _ T)|]. split.
    + intros K. apply collapse_nan in K. exact (N K).
    + intros _. apply (collapse_idem y).
  - destruct (mem_text n numeric_columns).
    + intros I. apply in_map_iff in I. destruct I as (c & E & _). discriminate E.
    + assert (G : In (Str x) (cleaned str_of_finite s0) ->
                  strip x = x /\ x <> ("nan"%string : text)
                  /\ (false = true -> collapse_spaces x = x)).
      { intros I. destruct (cleaned_text _ _ I) as [T N].
        split; [exact T|]. split; [exact N|discriminate]. }
      destruct (text_eqb n "status"%string); [|exact G].
      intros I. apply in_map_iff in I. destruct I as (c & E & I).
      unfold fill_status in E. destruct (isna c).
      * injection E as <-. split; [reflexivity|]. split; discriminate.
      * subst c. exact (G I).
Qed.

Lemma sheet_column_text (keep : list (text * text)) (pname : string) (raw : DataFrame)
      (n x : text) :
  In (Str x) (sheet_column to_numeric str_of_finite keep pname raw n) ->
  strip x = x /\ x <> ("nan"%string : text)
  /\ (is_squeezed n = true -> collapse_spaces x = x).
Proof.
  unfold sheet_column. destruct (has_column n (sheet_frame keep pname raw)).
  - apply normal_column_text.
  - intros I. apply in_map_iff in I. destruct I as (c & E & _). discriminate E.
Qed.

End TextNormal.

(** X19.  The text of the unified table is normalised: in every column
    that comes from the sheets, a text cell has no whitespace at its
    ends and is never the text nan, and in the floor and the
    configuration column every run of whitespace is one space. *)
Theorem load_all_units_text_normal (to_numeric : text -> pyfloat)
        (str_of_finite : Qc -> text) (bw_raw boho_raw U : DataFrame)
        (n : text) (row : list cell) (s : text) :
  load_all_units to_numeric str_of_finite bw_raw boho_raw = Ok U ->
  In n sheet_names -> In row (rows U) -> cell_at (columns U) n row = Str s ->
  strip s = s /\ s <> ("nan"%string : text)
  /\ (is_squeezed n = true -> collapse_spaces s = s).
Proof.
  intros H N R C.
  destruct (load_all_units_unified to_numeric str_of_finite _ _ _ H) as (_ & _ & _ & K & _).
  assert (I : In (Str s) (column_of n U)).
  { rewrite <- C. unfold column_of. apply in_map. exact R. }
  rewrite (K n N) in I. apply in_app_or in I.
  destruct I as [I|I]; exact (sheet_column_text to_numeric str_of_finite _ _ _ _ _ I).
Qed.

Lemma load_all_units_text_normal_witness :
  exists U row,
    load_all_units float_or_nan no_digits bw_full_sheet boho_sheet = Ok U
    /\ In row (rows U)
    /\ cell_at (columns U) "floor"%string row = Str ("Ground Floor"%string : text)
    /\ strip ("Ground Floor"%string : text) = ("Ground Floor"%string : text)
    /\ collapse_spaces ("Ground Floor"%string : text) = ("Ground Floor"%string : text).
Proof.
  let r := eval vm_compute in (load_all_units float_or_nan no_digits bw_full_sheet boho_sheet) in
  match r with Ok ?x => pose (U := x) end.
  assert (E : load_all_units float_or_nan no_digits bw_full_sheet boho_sheet = Ok U)
    by (vm_compute; reflexivity).
  let r := eval vm_compute in (hd [] (rows U)) in pose (row := r).
  assert (R : In row (rows U)) by (left; reflexivity).
  assert (C : cell_at (columns U) "floor"%string row = Str ("Ground Floor"%string : text))
    by (vm_compute; reflexivity).
  assert (N : In ("floor"%string : text) sheet_names) by (apply mem_text_In; reflexivity).
  exists U, row. split; [exact E|]. split; [exact R|]. split; [exact C|].
  destruct (load_all_units_text_normal float_or_nan no_digits _ _ U _ row _ E N R C)
    as (A & _ & B).
  split; [exact A|]. apply B. reflexivity.
Defined.


(** ** The unit preview *)

Lemma unique_from_In (s seen : series) (c : cell) : In c (unique_from seen s) -> In c s.
Proof.
  revert seen. induction s as [|x s IH]; intros seen; simpl; [tauto|].
  destruct (existsb (cell_eqb x) seen).
  - intros I. right. exact (IH _ I).
  - intros [E|I]; [left; exact E|right; exact (IH _ I)].
Qed.

Lemma filter_find (A : Type) (g : A -> bool) (xs : list A) (r : A) (rest : list A) :
  filter g xs = r :: rest -> find g xs = Some r.
Proof.
  induction xs as [|x xs IH]; simpl; [discriminate|].
  destruct (g x); [|exact IH]. intros E. injection E as -> _. reflexivity.
Qed.

Lemma all_present (cols names : list text) :
  (forall n, In n names -> In n cols) ->
  filter (fun n => negb (mem_text n cols)) names = [].
Proof.
  induction names as [|n names IH]; intros H; [reflexivity|]. simpl.
  rewrite (proj2 (mem_text_In n cols) (H n (or_introl eq_refl))). simpl.
  apply IH. intros m I. apply H. right. exact I.
Qed.

Lemma some_missing (cols names : list text) (n : text) :
  In n names -> ~ In n cols -> filter (fun n => negb (mem_text n cols)) names <> [].
Proof.
  intros I NI E.
  assert (F : In n (filter (fun n => negb (mem_text n cols)) names)).
  { apply filter_In. split; [exact I|]. apply negb_true_iff.
    destruct (mem_text n cols) eqn:M; [|reflexivity].
    apply mem_text_In in M. contradiction. }
  rewrite E in F. exact F.
Qed.

Lemma auto_select_option (prompt : text) (cs : series) (sel sel' : cell) :
  In sel (Str ("--"%string : text) :: cs) -> auto_select prompt cs sel = Ok sel' ->
  In sel' (Str ("--"%string : text) :: cs).
Proof.
  intros I. unfold auto_select. destruct (is_empty prompt).
  - intros E. injection E as <-. exact I.
  - destruct (parse_query prompt) as [f|e]; simpl; [|discriminate].
    destruct (unit_no f); [|intros E; injection E as <-; exact I].
    destruct (List.length cs =? 1) eqn:L; [|intros E; injection E as <-; exact I].
    intros E. injection E as <-. apply Nat.eqb_eq in L.
    destruct cs as [|c cs]; [discriminate L|]. right. left. reflexivity.
Qed.

Section PreviewFacts.

Variable to_numeric : text -> pyfloat.
Variable str_of_finite : Qc -> text.

Lemma loaded_columns (bw_raw boho_raw U : DataFrame) :
  load_all_units to_numeric str_of_finite bw_raw boho_raw = Ok U ->
  In ("project"%string : text) (columns U)
  /\ In ("_unit_upper"%string : text) (columns U)
  /\ forall n, In n sheet_names -> mem_text n (columns U) = in_unified bw_raw boho_raw n.
Proof.
  intros H.
  destruct (load_all_units_unified to_numeric str_of_finite _ _ _ H) as (_ & C & _).
  split; [|split].
  - rewrite C. apply in_or_app. left. apply filter_In.
    split; [apply mem_text_In; reflexivity|reflexivity].
  - rewrite C. apply in_or_app. right. left. reflexivity.
  - intros n I. rewrite C. rewrite mem_text_app, (mem_filter _ _ _ I).
    destruct names_in_order as (_ & _ & F). rewrite forallb_forall in F.
    specialize (F n I). apply andb_true_iff in F. destruct F as [F1 F2].
    apply negb_true_iff in F1, F2.
    assert (Z : mem_text n [("_unit_upper"%string : text); ("_building_upper"%string : text)]
                = false).
    { unfold mem_text. cbn [existsb]. rewrite F1, F2. reflexivity. }
    rewrite Z. apply orb_false_r.
Qed.

(** The preview of a unit of the list: the first record of that unit is
    found, and its items are read. *)
Lemma preview_reads (bw_raw boho_raw U T : DataFrame) (prompt : text) (cs : series)
      (sel sel' : cell) :
  load_all_units to_numeric str_of_finite bw_raw boho_raw = Ok U ->
  selection_of U T ->
  unit_choices T = Ok cs -> In sel (Str ("--"%string : text) :: cs) ->
  auto_select prompt cs sel = Ok sel' ->
  truthy sel' = Ok true -> sel' <> Str ("--"%string : text) ->
  exists row,
    find (same_unit str_of_finite sel' (columns T)) (rows T) = Some row
    /\ unit_preview str_of_finite T prompt sel
       = (items <- record_items (columns T) displayed_columns row ;;
          Ok (Some {| heading_unit := cell_at (columns T) "unit_no"%string row;
                      heading_project := cell_at (columns T) "project"%string row;
                      shown := items;
                      media := None |}))%result.
Proof.
  intros H [SC SR] UC I AS TR NP.
  pose proof (auto_select_option _ _ _ _ I AS) as I'.
  destruct I' as [E|I']; [symmetry in E; contradiction|].
  destruct (loaded_columns _ _ _ H) as (CP & CU & _).
  destruct (load_all_units_unified to_numeric str_of_finite _ _ _ H)
    as (_ & _ & _ & _ & SU & _).
  unfold column_of in SU. rewrite map_map in SU.
  rewrite <- SC in CP, CU, SU.
  assert (UN : In ("unit_no"%string : text) (columns T)).
  { destruct (text_in_dec ("unit_no"%string : text) (columns T)) as [Y|N]; [exact Y|].
    unfold unit_choices in UC. rewrite (column_missing _ _ N) in UC. discriminate UC. }
  assert (CS : cs = unique (dropna (column_of "unit_no"%string T))).
  { unfold unit_choices in UC. rewrite (column_in _ _ UN) in UC. simpl in UC.
    injection UC as <-. reflexivity. }
  assert (ROW : exists r, In r (rows T) /\ cell_at (columns T) "unit_no"%string r = sel').
  { rewrite CS in I'. apply unique_from_In in I'. apply filter_In in I'.
    destruct I' as [I' _]. unfold column_of in I'. apply in_map_iff in I'.
    destruct I' as (r & E & R). exists r. split; assumption. }
  assert (MASK : select (series_eq_text (column_of "_unit_upper"%string T)
                                        (upper (astype_str str_of_finite sel')))
                        (rows T)
                 = filter (same_unit str_of_finite sel' (columns T)) (rows T)).
  { unfold series_eq_text, column_of. rewrite map_map.
    apply select_map_filter_id. intros r R.
    rewrite (ext_in_map SU r (SR r R)). reflexivity. }
  destruct ROW as (r & R & E).
  destruct (filter (same_unit str_of_finite sel' (columns T)) (rows T)) as [|row rest] eqn:F.
  { exfalso. assert (X : In r (filter (same_unit str_of_finite sel' (columns T)) (rows T))).
    { apply filter_In. split; [exact R|]. unfold same_unit. rewrite E.
      apply text_eqb_refl. }
    rewrite F in X. exact X. }
  exists row. split; [exact (filter_find _ _ _ _ _ F)|].
  unfold unit_preview. rewrite UC. cbn [rbind]. rewrite AS. cbn [rbind].
  unfold preview. rewrite TR. cbn [rbind].
  assert (D : negb (eq_text_cell "--"%string sel') = true).
  { destruct sel' as [|s|v]; try reflexivity. unfold eq_text_cell.
    destruct (text_eqb s "--"%string) eqn:Q; [|reflexivity].
    apply text_eqb_eq in Q. subst s. contradiction. }
  rewrite D. cbn [andb]. rewrite (column_in _ _ CU). cbn [rbind]. cbv zeta.
  unfold df_empty, mask_rows. cbn [rows columns]. rewrite MASK.
  assert (NE : is_empty (columns T) = false)
    by (destruct (columns T); [contradiction|reflexivity]).
  rewrite NE. cbn [is_empty orb hd].
  unfold record_item.
  rewrite (proj2 (mem_text_In _ _) UN), (proj2 (mem_text_In _ _) CP). cbn [rbind].
  destruct (record_items (columns T) displayed_columns row); reflexivity.
Qed.

End PreviewFacts.

(** X20.  Every unit of the list can be previewed.  On a table of
    records of the unified table that has the eight displayed columns,
    when the selection (of the select box, or the automatic one) is not
    the placeholder and not an empty text or a zero, the page shows the
    first record whose unit number is that of the selection up to case,
    and no media. *)
Theorem unit_preview_found (to_numeric : text -> pyfloat) (str_of_finite : Qc -> text)
        (bw_raw boho_raw U T : DataFrame) (prompt : text) (cs : series)
        (sel sel' : cell) :
  load_all_units to_numeric str_of_finite bw_raw boho_raw = Ok U ->
  selection_of U T ->
  (forall n, In n displayed_columns -> In n (columns U)) ->
  unit_choices T = Ok cs -> In sel (Str ("--"%string : text) :: cs) ->
  auto_select prompt cs sel = Ok sel' ->
  truthy sel' = Ok true -> sel' <> Str ("--"%string : text) ->
  exists row,
    find (same_unit str_of_finite sel' (columns T)) (rows T) = Some row
    /\ unit_preview str_of_finite T prompt sel = Ok (Some (preview_of (columns T) row)).
Proof.
  intros H S D UC I AS TR NP.
  destruct (preview_reads to_numeric str_of_finite _ _ _ _ _ _ _ _ H S UC I AS TR NP)
    as (row & F & E).
  exists row. split; [exact F|]. rewrite E. unfold record_items.
  destruct S as [SC _]. rewrite all_present by (rewrite SC; exact D). reflexivity.
Qed.

Lemma unit_preview_found_witness :
  exists U row,
    load_all_units float_or_nan no_digits bw_full_sheet boho_sheet = Ok U
    /\ find (same_unit no_digits (Str ("A2-101"%string : text)) (columns U)) (rows U)
       = Some row
    /\ unit_preview no_digits U [] (Str ("A2-101"%string : text))
       = Ok (Some (preview_of (columns U) row)).
Proof.
  let r := eval vm_compute in (load_all_units float_or_nan no_digits bw_full_sheet boho_sheet) in
  match r with Ok ?x => pose (U := x) end.
  assert (E : load_all_units float_or_nan no_digits bw_full_sheet boho_sheet = Ok U)
    by (vm_compute; reflexivity).
  let r := eval vm_compute in (unit_choices U) in
  match r with Ok ?x => pose (cs := x) end.
  assert (UC : unit_choices U = Ok cs) by (vm_compute; reflexivity).
  assert (S : selection_of U U) by (split; [reflexivity|apply incl_refl]).
  assert (D : forall n, In n displayed_columns -> In n (columns U)).
  { intros n I. apply mem_text_In. simpl in I.
    destruct I as [<-|[<-|[<-|[<-|[<-|[<-|[<-|[<-|[]]]]]]]]]; vm_compute; reflexivity. }
  assert (I : In (Str ("A2-101"%string : text)) (Str ("--"%string : text) :: cs))
    by (right; right; left; reflexivity).
  assert (AS : auto_select [] cs (Str ("A2-101"%string : text))
               = Ok (Str ("A2-101"%string : text))) by reflexivity.
  assert (TR : truthy (Str ("A2-101"%string : text)) = Ok true) by reflexivity.
  assert (NP : Str ("A2-101"%string : text) <> Str ("--"%string : text)) by discriminate.
  destruct (unit_preview_found float_or_nan no_digits _ _ U U [] cs _ _ E S D UC I AS TR NP)
    as (row & F & P).
  exists U, row. split; [exact E|]. split; [exact F|exact P].
Defined.

(** X21.  The preview needs all eight displayed columns.  When neither
    sheet has a source column for one of them, every preview of a unit
    raises KeyError instead of showing the unit. *)
Theorem unit_preview_missing_column (to_numeric : text -> pyfloat)
        (str_of_finite : Qc -> text) (bw_raw boho_raw U T : DataFrame) (prompt : text)
        (cs : series) (sel sel' : cell) (n : text) :
  load_all_units to_numeric str_of_finite bw_raw boho_raw = Ok U ->
  selection_of U T ->
  In n displayed_columns -> in_unified bw_raw boho_raw n = false ->
  unit_choices T = Ok cs -> In sel (Str ("--"%string : text) :: cs) ->
  auto_select prompt cs sel = Ok sel' ->
  truthy sel' = Ok true -> sel' <> Str ("--"%string : text) ->
  exists k, unit_preview str_of_finite T prompt sel = Raise (KeyError k).
Proof.
  intros H S D NU UC I AS TR NP.
  destruct (preview_reads to_numeric str_of_finite _ _ _ _ _ _ _ _ H S UC I AS TR NP)
    as (row & _ & E).
  rewrite E. unfold record_items.
  destruct (loaded_columns to_numeric str_of_finite _ _ _ H) as (_ & _ & M).
  assert (SN : In n sheet_names).
  { apply mem_text_In. simpl in D.
    destruct D as [<-|[<-|[<-|[<-|[<-|[<-|[<-|[<-|[]]]]]]]]]; reflexivity. }
  assert (NI : ~ In n (columns T)).
  { destruct S as [SC _]. rewrite SC. intros Y. apply mem_text_In in Y.
    rewrite (M n SN) in Y. congruence. }
  pose proof (some_missing _ _ _ D NI) as X.
  destruct (filter (fun n0 => negb (mem_text n0 (columns T))) displayed_columns)
    as [|m ms]; [contradiction|].
  eexists. reflexivity.
Qed.

Lemma unit_preview_missing_column_witness :
  exists U k,
    load_all_units float_or_nan no_digits bw_sheet boho_sheet = Ok U
    /\ unit_preview no_digits U [] (Str ("A2-101"%string : text)) = Raise (KeyError k).
Proof.
  let r := eval vm_compute in (load_all_units float_or_nan no_digits bw_sheet boho_sheet) in
  match r with Ok ?x => pose (U := x) end.
  assert (E : load_all_units float_or_nan no_digits bw_sheet boho_sheet = Ok U)
    by (vm_compute; reflexivity).
  let r := eval vm_compute in (unit_choices U) in
  match r with Ok ?x => pose (cs := x) end.
  assert (UC : unit_choices U = Ok cs) by (vm_compute; reflexivity).
  assert (S : selection_of U U) by (split; [reflexivity|apply incl_refl]).
  assert (D : In ("floor"%string : text) displayed_columns)
    by (apply mem_text_In; reflexivity).
  assert (NU : in_unified bw_sheet boho_sheet "floor"%string = false)
    by (vm_compute; reflexivity).
  assert (I : In (Str ("A2-101"%string : text)) (Str ("--"%string : text) :: cs))
    by (right; right; left; reflexivity).
  assert (AS : auto_select [] cs (Str ("A2-101"%string : text))
               = Ok (Str ("A2-101"%string : text))) by reflexivity.
  assert (TR : truthy (Str ("A2-101"%string : text)) = Ok true) by reflexivity.
  assert (NP : Str ("A2-101"%string : text) <> Str ("--"%string : text)) by discriminate.
  destruct (unit_preview_missing_column float_or_nan no_digits _ _ U U [] cs _ _ _
              E S D NU UC I AS TR NP) as (k & P).
  exists U, k. split; [exact E|exact P].
Defined.
